(** * client-chroma: goal orchestration, retry and signer routing

    A shallow embedding of the orchestration core of the Chroma client
    (TypeScript): the bounded retrier [retryWithBackoff], the memoised
    classifier [isCryptoGoal], the two signature handlers and the router
    that picks one of them, the single-chain, multi-chain and CDP
    objective handlers, the older in-service confirm-intent step, the
    scheduler tick [processGoals], and the example goals registered at
    start.

    Conventions.
    - An [async] function is a state transformer over [World] that ends in
      a returned value, a thrown exception, or [Diverge] (the model ran out
      of fuel; no [try]/[catch] of the program sees it).
    - The language model, the counterparty and the chain RPC are oracles:
      the n-th call of a kind gets the n-th answer of the environment [Env].
      Prompts are built from strings only and decide nothing in the code, so
      they are not part of the model; quantifying over every oracle covers
      every answer a prompt can get.
    - The [goal] argument of the handlers is one mutable object shared by
      all of them during a run: it lives in the world as [goal]. *)

From Stdlib Require Import ZArith String Ascii List Lia Bool.
From stdpp Require Import gmap strings list fin_maps.
From Equations Require Import Equations.

Local Open Scope string_scope.

(* ===================================================================== *)
(** * Part I: the program                                                  *)
(* ===================================================================== *)

(** ** JavaScript preliminaries *)

(** What a call ends in. *)
Inductive exn :=
| Error (msg : string)
| TypeError (msg : string).

Inductive Outcome (A : Type) :=
| Ret (a : A)
| Throw (e : exn)
| Diverge.
Arguments Ret {A} a.
Arguments Throw {A} e.
Arguments Diverge {A}.

(** Truthiness: [if (x)], [!x], [x && y]. *)
Class Truthy (A : Type) := truthy : A -> bool.

#[export] Instance truthy_bool : Truthy bool := fun b => b.
(** A string is falsy exactly when it is empty. *)
#[export] Instance truthy_string : Truthy string :=
  fun s => match s with EmptyString => false | _ => true end.
(** [undefined] is falsy; a defined value has its own truthiness. *)
#[export] Instance truthy_option {A} `{Truthy A} : Truthy (option A) :=
  fun o => match o with None => false | Some a => truthy a end.
(** An array is an object: truthy even when empty. *)
#[export] Instance truthy_list {A} : Truthy (list A) := fun _ => true.

(** [s.includes(sub)] *)
Definition includes (sub s : string) : bool :=
  match String.index 0 sub s with Some _ => true | None => false end.

(** [Array.prototype.find] with a predicate that may throw: the elements
    are tried in order, and an exception of the predicate leaves [find]. *)
Fixpoint find_throwing {A} (pred : A -> Outcome bool) (l : list A)
  : Outcome (option A) :=
  match l with
  | [] => Ret None
  | x :: rest =>
    match pred x with
    | Ret true => Ret (Some x)
    | Ret false => find_throwing pred rest
    | Throw e => Throw e
    | Diverge => Diverge
    end
  end.

(** ** Data model (types.ts, goal/types.ts, \@elizaos/core) *)

Inductive GoalStatus := IN_PROGRESS | DONE | FAILED.

Inductive ObjectiveStatus := PENDING | COMPLETED | ABORTED.

(** [ChromaObjective]: the core objective plus the optional [status]. *)
Record Objective := mkObjective {
  obj_id : string;
  obj_description : string;
  obj_completed : bool;
  obj_status : option ObjectiveStatus
}.

Record Goal := mkGoal {
  goal_id : option string;
  goal_name : string;
  goal_status : GoalStatus;
  goal_objectives : list Objective
}.

(** The intent as the validator reads it ([response: any]): the fields it
    looks at, each possibly missing. *)
Record Intent := mkIntent {
  intent_type : option string;
  intent_amount : option string;
  intent_fromToken : option string;
  intent_fromAddress : option string;
  intent_fromChain : option string;
  intent_recipientChain : option string
}.

Record BaseTransaction := mkTx {
  tx_data : option string;
  tx_chainId : option Z;
  tx_to : option string;
  tx_value : option string
}.

(** [transaction?: BaseTransaction & { serializedTransaction?: string }] *)
Record SerializedTransaction := mkSerTx {
  stx_base : BaseTransaction;
  serializedTransaction : option string
}.

Record TransactionProposal := mkProposal {
  p_chainId : option Z;
  p_fromChain : option string;
  transactions : option (list BaseTransaction);
  transaction : option SerializedTransaction
}.

Record ChromaResponse := mkResponse {
  r_text : string;
  r_intent : option Intent;
  r_proposals : option (list TransactionProposal)
}.

#[export] Instance truthy_intent : Truthy Intent := fun _ => true.

(** [GoalState]: the three per-goal caches. The classification cache is
    typed [Map<string, boolean>] but also holds [undefined] while the
    oracle call is in flight, hence [option bool] values. *)
Record GoalState := mkGoalState {
  processingGoals : gset string;
  goalResponses : gmap string ChromaResponse;
  cryptoGoalCache : gmap string (option bool)
}.

Definition emptyGoalState : GoalState := mkGoalState ∅ ∅ ∅.

(** ** Signature handlers and the router (signatures/evm.ts, solana.ts) *)

Inductive SignatureHandler := EVMSignatureHandler | SolanaSignatureHandler.

(** The [serializedTransaction] a proposal carries, if any:
    [proposal.transaction?.serializedTransaction]. *)
Definition serialized_of (proposal : TransactionProposal) : option string :=
  match transaction proposal with
  | Some tx => serializedTransaction tx
  | None => None
  end.

(** evm.ts: [return !proposal.transaction?.serializedTransaction;] *)
Definition evm_supportsChain (proposal : TransactionProposal) : Outcome bool :=
  Ret (negb (truthy (serialized_of proposal))).

(** solana.ts: [return 'serializedTransaction' in proposal.transaction;]
    The [in] operator throws a TypeError on [undefined]. Proposals are
    parsed from JSON, so a field that is present holds a value. *)
Definition solana_supportsChain (proposal : TransactionProposal) : Outcome bool :=
  match transaction proposal with
  | None => Throw (TypeError "Cannot use 'in' operator to search for 'serializedTransaction' in undefined")
  | Some tx => Ret (match serializedTransaction tx with Some _ => true | None => false end)
  end.

Definition supportsChain (h : SignatureHandler) (proposal : TransactionProposal)
  : Outcome bool :=
  match h with
  | EVMSignatureHandler => evm_supportsChain proposal
  | SolanaSignatureHandler => solana_supportsChain proposal
  end.

(** [this.signatureHandlers = [evmHandler, solanaHandler];] *)
Definition signatureHandlers : list SignatureHandler :=
  [EVMSignatureHandler; SolanaSignatureHandler].

(** [getSignatureHandler] of the single-chain and multi-chain handlers. *)
Definition getSignatureHandler_in (handlers : list SignatureHandler)
  (proposal : TransactionProposal) : Outcome SignatureHandler :=
  match find_throwing (fun h => supportsChain h proposal) handlers with
  | Ret (Some h) => Ret h
  | Ret None => Throw (Error "No signature handler found for chain")
  | Throw e => Throw e
  | Diverge => Diverge
  end.

Definition getSignatureHandler := getSignatureHandler_in signatureHandlers.

(** ** The environment: settings and oracles *)

(** An external call takes [latency] milliseconds and then returns,
    throws, or never settles ([Diverge]). *)
Record Reply (A : Type) := mkReply {
  latency : N;
  answer : Outcome A
}.
Arguments mkReply {A} latency%_N answer.
Arguments latency {A} r.
Arguments answer {A} r.

(** [generateObject] with the schema [{continue, reason}]. *)
Record Verdict := mkVerdict {
  v_continue : bool;
  v_reason : string
}.

(** [generateObject] with the schema [{tokenAmount, aTokenAmount}]. *)
Record RawAmounts := mkRawAmounts {
  raw_tokenAmount : string;
  raw_aTokenAmount : string
}.

(** The chain calls made for one EVM transaction. *)
Record EvmRpc := mkEvmRpc {
  rpc_estimateGas : Reply Z;
  rpc_estimateFeesPerGas : Reply unit;
  rpc_sendTransaction : Reply string;
  rpc_waitForTransactionReceipt : Reply unit
}.

(** The chain calls made for one Solana transaction;
    [sol_deserialize] stands for [VersionedTransaction.deserialize] and
    [sign], [sol_simulate] answers whether the simulation reported an
    error. *)
Record SolanaRpc := mkSolanaRpc {
  sol_deserialize : Outcome unit;
  sol_simulate : Reply bool;
  sol_getLatestBlockhash : Reply unit;
  sol_sendRawTransaction : Reply string;
  sol_confirmTransaction : Reply unit
}.

Record Env := mkEnv {
  env_generateText : nat -> Reply string;
  env_generateVerdict : nat -> Reply Verdict;
  env_generateAmounts : nat -> Reply RawAmounts;
  env_generateTrueOrFalse : nat -> Reply bool;
  env_sendMessage : nat -> Reply (list ChromaResponse);
  env_evmRpc : nat -> EvmRpc;
  env_solanaRpc : nat -> SolanaRpc;
  (** settings and what [initialize] left in the two signature handlers *)
  CHROMA_EVM_CHAINS : option string;
  evm_account : option string;
  evm_chainClients : list Z;
  sol_connection : bool;
  sol_keypair : option string;
  CHROMA_EXAMPLE_MODE : bool;
  (** the host's [parseFloat(s) > 0] *)
  parseFloat_positive : string -> bool
}.

(** ** The world: everything the program can change *)

Record Calls := mkCalls {
  n_generateText : nat;
  n_generateVerdict : nat;
  n_generateAmounts : nat;
  n_generateTrueOrFalse : nat;
  n_sendMessage : nat;
  n_evmRpc : nat;
  n_solanaRpc : nat
}.

(** A transaction handed to the network. *)
Inductive Submission :=
| EvmSubmission (tx : BaseTransaction) (chain : Z) (gasEstimate : Z)
| SolanaSubmission (serialized : string).

(** The goal handlers ChromaService registers, and the state each one
    holds in [this.state]. *)
Inductive HandlerName := SingleChain | CDP | MultiChain.

Record HandlerStates := mkHandlerStates {
  st_singleChain : GoalState;
  st_cdp : GoalState;
  st_multiChain : GoalState
}.

Definition get_hstate (h : HandlerName) (hs : HandlerStates) : GoalState :=
  match h with
  | SingleChain => st_singleChain hs
  | CDP => st_cdp hs
  | MultiChain => st_multiChain hs
  end.

Definition set_hstate (h : HandlerName) (f : GoalState -> GoalState)
  (hs : HandlerStates) : HandlerStates :=
  match h with
  | SingleChain => mkHandlerStates (f (st_singleChain hs)) (st_cdp hs) (st_multiChain hs)
  | CDP => mkHandlerStates (st_singleChain hs) (f (st_cdp hs)) (st_multiChain hs)
  | MultiChain => mkHandlerStates (st_singleChain hs) (st_cdp hs) (f (st_multiChain hs))
  end.

(** The variables of [handleBridgeConfirmation] that its retried closure
    captures and assigns. *)
Record BridgeLocals := mkBridgeLocals {
  checkInterval : Z;
  hasBalance : bool
}.

Record World := mkWorld {
  now : Z;                        (* Date.now(), in ms *)
  timers : list Z;                (* the delays given to setTimeout, oldest first *)
  calls : Calls;                  (* how many oracle calls of each kind were made *)
  db : gmap string Goal;          (* the goal store of this agent and room *)
  submitted : list Submission;    (* transactions handed to a network, oldest first *)
  goal : Goal;                    (* the goal object being processed *)
  service : GoalState;            (* the caches of ChromaService *)
  hstates : HandlerStates;        (* the caches of each registered goal handler *)
  bridge : BridgeLocals           (* locals of the running bridge-confirmation step *)
}.

Definition set_now (f : Z -> Z) (w : World) : World :=
  mkWorld (f (now w)) (timers w) (calls w) (db w) (submitted w) (goal w) (service w)
    (hstates w) (bridge w).
Definition set_timers (f : list Z -> list Z) (w : World) : World :=
  mkWorld (now w) (f (timers w)) (calls w) (db w) (submitted w) (goal w) (service w)
    (hstates w) (bridge w).
Definition set_calls (f : Calls -> Calls) (w : World) : World :=
  mkWorld (now w) (timers w) (f (calls w)) (db w) (submitted w) (goal w) (service w)
    (hstates w) (bridge w).
Definition set_db (f : gmap string Goal -> gmap string Goal) (w : World) : World :=
  mkWorld (now w) (timers w) (calls w) (f (db w)) (submitted w) (goal w) (service w)
    (hstates w) (bridge w).
Definition set_submitted (f : list Submission -> list Submission) (w : World) : World :=
  mkWorld (now w) (timers w) (calls w) (db w) (f (submitted w)) (goal w) (service w)
    (hstates w) (bridge w).
Definition set_goal (f : Goal -> Goal) (w : World) : World :=
  mkWorld (now w) (timers w) (calls w) (db w) (submitted w) (f (goal w)) (service w)
    (hstates w) (bridge w).
Definition set_service (f : GoalState -> GoalState) (w : World) : World :=
  mkWorld (now w) (timers w) (calls w) (db w) (submitted w) (goal w) (f (service w))
    (hstates w) (bridge w).
Definition set_hstates (f : HandlerStates -> HandlerStates) (w : World) : World :=
  mkWorld (now w) (timers w) (calls w) (db w) (submitted w) (goal w) (service w)
    (f (hstates w)) (bridge w).
Definition set_bridge (f : BridgeLocals -> BridgeLocals) (w : World) : World :=
  mkWorld (now w) (timers w) (calls w) (db w) (submitted w) (goal w) (service w)
    (hstates w) (f (bridge w)).

(** ** Asynchronous code as a state and exception monad *)

Definition M (A : Type) : Type := World -> Outcome A * World.

Definition ret {A} (a : A) : M A := fun w => (Ret a, w).

Definition throw {A} (e : exn) : M A := fun w => (Throw e, w).

Definition diverge {A} : M A := fun w => (Diverge, w).

Definition bind {A B} (m : M A) (k : A -> M B) : M B :=
  fun w =>
    match m w with
    | (Ret a, w') => k a w'
    | (Throw e, w') => (Throw e, w')
    | (Diverge, w') => (Diverge, w')
    end.

(** [try { body } catch (e) { handler e }] *)
Definition try_catch {A} (body : M A) (handler : exn -> M A) : M A :=
  fun w =>
    match body w with
    | (Throw e, w') => handler e w'
    | r => r
    end.

Definition gets {A} (f : World -> A) : M A := fun w => (Ret (f w), w).

Definition modify (f : World -> World) : M unit := fun w => (Ret tt, f w).

Definition lift {A} (o : Outcome A) : M A := fun w => (o, w).

Declare Scope js_scope.
Delimit Scope js_scope with js.
Notation "x <- c1 ;; c2" := (bind c1 (fun x => c2))
  (at level 100, c1 at next level, right associativity) : js_scope.
Notation "c1 ;; c2" := (bind c1 (fun _ => c2))
  (at level 100, right associativity) : js_scope.
Local Open Scope js_scope.

(** [await new Promise(resolve => setTimeout(resolve, ms))]: the timer is
    recorded and fires on time. *)
Definition after_timer (ms : Z) (w : World) : World :=
  set_timers (fun l => (l ++ [ms])%list) (set_now (fun t => (t + ms)%Z) w).

Definition sleep (ms : Z) : M unit := modify (after_timer ms).

(** Awaiting an external call. *)
Definition await {A} (r : Reply A) : M A :=
  modify (set_now (fun t => (t + Z.of_N (latency r))%Z)) ;; lift (answer r).

Definition Date_now : M Z := gets now.

(** ** Oracle calls *)

Definition bump_generateText (c : Calls) : Calls :=
  mkCalls (S (n_generateText c)) (n_generateVerdict c) (n_generateAmounts c)
    (n_generateTrueOrFalse c) (n_sendMessage c) (n_evmRpc c) (n_solanaRpc c).
Definition bump_generateVerdict (c : Calls) : Calls :=
  mkCalls (n_generateText c) (S (n_generateVerdict c)) (n_generateAmounts c)
    (n_generateTrueOrFalse c) (n_sendMessage c) (n_evmRpc c) (n_solanaRpc c).
Definition bump_generateAmounts (c : Calls) : Calls :=
  mkCalls (n_generateText c) (n_generateVerdict c) (S (n_generateAmounts c))
    (n_generateTrueOrFalse c) (n_sendMessage c) (n_evmRpc c) (n_solanaRpc c).
Definition bump_generateTrueOrFalse (c : Calls) : Calls :=
  mkCalls (n_generateText c) (n_generateVerdict c) (n_generateAmounts c)
    (S (n_generateTrueOrFalse c)) (n_sendMessage c) (n_evmRpc c) (n_solanaRpc c).
Definition bump_sendMessage (c : Calls) : Calls :=
  mkCalls (n_generateText c) (n_generateVerdict c) (n_generateAmounts c)
    (n_generateTrueOrFalse c) (S (n_sendMessage c)) (n_evmRpc c) (n_solanaRpc c).
Definition bump_evmRpc (c : Calls) : Calls :=
  mkCalls (n_generateText c) (n_generateVerdict c) (n_generateAmounts c)
    (n_generateTrueOrFalse c) (n_sendMessage c) (S (n_evmRpc c)) (n_solanaRpc c).
Definition bump_solanaRpc (c : Calls) : Calls :=
  mkCalls (n_generateText c) (n_generateVerdict c) (n_generateAmounts c)
    (n_generateTrueOrFalse c) (n_sendMessage c) (n_evmRpc c) (S (n_solanaRpc c)).

(** The next answer of an oracle: count the call, then wait for it. *)
Definition ask {A} (count : Calls -> nat) (bump : Calls -> Calls)
  (oracle : nat -> Reply A) : M A :=
  n <- gets (fun w => count (calls w)) ;;
  modify (set_calls bump) ;;
  await (oracle n).

Section Program.

Variable E : Env.

Definition generateText : M string :=
  ask n_generateText bump_generateText (env_generateText E).

Definition generateVerdict : M Verdict :=
  ask n_generateVerdict bump_generateVerdict (env_generateVerdict E).

Definition generateAmounts : M RawAmounts :=
  ask n_generateAmounts bump_generateAmounts (env_generateAmounts E).

Definition generateTrueOrFalse : M bool :=
  ask n_generateTrueOrFalse bump_generateTrueOrFalse (env_generateTrueOrFalse E).

(** [ChromaApiClient.sendMessage]; the handlers are initialised, so the
    client exists and has selected an agent. *)
Definition sendMessage (text : string) : M (list ChromaResponse) :=
  ask n_sendMessage bump_sendMessage (env_sendMessage E).

(** ** The goal store (database adapter of \@elizaos/core)

    [updateGoal] rewrites the stored record of the goal's id with the goal
    object; [updateGoalStatus] rewrites its status; [getGoals] with
    [onlyInProgress] lists the goals whose stored status is IN_PROGRESS.

    The adapter is taken to answer every call. The code awaits its writes
    and its read outside every [try] block and retrier, so a call the
    adapter rejects would end the caller with the adapter's exception;
    such a rejection is outside the model, and what is stated of a step's
    outcome is stated for a store that accepts the step's calls. *)

Definition with_status (s : GoalStatus) (g : Goal) : Goal :=
  mkGoal (goal_id g) (goal_name g) s (goal_objectives g).

Definition with_objectives (f : list Objective -> list Objective) (g : Goal) : Goal :=
  mkGoal (goal_id g) (goal_name g) (goal_status g) (f (goal_objectives g)).

Definition updateGoal : M unit :=
  g <- gets goal ;;
  match goal_id g with
  | Some id => modify (set_db (alter (fun _ => g) id))
  | None => ret tt
  end.

Definition updateGoalStatus (goalId : string) (status : GoalStatus) : M unit :=
  modify (set_db (alter (with_status status) goalId)).

Definition in_progress (g : Goal) : bool :=
  match goal_status g with IN_PROGRESS => true | _ => false end.

Definition getGoals : M (list Goal) :=
  gets (fun w => List.filter in_progress (map snd (map_to_list (db w)))).

(** ** goal/utils.ts *)

Record RetryOptions := mkRetryOptions {
  maxRetries : nat;
  currentAttempt : nat
}.

Definition MAX_RETRIES : nat := 3.
Definition RETRY_DELAY_MS : Z := 1000.
Definition INTENT_CONFIRMATION_TIMEOUT : Z := 30000.
Definition GOAL_CHECK_INTERVAL : Z := 10000.

(** [CONSTANTS.RETRY_DELAY_MS * Math.pow(2, options.currentAttempt)].
    The delay is handed to [setTimeout], which takes at most 2^31 - 1 ms
    and replaces a longer delay by 1 ms. The waits of attempts 0 to 21 are
    below that limit, so the model is exact for budgets of at most 22
    attempts; the repository's budget is [MAX_RETRIES], which is 3. *)
Definition backoff_delay (attempt : nat) : Z :=
  (RETRY_DELAY_MS * 2 ^ Z.of_nat attempt)%Z.

(** [retryWithBackoff]; [errorMessage] and [runtime] only reach the log. *)
Equations? retryWithBackoff {T} (operation : M T) (options : RetryOptions)
  (onAbort : option (M unit)) (w : World) : Outcome (option T) * World
  by wf (maxRetries options - currentAttempt options) lt :=
  retryWithBackoff operation options onAbort w
    with le_lt_dec (maxRetries options) (currentAttempt options) => {
    | left _ =>
      match onAbort with
      | Some abort => (abort ;; ret None) w
      | None => (Ret None, w)
      end
    | right _ =>
      match operation w with
      | (Ret result, w1) => (Ret (Some result), w1)
      | (Throw error, w1) =>
        retryWithBackoff operation
          (mkRetryOptions (maxRetries options) (S (currentAttempt options)))
          onAbort
          (after_timer (backoff_delay (currentAttempt options)) w1)
      | (Diverge, w1) => (Diverge, w1)
      end }.
Proof. simpl. lia. Qed.

(** [isCryptoGoal(goal, runtime, cryptoGoalCache)], called with the cache
    of ChromaService. The declared result is [boolean]; an entry that is
    still [undefined] is returned as it is. *)
Definition goal_key (g : Goal) : option string :=
  match goal_id g with
  | Some id => if truthy id then Some id else None
  | None => None
  end.

Definition set_cryptoGoalCache (f : gmap string (option bool) -> gmap string (option bool))
  (s : GoalState) : GoalState :=
  mkGoalState (processingGoals s) (goalResponses s) (f (cryptoGoalCache s)).
Definition set_goalResponses (f : gmap string ChromaResponse -> gmap string ChromaResponse)
  (s : GoalState) : GoalState :=
  mkGoalState (processingGoals s) (f (goalResponses s)) (cryptoGoalCache s).
Definition set_processingGoals (f : gset string -> gset string)
  (s : GoalState) : GoalState :=
  mkGoalState (f (processingGoals s)) (goalResponses s) (cryptoGoalCache s).

Definition isCryptoGoal (g : Goal) : M (option bool) :=
  match goal_key g with
  | None => ret (Some false)
  | Some id =>
    cache <- gets (fun w => cryptoGoalCache (service w)) ;;
    match cache !! id with
    | Some cached => ret cached
    | None =>
      modify (set_service (set_cryptoGoalCache (insert id None))) ;;
      result <- generateTrueOrFalse ;;
      modify (set_service (set_cryptoGoalCache (insert id (Some result)))) ;;
      ret (Some result)
    end
  end.

(** The result object of the two validators. An object is truthy whatever
    its fields hold. *)
Record ValidationResult := mkValidationResult {
  isValid : bool;
  reason : string
}.

#[export] Instance truthy_ValidationResult : Truthy ValidationResult := fun _ => true.

Definition exn_message (e : exn) : string :=
  match e with Error msg => msg | TypeError msg => msg end.

Definition is_string (expected : string) (field : option string) : bool :=
  match field with
  | Some s => if decide (s = expected) then true else false
  | None => false
  end.

(** [field?.includes(sub)], read as a condition. *)
Definition field_includes (sub : string) (field : option string) : bool :=
  match field with Some s => includes sub s | None => false end.

(** The first fast path of [validateOperationResponse]. *)
Definition is_bridge_intent (response : ChromaResponse) : bool :=
  match r_intent response with
  | None => false
  | Some intent =>
    is_string "BRIDGE" (intent_type intent)
    || (field_includes "sepolia" (intent_fromChain intent)
        && field_includes "sepolia" (intent_recipientChain intent)
        && truthy (intent_amount intent))
  end.

(** The second fast path. *)
Definition is_withdraw_intent (response : ChromaResponse) : bool :=
  match r_intent response with
  | None => false
  | Some intent =>
    is_string "WITHDRAW" (intent_type intent)
    || (truthy (intent_fromToken intent)
        && truthy (intent_amount intent)
        && truthy (intent_fromAddress intent))
  end.

Definition validateOperationResponse (response : ChromaResponse) : M ValidationResult :=
  if is_bridge_intent response then
    ret (mkValidationResult true "Valid bridge intent with all required fields")
  else if is_withdraw_intent response then
    ret (mkValidationResult true "Valid withdraw intent with all required fields")
  else
    try_catch
      (validationResult <- generateVerdict ;;
       ret (mkValidationResult (v_continue validationResult) (v_reason validationResult)))
      (fun error =>
       ret (mkValidationResult true
              ("Default to valid due to validation error: " ++ exn_message error))).

Definition validateIntroResponse (responses : list ChromaResponse) : M ValidationResult :=
  try_catch
    (validationResult <- generateVerdict ;;
     ret (mkValidationResult (v_continue validationResult) (v_reason validationResult)))
    (fun error =>
     ret (mkValidationResult true
            ("Default to valid due to validation error: " ++ exn_message error))).

Definition generateOperationMessage : M string := generateText.

(** ** goal/handlers/base.ts: BaseGoalHandler *)

Definition has_id (objectiveId : string) (o : Objective) : bool :=
  if decide (obj_id o = objectiveId) then true else false.

(** Assignment to a field of the first element that [find] returns. *)
Fixpoint update_first {A} (p : A -> bool) (f : A -> A) (l : list A) : list A :=
  match l with
  | [] => []
  | x :: rest => if p x then f x :: rest else x :: update_first p f rest
  end.

Definition complete (o : Objective) : Objective :=
  mkObjective (obj_id o) (obj_description o) true (obj_status o).

Definition reopen (o : Objective) : Objective :=
  mkObjective (obj_id o) (obj_description o) false (obj_status o).

Definition abort (o : Objective) : Objective :=
  mkObjective (obj_id o) (obj_description o) (obj_completed o) (Some ABORTED).

Section BaseGoalHandler.

Variable self : HandlerName.

Definition my_state (w : World) : GoalState := get_hstate self (hstates w).

Definition set_my_state (f : GoalState -> GoalState) : World -> World :=
  set_hstates (set_hstate self f).

Definition getLatestResponse : M (option ChromaResponse) :=
  g <- gets goal ;;
  match goal_key g with
  | None => ret None
  | Some id => gets (fun w => goalResponses (my_state w) !! id)
  end.

Definition storeResponse (response : ChromaResponse) : M unit :=
  g <- gets goal ;;
  match goal_key g with
  | None => ret tt
  | Some id => modify (set_my_state (set_goalResponses (insert id response)))
  end.

Definition clearGoalState (goalId : string) (s : GoalState) : GoalState :=
  mkGoalState (processingGoals s ∖ {[goalId]})
              (delete goalId (goalResponses s))
              (delete goalId (cryptoGoalCache s)).

Definition clearState (goalId : string) : M unit :=
  modify (set_my_state (clearGoalState goalId)).

Definition completeObjective (objectiveId : string) : M unit :=
  g <- gets goal ;;
  match List.find (has_id objectiveId) (goal_objectives g) with
  | Some _ =>
    modify (set_goal (with_objectives (update_first (has_id objectiveId) complete))) ;;
    updateGoal
  | None => ret tt
  end.

Definition completeGoal : M unit :=
  g <- gets goal ;;
  match goal_key g with
  | None => ret tt
  | Some id =>
    modify (set_my_state (set_goalResponses (delete id))) ;;
    updateGoalStatus id DONE
  end.

Definition failGoal : M unit :=
  g <- gets goal ;;
  match goal_key g with
  | None => ret tt
  | Some id =>
    modify (set_my_state (set_goalResponses (delete id))) ;;
    updateGoalStatus id FAILED
  end.

(** The handlers' own [retryWithBackoff(operation, errorMessage)]. *)
Definition handler_retryWithBackoff {T} (operation : M T) : M (option T) :=
  retryWithBackoff operation (mkRetryOptions MAX_RETRIES 0) None.

(** The tail shared by every step: [if (!result) { ... ABORTED ... }]. *)
Definition markAborted (objectiveId : string) : M unit :=
  g <- gets goal ;;
  match List.find (has_id objectiveId) (goal_objectives g) with
  | Some _ =>
    modify (set_goal (with_objectives (update_first (has_id objectiveId) abort))) ;;
    updateGoal
  | None => ret tt
  end.

(** [getObjectiveStatus] *)
Definition getObjectiveStatus (g : Goal) (objectiveId : string) : ObjectiveStatus :=
  match List.find (has_id objectiveId) (goal_objectives g) with
  | None => PENDING
  | Some objective =>
    if obj_completed objective then COMPLETED
    else match obj_status objective with
         | Some ABORTED => ABORTED
         | _ => PENDING
         end
  end.

End BaseGoalHandler.

(** ** signatures/evm.ts and signatures/solana.ts: accounts and signing *)

Inductive AccountType := evm | solana.

(** [acc_chains] holds the CHROMA_EVM_CHAINS setting; the code splits it at
    commas for the text of the prompts. *)
Record ChainAccount := mkChainAccount {
  acc_type : AccountType;
  acc_address : string;
  acc_chains : string
}.

(** What [signProposal] returns: [string | string[]]. *)
Inductive Signed :=
| Hash (h : string)
| Hashes (hs : list string).

#[export] Instance truthy_Z : Truthy Z := fun z => negb (z =? 0)%Z.

Definition evm_getAccount (type : AccountType) : Outcome ChainAccount :=
  match type with
  | solana => Throw (Error "EVMSignatureHandler doesn't support solana accounts")
  | evm =>
    match CHROMA_EVM_CHAINS E with
    | Some chains =>
      if truthy chains then
        match evm_account E with
        | Some address => Ret (mkChainAccount evm address chains)
        | None => Throw (Error "EVM account not initialized")
        end
      else Throw (Error "CHROMA_EVM_CHAINS not configured")
    | None => Throw (Error "CHROMA_EVM_CHAINS not configured")
    end
  end.

Definition solana_getAccount (type : AccountType) : Outcome ChainAccount :=
  match type with
  | evm => Throw (Error "SolanaSignatureHandler doesn't support evm accounts")
  | solana =>
    match sol_keypair E with
    | Some address => Ret (mkChainAccount solana address "solana")
    | None => Throw (Error "Solana account not initialized")
    end
  end.

(** [sepolia.id], the default chain. *)
Definition defaultChain_id : Z := 11155111.

(** [processTransaction]. The gas limit buffer and the fee multipliers are
    floating-point products passed on to the wallet client; the model keeps
    the gas estimate they start from. [tx.value] is passed through: the
    code converts a truthy value with [BigInt], which raises on a string
    that is not an integer literal, and the values of the model are taken
    to convert. The test of [account.evmAccount] is left out, as
    [getAccount] always sets the field. The no-client error carries the
    chain id in the code, [No clients initialized for chain ID <id>]; the
    model keeps the text before the id. *)
Definition evm_processTransaction (tx : BaseTransaction) (account : ChainAccount)
  : M string :=
  try_catch
    (let chainId := if truthy (tx_chainId tx)
                    then default defaultChain_id (tx_chainId tx)
                    else defaultChain_id in
     if negb (existsb (Z.eqb chainId) (evm_chainClients E)) then
       throw (Error "No clients initialized for chain ID")
     else if negb (truthy (tx_data tx)) then
       throw (Error "Transaction data is required")
     else
       n <- gets (fun w => n_evmRpc (calls w)) ;;
       modify (set_calls bump_evmRpc) ;;
       let rpc := env_evmRpc E n in
       gasEstimate <-
         try_catch (await (rpc_estimateGas rpc))
           (fun _ => ret (if is_string "0x" (tx_data tx) then 21000%Z else 300000%Z)) ;;
       await (rpc_estimateFeesPerGas rpc) ;;
       modify (set_submitted (fun l => (l ++ [EvmSubmission tx chainId gasEstimate])%list)) ;;
       hash <- await (rpc_sendTransaction rpc) ;;
       await (rpc_waitForTransactionReceipt rpc) ;;
       ret hash)
    (fun error => throw error).

(** [for (const tx of proposal.transactions) { ...; results.push(hash); }] *)
Fixpoint for_each {A B} (f : A -> M B) (l : list A) : M (list B) :=
  match l with
  | [] => ret []
  | x :: rest =>
    y <- f x ;;
    ys <- for_each f rest ;;
    ret (y :: ys)
  end.

Definition evm_signProposal (proposal : TransactionProposal) : M Signed :=
  try_catch
    (account <- lift (evm_getAccount evm) ;;
     match transactions proposal with
     | None => ret (Hashes [])
     | Some [] => ret (Hashes [])
     | Some txs =>
       results <- for_each (fun tx => evm_processTransaction tx account) txs ;;
       ret (Hashes results)
     end)
    (fun error => throw error).

(** [signProposal] of the Solana handler. On a missing
    [serializedTransaction] it is [Buffer.from] that raises, a TypeError
    whose text the model shortens. *)
Definition solana_signProposal (proposal : TransactionProposal) : M Signed :=
  if negb (sol_connection E) || negb (bool_decide (is_Some (sol_keypair E))) then
    throw (Error "Handler not properly initialized")
  else
    try_catch
      (if truthy (transactions proposal) then
         throw (Error "Multiple transactions not supported for Solana")
       else
         match transaction proposal with
         | None => throw (Error "No transaction found in proposal")
         | Some tx =>
           match serializedTransaction tx with
           | None => throw (TypeError "The first argument must be of type string")
           | Some blob =>
             n <- gets (fun w => n_solanaRpc (calls w)) ;;
             modify (set_calls bump_solanaRpc) ;;
             let rpc := env_solanaRpc E n in
             lift (sol_deserialize rpc) ;;
             if CHROMA_EXAMPLE_MODE E then
               err <- await (sol_simulate rpc) ;;
               ret (Hash (if err : bool then "simulation_failed" else "simulation_success"))
             else
               await (sol_getLatestBlockhash rpc) ;;
               modify (set_submitted (fun l => (l ++ [SolanaSubmission blob])%list)) ;;
               signature <- await (sol_sendRawTransaction rpc) ;;
               await (sol_confirmTransaction rpc) ;;
               ret (Hash signature)
           end
         end)
      (fun error => throw error).

Definition handler_signProposal (h : SignatureHandler) (proposal : TransactionProposal)
  : M Signed :=
  match h with
  | EVMSignatureHandler => evm_signProposal proposal
  | SolanaSignatureHandler => solana_signProposal proposal
  end.

(** The table of [ensureChainId]. *)
Definition chainIds (name : string) : option Z :=
  if decide (name = "evm") then Some 1%Z
  else if decide (name = "solana") then Some 1%Z
  else if decide (name = "eth-sepolia") then Some 11155111%Z
  else if decide (name = "sepolia") then Some 11155111%Z
  else if decide (name = "optimism-sepolia") then Some 11155420%Z
  else if decide (name = "opt-sepolia") then Some 11155420%Z
  else if decide (name = "arbitrum-sepolia") then Some 421614%Z
  else if decide (name = "arb-sepolia") then Some 421614%Z
  else if decide (name = "base-sepolia") then Some 84532%Z
  else if decide (name = "ethereum") then Some 1%Z
  else if decide (name = "optimism") then Some 10%Z
  else if decide (name = "arbitrum") then Some 42161%Z
  else if decide (name = "base") then Some 8453%Z
  else None.

Definition with_chainId (c : option Z) (p : TransactionProposal) : TransactionProposal :=
  mkProposal c (p_fromChain p) (transactions p) (transaction p).

(** [ensureChainId]: the proposal with the [chainId] the code writes into it. *)
Definition ensureChainId (proposal : TransactionProposal) : TransactionProposal :=
  if truthy (p_chainId proposal) then proposal
  else if truthy (p_fromChain proposal) then
    with_chainId (chainIds (default EmptyString (p_fromChain proposal))) proposal
  else
    match transactions proposal with
    | Some txs => with_chainId (match txs with tx :: _ => tx_chainId tx | [] => None end) proposal
    | None => proposal
    end.

(** ** goal/handlers/singleChain.ts: SingleChainGoalHandler *)

Definition mentions_chain (o : Objective) : bool := includes "chain" (obj_id o).

Definition singleChain_supportsGoal (g : Goal) : bool :=
  existsb (fun obj => has_id "introduce-agent" obj
                      && negb (existsb mentions_chain (goal_objectives g)))
          (goal_objectives g).

Definition pending (o : Objective) : bool := negb (obj_completed o).

(** [Array.isArray(r.proposals) && r.proposals.length > 0] *)
Definition has_proposals (r : ChromaResponse) : bool :=
  match r_proposals r with
  | Some (_ :: _) => true
  | _ => false
  end.

(** [ensureChainId] assigns to the proposal in place, and the proposal is
    the first one of the reply stored for the goal. *)
Definition on_first_proposal (f : TransactionProposal -> TransactionProposal)
  (r : ChromaResponse) : ChromaResponse :=
  mkResponse (r_text r) (r_intent r)
    (match r_proposals r with
     | Some (p :: rest) => Some (f p :: rest)
     | other => other
     end).

Section Signing.

Variable self : HandlerName.

(** [signProposal] of a goal handler, on [storedResponse.proposals[0]]. *)
Definition signProposal (proposal : TransactionProposal) : M Signed :=
  handler <- lift (getSignatureHandler proposal) ;;
  g <- gets goal ;;
  match goal_key g with
  | Some id =>
    modify (set_my_state self (set_goalResponses (alter (on_first_proposal ensureChainId) id)))
  | None => ret tt
  end ;;
  handler_signProposal handler (ensureChainId proposal).

Definition signFirstProposal (proposals : list TransactionProposal) : M Signed :=
  match proposals with
  | proposal :: _ => signProposal proposal
  | [] => throw (TypeError "Cannot read properties of undefined (reading 'transaction')")
  end.

End Signing.

(** The closure each step gives to [retryWithBackoff] is named after the
    step: [..._attempt]. The accounts and the chain text it starts with
    only feed the prompt. *)
Definition singleChain_introduction_attempt : M bool :=
  introMessage <- generateText ;;
  response <- sendMessage introMessage ;;
  isIntroductionValid <- validateIntroResponse response ;;
  if truthy isIntroductionValid then
    completeObjective "introduce-agent" ;;
    ret true
  else
    throw (Error "Introduction validation failed").

Definition singleChain_handleIntroduction : M unit :=
  result <- handler_retryWithBackoff singleChain_introduction_attempt ;;
  if negb (truthy result) then markAborted "introduce-agent" else ret tt.

Definition singleChain_operation_attempt : M bool :=
  operationMessage <- generateOperationMessage ;;
  if negb (truthy operationMessage) then ret false
  else
    response <- sendMessage operationMessage ;;
    match List.find (fun r => truthy (r_intent r)) response with
    | None => throw (Error "No intent found in response")
    | Some responseWithIntent =>
      isValidIntent <- validateOperationResponse responseWithIntent ;;
      if negb (truthy isValidIntent) then
        throw (Error "Invalid intent received")
      else
        storeResponse SingleChain responseWithIntent ;;
        completeObjective "present-operation" ;;
        ret true
    end.

Definition singleChain_handleOperation : M unit :=
  result <- handler_retryWithBackoff singleChain_operation_attempt ;;
  if negb (truthy result) then markAborted "present-operation" else ret tt.

Definition singleChain_intent_attempt (confirmMessage : string) : M bool :=
  response <- sendMessage confirmMessage ;;
  match List.find has_proposals response with
  | Some responseWithProposal =>
    storeResponse SingleChain responseWithProposal ;;
    completeObjective "confirm-intent" ;;
    ret true
  | None => throw (Error "No proposal received after confirmation")
  end.

Definition singleChain_handleIntent : M unit :=
  storedResponse <- getLatestResponse SingleChain ;;
  if negb (truthy (storedResponse ≫= r_intent)) then ret tt
  else
    confirmMessage <- generateText ;;
    result <- handler_retryWithBackoff (singleChain_intent_attempt confirmMessage) ;;
    if negb (truthy result) then markAborted "confirm-intent" else ret tt.

Definition singleChain_proposal_attempt (proposals : list TransactionProposal) : M bool :=
  signFirstProposal SingleChain proposals ;;
  completeObjective "process-proposal" ;;
  completeGoal SingleChain ;;
  ret true.

Definition singleChain_handleProposal : M unit :=
  storedResponse <- getLatestResponse SingleChain ;;
  match storedResponse ≫= r_proposals with
  | None => ret tt
  | Some proposals =>
    result <- handler_retryWithBackoff (singleChain_proposal_attempt proposals) ;;
    if negb (truthy result) then markAborted "process-proposal" else ret tt
  end.

(** The [switch] of [processObjective]: the step for an objective id, or
    [None] in the [default] case. *)
Definition singleChain_step (objectiveId : string) : option (M unit) :=
  if decide (objectiveId = "introduce-agent") then Some singleChain_handleIntroduction
  else if decide (objectiveId = "present-operation") then Some singleChain_handleOperation
  else if decide (objectiveId = "confirm-intent") then Some singleChain_handleIntent
  else if decide (objectiveId = "process-proposal") then Some singleChain_handleProposal
  else None.

(** [processObjective] calls itself after each completed objective; the
    depth of that recursion is bounded by [fuel]. *)
Fixpoint singleChain_processObjective (fuel : nat) : M unit :=
  match fuel with
  | O => diverge
  | S fuel' =>
    g <- gets goal ;;
    match goal_key g with
    | None => ret tt
    | Some _ =>
      try_catch
        (match List.find pending (goal_objectives g) with
         | None => completeGoal SingleChain
         | Some pendingObjective =>
           match singleChain_step (obj_id pendingObjective) with
           | None => ret tt
           | Some step =>
             step ;;
             g' <- gets goal ;;
             match getObjectiveStatus g' (obj_id pendingObjective) with
             | COMPLETED =>
               match List.find pending (goal_objectives g') with
               | Some _ => singleChain_processObjective fuel'
               | None => ret tt
               end
             | ABORTED => ret tt
             | PENDING => ret tt
             end
           end
         end)
        (fun error => failGoal SingleChain ;; throw error)
    end
  end.

(** ** goal/handlers/multiChain.ts: the bridge-confirmation wait *)

Definition MAX_BRIDGE_WAIT_TIME_MS : Z := 40 * 60 * 1000.
Definition BRIDGE_INITIAL_CHECK_INTERVAL_MS : Z := 10 * 1000.

Definition multiChain_supportsGoal (g : Goal) : bool :=
  existsb (fun obj => has_id "introduce-agent" obj
                      && existsb mentions_chain (goal_objectives g))
          (goal_objectives g).

(** [value.trim().replace(/[^\d.]/g, '')] *)
Definition digit_or_dot (c : ascii) : bool :=
  let n := nat_of_ascii c in
  ((48 <=? n)%nat && (n <=? 57)%nat) || (n =? 46)%nat.

Fixpoint clean (value : string) : string :=
  match value with
  | EmptyString => EmptyString
  | String c rest => if digit_or_dot c then String c (clean rest) else clean rest
  end.

(** The object [extractTokenAmounts] returns: a key is present when its
    cleaned value is not empty. *)
Record TokenAmounts := mkTokenAmounts {
  tokenAmount : option string;
  aTokenAmount : option string
}.

Definition cleaned_entry (value : string) : option string :=
  if truthy (clean value) then Some (clean value) else None.

Definition extractTokenAmounts (response : list ChromaResponse) : M TokenAmounts :=
  try_catch
    (result <- generateAmounts ;;
     ret (mkTokenAmounts (cleaned_entry (raw_tokenAmount result))
                         (cleaned_entry (raw_aTokenAmount result))))
    (fun error => ret (mkTokenAmounts None None)).

(** [usdcAmount && parseFloat(usdcAmount) > 0] *)
Definition positive_balance (usdcAmount : option string) : bool :=
  match usdcAmount with
  | Some amount => truthy amount && parseFloat_positive E amount
  | None => false
  end.

(** The closure given to [retryWithBackoff]: the [while] loop and what
    follows it. [fuel] bounds the number of rounds of one call. *)
Fixpoint bridge_poll (fuel : nat) (startTime : Z) : M bool :=
  match fuel with
  | O => diverge
  | S fuel' =>
    t <- Date_now ;;
    if (t - startTime <? MAX_BRIDGE_WAIT_TIME_MS)%Z then
      balanceResponse <- sendMessage "What's my balance on Arbitrum Sepolia?" ;;
      tokenAmounts <- extractTokenAmounts balanceResponse ;;
      if positive_balance (tokenAmount tokenAmounts) then
        modify (set_bridge (fun l => mkBridgeLocals (checkInterval l) true)) ;;
        completeObjective "wait-for-chain-b-confirmation" ;;
        ret true
      else
        interval <- gets (fun w => checkInterval (bridge w)) ;;
        sleep interval ;;
        modify (set_bridge (fun l => mkBridgeLocals (Z.min (interval * 2) 60000) (hasBalance l))) ;;
        bridge_poll fuel' startTime
    else
      found <- gets (fun w => hasBalance (bridge w)) ;;
      if negb found then throw (Error "Bridge confirmation timed out")
      else ret true
  end.

Definition multiChain_handleBridgeConfirmation (fuel : nat) : M unit :=
  startTime <- Date_now ;;
  modify (set_bridge (fun _ => mkBridgeLocals BRIDGE_INITIAL_CHECK_INTERVAL_MS false)) ;;
  result <- handler_retryWithBackoff (bridge_poll fuel startTime) ;;
  if negb (truthy result) then markAborted "wait-for-chain-b-confirmation" else ret tt.

(** ** goal/handlers/cdp.ts: routing predicate *)

Definition cdp_supportsGoal (g : Goal) : bool :=
  existsb (has_id "ask-for-wallet") (goal_objectives g).

(** ** services/chroma.ts: ChromaService *)

(** The service's own [retryWithBackoff], without [onAbort]. *)
Equations? service_retryWithBackoff {T} (operation : M T) (options : RetryOptions)
  (w : World) : Outcome (option T) * World
  by wf (maxRetries options - currentAttempt options) lt :=
  service_retryWithBackoff operation options w
    with le_lt_dec (maxRetries options) (currentAttempt options) => {
    | left _ => (Ret None, w)
    | right _ =>
      match operation w with
      | (Ret result, w1) => (Ret (Some result), w1)
      | (Throw error, w1) =>
        service_retryWithBackoff operation
          (mkRetryOptions (maxRetries options) (S (currentAttempt options)))
          (after_timer (backoff_delay (currentAttempt options)) w1)
      | (Diverge, w1) => (Diverge, w1)
      end }.
Proof. simpl. lia. Qed.

Definition service_getLatestResponseForGoal : M (option ChromaResponse) :=
  g <- gets goal ;;
  match goal_key g with
  | None => ret None
  | Some id => gets (fun w => goalResponses (service w) !! id)
  end.

Definition service_storeResponseForGoal (response : ChromaResponse) : M unit :=
  g <- gets goal ;;
  match goal_key g with
  | None => ret tt
  | Some id => modify (set_service (set_goalResponses (insert id response)))
  end.

Definition service_completeObjective (objectiveId : string) : M unit :=
  g <- gets goal ;;
  match List.find (has_id objectiveId) (goal_objectives g) with
  | Some _ =>
    modify (set_goal (with_objectives (update_first (has_id objectiveId) complete))) ;;
    updateGoal
  | None => ret tt
  end.

(** [Promise.race([this.sendMessage(confirmMessage), timeoutPromise])]:
    the timer is armed, and the reply wins when it settles before the
    timer fires. *)
Definition sendMessage_or_timeout (text : string) : M (list ChromaResponse) :=
  n <- gets (fun w => n_sendMessage (calls w)) ;;
  modify (set_calls bump_sendMessage) ;;
  modify (set_timers (fun l => (l ++ [INTENT_CONFIRMATION_TIMEOUT])%list)) ;;
  let reply := env_sendMessage E n in
  match answer reply with
  | Diverge =>
    modify (set_now (fun t => (t + INTENT_CONFIRMATION_TIMEOUT)%Z)) ;;
    throw (Error "Intent confirmation timed out")
  | _ =>
    if (Z.of_N (latency reply) <? INTENT_CONFIRMATION_TIMEOUT)%Z then await reply
    else
      modify (set_now (fun t => (t + INTENT_CONFIRMATION_TIMEOUT)%Z)) ;;
      throw (Error "Intent confirmation timed out")
  end.

(** The [forEach] that re-opens the objectives. *)
Definition reopen_all_but_introduction (objectives : list Objective) : list Objective :=
  map (fun obj => if has_id "introduce-agent" obj then obj else reopen obj) objectives.

(** [handleIntent] of the service. It hands the goal on to the service's
    [processObjective(goal, objective)], which in turn reaches the other
    steps and this one again: that method is the parameter
    [processObjective], given the objective [find] returned.

    [service_confirmation_exchange] is the [try] block with its [catch]:
    [true] when the block left the method by its [return]. *)
Definition service_confirmation_exchange (processObjective : option Objective -> M unit)
  (confirmMessage : string) : M bool :=
  try_catch
    (response <- sendMessage_or_timeout confirmMessage ;;
     match List.find (fun r => truthy (r_proposals r)) response with
     | Some responseWithProposal =>
       service_storeResponseForGoal responseWithProposal ;;
       service_completeObjective "confirm-intent" ;;
       g <- gets goal ;;
       processObjective (List.find (has_id "process-proposal") (goal_objectives g)) ;;
       ret true
     | None => ret false
     end)
    (fun error => ret false).

Definition service_handleIntent (processObjective : option Objective -> M unit)
  : M unit :=
  storedResponse <- service_getLatestResponseForGoal ;;
  if negb (truthy (storedResponse ≫= r_proposals)) then
    if truthy (storedResponse ≫= r_intent) then
      confirmMessage <- generateText ;;
      returned <- service_confirmation_exchange processObjective confirmMessage ;;
      if returned : bool then ret tt
      else
        modify (set_goal (with_objectives reopen_all_but_introduction)) ;;
        updateGoal ;;
        g <- gets goal ;;
        processObjective (List.find (has_id "present-operation") (goal_objectives g))
    else ret tt
  else
    service_completeObjective "confirm-intent" ;;
    g <- gets goal ;;
    processObjective (List.find (has_id "process-proposal") (goal_objectives g)).

(** *** The scheduler tick *)

Section Orchestrator.

(** The tick is stated for any [processObjective] of the CDP and the
    multi-chain handler: they are parameters here, and the handlers
    themselves follow below. [fuel] bounds the recursion of the
    single-chain one. *)
Variable cdp_processObjective : M unit.
Variable multiChain_processObjective : M unit.
Variable fuel : nat.

(** [this.handlers = [singleChainHandler, cdpHandler, multiChainHandler];] *)
Definition handlers : list HandlerName := [SingleChain; CDP; MultiChain].

Definition supportsGoal (h : HandlerName) (g : Goal) : bool :=
  match h with
  | SingleChain => singleChain_supportsGoal g
  | CDP => cdp_supportsGoal g
  | MultiChain => multiChain_supportsGoal g
  end.

Definition processObjective (h : HandlerName) : M unit :=
  match h with
  | SingleChain => singleChain_processObjective fuel
  | CDP => cdp_processObjective
  | MultiChain => multiChain_processObjective
  end.

Definition getHandlerForGoal (g : Goal) : option HandlerName :=
  List.find (fun h => supportsGoal h g) handlers.

Definition clearProcessingState (goalId : string) : M unit :=
  modify (set_service (clearGoalState goalId)).

Fixpoint clearState_all (hs : list HandlerName) (goalId : string) : M unit :=
  match hs with
  | [] => ret tt
  | h :: rest => clearState h goalId ;; clearState_all rest goalId
  end.

(** The body of the [for (const goal of goals)] loop. The handler works on
    the goal object of this round. *)
Definition processGoal (g : Goal) : M unit :=
  match goal_key g with
  | None => ret tt
  | Some id =>
    modify (set_goal (fun _ => g)) ;;
    isProcessing <- gets (fun w => bool_decide (id ∈ processingGoals (service w))) ;;
    if isProcessing : bool then ret tt
    else
      isCrypto <- isCryptoGoal g ;;
      if negb (truthy isCrypto) then ret tt
      else
        try_catch
          (modify (set_service (set_processingGoals (fun s => s ∪ {[id]}))) ;;
           match getHandlerForGoal g with
           | None => ret tt
           | Some handler => processObjective handler
           end)
          (fun error =>
           clearProcessingState id ;;
           clearState_all handlers id)
  end.

Fixpoint for_goals (goals : list Goal) : M unit :=
  match goals with
  | [] => ret tt
  | g :: rest => processGoal g ;; for_goals rest
  end.

Definition processGoals : M unit :=
  goals <- getGoals ;;
  for_goals goals.

End Orchestrator.

End Program.

(** ** goal/handlers/multiChain.ts: MultiChainGoalHandler *)

Section MultiChainHandler.

Variable E : Env.

(** The closure of [handleIntroduction], the same text as in the
    single-chain handler. *)
Definition multiChain_introduction_attempt : M bool :=
  introMessage <- generateText E ;;
  response <- sendMessage E introMessage ;;
  isIntroductionValid <- validateIntroResponse E response ;;
  if truthy isIntroductionValid then
    completeObjective "introduce-agent" ;;
    ret true
  else
    throw (Error "Introduction validation failed").

Definition multiChain_handleIntroduction : M unit :=
  result <- handler_retryWithBackoff multiChain_introduction_attempt ;;
  if negb (truthy result) then markAborted "introduce-agent" else ret tt.

(** [shouldSkipRemainingObjectives]: one yes-or-no question to the model. *)
Definition shouldSkipRemainingObjectives (response : list ChromaResponse) : M bool :=
  generateTrueOrFalse E.

(** [if (!objective.completed) objective.completed = true], for every
    objective of the goal. *)
Definition complete_if_pending (o : Objective) : Objective :=
  if negb (obj_completed o) then complete o else o.

Definition multiChain_operation_attempt : M bool :=
  operationMessage <- generateOperationMessage E ;;
  if negb (truthy operationMessage) then ret false
  else
    response <- sendMessage E operationMessage ;;
    match List.find (fun r => truthy (r_intent r)) response with
    | Some responseWithIntent =>
      storeResponse MultiChain responseWithIntent ;;
      completeObjective "present-operation" ;;
      ret true
    | None =>
      match List.find (fun r => truthy (r_text r)) response with
      | Some responseWithText => storeResponse MultiChain responseWithText
      | None => ret tt
      end ;;
      shouldSkipRemaining <- shouldSkipRemainingObjectives response ;;
      if shouldSkipRemaining : bool then
        modify (set_goal (with_objectives (map complete_if_pending))) ;;
        updateGoal ;;
        ret true
      else
        completeObjective "present-operation" ;;
        ret true
    end.

Definition multiChain_handleOperation : M unit :=
  result <- handler_retryWithBackoff multiChain_operation_attempt ;;
  if negb (truthy result) then markAborted "present-operation" else ret tt.

Definition multiChain_bridge_attempt : M bool :=
  balanceResponse <- sendMessage E "What's my balance on Optimism Sepolia?" ;;
  tokenAmounts <- extractTokenAmounts E balanceResponse ;;
  let usdcAmount := tokenAmount tokenAmounts in
  if negb (truthy usdcAmount) then
    throw (Error "Failed to extract USDC amount from balance response")
  else
    response <- sendMessage E
                  ("Bridge " ++ default EmptyString usdcAmount
                   ++ " USDC from Optimism Sepolia to Arbitrum Sepolia") ;;
    match List.find (fun r => truthy (r_intent r)) response with
    | None => throw (Error "No intent found in bridge response")
    | Some responseWithIntent =>
      isValidIntent <- validateOperationResponse E responseWithIntent ;;
      if negb (truthy isValidIntent) then throw (Error "Invalid intent received for bridge")
      else
        storeResponse MultiChain responseWithIntent ;;
        completeObjective "present-bridge-operation-chain-a" ;;
        ret true
    end.

Definition multiChain_handleBridgeOperation : M unit :=
  result <- handler_retryWithBackoff multiChain_bridge_attempt ;;
  if negb (truthy result) then markAborted "present-bridge-operation-chain-a" else ret tt.

Definition multiChain_deposit_attempt : M bool :=
  balanceResponse <- sendMessage E "What's my balance on Arbitrum Sepolia?" ;;
  tokenAmounts <- extractTokenAmounts E balanceResponse ;;
  let usdcAmount := tokenAmount tokenAmounts in
  if negb (truthy usdcAmount) then
    throw (Error "Failed to extract USDC amount from balance response")
  else
    response <- sendMessage E
                  ("Generate yield by depositing " ++ default EmptyString usdcAmount
                   ++ " USDC on Arbitrum Sepolia") ;;
    match List.find (fun r => truthy (r_intent r)) response with
    | None => throw (Error "No intent found in deposit response")
    | Some responseWithIntent =>
      isValidIntent <- validateOperationResponse E responseWithIntent ;;
      if negb (truthy isValidIntent) then throw (Error "Invalid intent received for deposit")
      else
        storeResponse MultiChain responseWithIntent ;;
        completeObjective "present-deposit-operation-chain-b" ;;
        ret true
    end.

Definition multiChain_handleDepositOperation : M unit :=
  result <- handler_retryWithBackoff multiChain_deposit_attempt ;;
  if negb (truthy result) then markAborted "present-deposit-operation-chain-b" else ret tt.

Definition multiChain_intent_attempt (objectiveId confirmMessage : string) : M bool :=
  response <- sendMessage E confirmMessage ;;
  match List.find has_proposals response with
  | Some responseWithProposal =>
    storeResponse MultiChain responseWithProposal ;;
    completeObjective objectiveId ;;
    ret true
  | None => throw (Error "No proposal received after confirmation")
  end.

Definition multiChain_handleIntent (objectiveId : string) : M unit :=
  storedResponse <- getLatestResponse MultiChain ;;
  if negb (truthy (storedResponse ≫= r_intent)) then ret tt
  else
    confirmMessage <- generateText E ;;
    result <- handler_retryWithBackoff (multiChain_intent_attempt objectiveId confirmMessage) ;;
    if negb (truthy result) then markAborted objectiveId else ret tt.

Definition multiChain_proposal_attempt (objectiveId : string)
  (proposals : list TransactionProposal) : M bool :=
  signFirstProposal E MultiChain proposals ;;
  completeObjective objectiveId ;;
  ret true.

Definition multiChain_handleProposal (objectiveId : string) : M unit :=
  storedResponse <- getLatestResponse MultiChain ;;
  match storedResponse ≫= r_proposals with
  | None => ret tt
  | Some proposals =>
    result <- handler_retryWithBackoff (multiChain_proposal_attempt objectiveId proposals) ;;
    if negb (truthy result) then markAborted objectiveId else ret tt
  end.

(** The [switch] of [processObjective]; [None] in the [default] case.
    [pollFuel] bounds the rounds of one bridge-confirmation poll. *)
Definition multiChain_step (pollFuel : nat) (objectiveId : string) : option (M unit) :=
  if decide (objectiveId = "introduce-agent") then Some multiChain_handleIntroduction
  else if decide (objectiveId = "present-operation") then Some multiChain_handleOperation
  else if decide (objectiveId = "confirm-intent") then
    Some (multiChain_handleIntent "confirm-intent")
  else if decide (objectiveId = "process-proposal") then
    Some (multiChain_handleProposal "process-proposal")
  else if decide (objectiveId = "present-bridge-operation-chain-a") then
    Some multiChain_handleBridgeOperation
  else if decide (objectiveId = "confirm-intent-bridge-chain-a") then
    Some (multiChain_handleIntent "confirm-intent-bridge-chain-a")
  else if decide (objectiveId = "process-proposal-bridge-chain-a") then
    Some (multiChain_handleProposal "process-proposal-bridge-chain-a")
  else if decide (objectiveId = "wait-for-chain-b-confirmation") then
    Some (multiChain_handleBridgeConfirmation E pollFuel)
  else if decide (objectiveId = "present-deposit-operation-chain-b") then
    Some multiChain_handleDepositOperation
  else if decide (objectiveId = "confirm-intent-deposit-chain-b") then
    Some (multiChain_handleIntent "confirm-intent-deposit-chain-b")
  else if decide (objectiveId = "process-proposal-deposit-chain-b") then
    Some (multiChain_handleProposal "process-proposal-deposit-chain-b")
  else None.

(** [processObjective]; the [default] case sets the local status to
    ABORTED and falls through to the test after the [switch]. *)
Fixpoint multiChain_processObjective (pollFuel fuel : nat) : M unit :=
  match fuel with
  | O => diverge
  | S fuel' =>
    g <- gets goal ;;
    match goal_key g with
    | None => ret tt
    | Some _ =>
      try_catch
        (match List.find pending (goal_objectives g) with
         | None => completeGoal MultiChain
         | Some pendingObjective =>
           objectiveStatus <-
             match multiChain_step pollFuel (obj_id pendingObjective) with
             | Some step =>
               step ;;
               g' <- gets goal ;;
               ret (getObjectiveStatus g' (obj_id pendingObjective))
             | None => ret ABORTED
             end ;;
           match objectiveStatus with
           | COMPLETED =>
             g' <- gets goal ;;
             match List.find pending (goal_objectives g') with
             | Some _ => multiChain_processObjective pollFuel fuel'
             | None => ret tt
             end
           | ABORTED => ret tt
           | PENDING => ret tt
           end
         end)
        (fun error => failGoal MultiChain ;; throw error)
    end
  end.

End MultiChainHandler.

(** ** goal/handlers/cdp.ts: CDPGoalHandler *)

(** [/0x[a-fA-F0-9]{40}/.test(text)] *)
Definition is_hex_digit (c : ascii) : bool :=
  let n := nat_of_ascii c in
  ((48 <=? n)%nat && (n <=? 57)%nat)
  || ((97 <=? n)%nat && (n <=? 102)%nat)
  || ((65 <=? n)%nat && (n <=? 70)%nat).

(** The text starts with [n] hexadecimal digits. *)
Fixpoint hex_digits (n : nat) (text : string) : bool :=
  match n with
  | O => true
  | S n' =>
    match text with
    | EmptyString => false
    | String c rest => is_hex_digit c && hex_digits n' rest
    end
  end.

Fixpoint evmAddressRegex_test (text : string) : bool :=
  match text with
  | EmptyString => false
  | String c rest =>
    (match c, rest with
     | "0"%char, String "x"%char digits => hex_digits 40 digits
     | _, _ => false
     end)
    || evmAddressRegex_test rest
  end.

(** [text.toLowerCase()], on the letters A to Z. *)
Definition lower (c : ascii) : ascii :=
  let n := nat_of_ascii c in
  if ((65 <=? n)%nat && (n <=? 90)%nat)%bool then ascii_of_nat (n + 32) else c.

Fixpoint toLowerCase (text : string) : string :=
  match text with
  | EmptyString => EmptyString
  | String c rest => String (lower c) (toLowerCase rest)
  end.

(** The test [handleConfirmProposal] makes on the text of a reply. *)
Definition says_success (r : ChromaResponse) : bool :=
  includes "confirmed" (toLowerCase (r_text r))
  || includes "success" (toLowerCase (r_text r))
  || includes "completed" (toLowerCase (r_text r)).

Section CDPHandler.

Variable E : Env.

Definition cdp_wallet_attempt : M bool :=
  response <- sendMessage E "Can you create me a wallet?" ;;
  sleep 10000 ;;
  let hasEvmAddress := existsb (fun r => evmAddressRegex_test (r_text r)) response in
  if hasEvmAddress then
    completeObjective "ask-for-wallet" ;;
    sleep 10000 ;;
    ret true
  else
    throw (Error "No wallet address received in response").

Definition cdp_handleAskForWallet : M unit :=
  result <- handler_retryWithBackoff cdp_wallet_attempt ;;
  if negb (truthy result) then markAborted "ask-for-wallet" else ret tt.

Definition cdp_operation_attempt (operationMessage : string) : M bool :=
  response <- sendMessage E operationMessage ;;
  match List.find (fun r => truthy (r_intent r)) response with
  | None => throw (Error "No intent found in response")
  | Some responseWithIntent =>
    isValidIntent <- validateOperationResponse E responseWithIntent ;;
    if negb (truthy isValidIntent) then
      throw (Error "Invalid intent received")
    else
      storeResponse CDP responseWithIntent ;;
      completeObjective "present-operation" ;;
      ret true
  end.

Definition cdp_handleOperation : M unit :=
  operationMessage <- generateOperationMessage E ;;
  if negb (truthy operationMessage) then ret tt
  else
    result <- handler_retryWithBackoff (cdp_operation_attempt operationMessage) ;;
    if negb (truthy result) then markAborted "present-operation" else ret tt.

Definition cdp_intent_attempt (confirmMessage : string) : M bool :=
  response <- sendMessage E confirmMessage ;;
  match List.find (fun r => truthy (r_proposals r)) response with
  | Some responseWithProposal =>
    storeResponse CDP responseWithProposal ;;
    completeObjective "confirm-intent" ;;
    ret true
  | None => throw (Error "No proposals received in response")
  end.

Definition cdp_handleIntent : M unit :=
  storedResponse <- getLatestResponse CDP ;;
  if negb (truthy (storedResponse ≫= r_intent)) then ret tt
  else
    confirmMessage <- generateText E ;;
    result <- handler_retryWithBackoff (cdp_intent_attempt confirmMessage) ;;
    if negb (truthy result) then markAborted "confirm-intent" else ret tt.

(** [responses.reverse()] reverses the array in place, so the test that
    follows the [find] runs over the reversed array as well. *)
Definition cdp_confirm_attempt : M bool :=
  storedResponse <- getLatestResponse CDP ;;
  (if negb (truthy (storedResponse ≫= r_proposals)) then
     responses <- sendMessage E "Can you show me the proposal options?" ;;
     match List.find (fun r => truthy (r_proposals r)) responses with
     | Some responseWithProposal => storeResponse CDP responseWithProposal
     | None => throw (Error "No proposals received in any response")
     end
   else ret tt) ;;
  responses <- sendMessage E "Yes, confirm proposal number 1" ;;
  let reversed := rev responses in
  match List.find (fun r => truthy (r_proposals r) || says_success r) reversed with
  | Some lastMeaningfulResponse => storeResponse CDP lastMeaningfulResponse
  | None => ret tt
  end ;;
  let isSuccess := existsb says_success reversed in
  if isSuccess then
    completeObjective "confirm-proposal" ;;
    completeGoal CDP ;;
    ret true
  else
    throw (Error "Proposal confirmation failed").

Definition cdp_handleConfirmProposal : M unit :=
  result <- handler_retryWithBackoff cdp_confirm_attempt ;;
  if negb (truthy result) then markAborted "confirm-proposal" else ret tt.

Definition cdp_step (objectiveId : string) : option (M unit) :=
  if decide (objectiveId = "ask-for-wallet") then Some cdp_handleAskForWallet
  else if decide (objectiveId = "present-operation") then Some cdp_handleOperation
  else if decide (objectiveId = "confirm-intent") then Some cdp_handleIntent
  else if decide (objectiveId = "confirm-proposal") then Some cdp_handleConfirmProposal
  else None.

Fixpoint cdp_processObjective (fuel : nat) : M unit :=
  match fuel with
  | O => diverge
  | S fuel' =>
    g <- gets goal ;;
    match goal_key g with
    | None => ret tt
    | Some _ =>
      try_catch
        (match List.find pending (goal_objectives g) with
         | None => completeGoal CDP
         | Some pendingObjective =>
           match cdp_step (obj_id pendingObjective) with
           | None => ret tt
           | Some step =>
             step ;;
             g' <- gets goal ;;
             match getObjectiveStatus g' (obj_id pendingObjective) with
             | COMPLETED =>
               match List.find pending (goal_objectives g') with
               | Some _ => cdp_processObjective fuel'
               | None => ret tt
               end
             | ABORTED => ret tt
             | PENDING => ret tt
             end
           end
         end)
        (fun error => failGoal CDP ;; throw error)
    end
  end.

End CDPHandler.

(** ** examples/config.ts: the example goals *)

Inductive ExampleType := ex_single | ex_cdp | ex_multi.

Record ExampleConfig := mkExampleConfig {
  ex_name : string;
  ex_operation : string;
  ex_type : ExampleType
}.

Definition EXAMPLE_CONFIGS : list (string * ExampleConfig) :=
  [("bridge_usdc_to_base",
    mkExampleConfig "Bridge USDC to Base" "Bridge 9.99589 USDC from Optimism to Base" ex_single);
   ("bridge_usdc_to_optimism",
    mkExampleConfig "Bridge USDC to Optimism Example"
      "Bridge 1.5 USDC from Sepolia to Optimism Sepolia" ex_single);
   ("bridge_usdc_from_base_to_optimism",
    mkExampleConfig "Bridge USDC from Base to Optimism"
      "Bridge 9.985097 USDC from Base to Optimism" ex_single);
   ("bridge_usdc_to_solana",
    mkExampleConfig "Bridge USDC to Solana Example" "Bridge 1.5 USDC from Sepolia to Solana"
      ex_single);
   ("deposit_dai_on_optimism",
    mkExampleConfig "Deposit DAI on Optimism"
      "Generate yield via deposit 19.966634 DAI on Optimism" ex_single);
   ("deposit_usdc_on_optimism",
    mkExampleConfig "Deposit USDC on Optimism"
      "Generate yield via deposit 19.962961 USDC on Optimism" ex_single);
   ("deposit_usdc_on_curve_optimism",
    mkExampleConfig "Deposit USDC on Curve Optimism"
      "Generate yield via deposit 9.987936 USDC on Curve Optimism" ex_single);
   ("find_best_yield",
    mkExampleConfig "Find Best Yield Example"
      "Find the best yield for USDC on Optimism and Arbitrum" ex_multi);
   ("find_best_yield_single_chain",
    mkExampleConfig "Find Best Yield Example" "Find the best yield for USDC on Optimism"
      ex_single);
   ("swap_sol", mkExampleConfig "Swap SOL Example" "Swap 0.01 SOL for USDC" ex_single);
   ("swap_eth",
    mkExampleConfig "Swap ETH Example" "Swap 0.01 ETH for USDC on Sepolia" ex_single);
   ("swap_eth_on_base",
    mkExampleConfig "Swap ETH on Base Example" "Swap 0.01 ETH for USDC on Base" ex_single);
   ("swap_usdc_for_dai_on_optimism",
    mkExampleConfig "Swap USDC for DAI on Optimism" "Swap 19.967080 USDC for DAI on Optimism"
      ex_single);
   ("swap_usdc_for_usdc_e_on_optimism",
    mkExampleConfig "Swap USDC for USDC.e on Optimism" "Swap 10 USDC for USDC.e on Optimism"
      ex_single);
   ("swap_usdc_e_for_usdc_on_optimism",
    mkExampleConfig "Swap USDC.e for USDC on Optimism"
      "Swap 10.001853 USDC.e for USDC on Optimism" ex_single);
   ("transfer",
    mkExampleConfig "Transfer ETH Example"
      "Transfer 0.0001 ETH to 0xf8Ead621c50Dd72fBd7F9C4517B05f50f5168041" ex_single);
   ("withdraw_usdc_from_optimism",
    mkExampleConfig "Withdraw USDC from Optimism" "Withdraw 19.967076 USDC from Optimism"
      ex_single);
   ("withdraw_usdc_from_curve_optimism",
    mkExampleConfig "Withdraw USDC from Curve Optimism"
      "Withdraw 9.827231331784442934 crvUSDC from Curve Optimism" ex_single)].

(** [EXAMPLE_CONFIGS[mode]], on the keys the table itself has. A mode
    that names a property every object inherits (toString, constructor
    and the like) is outside this model. *)
Fixpoint lookup_config (table : list (string * ExampleConfig)) (mode : string)
  : option ExampleConfig :=
  match table with
  | [] => None
  | (key, config) :: rest =>
    if decide (key = mode) then Some config else lookup_config rest mode
  end.

Definition config_of (mode : string) : option ExampleConfig :=
  lookup_config EXAMPLE_CONFIGS mode.

Definition transfer_config : ExampleConfig :=
  mkExampleConfig "Transfer ETH Example"
    "Transfer 0.0001 ETH to 0xf8Ead621c50Dd72fBd7F9C4517B05f50f5168041" ex_single.

Definition find_best_yield_config : ExampleConfig :=
  mkExampleConfig "Find Best Yield Example"
    "Find the best yield for USDC on Optimism and Arbitrum" ex_multi.

(** The three constructors of example goals. [id] is the result of
    [stringToUuid] on the character id and the time. *)
Definition createExampleSingleChainGoal (mode id : string) : Goal :=
  let config := default transfer_config (config_of mode) in
  mkGoal (Some id) (ex_name config) IN_PROGRESS
    [mkObjective "introduce-agent" "Introduce agent, with wallet data and chain preferences"
       false None;
     mkObjective "present-operation" (ex_operation config) false None;
     mkObjective "confirm-intent" "Confirm user intent to proceed with operation" false None;
     mkObjective "process-proposal" "Process transaction proposal" false None].

Definition createExampleCDPGoal (mode id : string) : Goal :=
  let config := default transfer_config (config_of mode) in
  mkGoal (Some id) (ex_name config) IN_PROGRESS
    [mkObjective "ask-for-wallet" "Ask the agent for a new wallet" false None;
     mkObjective "present-operation" (ex_operation config) false None;
     mkObjective "confirm-intent" "Confirm user intent to proceed with transfer" false None;
     mkObjective "confirm-proposal" "Confirm the transaction proposal" false None].

Definition createExampleMultiChainGoal (mode id : string) : Goal :=
  let config := default find_best_yield_config (config_of mode) in
  mkGoal (Some id) (ex_name config) IN_PROGRESS
    [mkObjective "introduce-agent" "Introduce agent, with wallet data and chain preferences"
       false None;
     mkObjective "present-operation" (ex_operation config) false None;
     mkObjective "confirm-intent"
       ("Confirm user intent to proceed with operation (" ++ ex_operation config ++ ")")
       false None;
     mkObjective "process-proposal"
       ("Process transaction proposal (" ++ ex_operation config ++ ")") false None;
     mkObjective "present-bridge-operation-chain-a"
       "Bridge all USDC from Optimism Sepolia to Arbitrum Sepolia" false None;
     mkObjective "confirm-intent-bridge-chain-a"
       "Confirm user intent to proceed with operation" false None;
     mkObjective "process-proposal-bridge-chain-a" "Process transaction proposal" false None;
     mkObjective "wait-for-chain-b-confirmation" "Wait for chain B confirmation" false None;
     mkObjective "present-deposit-operation-chain-b" "Deposit all USDC to Arbitrum Sepolia"
       false None;
     mkObjective "confirm-intent-deposit-chain-b"
       "Confirm user intent to proceed with operation" false None;
     mkObjective "process-proposal-deposit-chain-b" "Process transaction proposal" false None].

(** [runtime.databaseAdapter.createGoal(goal)]: the goal is stored under
    its id. *)
Definition createGoal (g : Goal) : M unit :=
  match goal_id g with
  | Some id => modify (set_db (insert id g))
  | None => ret tt
  end.

Section Examples.

(** [stringToUuid(`${runtime.character.id}-example-goal-${t}`)], as a
    function of the time [t] that [Date.now()] returns. *)
Variable example_goal_id : Z -> string.

(** The goal [registerExampleGoal] builds for a configuration. *)
Definition example_goal (config : ExampleConfig) (mode id : string) : Goal :=
  match ex_type config with
  | ex_cdp => createExampleCDPGoal mode id
  | ex_multi => createExampleMultiChainGoal mode id
  | ex_single => createExampleSingleChainGoal mode id
  end.

(** [config.type] of a mode the table does not have is a TypeError. *)
Definition registerExampleGoal (mode : string) : M unit :=
  match config_of mode with
  | None => throw (TypeError "Cannot read properties of undefined (reading 'type')")
  | Some config =>
    t <- gets now ;;
    createGoal (example_goal config mode (example_goal_id t))
  end.

(** [EXAMPLE_CONFIGS[mode]?.name || EXAMPLE_CONFIGS.transfer.name] *)
Definition getExampleGoalName (mode : string) : string :=
  match config_of mode with
  | Some config => if truthy (ex_name config) then ex_name config else ex_name transfer_config
  | None => ex_name transfer_config
  end.

(** The part of [ChromaClient.start] that follows the start of the
    service; [setting] is [runtime.getSetting('CHROMA_EXAMPLE_MODE')]. *)
Definition start_example_mode (setting : option string) : M unit :=
  if truthy setting then
    let exampleMode := default EmptyString setting in
    goals <- getGoals ;;
    let isInProgressGoals := List.filter in_progress goals in
    let hasMatchingGoal :=
      existsb (fun g => includes (getExampleGoalName exampleMode) (goal_name g))
        isInProgressGoals in
    if negb (truthy (Z.of_nat (length isInProgressGoals))) || negb hasMatchingGoal then
      registerExampleGoal exampleMode
    else ret tt
  else ret tt.

End Examples.

(* ===================================================================== *)
(** * Part II: vocabulary of the statements, and sample inputs             *)
(* ===================================================================== *)

(** ** Signer routing *)

Definition carries_serialized (p : TransactionProposal) : Prop :=
  exists tx blob, transaction p = Some tx /\ serializedTransaction tx = Some blob.

Definition carries_transactions (p : TransactionProposal) : Prop :=
  exists txs, transactions p = Some txs.

(** The proposals the Solana predicate accepts: the [transaction] is there
    and its [serializedTransaction] is a non-empty string. *)
Definition carries_nonempty_serialized (p : TransactionProposal) : Prop :=
  exists tx blob, transaction p = Some tx
                  /\ serializedTransaction tx = Some blob /\ blob <> EmptyString.

(** A proposal with neither a [transactions] array nor a [transaction]. *)
Definition bare_proposal : TransactionProposal := mkProposal None None None None.

(** A proposal whose [transaction] has an empty [serializedTransaction]. *)
Definition empty_blob_proposal : TransactionProposal :=
  mkProposal None None None (Some (mkSerTx (mkTx None None None None) (Some EmptyString))).

(** ** Retrying *)

(** An operation that throws whenever it is invoked. *)
Definition always_fails {T} (op : M T) : Prop :=
  forall w, exists e w', op w = (Throw e, w').

(** The operation throws at each of [n] invocations in a row, the first
    one being attempt number [attempt] made in world [w], each followed by
    the retrier's wait. *)
Fixpoint throws_for {T} (op : M T) (attempt n : nat) (w : World) : Prop :=
  match n with
  | O => True
  | S n' =>
    exists e w', op w = (Throw e, w')
                 /\ throws_for op (S attempt) n' (after_timer (backoff_delay attempt) w')
  end.

(** The world those [n] invocations and waits leave. *)
Fixpoint failed_run {T} (op : M T) (attempt n : nat) (w : World) : World :=
  match n with
  | O => w
  | S n' => failed_run op (S attempt) n' (after_timer (backoff_delay attempt) (snd (op w)))
  end.

(** The longest delay the host's [setTimeout] takes as given, 2^31 - 1 ms;
    a longer one is replaced by 1 ms. *)
Definition TIMEOUT_MAX : Z := 2147483647.

(** A callback that does not throw, wherever it is invoked. *)
Definition completes_quietly (onAbort : option (M unit)) : Prop :=
  forall abort, onAbort = Some abort -> forall w e, fst (abort w) <> Throw e.

(** ** Sample environments and worlds *)

Definition down {A} : Reply A := mkReply 0 (Throw (Error "connection refused")).

Definition no_rpc : EvmRpc := mkEvmRpc down down down down.

Definition no_solana : SolanaRpc :=
  mkSolanaRpc (Throw (Error "invalid transaction")) down down down down.

(** Every oracle is down and no account is configured. *)
Definition env_down : Env :=
  mkEnv (fun _ => down) (fun _ => down) (fun _ => down) (fun _ => down) (fun _ => down)
    (fun _ => no_rpc) (fun _ => no_solana)
    None None [] false None false (fun _ => false).

Definition no_calls : Calls := mkCalls 0 0 0 0 0 0 0.

Definition no_goal : Goal := mkGoal None EmptyString IN_PROGRESS [].

Definition world0 : World :=
  mkWorld 0 [] no_calls ∅ [] no_goal emptyGoalState
    (mkHandlerStates emptyGoalState emptyGoalState emptyGoalState)
    (mkBridgeLocals 0 false).

(** The counterparty fails once and then answers. *)
Definition hello : ChromaResponse := mkResponse "How can I help?" None None.


(** ** Classification *)


Definition yes {A} (a : A) : Reply A := mkReply 250 (Ret a).

(** The classifier says yes to the first goal it is asked about and then
    goes down. *)
Definition env_classifier : Env :=
  mkEnv (fun _ => down) (fun _ => down) (fun _ => down)
    (fun n => match n with O => yes true | _ => down end)
    (fun _ => down)
    (fun _ => no_rpc) (fun _ => no_solana)
    None None [] false None false (fun _ => false).

Definition swap_goal : Goal :=
  mkGoal (Some "goal-1") "Swap 10 USDC to ETH" IN_PROGRESS
    [mkObjective "introduce-agent" "Introduce agent" false None;
     mkObjective "present-operation" "Swap 10 USDC to ETH" false None;
     mkObjective "confirm-intent" "Confirm intent" false None;
     mkObjective "process-proposal" "Process proposal" false None].

Definition other_goal : Goal :=
  mkGoal (Some "goal-2") "Write a poem" IN_PROGRESS
    [mkObjective "draft" "Draft the poem" false None].

(** ** Sample single-chain runs *)

(** A world holding one goal, stored and under processing. *)
Definition world_of (g : Goal) : World :=
  mkWorld 0 [] no_calls
    (match goal_id g with Some id => {[ id := g ]} | None => ∅ end)
    [] g emptyGoalState
    (mkHandlerStates emptyGoalState emptyGoalState emptyGoalState)
    (mkBridgeLocals 0 false).

Definition introduced_goal : Goal :=
  mkGoal (Some "goal-1") "Swap 10 USDC to ETH" IN_PROGRESS
    [mkObjective "introduce-agent" "Introduce agent" true None;
     mkObjective "present-operation" "Swap 10 USDC to ETH" false None;
     mkObjective "confirm-intent" "Confirm intent" false None;
     mkObjective "process-proposal" "Process proposal" false None].

(** An intent that takes neither fast path of the validator. *)
Definition swap_intent : Intent :=
  mkIntent (Some "SWAP") (Some "10") None (Some "0xA11CE") (Some "ethereum") None.

Definition reply_with_intent : ChromaResponse :=
  mkResponse "Here is the intent for your swap." (Some swap_intent) None.

(** The counterparty answers with an intent, and the model rejects it. *)
Definition env_rejecting : Env :=
  mkEnv (fun _ => yes "Swap 10 USDC to ETH on ethereum")
    (fun _ => yes (mkVerdict false "wrong operation type"))
    (fun _ => down) (fun _ => yes true)
    (fun _ => yes [reply_with_intent])
    (fun _ => no_rpc) (fun _ => no_solana)
    (Some "ethereum") (Some "0xA11CE") [1%Z] false None false (fun _ => false).

(** The worlds of two steps agree on everything but the goal object and
    the goal store. *)
Definition same_except_goal_db (w w' : World) : Prop :=
  now w' = now w /\ timers w' = timers w /\ calls w' = calls w
  /\ submitted w' = submitted w /\ service w' = service w
  /\ hstates w' = hstates w /\ bridge w' = bridge w.

Definition confirmed_goal : Goal :=
  mkGoal (Some "goal-1") "Swap 10 USDC to ETH" IN_PROGRESS
    [mkObjective "introduce-agent" "Introduce agent" true None;
     mkObjective "present-operation" "Swap 10 USDC to ETH" true None;
     mkObjective "confirm-intent" "Confirm intent" true None;
     mkObjective "process-proposal" "Process proposal" false None].

(** A proposal with an empty [transactions] array, and one without it. *)
Definition empty_proposal : TransactionProposal := mkProposal None None (Some []) None.

Definition reply_with_empty_proposal : ChromaResponse :=
  mkResponse "Here is your proposal." None (Some [empty_proposal]).

(** The stored reply of a handler for the goal under processing. *)
Definition with_stored (h : HandlerName) (r : ChromaResponse) (w : World) : World :=
  match goal_id (goal w) with
  | Some id => set_my_state h (set_goalResponses (insert id r)) w
  | None => w
  end.

(** The handler is registered, its chains are configured, and
    [initialize] could not set the account up: no private key, and the
    key derivation failed. *)
Definition env_without_account : Env :=
  mkEnv (fun _ => yes "Swap 10 USDC to ETH on ethereum")
    (fun _ => yes (mkVerdict true "ok"))
    (fun _ => down) (fun _ => yes true)
    (fun _ => yes [reply_with_intent])
    (fun _ => no_rpc) (fun _ => no_solana)
    (Some "ethereum") None [1%Z] false None false (fun _ => false).

(** ** The confirm-intent step of the service *)

(** A reply that carries proposals settles before the timer fires. *)
Definition proposals_arrive_in_time (reply : Reply (list ChromaResponse)) : Prop :=
  exists responses r,
    answer reply = Ret responses
    /\ (Z.of_N (latency reply) < INTENT_CONFIRMATION_TIMEOUT)%Z
    /\ In r responses /\ r_proposals r <> None.

(** Two worlds hold the same goal object, store, caches and submissions. *)
Definition same_memory (w w' : World) : Prop :=
  goal w' = goal w /\ db w' = db w /\ service w' = service w
  /\ hstates w' = hstates w /\ submitted w' = submitted w.

Definition presented_goal : Goal :=
  mkGoal (Some "goal-1") "Swap 10 USDC to ETH" IN_PROGRESS
    [mkObjective "introduce-agent" "Introduce agent" true None;
     mkObjective "present-operation" "Swap 10 USDC to ETH" true None;
     mkObjective "confirm-intent" "Confirm intent" false None;
     mkObjective "process-proposal" "Process proposal" false None].

(** The counterparty's proposals arrive after 45 s. *)
Definition env_late : Env :=
  mkEnv (fun _ => yes "confirm")
    (fun _ => down) (fun _ => down) (fun _ => yes true)
    (fun _ => mkReply 45000 (Ret [reply_with_empty_proposal]))
    (fun _ => no_rpc) (fun _ => no_solana)
    (Some "ethereum") (Some "0xA11CE") [1%Z] false None false (fun _ => false).

(** The service holds the reply with the intent for the goal. *)
Definition world_awaiting_confirmation : World :=
  set_service (set_goalResponses (insert "goal-1" reply_with_intent))
    (world_of presented_goal).

(** A stand-in for the service's [processObjective] that only reports
    which objective it was given: it aborts that objective. *)
Definition report_objective (objective : option Objective) : M unit :=
  match objective with
  | Some o => markAborted (obj_id o)
  | None => throw (TypeError "Cannot read properties of undefined (reading 'id')")
  end.

(** ** The bridge-confirmation wait *)

(** The n-th message to the counterparty is answered. *)
Definition answers (E : Env) (n : nat) : Prop :=
  exists responses, answer (env_sendMessage E n) = Ret responses.

(** The m-th extraction yields a token amount that reads as positive. *)
Definition reports_positive (E : Env) (m : nat) : Prop :=
  exists raw, answer (env_generateAmounts E m) = Ret raw
              /\ positive_balance E (cleaned_entry (raw_tokenAmount raw)) = true.

(** The m-th extraction yields no positive token amount: a zero or
    unreadable amount, or no amount because the extraction failed. *)
Definition reports_nothing (E : Env) (m : nat) : Prop :=
  (exists raw, answer (env_generateAmounts E m) = Ret raw
               /\ positive_balance E (cleaned_entry (raw_tokenAmount raw)) = false)
  \/ (exists e, answer (env_generateAmounts E m) = Throw e).

(** The time one balance query takes: the message and the extraction. *)
Definition query_latency (E : Env) (n m : nat) : Z :=
  (Z.of_N (latency (env_sendMessage E n)) + Z.of_N (latency (env_generateAmounts E m)))%Z.

(** The world after one balance query: two oracle calls and their time. *)
Definition after_balance_query (E : Env) (w : World) : World :=
  set_now (fun t => (t + Z.of_N (latency (env_generateAmounts E (n_generateAmounts (calls w)))))%Z)
    (set_calls bump_generateAmounts
       (set_now (fun t => (t + Z.of_N (latency (env_sendMessage E (n_sendMessage (calls w)))))%Z)
          (set_calls bump_sendMessage w))).

(** The world after a round that found no balance: the query, the wait
    of the current interval, and the interval doubled up to the cap. *)
Definition after_idle_round (E : Env) (w : World) : World :=
  set_bridge (fun l => mkBridgeLocals (Z.min (checkInterval (bridge w) * 2) 60000) (hasBalance l))
    (after_timer (checkInterval (bridge w)) (after_balance_query E w)).

(** The world after the round that found a balance. *)
Definition after_positive_round (E : Env) (w : World) : World :=
  snd (completeObjective "wait-for-chain-b-confirmation"
         (set_bridge (fun l => mkBridgeLocals (checkInterval l) true)
            (after_balance_query E w))).

(** The world as the wait starts: the interval at its initial value. *)
Definition bridge_start (w : World) : World :=
  set_bridge (fun _ => mkBridgeLocals BRIDGE_INITIAL_CHECK_INTERVAL_MS false) w.

(** [n] rounds in a row that find no balance, the first one in world [w]:
    each begins before the ceiling, its query is answered and its
    extraction shows no positive amount. *)
Fixpoint idle_rounds (E : Env) (start : Z) (n : nat) (w : World) : Prop :=
  match n with
  | O => True
  | S n' =>
    (now w - start < MAX_BRIDGE_WAIT_TIME_MS)%Z
    /\ answers E (n_sendMessage (calls w))
    /\ reports_nothing E (n_generateAmounts (calls w))
    /\ idle_rounds E start n' (after_idle_round E w)
  end.

(** The world those [n] rounds leave. *)
Fixpoint after_idle_rounds (E : Env) (n : nat) (w : World) : World :=
  match n with
  | O => w
  | S n' => after_idle_rounds E n' (after_idle_round E w)
  end.

(** A host [parseFloat(s) > 0] for the sample runs: on a cleaned amount,
    some digit is not zero. *)
Fixpoint has_nonzero_digit (s : string) : bool :=
  match s with
  | EmptyString => false
  | String c rest =>
    let n := nat_of_ascii c in
    ((49 <=? n)%nat && (n <=? 57)%nat) || has_nonzero_digit rest
  end.

Definition balance_text : ChromaResponse :=
  mkResponse "Your balance on Arbitrum Sepolia" None None.

(** The bridged funds show up at the fourth balance query. *)
Definition env_bridge : Env :=
  mkEnv (fun _ => down) (fun _ => down)
    (fun m => if (m <? 3)%nat then yes (mkRawAmounts "0.000000 USDC" "0")
              else yes (mkRawAmounts "25.000000 USDC" "0"))
    (fun _ => yes true)
    (fun _ => yes [balance_text])
    (fun _ => no_rpc) (fun _ => no_solana)
    (Some "arbitrum-sepolia") (Some "0xA11CE") [421614%Z] false None false
    has_nonzero_digit.

(** The bridged funds never show up. *)
Definition env_no_funds : Env :=
  mkEnv (fun _ => down) (fun _ => down)
    (fun _ => yes (mkRawAmounts "0.000000 USDC" "0"))
    (fun _ => yes true)
    (fun _ => yes [balance_text])
    (fun _ => no_rpc) (fun _ => no_solana)
    (Some "arbitrum-sepolia") (Some "0xA11CE") [421614%Z] false None false
    has_nonzero_digit.

(** The counterparty takes 41 minutes to answer a balance query, and the
    funds are there. *)
Definition env_slow_bridge : Env :=
  mkEnv (fun _ => down) (fun _ => down)
    (fun _ => yes (mkRawAmounts "25.000000 USDC" "0"))
    (fun _ => yes true)
    (fun _ => mkReply 2460000 (Ret [balance_text]))
    (fun _ => no_rpc) (fun _ => no_solana)
    (Some "arbitrum-sepolia") (Some "0xA11CE") [421614%Z] false None false
    has_nonzero_digit.

Definition bridging_goal : Goal :=
  mkGoal (Some "goal-3") "Move funds to the best yield" IN_PROGRESS
    [mkObjective "introduce-agent" "Introduce agent" true None;
     mkObjective "process-proposal-bridge-chain-a" "Sign the bridge" true None;
     mkObjective "wait-for-chain-b-confirmation" "Wait for the bridge" false None;
     mkObjective "present-deposit-operation-chain-b" "Deposit" false None].

(** ** Frames and the scheduler tick *)

(** A computation leaves the part [f] of the world as it found it. *)
Definition keeps {X A} (f : World -> X) (m : M A) : Prop :=
  forall w, f (snd (m w)) = f w.

(** Nothing is held for the goal id in a set of caches. *)
Definition cleared (id : string) (s : GoalState) : Prop :=
  (id ∉ processingGoals s)
  /\ goalResponses s !! id = None /\ cryptoGoalCache s !! id = None.

(** The world in which the tick starts the handler of a goal: the goal id
    has just been added to the processing set. *)
Definition handed_over (id : string) (w : World) : World :=
  set_service (set_processingGoals (fun s => s ∪ {[id]})) w.

(** Stands for the [processObjective] of the CDP and multi-chain handlers
    in the sample ticks, which never reach them. *)
Definition not_modelled : M unit := diverge.

(** The classifier says yes; the model and the counterparty are down. *)
Definition env_only_classifier : Env :=
  mkEnv (fun _ => down) (fun _ => down) (fun _ => down) (fun _ => yes true) (fun _ => down)
    (fun _ => no_rpc) (fun _ => no_solana)
    (Some "ethereum") (Some "0xA11CE") [1%Z] false None false (fun _ => false).

(** A world whose store holds one goal, before any tick. *)
Definition stored_world (g : Goal) : World :=
  mkWorld 0 [] no_calls
    (match goal_id g with Some id => {[ id := g ]} | None => ∅ end)
    [] no_goal emptyGoalState
    (mkHandlerStates emptyGoalState emptyGoalState emptyGoalState)
    (mkBridgeLocals 0 false).

Definition stored_for (h : HandlerName) (id : string) (r : ChromaResponse) (w : World)
  : World :=
  set_my_state h (set_goalResponses (insert id r)) w.

(** The single-chain handler holds the intent of a goal whose confirm-intent
    step is next. *)
Definition world_before_confirmation : World :=
  stored_for SingleChain "goal-1" reply_with_intent (stored_world presented_goal).

(** ** Routing of goals *)

(** The goal has an objective with this id. *)
Definition has_objective (objectiveId : string) (g : Goal) : bool :=
  existsb (has_id objectiveId) (goal_objectives g).

(** Some objective id of the goal contains the word chain. *)
Definition names_a_chain (g : Goal) : bool :=
  existsb mentions_chain (goal_objectives g).

(** The classifier is down from the start. *)
Definition env_classifier_down : Env :=
  mkEnv (fun _ => yes "hello") (fun _ => yes (mkVerdict true "fine")) (fun _ => down)
    (fun _ => down) (fun _ => yes [hello])
    (fun _ => no_rpc) (fun _ => no_solana)
    (Some "ethereum") (Some "0xA11CE") [1%Z] false None false (fun _ => false).

(** Every oracle answers; the classifier says yes. *)
Definition env_up : Env :=
  mkEnv (fun _ => yes "hello") (fun _ => yes (mkVerdict true "fine")) (fun _ => down)
    (fun _ => yes true) (fun _ => yes [hello])
    (fun _ => no_rpc) (fun _ => no_solana)
    (Some "ethereum") (Some "0xA11CE") [1%Z] false None false (fun _ => false).

(** ** The validators *)

(** The next answer of the model-based check in a world. *)
Definition next_verdict (E : Env) (w : World) : Outcome Verdict :=
  answer (env_generateVerdict E (n_generateVerdict (calls w))).

(** A bridge between two sepolia chains: the first fast path. *)
Definition bridge_reply : ChromaResponse :=
  mkResponse "Bridge intent"
    (Some (mkIntent None (Some "5") None (Some "0xA11CE")
             (Some "optimism-sepolia") (Some "arbitrum-sepolia")))
    None.

(** The next answers of the text model and of the counterparty. *)
Definition next_text (E : Env) (w : World) : Outcome string :=
  answer (env_generateText E (n_generateText (calls w))).

Definition next_replies (E : Env) (w : World) : Outcome (list ChromaResponse) :=
  answer (env_sendMessage E (n_sendMessage (calls w))).

(** ** Retrying with a budget of [m] attempts *)

(** The clock does not run backwards while the operation runs. *)
Definition takes_time {T} (op : M T) : Prop :=
  forall w, (now w <= now (snd (op w)))%Z.

(** The waits after attempts [k], [k+1], ..., [k+n-1]. *)
Definition backoff_waits (k n : nat) : list Z := map backoff_delay (seq k n).

(** ** Token amounts *)

(** Every character of the string is a decimal digit or a dot. *)
Fixpoint only_digits_and_dots (s : string) : bool :=
  match s with
  | EmptyString => true
  | String c rest => digit_or_dot c && only_digits_and_dots rest
  end.

(** The next answer of the extraction model in a world. *)
Definition next_amounts (E : Env) (w : World) : Outcome RawAmounts :=
  answer (env_generateAmounts E (n_generateAmounts (calls w))).

(** The extraction model answers with units and spaces around the
    numbers, and with an aToken amount that has no digit. *)
Definition env_amounts : Env :=
  mkEnv (fun _ => down) (fun _ => down)
    (fun _ => yes (mkRawAmounts " 37.850000 USDC" "none"))
    (fun _ => down) (fun _ => down)
    (fun _ => no_rpc) (fun _ => no_solana)
    None None [] false None false (fun _ => false).

(** ** EVM transactions *)

(** [tx.chainId ? Number(tx.chainId) : this.defaultChain.id] *)
Definition chain_of (tx : BaseTransaction) : Z :=
  if truthy (tx_chainId tx) then default defaultChain_id (tx_chainId tx)
  else defaultChain_id.

(** [initialize] left a client for the chain. *)
Definition has_client (E : Env) (chainId : Z) : bool :=
  existsb (Z.eqb chainId) (evm_chainClients E).

(** The chain calls the next transaction gets. *)
Definition next_rpc (E : Env) (w : World) : EvmRpc := env_evmRpc E (n_evmRpc (calls w)).

(** The gas estimate a transaction goes out with: the chain's, or the
    default when the estimation throws. *)
Definition gas_of (rpc : EvmRpc) (tx : BaseTransaction) : Z :=
  match answer (rpc_estimateGas rpc) with
  | Ret estimate => estimate
  | _ => if is_string "0x" (tx_data tx) then 21000%Z else 300000%Z
  end.

(** The transaction passes the checks made before any chain call, and
    has no value to convert. *)
Definition sendable (E : Env) (tx : BaseTransaction) : Prop :=
  has_client E (chain_of tx) = true
  /\ truthy (tx_data tx) = true
  /\ truthy (tx_value tx) = false.

(** The chain takes the transaction: the estimation settles, the fee
    query, the send and the wait for the receipt succeed. *)
Definition chain_accepts (rpc : EvmRpc) (hash : string) : Prop :=
  answer (rpc_estimateGas rpc) <> Diverge
  /\ answer (rpc_estimateFeesPerGas rpc) = Ret tt
  /\ answer (rpc_sendTransaction rpc) = Ret hash
  /\ answer (rpc_waitForTransactionReceipt rpc) = Ret tt.

(** The world after the four chain calls of one transaction. *)
Definition after_evm_transaction (E : Env) (tx : BaseTransaction) (w : World) : World :=
  let rpc := next_rpc E w in
  set_now (fun t => (t + Z.of_N (latency (rpc_waitForTransactionReceipt rpc)))%Z)
    (set_now (fun t => (t + Z.of_N (latency (rpc_sendTransaction rpc)))%Z)
       (set_submitted (fun l => (l ++ [EvmSubmission tx (chain_of tx) (gas_of rpc tx)])%list)
          (set_now (fun t => (t + Z.of_N (latency (rpc_estimateFeesPerGas rpc)))%Z)
             (set_now (fun t => (t + Z.of_N (latency (rpc_estimateGas rpc)))%Z)
                (set_calls bump_evmRpc w))))).

(** A contract call without a chain id, and chain calls of which the gas
    estimation fails. *)
Definition call_tx : BaseTransaction := mkTx (Some "0xa9059cbb") None (Some "0xC0FFEE") None.

Definition rpc_without_estimate : EvmRpc :=
  mkEvmRpc down (yes tt) (yes "0xhash") (yes tt).

Definition env_evm : Env :=
  mkEnv (fun _ => yes "confirm") (fun _ => down) (fun _ => down) (fun _ => yes true)
    (fun _ => down)
    (fun _ => rpc_without_estimate) (fun _ => no_solana)
    (Some "sepolia") (Some "0xA11CE") [11155111%Z; 1%Z] false None false (fun _ => false).

(** A transaction without data. *)
Definition empty_tx : BaseTransaction := mkTx None (Some 1%Z) (Some "0xC0FFEE") None.

(** The chain takes every transaction it is given. *)
Definition chain_always_accepts (E : Env) : Prop :=
  forall n, exists hash, chain_accepts (env_evmRpc E n) hash.

(** The submission of a transaction with the chain calls number [n]. *)
Definition submission_of (E : Env) (tx : BaseTransaction) (n : nat) : Submission :=
  EvmSubmission tx (chain_of tx) (gas_of (env_evmRpc E n) tx).

(** A proposal of two transactions, the second one without data. *)
Definition half_good_proposal : TransactionProposal :=
  mkProposal None None (Some [call_tx; empty_tx]) None.

Definition reply_with_half_good_proposal : ChromaResponse :=
  mkResponse "Here is your proposal." None (Some [half_good_proposal]).

(** ** Solana proposals *)

(** [initialize] left a connection and a keypair in the Solana handler. *)
Definition solana_ready (E : Env) : Prop :=
  sol_connection E = true /\ is_Some (sol_keypair E).

(** The chain calls the next Solana transaction gets. *)
Definition next_solana (E : Env) (w : World) : SolanaRpc :=
  env_solanaRpc E (n_solanaRpc (calls w)).

(** The marks the process-proposal step leaves in the handler's stored
    reply before it signs. *)
Definition chain_id_ensured (h : HandlerName) (id : string) : World -> World :=
  set_my_state h (set_goalResponses (alter (on_first_proposal ensureChainId) id)).

(** Example mode with a Solana handler whose simulations report an
    error. *)
Definition failing_simulation : SolanaRpc :=
  mkSolanaRpc (Ret tt) (yes true) down down down.

Definition env_example_mode : Env :=
  mkEnv (fun _ => yes "confirm") (fun _ => down) (fun _ => down) (fun _ => yes true)
    (fun _ => down)
    (fun _ => no_rpc) (fun _ => failing_simulation)
    (Some "sepolia") (Some "0xA11CE") [11155111%Z] true (Some "So1anaKey") true
    (fun _ => false).

Definition solana_proposal : TransactionProposal :=
  mkProposal None None None (Some (mkSerTx (mkTx None None None None) (Some "AQID"))).

Definition reply_with_solana_proposal : ChromaResponse :=
  mkResponse "Here is your proposal." None (Some [solana_proposal]).

(** A proposal with a serialized transaction and a transactions array. *)
Definition mixed_proposal : TransactionProposal :=
  mkProposal None None (Some []) (Some (mkSerTx (mkTx None None None None) (Some "AQID"))).

Definition reply_with_mixed_proposal : ChromaResponse :=
  mkResponse "Here is your proposal." None (Some [mixed_proposal]).

(** ** What a run can throw *)

(** Whatever the computation throws satisfies [P]. *)
Definition throws_only {A} (P : exn -> Prop) (m : M A) : Prop :=
  forall w e w', m w = (Throw e, w') -> P e.

(** ** A run with a cooperative environment *)

(** The text model always returns a text that is not empty. *)
Definition text_model_answers (E : Env) : Prop :=
  forall n, exists msg, answer (env_generateText E n) = Ret msg /\ truthy msg = true.

(** The model-based checks settle, on any verdict or by throwing. *)
Definition validator_settles (E : Env) : Prop :=
  forall n, answer (env_generateVerdict E n) <> Diverge.

(** The first proposal of the list can be signed in every world. *)
Definition can_be_signed (E : Env) (proposals : list TransactionProposal) : Prop :=
  forall w, exists s w1, signFirstProposal E SingleChain proposals w = (Ret s, w1).

(** Each answer of the counterparty holds a reply with an intent and a
    reply with proposals of which the first one can be signed. *)
Definition counterparty_cooperates (E : Env) : Prop :=
  forall n, exists replies withIntent withProposals proposals,
    answer (env_sendMessage E n) = Ret replies
    /\ List.find (fun r => truthy (r_intent r)) replies = Some withIntent
    /\ List.find has_proposals replies = Some withProposals
    /\ r_proposals withProposals = Some proposals
    /\ can_be_signed E proposals.

(** The four objectives of a single-chain goal, none completed. *)
Definition fresh_objectives (operation : string) : list Objective :=
  [mkObjective "introduce-agent" "Introduce agent, with wallet data and chain preferences"
     false None;
   mkObjective "present-operation" operation false None;
   mkObjective "confirm-intent" "Confirm user intent to proceed with operation" false None;
   mkObjective "process-proposal" "Process transaction proposal" false None].

(** A counterparty whose every answer carries an intent and a proposal
    without transactions. *)
Definition full_reply : ChromaResponse :=
  mkResponse "Here you are." (Some swap_intent) (Some [empty_proposal]).

Definition env_cooperative : Env :=
  mkEnv (fun _ => yes "Swap 10 USDC to ETH on ethereum")
    (fun _ => yes (mkVerdict false "wrong operation type"))
    (fun _ => down) (fun _ => yes true)
    (fun _ => yes [full_reply])
    (fun _ => no_rpc) (fun _ => no_solana)
    (Some "ethereum") (Some "0xA11CE") [1%Z] false None false (fun _ => false).

Definition fresh_goal : Goal :=
  mkGoal (Some "goal-1") "Swap 10 USDC to ETH" IN_PROGRESS
    (fresh_objectives "Swap 10 USDC to ETH").

(** The facts a step hands on to the next one. *)
Definition hands_on (w w' : World) : Prop :=
  goal_id (goal w') = goal_id (goal w)
  /\ timers w' = timers w
  /\ (forall k, is_Some (db w' !! k) <-> is_Some (db w !! k)).

(** ** What a run leaves true *)

(** Whatever the computation ends in, it leaves [I] true when it found
    it true. *)
Definition preserves {A} (I : World -> Prop) (m : M A) : Prop :=
  forall w, I w -> I (snd (m w)).

(** No goal is DONE: neither the goal object nor a stored record. *)
Definition nothing_done (w : World) : Prop :=
  goal_status (goal w) <> DONE
  /\ forall k g, db w !! k = Some g -> goal_status g <> DONE.

(** ** Sample multi-chain runs *)

(** The eleven objectives of a multi-chain goal, none completed. *)
Definition multiChain_objectives (operation : string) : list Objective :=
  [mkObjective "introduce-agent" "Introduce agent, with wallet data and chain preferences"
     false None;
   mkObjective "present-operation" operation false None;
   mkObjective "confirm-intent" "Confirm user intent to proceed with operation" false None;
   mkObjective "process-proposal" "Process transaction proposal" false None;
   mkObjective "present-bridge-operation-chain-a"
     "Bridge all USDC from Optimism Sepolia to Arbitrum Sepolia" false None;
   mkObjective "confirm-intent-bridge-chain-a" "Confirm user intent to proceed with operation"
     false None;
   mkObjective "process-proposal-bridge-chain-a" "Process transaction proposal" false None;
   mkObjective "wait-for-chain-b-confirmation" "Wait for chain B confirmation" false None;
   mkObjective "present-deposit-operation-chain-b" "Deposit all USDC to Arbitrum Sepolia"
     false None;
   mkObjective "confirm-intent-deposit-chain-b" "Confirm user intent to proceed with operation"
     false None;
   mkObjective "process-proposal-deposit-chain-b" "Process transaction proposal" false None].

Definition yield_goal : Goal :=
  mkGoal (Some "goal-4") "Find Best Yield Example" IN_PROGRESS
    (multiChain_objectives "Find the best yield for USDC on Optimism and Arbitrum").

(** The counterparty answers in plain text, and the model finds the
    funds where the yield is best. *)
Definition env_best_already : Env :=
  mkEnv (fun _ => yes "Find the best yield for my USDC")
    (fun _ => yes (mkVerdict true "fine")) (fun _ => down) (fun _ => yes true)
    (fun _ => yes [mkResponse "All your funds are on the best chain already." None None])
    (fun _ => no_rpc) (fun _ => no_solana)
    (Some "optimism-sepolia") (Some "0xA11CE") [11155420%Z] false None false
    (fun _ => false).

(** The next answer of the yes-or-no model in a world. *)
Definition next_yes_no (E : Env) (w : World) : Outcome bool :=
  answer (env_generateTrueOrFalse E (n_generateTrueOrFalse (calls w))).

(** The multi-chain objectives after the introduction. *)
Definition introduced_objectives (operation : string) : list Objective :=
  update_first (has_id "introduce-agent") complete (multiChain_objectives operation).

(** The reply a handler holds for the goal carries no intent, or the
    handler holds none. *)
Definition holds_no_intent (h : HandlerName) (id : string) (w : World) : Prop :=
  forall r, goalResponses (get_hstate h (hstates w)) !! id = Some r -> r_intent r = None.

(** The same for proposals. *)
Definition holds_no_proposals (h : HandlerName) (id : string) (w : World) : Prop :=
  forall r, goalResponses (get_hstate h (hstates w)) !! id = Some r -> r_proposals r = None.

(** The counterparty answers in plain text, and the model finds that
    funds should be moved. *)
Definition env_text_only : Env :=
  mkEnv (fun _ => yes "Find the best yield for my USDC")
    (fun _ => yes (mkVerdict true "fine")) (fun _ => down) (fun _ => yes false)
    (fun _ => yes [mkResponse "Consider moving your funds to Arbitrum." None None])
    (fun _ => no_rpc) (fun _ => no_solana)
    (Some "optimism-sepolia") (Some "0xA11CE") [11155420%Z] false None false
    (fun _ => false).

Definition introduced_yield_goal : Goal :=
  mkGoal (Some "goal-4") "Find Best Yield Example" IN_PROGRESS
    (introduced_objectives "Find the best yield for USDC on Optimism and Arbitrum").

(** What makes a call of the single-chain [processObjective] idle: the
    pending objective is confirm-intent and no intent is held, or it is
    process-proposal and no proposals are held, or its id is none of the
    four the handler knows. *)
Definition nothing_to_do (E : Env) (id : string) (o : Objective) (w : World) : Prop :=
  (obj_id o = "confirm-intent" /\ holds_no_intent SingleChain id w)
  \/ (obj_id o = "process-proposal" /\ holds_no_proposals SingleChain id w)
  \/ singleChain_step E (obj_id o) = None.

(** ** Wallet addresses *)

(** Every character of the string is a hexadecimal digit. *)
Fixpoint all_hex (s : string) : bool :=
  match s with
  | EmptyString => true
  | String c rest => is_hex_digit c && all_hex rest
  end.

(** The text holds 0x followed by forty hexadecimal digits. *)
Definition holds_address (text : string) : Prop :=
  exists before address after,
    text = before ++ "0x" ++ address ++ after
    /\ String.length address = 40%nat
    /\ all_hex address = true.

(** ** Sample CDP runs *)

(** Some reply of the list holds a wallet address. *)
Definition offers_wallet (responses : list ChromaResponse) : bool :=
  existsb (fun r => evmAddressRegex_test (r_text r)) responses.

(** The counterparty answers every message, and never with an address. *)
Definition never_offers_wallet (E : Env) : Prop :=
  forall n, exists responses,
    answer (env_sendMessage E n) = Ret responses /\ offers_wallet responses = false.

(** The world after a message to the counterparty has been answered. *)
Definition after_message (E : Env) (w : World) : World :=
  set_now (fun t => (t + Z.of_N (latency (env_sendMessage E (n_sendMessage (calls w)))))%Z)
    (set_calls bump_sendMessage w).

Definition wallet_goal : Goal :=
  mkGoal (Some "goal-5") "Transfer ETH Example" IN_PROGRESS
    [mkObjective "ask-for-wallet" "Ask the agent for a new wallet" false None;
     mkObjective "present-operation" "Transfer 0.0001 ETH" false None;
     mkObjective "confirm-intent" "Confirm user intent to proceed with transfer" false None;
     mkObjective "confirm-proposal" "Confirm the transaction proposal" false None].

(** The counterparty answers with a transaction hash. *)
Definition env_hash_reply : Env :=
  mkEnv (fun _ => down) (fun _ => down) (fun _ => down) (fun _ => yes true)
    (fun _ => yes [mkResponse
       "Sent: 0x5c504ed432cb51138bcf09aa5e8a410dd4a1e204ef84bfed1be16dfba1b22060" None None])
    (fun _ => no_rpc) (fun _ => no_solana)
    None None [] false None false (fun _ => false).

Definition env_no_wallet : Env :=
  mkEnv (fun _ => down) (fun _ => down) (fun _ => down) (fun _ => yes true)
    (fun _ => yes [hello])
    (fun _ => no_rpc) (fun _ => no_solana)
    None None [] false None false (fun _ => false).

(** The CDP handler holds a reply with proposals for the goal. *)
Definition holds_proposals (id : string) (w : World) : Prop :=
  exists stored,
    goalResponses (get_hstate CDP (hstates w)) !! id = Some stored
    /\ truthy (r_proposals stored) = true.

(** The counterparty answers every message, and no answer holds one of
    the words the confirmation looks for. *)
Definition never_says_success (E : Env) : Prop :=
  forall n, exists responses,
    answer (env_sendMessage E n) = Ret responses
    /\ existsb says_success responses = false.

Definition proposed_wallet_goal : Goal :=
  mkGoal (Some "goal-5") "Transfer ETH Example" IN_PROGRESS
    [mkObjective "ask-for-wallet" "Ask the agent for a new wallet" true None;
     mkObjective "present-operation" "Transfer 0.0001 ETH" true None;
     mkObjective "confirm-intent" "Confirm user intent to proceed with transfer" true None;
     mkObjective "confirm-proposal" "Confirm the transaction proposal" false None].

Definition world_with_proposal : World :=
  with_stored CDP reply_with_empty_proposal (world_of proposed_wallet_goal).

Definition refusal : ChromaResponse :=
  mkResponse "The transfer could NOT be Completed: insufficient funds." None None.

Definition env_refusing : Env :=
  mkEnv (fun _ => down) (fun _ => down) (fun _ => down) (fun _ => yes true)
    (fun _ => yes [hello; refusal])
    (fun _ => no_rpc) (fun _ => no_solana)
    None None [] false None false (fun _ => false).

(** The counterparty answers every message, and never with an intent. *)
Definition never_offers_intent (E : Env) : Prop :=
  forall n, exists responses,
    answer (env_sendMessage E n) = Ret responses
    /\ List.find (fun r => truthy (r_intent r)) responses = None.

(** The world after the text model has answered. *)
Definition after_text (E : Env) (w : World) : World :=
  set_now (fun t => (t + Z.of_N (latency (env_generateText E (n_generateText (calls w)))))%Z)
    (set_calls bump_generateText w).

Definition env_silent_model : Env :=
  mkEnv (fun _ => yes EmptyString) (fun _ => down) (fun _ => down) (fun _ => yes true)
    (fun _ => yes [hello])
    (fun _ => no_rpc) (fun _ => no_solana)
    None None [] false None false (fun _ => false).

Definition env_no_intent : Env :=
  mkEnv (fun _ => yes "Transfer 0.0001 ETH") (fun _ => down) (fun _ => down) (fun _ => yes true)
    (fun _ => yes [hello])
    (fun _ => no_rpc) (fun _ => no_solana)
    None None [] false None false (fun _ => false).

(** ** The confirm-intent step of the handlers *)





(** ** Example goals *)

(** An in-progress goal of the store carries the name in its own. *)
Definition names_in_progress (name : string) (w : World) : Prop :=
  exists k g, db w !! k = Some g /\ goal_status g = IN_PROGRESS
              /\ includes name (goal_name g) = true.

Definition uuid_of_time (t : Z) : string :=
  if (t =? 0)%Z then "b850bc30-45f8-0041-a00a-83df46d8555d"
  else "7c9e6679-7425-40de-944b-e07fc1f90ae7".

(** ** A handler that throws during a tick *)

(** The goal object at hand carries the id. *)
Definition has_key (id : string) (w : World) : Prop := goal_key (goal w) = Some id.

(** A CDP goal whose wallet request is behind it. *)
Definition asked_wallet_goal : Goal :=
  mkGoal (Some "goal-5") "Transfer ETH Example" IN_PROGRESS
    [mkObjective "ask-for-wallet" "Ask the agent for a new wallet" true None;
     mkObjective "present-operation" "Transfer 0.0001 ETH" false None;
     mkObjective "confirm-intent" "Confirm user intent to proceed with transfer" false None;
     mkObjective "confirm-proposal" "Confirm the transaction proposal" false None].

(** ** What a tick can throw *)

(** The exception is one that the classification model threw at some
    call. *)
Definition classifier_failure (E : Env) (e : exn) : Prop :=
  exists n, answer (env_generateTrueOrFalse E n) = Throw e.

(** A handler that throws whatever it is given. *)
Definition broken_handler : M unit := throw (TypeError "goal.objectives is not iterable").

(** ** A CDP run with a cooperative environment *)

(** The four objectives of a CDP goal, none completed. *)
Definition cdp_objectives (operation : string) : list Objective :=
  [mkObjective "ask-for-wallet" "Ask the agent for a new wallet" false None;
   mkObjective "present-operation" operation false None;
   mkObjective "confirm-intent" "Confirm user intent to proceed with transfer" false None;
   mkObjective "confirm-proposal" "Confirm the transaction proposal" false None].

(** Each answer of the counterparty holds an address, a reply with an
    intent, a reply with proposals and a word of success. *)
Definition cdp_counterparty_cooperates (E : Env) : Prop :=
  forall n, exists replies withIntent withProposals,
    answer (env_sendMessage E n) = Ret replies
    /\ offers_wallet replies = true
    /\ List.find (fun r => truthy (r_intent r)) replies = Some withIntent
    /\ List.find (fun r => truthy (r_proposals r)) replies = Some withProposals
    /\ existsb says_success replies = true.

Definition cdp_reply : ChromaResponse :=
  mkResponse "Success: wallet 0x5c504ed432cb51138bcf09aa5e8a410dd4a1e204 is ready."
    (Some swap_intent) (Some [empty_proposal]).

Definition env_cdp_cooperative : Env :=
  mkEnv (fun _ => yes "Transfer 0.0001 ETH")
    (fun _ => yes (mkVerdict false "wrong operation type"))
    (fun _ => down) (fun _ => yes true)
    (fun _ => yes [cdp_reply])
    (fun _ => no_rpc) (fun _ => no_solana)
    None None [] false None false (fun _ => false).


(* ===================================================================== *)
(** * Part III: properties                                                 *)
(* ===================================================================== *)

(** ** Signer routing *)

Lemma serialized_truthy_carries p :
  truthy (serialized_of p) = true -> carries_serialized p.
Proof.
  unfold serialized_of, carries_serialized.
  destruct (transaction p) as [tx|]; [|discriminate].
  destruct (serializedTransaction tx) as [blob|] eqn:Hs; [|discriminate].
  intros _. exists tx, blob. auto.
Qed.

(** With the two registered handlers, the EVM predicate is asked first and
    the Solana one only when it said no. *)
Lemma getSignatureHandler_cases p :
  getSignatureHandler p =
  Ret (if truthy (serialized_of p) then SolanaSignatureHandler else EVMSignatureHandler).
Proof.
  unfold getSignatureHandler, getSignatureHandler_in, signatureHandlers.
  cbn [find_throwing supportsChain]. unfold evm_supportsChain, solana_supportsChain.
  unfold serialized_of.
  destruct (transaction p) as [tx|]; [|reflexivity].
  destruct (serializedTransaction tx) as [blob|]; [|reflexivity].
  destruct blob; reflexivity.
Qed.

(** C1, as amended. Routing never raises "no signer found" with the two
    registered handlers: a proposal whose transaction carries a non-empty
    [serializedTransaction] goes to the Solana handler, and every other
    proposal goes to the EVM handler: one with a [transactions] array, one
    with neither field, one whose [serializedTransaction] is missing or
    empty. *)
Theorem getSignatureHandler_routes (p : TransactionProposal) :
  (carries_nonempty_serialized p -> getSignatureHandler p = Ret SolanaSignatureHandler)
  /\ (~ carries_nonempty_serialized p -> getSignatureHandler p = Ret EVMSignatureHandler)
  /\ (forall e, getSignatureHandler p <> Throw e).
Proof.
  rewrite getSignatureHandler_cases. unfold carries_nonempty_serialized, serialized_of.
  repeat split.
  - intros (tx & blob & -> & -> & Hne). destruct blob; [congruence | reflexivity].
  - intros Hnot. destruct (transaction p) as [tx|]; [|reflexivity].
    destruct (serializedTransaction tx) as [blob|] eqn:Hs; [|reflexivity].
    destruct blob as [|a blob]; [reflexivity|]. exfalso. apply Hnot.
    exists tx, (String a blob). split; [reflexivity|]. split; [exact Hs | discriminate].
  - intros e. discriminate.
Qed.

Lemma getSignatureHandler_routes_witness :
  getSignatureHandler
    (mkProposal None None None (Some (mkSerTx (mkTx None None None None) (Some "AQID"))))
  = Ret SolanaSignatureHandler
  /\ getSignatureHandler empty_proposal = Ret EVMSignatureHandler
  /\ getSignatureHandler bare_proposal = Ret EVMSignatureHandler
  /\ getSignatureHandler empty_blob_proposal = Ret EVMSignatureHandler.
Proof.
  split; [|split; [|split]].
  - apply (proj1 (getSignatureHandler_routes
                    (mkProposal None None None
                       (Some (mkSerTx (mkTx None None None None) (Some "AQID")))))).
    eexists _, _. split; [reflexivity|]. split; [reflexivity|]. discriminate.
  - apply (proj1 (proj2 (getSignatureHandler_routes empty_proposal))).
    intros (tx & blob & Ht & _). discriminate Ht.
  - apply (proj1 (proj2 (getSignatureHandler_routes bare_proposal))).
    intros (tx & blob & Ht & _). discriminate Ht.
  - apply (proj1 (proj2 (getSignatureHandler_routes empty_blob_proposal))).
    intros (tx & blob & Ht & Hs & Hne). injection Ht as <-. injection Hs as <-.
    apply Hne. reflexivity.
Defined.

(** C1, the stated claim fails: the bare proposal carries neither field,
    and routing selects the EVM handler instead of raising. *)
Lemma bare_proposal_routed_to_evm :
  transactions bare_proposal = None
  /\ transaction bare_proposal = None
  /\ getSignatureHandler bare_proposal = Ret EVMSignatureHandler.
Proof. repeat split. Qed.

(** A [serializedTransaction] field that is present but empty also goes to
    the EVM handler, which is asked first. *)
Lemma empty_blob_routed_to_evm :
  serialized_of empty_blob_proposal = Some EmptyString
  /\ getSignatureHandler empty_blob_proposal = Ret EVMSignatureHandler.
Proof. split; reflexivity. Qed.

(** The "no signer found" error exists, and a router holding the Solana
    handler alone raises it. *)
Lemma no_handler_found_error :
  getSignatureHandler_in [SolanaSignatureHandler]
    (mkProposal None None (Some []) (Some (mkSerTx (mkTx None None None None) None)))
  = Throw (Error "No signature handler found for chain").
Proof. reflexivity. Qed.

(** ** The monad *)

Ltac unfold_js :=
  unfold ask, await, sleep, Date_now, lift, gets, modify, try_catch, bind, ret, throw, diverge.

Lemma bind_Ret {A B} (m : M A) (k : A -> M B) w a w' :
  m w = (Ret a, w') -> bind m k w = k a w'.
Proof. unfold bind. intros ->. reflexivity. Qed.

Lemma bind_Throw {A B} (m : M A) (k : A -> M B) w e w' :
  m w = (Throw e, w') -> bind m k w = (Throw e, w').
Proof. unfold bind. intros ->. reflexivity. Qed.

Lemma bind_Diverge {A B} (m : M A) (k : A -> M B) w w' :
  m w = (Diverge, w') -> bind m k w = (Diverge, w').
Proof. unfold bind. intros ->. reflexivity. Qed.

Lemma bind_gets {A B} (f : World -> A) (k : A -> M B) w : bind (gets f) k w = k (f w) w.
Proof. reflexivity. Qed.

Lemma bind_modify {B} (f : World -> World) (k : unit -> M B) w :
  bind (modify f) k w = k tt (f w).
Proof. reflexivity. Qed.

Lemma bind_ret {A B} (a : A) (k : A -> M B) w : bind (ret a) k w = k a w.
Proof. reflexivity. Qed.

Lemma bind_lift_Ret {A B} (a : A) (k : A -> M B) w : bind (lift (Ret a)) k w = k a w.
Proof. reflexivity. Qed.

(** ** Lists and maps *)

Lemma find_update_first {A} (p : A -> bool) (f : A -> A) (l : list A) :
  (forall x, p (f x) = p x) ->
  List.find p (update_first p f l) = option_map f (List.find p l).
Proof.
  intros Hp. induction l as [|x l IH]; simpl; [reflexivity|].
  destruct (p x) eqn:Hx; simpl.
  - rewrite Hp, Hx. reflexivity.
  - rewrite Hx. exact IH.
Qed.

Lemma update_first_none {A} (p : A -> bool) (f : A -> A) (l : list A) :
  List.find p l = None -> update_first p f l = l.
Proof.
  induction l as [|x l IH]; simpl; [reflexivity|].
  destruct (p x); [discriminate|]. intros H. rewrite (IH H). reflexivity.
Qed.

Lemma is_Some_alter {A} (f : A -> A) (m : gmap string A) i k :
  is_Some (alter f i m !! k) <-> is_Some (m !! k).
Proof.
  destruct (decide (i = k)) as [->|Hne].
  - rewrite lookup_alter_eq.
    destruct (m !! k); simpl; split; intros [x H]; eauto; discriminate.
  - rewrite lookup_alter_ne by exact Hne. reflexivity.
Qed.

(** ** retryWithBackoff *)

Lemma retryWithBackoff_step {T} (op : M T) opts onAbort w :
  retryWithBackoff op opts onAbort w =
  if (maxRetries opts <=? currentAttempt opts)%nat then
    match onAbort with
    | Some abort => bind abort (fun _ => ret None) w
    | None => (Ret None, w)
    end
  else
    match op w with
    | (Ret result, w1) => (Ret (Some result), w1)
    | (Throw error, w1) =>
      retryWithBackoff op (mkRetryOptions (maxRetries opts) (S (currentAttempt opts)))
        onAbort (after_timer (backoff_delay (currentAttempt opts)) w1)
    | (Diverge, w1) => (Diverge, w1)
    end.
Proof.
  rewrite retryWithBackoff_equation_1.
  destruct (le_lt_dec (maxRetries opts) (currentAttempt opts)) as [H|H]; simpl.
  - apply Nat.leb_le in H. rewrite H. reflexivity.
  - apply Nat.leb_gt in H. rewrite H. reflexivity.
Qed.

Lemma service_retryWithBackoff_step {T} (op : M T) opts w :
  service_retryWithBackoff op opts w =
  if (maxRetries opts <=? currentAttempt opts)%nat then (Ret None, w)
  else
    match op w with
    | (Ret result, w1) => (Ret (Some result), w1)
    | (Throw error, w1) =>
      service_retryWithBackoff op (mkRetryOptions (maxRetries opts) (S (currentAttempt opts)))
        (after_timer (backoff_delay (currentAttempt opts)) w1)
    | (Diverge, w1) => (Diverge, w1)
    end.
Proof.
  rewrite service_retryWithBackoff_equation_1.
  destruct (le_lt_dec (maxRetries opts) (currentAttempt opts)) as [H|H]; simpl.
  - apply Nat.leb_le in H. rewrite H. reflexivity.
  - apply Nat.leb_gt in H. rewrite H. reflexivity.
Qed.

(** The service's retrier is the shared one without a callback. *)
Lemma service_retryWithBackoff_agrees {T} (op : M T) m :
  forall n k w, (m - k = n)%nat ->
  service_retryWithBackoff op (mkRetryOptions m k) w
  = retryWithBackoff op (mkRetryOptions m k) None w.
Proof.
  induction n as [|n IH]; intros k w Hn;
    rewrite service_retryWithBackoff_step, retryWithBackoff_step; simpl.
  - assert (Hle : (m <=? k)%nat = true) by (apply Nat.leb_le; lia).
    rewrite Hle. reflexivity.
  - assert (Hgt : (m <=? k)%nat = false) by (apply Nat.leb_gt; lia).
    rewrite Hgt. destruct (op w) as [[v|e|] w1]; try reflexivity.
    apply IH. lia.
Qed.

(** Failed attempts are skipped over, one wait each. *)
Lemma retryWithBackoff_skip_failures {T} (op : M T) m onAbort :
  forall n k w, throws_for op k n w -> (k + n <= m)%nat ->
  retryWithBackoff op (mkRetryOptions m k) onAbort w
  = retryWithBackoff op (mkRetryOptions m (k + n)) onAbort (failed_run op k n w).
Proof.
  induction n as [|n IH]; intros k w Hthrows Hle; simpl in *.
  - replace (k + 0)%nat with k by lia. reflexivity.
  - destruct Hthrows as (e & w' & Hop & Hrest).
    rewrite retryWithBackoff_step. simpl.
    assert (Hgt : (m <=? k)%nat = false) by (apply Nat.leb_gt; lia).
    rewrite Hgt, Hop. simpl.
    rewrite (IH (S k) _ Hrest) by lia.
    replace (S k + n)%nat with (k + S n)%nat by lia. reflexivity.
Qed.

Lemma always_fails_throws_for {T} (op : M T) :
  always_fails op -> forall n k w, throws_for op k n w.
Proof.
  intros Hfail. induction n as [|n IH]; intros k w; simpl; [exact I|].
  destruct (Hfail w) as (e & w' & Hop). exists e, w'. split; [exact Hop | apply IH].
Qed.

Lemma retryWithBackoff_exhausted {T} (op : M T) m k onAbort w :
  throws_for op k (m - k) w ->
  retryWithBackoff op (mkRetryOptions m k) onAbort w
  = match onAbort with
    | Some abort => bind abort (fun _ => ret None) (failed_run op k (m - k) w)
    | None => (Ret None, failed_run op k (m - k) w)
    end.
Proof.
  intros Hthrows.
  destruct (le_lt_dec m k) as [Hle|Hlt].
  - replace (m - k)%nat with 0%nat in * by lia. simpl.
    rewrite retryWithBackoff_step. simpl.
    assert (H : (m <=? k)%nat = true) by (apply Nat.leb_le; lia).
    rewrite H. reflexivity.
  - rewrite (retryWithBackoff_skip_failures op m onAbort (m - k) k w Hthrows) by lia.
    rewrite retryWithBackoff_step. simpl.
    assert (H : (m <=? k + (m - k))%nat = true) by (apply Nat.leb_le; lia).
    rewrite H. reflexivity.
Qed.


Lemma retryWithBackoff_no_throw {T} (op : M T) m onAbort :
  completes_quietly onAbort ->
  forall n k w e, (m - k = n)%nat ->
  fst (retryWithBackoff op (mkRetryOptions m k) onAbort w) <> Throw e.
Proof.
  intros Hquiet. induction n as [|n IH]; intros k w e Hn;
    rewrite retryWithBackoff_step; simpl.
  - assert (Hle : (m <=? k)%nat = true) by (apply Nat.leb_le; lia).
    rewrite Hle. destruct onAbort as [abort|]; [|discriminate].
    unfold bind, ret. specialize (Hquiet abort eq_refl w).
    destruct (abort w) as [[[]|e'|] w1]; simpl in *; try discriminate.
    exfalso. exact (Hquiet e' eq_refl).
  - assert (Hgt : (m <=? k)%nat = false) by (apply Nat.leb_gt; lia).
    rewrite Hgt. destruct (op w) as [[v|e'|] w1]; simpl; try discriminate.
    apply IH. lia.
Qed.

Lemma backoff_delay_formula attempt :
  backoff_delay attempt = (1000 * 2 ^ Z.of_nat attempt)%Z.
Proof. reflexivity. Qed.

Lemma now_after_timer ms w : now (after_timer ms w) = (now w + ms)%Z.
Proof. reflexivity. Qed.

Lemma timers_after_timer ms w : timers (after_timer ms w) = (timers w ++ [ms])%list.
Proof. reflexivity. Qed.

(** C3. An operation that fails at every invocation, retried with
    [maxRetries = 3] from attempt 0: it is invoked in the initial world,
    again after a wait of 1000 * 2^0 ms, and a third time after a wait of
    1000 * 2^1 ms; after the third failure the retrier waits 1000 * 2^2 ms
    and returns null without a fourth invocation. The waits add up to at
    least 3000 ms (they are 7000 ms). The service's own retrier does the
    same. *)
Theorem retryWithBackoff_three_attempts {T} (op : M T) (w : World) :
  always_fails op ->
  exists e0 w0 e1 w1 e2 w2,
    op w = (Throw e0, w0)
    /\ op (after_timer (1000 * 2 ^ 0) w0) = (Throw e1, w1)
    /\ op (after_timer (1000 * 2 ^ 1) w1) = (Throw e2, w2)
    /\ retryWithBackoff op (mkRetryOptions 3 0) None w
       = (Ret None, after_timer (1000 * 2 ^ 2) w2)
    /\ service_retryWithBackoff op (mkRetryOptions 3 0) w
       = (Ret None, after_timer (1000 * 2 ^ 2) w2)
    /\ ((now (after_timer (1000 * 2 ^ 0) w0) - now w0)
        + (now (after_timer (1000 * 2 ^ 1) w1) - now w1)
        + (now (after_timer (1000 * 2 ^ 2) w2) - now w2) >= 3000)%Z.
Proof.
  intros Hfail.
  destruct (Hfail w) as (e0 & w0 & H0).
  destruct (Hfail (after_timer (1000 * 2 ^ 0) w0)) as (e1 & w1 & H1).
  destruct (Hfail (after_timer (1000 * 2 ^ 1) w1)) as (e2 & w2 & H2).
  exists e0, w0, e1, w1, e2, w2.
  assert (Hrun : retryWithBackoff op (mkRetryOptions 3 0) None w
                 = (Ret None, after_timer (1000 * 2 ^ 2) w2)).
  { rewrite retryWithBackoff_step. simpl. rewrite H0.
    rewrite retryWithBackoff_step. simpl.
    change (backoff_delay 0) with (1000 * 2 ^ 0)%Z. rewrite H1.
    rewrite retryWithBackoff_step. simpl.
    change (backoff_delay 1) with (1000 * 2 ^ 1)%Z. rewrite H2.
    rewrite retryWithBackoff_step. simpl. reflexivity. }
  split; [exact H0|]. split; [exact H1|]. split; [exact H2|].
  split; [exact Hrun|]. split.
  - rewrite (service_retryWithBackoff_agrees op 3 3 0 w eq_refl). exact Hrun.
  - rewrite !now_after_timer. lia.
Qed.

Lemma sendMessage_env_down_fails text : always_fails (sendMessage env_down text).
Proof. intros w. eexists. eexists. reflexivity. Defined.

Lemma retryWithBackoff_three_attempts_witness :
  always_fails (sendMessage env_down "status?")
  /\ exists e0 w0 e1 w1 e2 w2,
       sendMessage env_down "status?" world0 = (Throw e0, w0)
       /\ sendMessage env_down "status?" (after_timer (1000 * 2 ^ 0) w0) = (Throw e1, w1)
       /\ sendMessage env_down "status?" (after_timer (1000 * 2 ^ 1) w1) = (Throw e2, w2)
       /\ retryWithBackoff (sendMessage env_down "status?") (mkRetryOptions 3 0) None world0
          = (Ret None, after_timer (1000 * 2 ^ 2) w2)
       /\ service_retryWithBackoff (sendMessage env_down "status?") (mkRetryOptions 3 0) world0
          = (Ret None, after_timer (1000 * 2 ^ 2) w2)
       /\ ((now (after_timer (1000 * 2 ^ 0) w0) - now w0)
           + (now (after_timer (1000 * 2 ^ 1) w1) - now w1)
           + (now (after_timer (1000 * 2 ^ 2) w2) - now w2) >= 3000)%Z.
Proof.
  split.
  - exact (sendMessage_env_down_fails "status?").
  - exact (retryWithBackoff_three_attempts (sendMessage env_down "status?") world0
             (sendMessage_env_down_fails "status?")).
Defined.

(** The same run, evaluated: three calls to the counterparty, the timers
    1000, 2000 and 4000 ms, and the clock 7000 ms later. *)
Example retry_down_run :
  let r := retryWithBackoff (sendMessage env_down "status?") (mkRetryOptions 3 0) None world0 in
  fst r = Ret None
  /\ n_sendMessage (calls (snd r)) = 3%nat
  /\ timers (snd r) = [1000; 2000; 4000]%Z
  /\ now (snd r) = 7000%Z.
Proof. vm_compute. repeat split. Qed.

(** The waits of attempts 0 to 21 are delays a timer takes as given. *)
Lemma backoff_delay_below_limit attempt :
  (attempt < 22)%nat -> (backoff_delay attempt <= TIMEOUT_MAX)%Z.
Proof.
  intros Hlt. unfold backoff_delay, RETRY_DELAY_MS, TIMEOUT_MAX.
  assert (Hpow : (2 ^ Z.of_nat attempt <= 2 ^ 21)%Z)
    by (apply Z.pow_le_mono_r; lia).
  change (2 ^ 21)%Z with 2097152%Z in Hpow. lia.
Qed.





(** ** isCryptoGoal *)

Lemma isCryptoGoal_hit E g id cached w :
  goal_key g = Some id ->
  cryptoGoalCache (service w) !! id = Some cached ->
  isCryptoGoal E g w = (Ret cached, w).
Proof.
  intros Hkey Hhit. unfold isCryptoGoal. rewrite Hkey.
  unfold bind, gets. rewrite Hhit. reflexivity.
Qed.

(** What a call that misses the cache does. *)
Lemma isCryptoGoal_miss E g id w :
  goal_key g = Some id ->
  cryptoGoalCache (service w) !! id = None ->
  let n := n_generateTrueOrFalse (calls w) in
  let reply := env_generateTrueOrFalse E n in
  let asked :=
    set_now (fun t => (t + Z.of_N (latency reply))%Z)
      (set_calls bump_generateTrueOrFalse
         (set_service (set_cryptoGoalCache (insert id None)) w)) in
  isCryptoGoal E g w =
  match answer reply with
  | Ret result =>
    (Ret (Some result), set_service (set_cryptoGoalCache (insert id (Some result))) asked)
  | Throw e => (Throw e, asked)
  | Diverge => (Diverge, asked)
  end.
Proof.
  intros Hkey Hmiss. unfold isCryptoGoal. rewrite Hkey.
  unfold bind at 1. unfold gets at 1. rewrite Hmiss.
  unfold generateTrueOrFalse. unfold_js. simpl.
  destruct (answer (env_generateTrueOrFalse E (n_generateTrueOrFalse (calls w))));
    reflexivity.
Qed.






(** The sample run evaluated: the second goal's classification throws
    half-way and leaves an undefined entry; the first goal's entry stays,
    and the oracle was asked twice in all. *)
Example classifier_run :
  let w1 := snd (isCryptoGoal env_classifier swap_goal world0) in
  let w2 := snd (isCryptoGoal env_classifier other_goal w1) in
  let w3 := snd (isCryptoGoal env_classifier swap_goal w2) in
  cryptoGoalCache (service w3) !! "goal-1" = Some (Some true)
  /\ cryptoGoalCache (service w3) !! "goal-2" = Some None
  /\ fst (isCryptoGoal env_classifier other_goal w3) = Ret None
  /\ n_generateTrueOrFalse (calls w3) = 2%nat.
Proof. vm_compute. repeat split. Qed.

(** ** The present-operation step *)

(** The result object of the validator is truthy whatever it says, so the
    test [if (!isValidIntent)] of the handlers never takes its branch. *)
Lemma validation_result_truthy (r : ValidationResult) : truthy r = true.
Proof. reflexivity. Qed.

(** C2, the code at the failing input. The reply carries an intent; the
    validator, asked directly, answers invalid; the present-operation step
    still stores the reply and completes the objective at the first
    attempt, without a retry. *)
Theorem handleOperation_accepts_rejected_intent :
  let w := world_of introduced_goal in
  let w' := snd (singleChain_handleOperation env_rejecting w) in
  fst (validateOperationResponse env_rejecting reply_with_intent w)
  = Ret (mkValidationResult false "wrong operation type")
  /\ fst (singleChain_handleOperation env_rejecting w) = Ret tt
  /\ getObjectiveStatus (goal w') "present-operation" = COMPLETED
  /\ getObjectiveStatus (goal w) "present-operation" = PENDING
  /\ goalResponses (st_singleChain (hstates w')) !! "goal-1" = Some reply_with_intent
  /\ n_sendMessage (calls w') = 1%nat
  /\ timers w' = [].
Proof. vm_compute. repeat split. Qed.

(** ** BaseGoalHandler *)

Lemma goal_key_id g id : goal_key g = Some id -> goal_id g = Some id.
Proof.
  unfold goal_key. destruct (goal_id g) as [i|]; [|discriminate].
  destruct (truthy i); [|discriminate]. congruence.
Qed.

Lemma getLatestResponse_spec h w id :
  goal_key (goal w) = Some id ->
  getLatestResponse h w = (Ret (goalResponses (my_state h w) !! id), w).
Proof. intros Hkey. unfold getLatestResponse. rewrite bind_gets, Hkey. reflexivity. Qed.

Lemma handler_retry_first_try {T} (op : M T) w v w' :
  op w = (Ret v, w') -> handler_retryWithBackoff op w = (Ret (Some v), w').
Proof.
  intros Hop. unfold handler_retryWithBackoff. rewrite retryWithBackoff_step. simpl.
  rewrite Hop. reflexivity.
Qed.

Lemma completeObjective_returns id w :
  completeObjective id w = (Ret tt, snd (completeObjective id w)).
Proof.
  unfold completeObjective, updateGoal. rewrite bind_gets.
  destruct (List.find (has_id id) (goal_objectives (goal w))); [|reflexivity].
  rewrite bind_modify, bind_gets. destruct (goal_id _); reflexivity.
Qed.

Lemma completeObjective_effect id w :
  let w' := snd (completeObjective id w) in
  same_except_goal_db w w'
  /\ goal_id (goal w') = goal_id (goal w)
  /\ goal_objectives (goal w')
     = update_first (has_id id) complete (goal_objectives (goal w))
  /\ (forall k, is_Some (db w' !! k) <-> is_Some (db w !! k)).
Proof.
  unfold completeObjective, updateGoal. rewrite bind_gets.
  destruct (List.find (has_id id) (goal_objectives (goal w))) eqn:Hfind.
  - rewrite bind_modify, bind_gets. simpl.
    destruct (goal_id (goal w)) eqn:Hid; simpl.
    + unfold same_except_goal_db. simpl. repeat split; try reflexivity; try exact Hid.
      all: apply is_Some_alter.
    + unfold same_except_goal_db. simpl.
      repeat split; try reflexivity; try exact Hid; auto.
  - simpl. rewrite (update_first_none _ _ _ Hfind).
    unfold same_except_goal_db. repeat split; auto.
Qed.

Lemma has_id_complete id o : has_id id (complete o) = has_id id o.
Proof. reflexivity. Qed.

(** A completed objective reads COMPLETED. *)
Lemma getObjectiveStatus_completed id g g' o :
  List.find (has_id id) (goal_objectives g) = Some o ->
  goal_objectives g' = update_first (has_id id) complete (goal_objectives g) ->
  getObjectiveStatus g' id = COMPLETED.
Proof.
  intros Hfind Hobjs. unfold getObjectiveStatus.
  rewrite Hobjs, (find_update_first _ _ _ (has_id_complete id)), Hfind. reflexivity.
Qed.

Lemma completeGoal_spec h w id :
  goal_key (goal w) = Some id ->
  completeGoal h w
  = (Ret tt, set_db (alter (with_status DONE) id)
               (set_my_state h (set_goalResponses (delete id)) w)).
Proof.
  intros Hkey. unfold completeGoal, updateGoalStatus.
  rewrite bind_gets, Hkey, bind_modify. reflexivity.
Qed.

(** ** Signing a proposal without transactions *)

Lemma transactions_ensureChainId p : transactions (ensureChainId p) = transactions p.
Proof.
  unfold ensureChainId.
  destruct (truthy (p_chainId p)); [reflexivity|].
  destruct (truthy (p_fromChain p)); [reflexivity|].
  destruct (transactions p) eqn:Ht; simpl; [exact Ht | exact Ht].
Qed.

Lemma evm_signProposal_no_transactions E p w acct :
  evm_getAccount E evm = Ret acct ->
  transactions p = None \/ transactions p = Some [] ->
  evm_signProposal E p w = (Ret (Hashes []), w).
Proof.
  intros Hacct Htx. unfold evm_signProposal. unfold_js. rewrite Hacct.
  destruct Htx as [-> | ->]; reflexivity.
Qed.

Lemma signFirstProposal_no_transactions E h w id p rest acct :
  evm_getAccount E evm = Ret acct ->
  transactions p = None \/ transactions p = Some [] ->
  getSignatureHandler p = Ret EVMSignatureHandler ->
  goal_key (goal w) = Some id ->
  signFirstProposal E h (p :: rest) w
  = (Ret (Hashes []),
     set_my_state h (set_goalResponses (alter (on_first_proposal ensureChainId) id)) w).
Proof.
  intros Hacct Htx Hroute Hkey. unfold signFirstProposal, signProposal.
  rewrite Hroute. rewrite bind_lift_Ret, bind_gets, Hkey, bind_modify.
  simpl. apply (evm_signProposal_no_transactions E _ _ acct Hacct).
  rewrite transactions_ensureChainId. exact Htx.
Qed.

(** The EVM handler has its account. A proposal it handles whose
    [transactions] are absent or empty is signed, in any world, by returning
    the empty list of hashes and changing nothing. The process-proposal
    step, finding such a proposal first in the stored reply, then ends
    normally at its first attempt: the process-proposal objective is
    completed, the stored status of the goal is DONE, the stored reply is
    dropped, and no transaction was handed to a network, no oracle or chain
    call made and no timer armed. *)
Lemma handleProposal_with_account (E : Env) (w : World) (id : string)
  (stored : ChromaResponse) (p : TransactionProposal) (rest : list TransactionProposal)
  (acct : ChainAccount) :
  evm_getAccount E evm = Ret acct ->
  transactions p = None \/ transactions p = Some [] ->
  getSignatureHandler p = Ret EVMSignatureHandler ->
  goal_key (goal w) = Some id ->
  goalResponses (st_singleChain (hstates w)) !! id = Some stored ->
  r_proposals stored = Some (p :: rest) ->
  (forall w0, evm_signProposal E p w0 = (Ret (Hashes []), w0))
  /\ exists w',
       singleChain_handleProposal E w = (Ret tt, w')
       /\ goal_objectives (goal w')
          = update_first (has_id "process-proposal") complete (goal_objectives (goal w))
       /\ (forall o, List.find (has_id "process-proposal") (goal_objectives (goal w)) = Some o ->
                     getObjectiveStatus (goal w') "process-proposal" = COMPLETED)
       /\ (forall g0, db w !! id = Some g0 -> goal_status <$> db w' !! id = Some DONE)
       /\ goalResponses (st_singleChain (hstates w')) !! id = None
       /\ submitted w' = submitted w
       /\ calls w' = calls w
       /\ timers w' = timers w.
Proof.
  intros Hacct Htx Hroute Hkey Hstored Hprops.
  split; [intros w0; exact (evm_signProposal_no_transactions E p w0 acct Hacct Htx)|].
  set (w1 := set_my_state SingleChain
               (set_goalResponses (alter (on_first_proposal ensureChainId) id)) w).
  set (w2 := snd (completeObjective "process-proposal" w1)).
  destruct (completeObjective_effect "process-proposal" w1)
    as ((Hnow & Htimers & Hcalls & Hsub & Hserv & Hhst & Hbr) & Hgid & Hobjs & Hdb).
  fold w2 in Hnow, Htimers, Hcalls, Hsub, Hserv, Hhst, Hbr, Hgid, Hobjs, Hdb.
  assert (Hkey2 : goal_key (goal w2) = Some id).
  { unfold goal_key in *. rewrite Hgid. exact Hkey. }
  assert (Hattempt :
            singleChain_proposal_attempt E (p :: rest) w
            = (Ret true, set_db (alter (with_status DONE) id)
                           (set_my_state SingleChain (set_goalResponses (delete id)) w2))).
  { unfold singleChain_proposal_attempt.
    rewrite (bind_Ret _ _ _ _ _
               (signFirstProposal_no_transactions E SingleChain w id p rest acct
                  Hacct Htx Hroute Hkey)).
    fold w1.
    rewrite (bind_Ret _ _ _ _ _ (completeObjective_returns "process-proposal" w1)).
    fold w2.
    rewrite (bind_Ret _ _ _ _ _ (completeGoal_spec SingleChain w2 id Hkey2)).
    reflexivity. }
  eexists. split.
  - unfold singleChain_handleProposal.
    rewrite (bind_Ret _ _ _ _ _ (getLatestResponse_spec SingleChain w id Hkey)).
    unfold my_state. simpl. rewrite Hstored. simpl. rewrite Hprops.
    rewrite (bind_Ret _ _ _ _ _ (handler_retry_first_try _ _ _ _ Hattempt)).
    reflexivity.
  - simpl. rewrite Hsub, Hcalls, Htimers, Hhst. simpl.
    split; [exact Hobjs|]. split.
    { intros o Ho. exact (getObjectiveStatus_completed _ (goal w) _ o Ho Hobjs). }
    split.
    { intros g0 Hg0. rewrite lookup_alter_eq.
      destruct (proj2 (Hdb id)) as [g1 Hg1]; [exists g0; exact Hg0|].
      rewrite Hg1. reflexivity. }
    split; [apply lookup_delete_eq|]. repeat split.
Qed.

(** ** The confirm-intent step of the service *)

Lemma find_none_no_proposals responses :
  (forall r, In r responses -> r_proposals r = None) ->
  List.find (fun r => truthy (r_proposals r)) responses = None.
Proof.
  induction responses as [|r l IH]; intros H; simpl; [reflexivity|].
  rewrite (H r (or_introl eq_refl)). simpl. apply IH. intros r' Hr'. apply H. right. exact Hr'.
Qed.

Lemma generateText_spec E w :
  generateText E w
  = (answer (env_generateText E (n_generateText (calls w))),
     set_now (fun t => (t + Z.of_N (latency (env_generateText E (n_generateText (calls w)))))%Z)
        (set_calls bump_generateText w)).
Proof.
  unfold generateText, ask. unfold_js. simpl.
  destruct (answer (env_generateText E (n_generateText (calls w)))); reflexivity.
Qed.

Lemma confirmation_without_proposals E k text w :
  ~ proposals_arrive_in_time (env_sendMessage E (n_sendMessage (calls w))) ->
  exists w1,
    service_confirmation_exchange E k text w = (Ret false, w1) /\ same_memory w w1.
Proof.
  intros Hnone. unfold service_confirmation_exchange, sendMessage_or_timeout.
  unfold proposals_arrive_in_time in Hnone.
  unfold_js. simpl.
  destruct (answer (env_sendMessage E (n_sendMessage (calls w)))) as [responses|e|] eqn:Hans.
  - destruct (Z.of_N (latency (env_sendMessage E (n_sendMessage (calls w))))
              <? INTENT_CONFIRMATION_TIMEOUT)%Z eqn:Hlat; simpl.
    + rewrite find_none_no_proposals.
      * eexists. split; [reflexivity|]. repeat split.
      * intros r Hr. destruct (r_proposals r) eqn:Hp; [|reflexivity].
        exfalso. apply Hnone. exists responses, r. repeat split; auto.
        -- apply Z.ltb_lt. exact Hlat.
        -- congruence.
    + eexists. split; [reflexivity|]. repeat split.
  - destruct (Z.of_N (latency (env_sendMessage E (n_sendMessage (calls w))))
              <? INTENT_CONFIRMATION_TIMEOUT)%Z eqn:Hlat; simpl.
    + eexists. split; [reflexivity|]. repeat split.
    + eexists. split; [reflexivity|]. repeat split.
  - eexists. split; [reflexivity|]. repeat split.
Qed.

Lemma service_getLatest_spec w id :
  goal_key (goal w) = Some id ->
  service_getLatestResponseForGoal w = (Ret (goalResponses (service w) !! id), w).
Proof.
  intros Hkey. unfold service_getLatestResponseForGoal. rewrite bind_gets, Hkey. reflexivity.
Qed.

Lemma reopen_all_pending l :
  Forall (fun o => obj_id o <> "introduce-agent" -> obj_completed o = false)
         (reopen_all_but_introduction l).
Proof.
  unfold reopen_all_but_introduction. apply List.Forall_forall. intros o Ho.
  apply in_map_iff in Ho. destruct Ho as (o0 & <- & _).
  unfold has_id. destruct (decide (obj_id o0 = "introduce-agent")) as [Heq|Hne].
  - intros H. contradiction.
  - intros _. reflexivity.
Qed.

Lemma reopen_all_keeps_introduction l o :
  In o l -> obj_id o = "introduce-agent" -> In o (reopen_all_but_introduction l).
Proof.
  intros Hin Hid. unfold reopen_all_but_introduction. apply in_map_iff.
  exists o. split; [|exact Hin]. unfold has_id. rewrite Hid.
  destruct (decide ("introduce-agent" = "introduce-agent")); [reflexivity | contradiction].
Qed.

Lemma has_id_true id o : has_id id o = true -> obj_id o = id.
Proof. unfold has_id. destruct (decide (obj_id o = id)); [auto | discriminate]. Qed.

Lemma find_reopen_all l :
  List.find (has_id "present-operation") (reopen_all_but_introduction l)
  = option_map reopen (List.find (has_id "present-operation") l).
Proof.
  induction l as [|o l IH]; simpl; [reflexivity|].
  destruct (has_id "introduce-agent" o) eqn:Hi.
  - destruct (has_id "present-operation" o) eqn:Hp; [|exact IH].
    apply has_id_true in Hi. apply has_id_true in Hp. rewrite Hi in Hp. discriminate.
  - change (has_id "present-operation" (reopen o)) with (has_id "present-operation" o).
    destruct (has_id "present-operation" o); [reflexivity | exact IH].
Qed.

Lemma updateGoal_spec w id :
  goal_id (goal w) = Some id ->
  updateGoal w = (Ret tt, set_db (alter (fun _ => goal w) id) w).
Proof. intros Hid. unfold updateGoal. rewrite bind_gets, Hid. reflexivity. Qed.

(** The confirm-intent step of the service itself, [handleIntent] of
    ChromaService. It is called by [processObjective] of the service, which
    only [processCryptoGoal] calls, and nothing calls that: a tick hands a
    goal to a handler and runs the handler's step. For a goal whose stored
    reply carries an intent and no proposals, once the confirmation text
    is generated: when no reply carrying proposals settles before the 30 s
    timer (the reply is late, never comes, fails, or carries none), this
    step re-opens every objective but introduce-agent, writes the goal to
    the store, and goes on as [processObjective] called with the
    present-operation objective, now re-opened. *)
Lemma handleIntent_restarts (E : Env) (k : option Objective -> M unit) (w : World)
  (id : string) (stored : ChromaResponse) (intent : Intent) (msg : string) :
  goal_key (goal w) = Some id ->
  goalResponses (service w) !! id = Some stored ->
  r_intent stored = Some intent ->
  r_proposals stored = None ->
  answer (env_generateText E (n_generateText (calls w))) = Ret msg ->
  ~ proposals_arrive_in_time (env_sendMessage E (n_sendMessage (calls w))) ->
  exists w',
    service_handleIntent E k w
    = k (List.find (has_id "present-operation") (goal_objectives (goal w'))) w'
    /\ goal_objectives (goal w') = reopen_all_but_introduction (goal_objectives (goal w))
    /\ Forall (fun o => obj_id o <> "introduce-agent" -> obj_completed o = false)
              (goal_objectives (goal w'))
    /\ (forall o, In o (goal_objectives (goal w)) -> obj_id o = "introduce-agent" ->
                  In o (goal_objectives (goal w')))
    /\ (forall o, List.find (has_id "present-operation") (goal_objectives (goal w)) = Some o ->
                  List.find (has_id "present-operation") (goal_objectives (goal w'))
                  = Some (reopen o))
    /\ (forall g0, db w !! id = Some g0 -> db w' !! id = Some (goal w')).
Proof.
  intros Hkey Hstored Hintent Hprops Htext Hnone.
  set (w1 := set_now (fun t => (t + Z.of_N (latency (env_generateText E (n_generateText (calls w)))))%Z)
        (set_calls bump_generateText w)).
  destruct (confirmation_without_proposals E k msg w1 Hnone)
    as (w2 & Hexchange & Hgoal & Hdb & Hservice & Hhst & Hsub).
  exists (set_db (alter (fun _ => with_objectives reopen_all_but_introduction (goal w2)) id)
            (set_goal (with_objectives reopen_all_but_introduction) w2)).
  split.
  - unfold service_handleIntent.
    rewrite (bind_Ret _ _ _ _ _ (service_getLatest_spec w id Hkey)).
    rewrite Hstored. simpl. rewrite Hprops, Hintent. simpl.
    assert (Hgen : generateText E w = (Ret msg, w1)).
    { rewrite generateText_spec, Htext. reflexivity. }
    rewrite (bind_Ret _ _ _ _ _ Hgen).
    rewrite (bind_Ret _ _ _ _ _ Hexchange).
    rewrite bind_modify.
    rewrite (bind_Ret _ _ _ _ _
               (updateGoal_spec (set_goal (with_objectives reopen_all_but_introduction) w2) id
                  ltac:(simpl; rewrite Hgoal; exact (goal_key_id _ _ Hkey)))).
    rewrite bind_gets. reflexivity.
  - simpl. rewrite Hgoal, Hdb. simpl. split; [reflexivity|].
    split; [apply reopen_all_pending|].
    split; [intros o; apply reopen_all_keeps_introduction|].
    split.
    + intros o Ho. rewrite find_reopen_all, Ho. reflexivity.
    + intros g0 Hg0. rewrite lookup_alter_eq, Hg0. reflexivity.
Qed.

Lemma late_proposals_miss_the_timer :
  ~ proposals_arrive_in_time (mkReply 45000 (Ret [reply_with_empty_proposal])).
Proof.
  intros (responses & r & _ & Hlate & _). simpl in Hlate.
  unfold INTENT_CONFIRMATION_TIMEOUT in Hlate. lia.
Defined.

Lemma handleIntent_restarts_witness :
  ~ proposals_arrive_in_time
      (env_sendMessage env_late (n_sendMessage (calls world_awaiting_confirmation)))
  /\ exists w',
       service_handleIntent env_late report_objective world_awaiting_confirmation
       = report_objective
           (List.find (has_id "present-operation") (goal_objectives (goal w'))) w'
       /\ goal_objectives (goal w')
          = reopen_all_but_introduction (goal_objectives (goal world_awaiting_confirmation))
       /\ Forall (fun o => obj_id o <> "introduce-agent" -> obj_completed o = false)
                 (goal_objectives (goal w'))
       /\ (forall o, In o (goal_objectives (goal world_awaiting_confirmation)) ->
                     obj_id o = "introduce-agent" -> In o (goal_objectives (goal w')))
       /\ (forall o, List.find (has_id "present-operation")
                       (goal_objectives (goal world_awaiting_confirmation)) = Some o ->
                     List.find (has_id "present-operation") (goal_objectives (goal w'))
                     = Some (reopen o))
       /\ (forall g0, db world_awaiting_confirmation !! "goal-1" = Some g0 ->
                      db w' !! "goal-1" = Some (goal w')).
Proof.
  split; [exact late_proposals_miss_the_timer|].
  exact (handleIntent_restarts env_late report_objective world_awaiting_confirmation
           "goal-1" reply_with_intent swap_intent "confirm"
           eq_refl eq_refl eq_refl eq_refl eq_refl late_proposals_miss_the_timer).
Defined.

(** The sample run evaluated: after the timeout the goal in the store has
    its introduction completed and the other three objectives re-opened,
    and the stand-in was given present-operation. *)
Example handleIntent_timeout_run :
  let w' := snd (service_handleIntent env_late report_objective
                   world_awaiting_confirmation) in
  map (fun o => (obj_id o, obj_completed o)) (goal_objectives (goal w'))
  = [("introduce-agent", true); ("present-operation", false);
     ("confirm-intent", false); ("process-proposal", false)]
  /\ map obj_status (goal_objectives (goal w')) = [None; Some ABORTED; None; None]
  /\ db w' !! "goal-1" = Some (goal w')
  /\ now w' = 30250%Z
  /\ timers w' = [30000%Z].
Proof. vm_compute. repeat split. Qed.


(** ** The bridge-confirmation wait *)

Lemma sendMessage_spec E text w :
  sendMessage E text w
  = (answer (env_sendMessage E (n_sendMessage (calls w))),
     set_now (fun t => (t + Z.of_N (latency (env_sendMessage E (n_sendMessage (calls w)))))%Z)
        (set_calls bump_sendMessage w)).
Proof.
  unfold sendMessage, ask. unfold_js. simpl.
  destruct (answer (env_sendMessage E (n_sendMessage (calls w)))); reflexivity.
Qed.

Lemma generateAmounts_spec E w :
  generateAmounts E w
  = (answer (env_generateAmounts E (n_generateAmounts (calls w))),
     set_now (fun t => (t + Z.of_N (latency (env_generateAmounts E (n_generateAmounts (calls w)))))%Z)
        (set_calls bump_generateAmounts w)).
Proof.
  unfold generateAmounts, ask. unfold_js. simpl.
  destruct (answer (env_generateAmounts E (n_generateAmounts (calls w)))); reflexivity.
Qed.

Lemma balance_query_nothing E responses w :
  answers E (n_sendMessage (calls w)) ->
  reports_nothing E (n_generateAmounts (calls w)) ->
  exists resp amounts,
    sendMessage E "What's my balance on Arbitrum Sepolia?" w
    = (Ret resp, set_now (fun t => (t + Z.of_N (latency (env_sendMessage E (n_sendMessage (calls w)))))%Z)
        (set_calls bump_sendMessage w))
    /\ extractTokenAmounts E responses
         (set_now (fun t => (t + Z.of_N (latency (env_sendMessage E (n_sendMessage (calls w)))))%Z)
        (set_calls bump_sendMessage w))
       = (Ret amounts, after_balance_query E w)
    /\ positive_balance E (tokenAmount amounts) = false.
Proof.
  intros (resp & Hsend) Hnothing. 
  unfold extractTokenAmounts. unfold try_catch. unfold bind at 1.
  rewrite generateAmounts_spec. simpl.
  rewrite sendMessage_spec, Hsend.
  destruct Hnothing as [(raw & Hraw & Hpos) | (e & He)].
  - rewrite Hraw. eexists _, _. split; [reflexivity|]. split; [reflexivity|]. exact Hpos.
  - rewrite He. eexists _, _. split; [reflexivity|]. split; [reflexivity|]. reflexivity.
Qed.

Lemma poll_idle_round E fuel start w :
  (now w - start < MAX_BRIDGE_WAIT_TIME_MS)%Z ->
  answers E (n_sendMessage (calls w)) ->
  reports_nothing E (n_generateAmounts (calls w)) ->
  bridge_poll E (S fuel) start w = bridge_poll E fuel start (after_idle_round E w).
Proof.
  intros Htime Hsend Hnothing.
  cbn [bridge_poll]. unfold Date_now. rewrite bind_gets.
  apply Z.ltb_lt in Htime. rewrite Htime.
  unfold bind at 1. rewrite sendMessage_spec.
  destruct Hsend as (resp & Hsend). rewrite Hsend.
  unfold bind at 1.
  destruct (balance_query_nothing E resp w (ex_intro _ resp Hsend) Hnothing)
    as (resp' & amounts & _ & Hextract & Hpos).
  rewrite Hextract, Hpos.
  rewrite bind_gets. unfold sleep. rewrite bind_modify, bind_modify. reflexivity.
Qed.

Lemma balance_query_positive E responses w :
  answers E (n_sendMessage (calls w)) ->
  reports_positive E (n_generateAmounts (calls w)) ->
  exists resp amounts,
    sendMessage E "What's my balance on Arbitrum Sepolia?" w
    = (Ret resp, set_now (fun t => (t + Z.of_N (latency (env_sendMessage E (n_sendMessage (calls w)))))%Z)
        (set_calls bump_sendMessage w))
    /\ extractTokenAmounts E responses
         (set_now (fun t => (t + Z.of_N (latency (env_sendMessage E (n_sendMessage (calls w)))))%Z)
        (set_calls bump_sendMessage w))
       = (Ret amounts, after_balance_query E w)
    /\ positive_balance E (tokenAmount amounts) = true.
Proof.
  intros (resp & Hsend) (raw & Hraw & Hpos).
  unfold extractTokenAmounts. unfold try_catch. unfold bind at 1.
  rewrite generateAmounts_spec. simpl.
  rewrite sendMessage_spec, Hsend, Hraw.
  eexists _, _. split; [reflexivity|]. split; [reflexivity|]. exact Hpos.
Qed.

Lemma poll_positive_round E fuel start w :
  (now w - start < MAX_BRIDGE_WAIT_TIME_MS)%Z ->
  answers E (n_sendMessage (calls w)) ->
  reports_positive E (n_generateAmounts (calls w)) ->
  bridge_poll E (S fuel) start w = (Ret true, after_positive_round E w).
Proof.
  intros Htime Hsend Hpositive.
  cbn [bridge_poll]. unfold Date_now. rewrite bind_gets.
  apply Z.ltb_lt in Htime. rewrite Htime.
  unfold bind at 1. rewrite sendMessage_spec.
  destruct Hsend as (resp & Hsend). rewrite Hsend.
  unfold bind at 1.
  destruct (balance_query_positive E resp w (ex_intro _ resp Hsend) Hpositive)
    as (resp' & amounts & _ & Hextract & Hpos).
  rewrite Hextract, Hpos.
  rewrite bind_modify.
  rewrite (bind_Ret _ _ _ _ _ (completeObjective_returns _ _)). reflexivity.
Qed.

Lemma poll_past_ceiling E fuel start w :
  (MAX_BRIDGE_WAIT_TIME_MS <= now w - start)%Z ->
  hasBalance (bridge w) = false ->
  bridge_poll E (S fuel) start w = (Throw (Error "Bridge confirmation timed out"), w).
Proof.
  intros Htime Hfound. cbn [bridge_poll]. unfold Date_now. rewrite bind_gets.
  apply Z.ltb_ge in Htime. rewrite Htime. rewrite bind_gets, Hfound. reflexivity.
Qed.

Lemma after_idle_round_facts E w :
  let w' := after_idle_round E w in
  now w' = (now w + query_latency E (n_sendMessage (calls w)) (n_generateAmounts (calls w))
            + checkInterval (bridge w))%Z
  /\ timers w' = (timers w ++ [checkInterval (bridge w)])%list
  /\ n_sendMessage (calls w') = S (n_sendMessage (calls w))
  /\ n_generateAmounts (calls w') = S (n_generateAmounts (calls w))
  /\ checkInterval (bridge w') = Z.min (checkInterval (bridge w) * 2) 60000
  /\ hasBalance (bridge w') = hasBalance (bridge w)
  /\ same_memory w w'.
Proof.
  unfold query_latency, same_memory. simpl. repeat split; try reflexivity. lia.
Qed.

Lemma latency_nonneg E n m : (0 <= query_latency E n m)%Z.
Proof. unfold query_latency. lia. Qed.

Lemma markAborted_returns id w :
  markAborted id w = (Ret tt, snd (markAborted id w)).
Proof.
  unfold markAborted, updateGoal. rewrite bind_gets.
  destruct (List.find (has_id id) (goal_objectives (goal w))); [|reflexivity].
  rewrite bind_modify, bind_gets. destruct (goal_id _); reflexivity.
Qed.

Lemma markAborted_effect id w :
  let w' := snd (markAborted id w) in
  same_except_goal_db w w'
  /\ goal_id (goal w') = goal_id (goal w)
  /\ goal_objectives (goal w')
     = update_first (has_id id) abort (goal_objectives (goal w))
  /\ (forall k, is_Some (db w' !! k) <-> is_Some (db w !! k)).
Proof.
  unfold markAborted, updateGoal. rewrite bind_gets.
  destruct (List.find (has_id id) (goal_objectives (goal w))) eqn:Hfind.
  - rewrite bind_modify, bind_gets. simpl.
    destruct (goal_id (goal w)) eqn:Hid; simpl.
    + unfold same_except_goal_db. simpl. repeat split; try reflexivity; try exact Hid.
      all: apply is_Some_alter.
    + unfold same_except_goal_db. simpl.
      repeat split; try reflexivity; try exact Hid; auto.
  - simpl. rewrite (update_first_none _ _ _ Hfind).
    unfold same_except_goal_db. repeat split; auto.
Qed.

Lemma has_id_abort id o : has_id id (abort o) = has_id id o.
Proof. reflexivity. Qed.

Lemma getObjectiveStatus_aborted id g g' o :
  List.find (has_id id) (goal_objectives g) = Some o ->
  obj_completed o = false ->
  goal_objectives g' = update_first (has_id id) abort (goal_objectives g) ->
  getObjectiveStatus g' id = ABORTED.
Proof.
  intros Hfind Hpending Hobjs. unfold getObjectiveStatus.
  rewrite Hobjs, (find_update_first _ _ _ (has_id_abort id)), Hfind. simpl.
  rewrite Hpending. reflexivity.
Qed.

Lemma handleBridgeConfirmation_start E fuel w :
  multiChain_handleBridgeConfirmation E fuel w
  = bind (handler_retryWithBackoff (bridge_poll E fuel (now w)))
      (fun result => if negb (truthy result)
                     then markAborted "wait-for-chain-b-confirmation" else ret tt)
      (bridge_start w).
Proof. reflexivity. Qed.

Lemma fourth_query_completes E w fuel :
  (4 <= fuel)%nat ->
  (forall i, (i < 4)%nat -> answers E (n_sendMessage (calls w) + i)) ->
  (forall i, (i < 3)%nat -> reports_nothing E (n_generateAmounts (calls w) + i)) ->
  reports_positive E (n_generateAmounts (calls w) + 3) ->
  (query_latency E (n_sendMessage (calls w)) (n_generateAmounts (calls w))
   + query_latency E (n_sendMessage (calls w) + 1) (n_generateAmounts (calls w) + 1)
   + query_latency E (n_sendMessage (calls w) + 2) (n_generateAmounts (calls w) + 2)
   + 70000 < MAX_BRIDGE_WAIT_TIME_MS)%Z ->
  exists w',
    multiChain_handleBridgeConfirmation E fuel w = (Ret tt, w')
    /\ n_sendMessage (calls w') = (n_sendMessage (calls w) + 4)%nat
    /\ timers w' = (timers w ++ [10000; 20000; 40000])%list%Z
    /\ checkInterval (bridge w') = 60000%Z
    /\ goal_objectives (goal w')
       = update_first (has_id "wait-for-chain-b-confirmation") complete
           (goal_objectives (goal w)).
Proof.
  intros Hfuel Hsend Hnothing Hpositive Hlat.
  destruct fuel as [|[|[|[|fuel]]]]; try lia.
  set (w0 := bridge_start w).
  set (w1 := after_idle_round E w0).
  set (w2 := after_idle_round E w1).
  set (w3 := after_idle_round E w2).
  destruct (after_idle_round_facts E w0) as (Hnow1 & Htm1 & Hn1 & Hm1 & Hci1 & Hhb1 & Hmem1).
  destruct (after_idle_round_facts E w1) as (Hnow2 & Htm2 & Hn2 & Hm2 & Hci2 & Hhb2 & Hmem2).
  destruct (after_idle_round_facts E w2) as (Hnow3 & Htm3 & Hn3 & Hm3 & Hci3 & Hhb3 & Hmem3).
  fold w1 in Hnow1, Htm1, Hn1, Hm1, Hci1, Hhb1, Hmem1.
  fold w2 in Hnow2, Htm2, Hn2, Hm2, Hci2, Hhb2, Hmem2.
  fold w3 in Hnow3, Htm3, Hn3, Hm3, Hci3, Hhb3, Hmem3.
  change (n_sendMessage (calls w0)) with (n_sendMessage (calls w)) in *.
  change (n_generateAmounts (calls w0)) with (n_generateAmounts (calls w)) in *.
  change (now w0) with (now w) in *.
  change (timers w0) with (timers w) in *.
  change (checkInterval (bridge w0)) with 10000%Z in *.
  set (n0 := n_sendMessage (calls w)) in *.
  set (m0 := n_generateAmounts (calls w)) in *.
  assert (Hs0 := Hsend 0%nat ltac:(lia)). assert (Hs1 := Hsend 1%nat ltac:(lia)).
  assert (Hs2 := Hsend 2%nat ltac:(lia)). assert (Hs3 := Hsend 3%nat ltac:(lia)).
  assert (Hz0 := Hnothing 0%nat ltac:(lia)). assert (Hz1 := Hnothing 1%nat ltac:(lia)).
  assert (Hz2 := Hnothing 2%nat ltac:(lia)).
  replace (n0 + 0)%nat with n0 in Hs0 by lia. replace (m0 + 0)%nat with m0 in Hz0 by lia.
  replace (n0 + 1)%nat with (S n0) in * by lia. replace (m0 + 1)%nat with (S m0) in * by lia.
  replace (n0 + 2)%nat with (S (S n0)) in * by lia.
  replace (m0 + 2)%nat with (S (S m0)) in * by lia.
  replace (n0 + 3)%nat with (S (S (S n0))) in * by lia.
  replace (m0 + 3)%nat with (S (S (S m0))) in * by lia.
  pose proof (latency_nonneg E n0 m0). pose proof (latency_nonneg E (S n0) (S m0)).
  pose proof (latency_nonneg E (S (S n0)) (S (S m0))).
  rewrite Hci1 in *. change (Z.min (10000 * 2) 60000) with 20000%Z in *.
  rewrite Hci2 in *. change (Z.min (20000 * 2) 60000) with 40000%Z in *.
  rewrite Hn1, Hm1 in *. rewrite Hn2, Hm2 in *.
  unfold MAX_BRIDGE_WAIT_TIME_MS in *.
  assert (Hpoll : bridge_poll E (S (S (S (S fuel)))) (now w) w0
                  = (Ret true, after_positive_round E w3)).
  { rewrite (poll_idle_round E _ (now w) w0); [| change (now w0) with (now w); unfold MAX_BRIDGE_WAIT_TIME_MS; lia | exact Hs0 | exact Hz0].
    fold w1.
    rewrite (poll_idle_round E _ (now w) w1); [| unfold MAX_BRIDGE_WAIT_TIME_MS; lia | rewrite Hn1; exact Hs1 | rewrite Hm1; exact Hz1].
    fold w2.
    rewrite (poll_idle_round E _ (now w) w2); [| unfold MAX_BRIDGE_WAIT_TIME_MS; lia | rewrite Hn2; exact Hs2 | rewrite Hm2; exact Hz2].
    fold w3.
    apply poll_positive_round; [unfold MAX_BRIDGE_WAIT_TIME_MS; lia | rewrite Hn3; exact Hs3 | rewrite Hm3; exact Hpositive]. }
  exists (after_positive_round E w3). split.
  - rewrite handleBridgeConfirmation_start. fold w0.
    rewrite (bind_Ret _ _ _ _ _ (handler_retry_first_try _ _ _ _ Hpoll)). reflexivity.
  - assert (Hg0 : goal w0 = goal w) by reflexivity.
    clear Hpoll. clearbody w0 w1 w2 w3.
    unfold after_positive_round.
    destruct (completeObjective_effect "wait-for-chain-b-confirmation"
                (set_bridge (fun l => mkBridgeLocals (checkInterval l) true)
                   (after_balance_query E w3)))
      as ((_ & Htm & Hcalls & _ & _ & _ & Hbr) & _ & Hobjs & _).
    rewrite Hcalls, Htm, Hbr, Hobjs. simpl.
    destruct Hmem1 as (Hg1 & _). destruct Hmem2 as (Hg2 & _). destruct Hmem3 as (Hg3 & _).
    rewrite Hg3, Hg2, Hg1, Hg0.
    split; [rewrite Hn3; lia|].
    split; [rewrite Htm3, Htm2, Htm1, <- !app_assoc; reflexivity|].
    split; [rewrite Hci3; reflexivity | reflexivity].
Qed.

Lemma retry_three_throws {T} (op : M T) w e1 w1 e2 w2 e3 w3 :
  op w = (Throw e1, w1) ->
  op (after_timer (backoff_delay 0) w1) = (Throw e2, w2) ->
  op (after_timer (backoff_delay 1) w2) = (Throw e3, w3) ->
  handler_retryWithBackoff op w = (Ret None, after_timer (backoff_delay 2) w3).
Proof.
  intros H1 H2 H3. unfold handler_retryWithBackoff.
  rewrite retryWithBackoff_step. simpl. rewrite H1.
  rewrite retryWithBackoff_step. simpl. rewrite H2.
  rewrite retryWithBackoff_step. simpl. rewrite H3.
  rewrite retryWithBackoff_step. reflexivity.
Qed.

Lemma poll_idle_rounds E start fuel :
  forall n w, idle_rounds E start n w ->
  bridge_poll E (n + fuel) start w = bridge_poll E fuel start (after_idle_rounds E n w).
Proof.
  induction n as [|n IH]; intros w Hidle; [reflexivity|].
  destruct Hidle as (Htime & Hsend & Hnothing & Hrest).
  change (S n + fuel)%nat with (S (n + fuel)).
  rewrite (poll_idle_round E _ start w Htime Hsend Hnothing).
  exact (IH _ Hrest).
Qed.

Lemma after_idle_rounds_facts E :
  forall n w,
    (10000 <= checkInterval (bridge w))%Z ->
    let w' := after_idle_rounds E n w in
    (now w + 10000 * Z.of_nat n <= now w')%Z
    /\ n_sendMessage (calls w') = (n_sendMessage (calls w) + n)%nat
    /\ hasBalance (bridge w') = hasBalance (bridge w)
    /\ (10000 <= checkInterval (bridge w'))%Z
    /\ same_memory w w'.
Proof.
  induction n as [|n IH]; intros w Hci.
  - simpl. split; [lia|]. split; [lia|]. split; [reflexivity|]. split; [exact Hci|].
    unfold same_memory. auto.
  - destruct (after_idle_round_facts E w) as (Hnow & _ & Hn & _ & Hci1 & Hhb & Hmem).
    pose proof (latency_nonneg E (n_sendMessage (calls w)) (n_generateAmounts (calls w)))
      as Hlat.
    destruct (IH (after_idle_round E w) ltac:(rewrite Hci1; lia))
      as (Hnow' & Hn' & Hhb' & Hci' & Hmem').
    cbn [after_idle_rounds]. cbv zeta.
    split; [rewrite Nat2Z.inj_succ; lia|]. split; [rewrite Hn', Hn; lia|].
    split; [rewrite Hhb', Hhb; reflexivity|]. split; [exact Hci'|].
    destruct Hmem as (H1 & H2 & H3 & H4 & H5).
    destruct Hmem' as (H1' & H2' & H3' & H4' & H5').
    unfold same_memory. rewrite H1', H2', H3', H4', H5'. auto.
Qed.

(** The last of [S n] idle rounds began before the ceiling. *)
Lemma last_idle_round_in_time E start :
  forall n w, idle_rounds E start (S n) w ->
  (now (after_idle_rounds E n w) - start < MAX_BRIDGE_WAIT_TIME_MS)%Z.
Proof.
  induction n as [|n IH]; intros w Hidle.
  - exact (proj1 Hidle).
  - destruct Hidle as (_ & _ & _ & Hrest). exact (IH _ Hrest).
Qed.

(** Rounds are at least 10 s apart, so fewer than 241 of them begin before
    the ceiling. *)
Lemma idle_rounds_bounded E start n w :
  idle_rounds E start n w ->
  (10000 <= checkInterval (bridge w))%Z ->
  (start <= now w)%Z ->
  (n <= 240)%nat.
Proof.
  intros Hidle Hci Hstart. destruct n as [|n]; [lia|].
  pose proof (last_idle_round_in_time E start n w Hidle) as Hlast.
  destruct (after_idle_rounds_facts E n w Hci) as (Hnow & _).
  unfold MAX_BRIDGE_WAIT_TIME_MS in Hlast. lia.
Qed.

(** The rounds begun before the ceiling found nothing, and the next check
    of the clock is at or past the ceiling: the three attempts of the
    retrier throw the time-out error, the later two without a query. *)
Lemma ceiling_reached E w fuel n :
  (241 <= fuel)%nat ->
  idle_rounds E (now w) n (bridge_start w) ->
  (MAX_BRIDGE_WAIT_TIME_MS <= now (after_idle_rounds E n (bridge_start w)) - now w)%Z ->
  exists w',
    multiChain_handleBridgeConfirmation E fuel w = (Ret tt, w')
    /\ (MAX_BRIDGE_WAIT_TIME_MS <= now w' - now w)%Z
    /\ n_sendMessage (calls w') = (n_sendMessage (calls w) + n)%nat
    /\ goal_objectives (goal w')
       = update_first (has_id "wait-for-chain-b-confirmation") abort
           (goal_objectives (goal w))
    /\ fst (bridge_poll E fuel (now w) (bridge_start w))
       = Throw (Error "Bridge confirmation timed out").
Proof.
  intros Hfuel Hidle Hpast.
  set (w0 := bridge_start w) in *.
  assert (Hci0 : (10000 <= checkInterval (bridge w0))%Z)
    by (simpl; unfold BRIDGE_INITIAL_CHECK_INTERVAL_MS; lia).
  pose proof (idle_rounds_bounded E (now w) n w0 Hidle Hci0 ltac:(simpl; lia)) as Hn.
  destruct (after_idle_rounds_facts E n w0 Hci0) as (_ & Hcalls & Hhb & _ & Hmem).
  set (w1 := after_idle_rounds E n w0) in *.
  change (hasBalance (bridge w0)) with false in Hhb.
  destruct fuel as [|fuel]; [lia|].
  assert (Hrun1 : bridge_poll E (S fuel) (now w) w0
                  = (Throw (Error "Bridge confirmation timed out"), w1)).
  { replace (S fuel) with (n + S (fuel - n))%nat by lia.
    rewrite (poll_idle_rounds E (now w) _ n w0 Hidle). fold w1.
    exact (poll_past_ceiling E _ (now w) w1 Hpast Hhb). }
  assert (Hrun2 : bridge_poll E (S fuel) (now w) (after_timer (backoff_delay 0) w1)
                  = (Throw (Error "Bridge confirmation timed out"),
                     after_timer (backoff_delay 0) w1)).
  { apply poll_past_ceiling; [|exact Hhb].
    rewrite now_after_timer. change (backoff_delay 0) with 1000%Z. lia. }
  set (w2 := after_timer (backoff_delay 0) w1) in *.
  assert (Hrun3 : bridge_poll E (S fuel) (now w) (after_timer (backoff_delay 1) w2)
                  = (Throw (Error "Bridge confirmation timed out"),
                     after_timer (backoff_delay 1) w2)).
  { apply poll_past_ceiling; [|exact Hhb].
    unfold w2. rewrite !now_after_timer.
    change (backoff_delay 0) with 1000%Z. change (backoff_delay 1) with 2000%Z. lia. }
  set (w3 := after_timer (backoff_delay 1) w2) in *.
  set (w4 := after_timer (backoff_delay 2) w3).
  exists (snd (markAborted "wait-for-chain-b-confirmation" w4)). split.
  - rewrite handleBridgeConfirmation_start. fold w0.
    rewrite (bind_Ret _ _ _ _ _ (retry_three_throws _ _ _ _ _ _ _ _ Hrun1 Hrun2 Hrun3)).
    fold w4. simpl. apply markAborted_returns.
  - destruct (markAborted_effect "wait-for-chain-b-confirmation" w4)
      as ((Hnow & _ & Hcalls4 & _) & _ & Hobjs & _).
    rewrite Hnow, Hcalls4, Hobjs. split; [|split; [|split]].
    + unfold w4, w3, w2. rewrite !now_after_timer.
      change (backoff_delay 0) with 1000%Z. change (backoff_delay 1) with 2000%Z.
      change (backoff_delay 2) with 4000%Z. lia.
    + exact Hcalls.
    + destruct Hmem as (Hg & _). change (goal w4) with (goal w1). rewrite Hg. reflexivity.
    + rewrite Hrun1. reflexivity.
Qed.

(** A round begun before the ceiling whose query shows the funds ends the
    wait, however long the query took. *)
Lemma positive_round_completes E w fuel n :
  (241 <= fuel)%nat ->
  idle_rounds E (now w) n (bridge_start w) ->
  (now (after_idle_rounds E n (bridge_start w)) - now w < MAX_BRIDGE_WAIT_TIME_MS)%Z ->
  answers E (n_sendMessage (calls (after_idle_rounds E n (bridge_start w)))) ->
  reports_positive E (n_generateAmounts (calls (after_idle_rounds E n (bridge_start w)))) ->
  exists w',
    multiChain_handleBridgeConfirmation E fuel w = (Ret tt, w')
    /\ n_sendMessage (calls w') = (n_sendMessage (calls w) + S n)%nat
    /\ now w'
       = (now (after_idle_rounds E n (bridge_start w))
          + query_latency E
              (n_sendMessage (calls (after_idle_rounds E n (bridge_start w))))
              (n_generateAmounts (calls (after_idle_rounds E n (bridge_start w)))))%Z
    /\ goal_objectives (goal w')
       = update_first (has_id "wait-for-chain-b-confirmation") complete
           (goal_objectives (goal w)).
Proof.
  intros Hfuel Hidle Htime Hsend Hpositive.
  set (w0 := bridge_start w) in *.
  assert (Hci0 : (10000 <= checkInterval (bridge w0))%Z)
    by (simpl; unfold BRIDGE_INITIAL_CHECK_INTERVAL_MS; lia).
  pose proof (idle_rounds_bounded E (now w) n w0 Hidle Hci0 ltac:(simpl; lia)) as Hn.
  destruct (after_idle_rounds_facts E n w0 Hci0) as (_ & Hcalls & _ & _ & Hmem).
  set (w1 := after_idle_rounds E n w0) in *.
  assert (Hpoll : bridge_poll E fuel (now w) w0 = (Ret true, after_positive_round E w1)).
  { replace fuel with (n + S (fuel - n - 1))%nat by lia.
    rewrite (poll_idle_rounds E (now w) _ n w0 Hidle). fold w1.
    exact (poll_positive_round E _ (now w) w1 Htime Hsend Hpositive). }
  exists (after_positive_round E w1). split.
  - rewrite handleBridgeConfirmation_start. fold w0.
    rewrite (bind_Ret _ _ _ _ _ (handler_retry_first_try _ _ _ _ Hpoll)). reflexivity.
  - unfold after_positive_round.
    destruct (completeObjective_effect "wait-for-chain-b-confirmation"
                (set_bridge (fun l => mkBridgeLocals (checkInterval l) true)
                   (after_balance_query E w1)))
      as ((Hnow & _ & Hcalls' & _) & _ & Hobjs & _).
    rewrite Hnow, Hcalls', Hobjs. destruct Hmem as (Hg & _). simpl.
    split; [rewrite Hcalls; simpl; lia|]. split; [unfold query_latency; lia|].
    rewrite Hg. reflexivity.
Qed.

(** C6, as amended. The bridge-confirmation wait, given fuel for its
    rounds. The clock is read at the top of each round only: a round
    begins when less than 40 minutes have passed since the wait started.
    (a) The counterparty answers the first four balance queries, the first
    three extractions show no positive amount and the fourth shows one, and
    the queries are quick enough for the fourth to start before the
    40-minute ceiling: the step ends normally having asked exactly four
    times, with waits of 10 s, 20 s and 40 s between the queries, the
    wait-for-chain-b-confirmation objective completed, and the next
    interval at its cap of 60 s.
    (b) Every round begun before the ceiling has its query answered and
    shows no positive amount, and the clock is then read at or past the
    ceiling: the poll throws "Bridge confirmation timed out", the two
    further attempts of the retrier throw the same without a query, and
    the step ends once at least 40 minutes have passed, with the objective
    not completed but marked ABORTED. Nothing is assumed of queries that
    are not made.
    (c) A round begun before the ceiling whose query is answered and shows
    a positive amount completes the objective, whenever the answer
    arrives: the step ends at the time the round began plus the time the
    query took, be it past the ceiling. *)
Theorem bridge_confirmation_wait (E : Env) (w : World) (fuel : nat) :
  (241 <= fuel)%nat ->
  ((forall i, (i < 4)%nat -> answers E (n_sendMessage (calls w) + i)) ->
   (forall i, (i < 3)%nat -> reports_nothing E (n_generateAmounts (calls w) + i)) ->
   reports_positive E (n_generateAmounts (calls w) + 3) ->
   (query_latency E (n_sendMessage (calls w)) (n_generateAmounts (calls w))
    + query_latency E (n_sendMessage (calls w) + 1) (n_generateAmounts (calls w) + 1)
    + query_latency E (n_sendMessage (calls w) + 2) (n_generateAmounts (calls w) + 2)
    + 70000 < MAX_BRIDGE_WAIT_TIME_MS)%Z ->
   exists w',
     multiChain_handleBridgeConfirmation E fuel w = (Ret tt, w')
     /\ n_sendMessage (calls w') = (n_sendMessage (calls w) + 4)%nat
     /\ timers w' = (timers w ++ [10000; 20000; 40000])%list%Z
     /\ checkInterval (bridge w') = 60000%Z
     /\ (forall o,
           List.find (has_id "wait-for-chain-b-confirmation") (goal_objectives (goal w))
           = Some o ->
           getObjectiveStatus (goal w') "wait-for-chain-b-confirmation" = COMPLETED))
  /\ (forall n,
        idle_rounds E (now w) n (bridge_start w) ->
        (MAX_BRIDGE_WAIT_TIME_MS
         <= now (after_idle_rounds E n (bridge_start w)) - now w)%Z ->
        exists w',
          multiChain_handleBridgeConfirmation E fuel w = (Ret tt, w')
          /\ (MAX_BRIDGE_WAIT_TIME_MS <= now w' - now w)%Z
          /\ n_sendMessage (calls w') = (n_sendMessage (calls w) + n)%nat
          /\ fst (bridge_poll E fuel (now w) (bridge_start w))
             = Throw (Error "Bridge confirmation timed out")
          /\ (forall o,
                List.find (has_id "wait-for-chain-b-confirmation") (goal_objectives (goal w))
                = Some o ->
                obj_completed o = false ->
                getObjectiveStatus (goal w') "wait-for-chain-b-confirmation" = ABORTED))
  /\ (forall n,
        idle_rounds E (now w) n (bridge_start w) ->
        (now (after_idle_rounds E n (bridge_start w)) - now w < MAX_BRIDGE_WAIT_TIME_MS)%Z ->
        answers E (n_sendMessage (calls (after_idle_rounds E n (bridge_start w)))) ->
        reports_positive E
          (n_generateAmounts (calls (after_idle_rounds E n (bridge_start w)))) ->
        exists w',
          multiChain_handleBridgeConfirmation E fuel w = (Ret tt, w')
          /\ n_sendMessage (calls w') = (n_sendMessage (calls w) + S n)%nat
          /\ now w'
             = (now (after_idle_rounds E n (bridge_start w))
                + query_latency E
                    (n_sendMessage (calls (after_idle_rounds E n (bridge_start w))))
                    (n_generateAmounts (calls (after_idle_rounds E n (bridge_start w)))))%Z
          /\ (forall o,
                List.find (has_id "wait-for-chain-b-confirmation") (goal_objectives (goal w))
                = Some o ->
                getObjectiveStatus (goal w') "wait-for-chain-b-confirmation" = COMPLETED)).
Proof.
  intros Hfuel. split; [|split].
  - intros Hsend Hnothing Hpositive Hlat.
    destruct (fourth_query_completes E w fuel ltac:(lia) Hsend Hnothing Hpositive Hlat)
      as (w' & Hrun & Hn & Htimers & Hcap & Hobjs).
    exists w'. repeat (split; [assumption|]).
    intros o Ho. exact (getObjectiveStatus_completed _ (goal w) _ o Ho Hobjs).
  - intros n Hidle Hpast.
    destruct (ceiling_reached E w fuel n Hfuel Hidle Hpast)
      as (w' & Hrun & Hlate & Hn & Hobjs & Htimeout).
    exists w'. repeat (split; [assumption|]).
    intros o Ho Hpending.
    exact (getObjectiveStatus_aborted _ (goal w) _ o Ho Hpending Hobjs).
  - intros n Hidle Htime Hsend Hpositive.
    destruct (positive_round_completes E w fuel n Hfuel Hidle Htime Hsend Hpositive)
      as (w' & Hrun & Hn & Hnow & Hobjs).
    exists w'. repeat (split; [assumption|]).
    intros o Ho. exact (getObjectiveStatus_completed _ (goal w) _ o Ho Hobjs).
Qed.

Lemma env_no_funds_idle start :
  forall n w, (now (after_idle_rounds env_no_funds n w) - start < MAX_BRIDGE_WAIT_TIME_MS)%Z ->
              (0 <= checkInterval (bridge w))%Z ->
              idle_rounds env_no_funds start (S n) w.
Proof.
  induction n as [|n IH]; intros w Htime Hci.
  - split; [exact Htime|]. split; [exists [balance_text]; reflexivity|].
    split; [|exact I]. left. exists (mkRawAmounts "0.000000 USDC" "0"). split; reflexivity.
  - assert (Hci' : (0 <= checkInterval (bridge (after_idle_round env_no_funds w)))%Z)
      by (simpl; lia).
    pose proof (IH (after_idle_round env_no_funds w) Htime Hci') as Hrest.
    split.
    + pose proof (last_idle_round_in_time env_no_funds start n _ Hrest) as Hlast.
      assert (Hmono : forall k v, (0 <= checkInterval (bridge v))%Z ->
                (now v <= now (after_idle_rounds env_no_funds k v))%Z).
      { induction k as [|k IHk]; intros v Hv; [simpl; lia|].
        cbn [after_idle_rounds].
        etransitivity; [|apply IHk; simpl; lia]. simpl. lia. }
      pose proof (Hmono n _ Hci') as Hle.
      assert (now w <= now (after_idle_round env_no_funds w))%Z by (simpl; lia).
      lia.
    + split; [exists [balance_text]; reflexivity|]. split; [|exact Hrest].
      left. exists (mkRawAmounts "0.000000 USDC" "0"). split; reflexivity.
Defined.

Lemma bridge_confirmation_wait_witness :
  (exists w',
     multiChain_handleBridgeConfirmation env_bridge 241 (world_of bridging_goal) = (Ret tt, w')
     /\ n_sendMessage (calls w') = 4%nat
     /\ timers w' = [10000; 20000; 40000]%Z
     /\ checkInterval (bridge w') = 60000%Z
     /\ getObjectiveStatus (goal w') "wait-for-chain-b-confirmation" = COMPLETED)
  /\ (exists w',
        multiChain_handleBridgeConfirmation env_no_funds 241 (world_of bridging_goal)
        = (Ret tt, w')
        /\ (MAX_BRIDGE_WAIT_TIME_MS <= now w' - 0)%Z
        /\ n_sendMessage (calls w') = 42%nat
        /\ getObjectiveStatus (goal w') "wait-for-chain-b-confirmation" = ABORTED)
  /\ (exists w',
        multiChain_handleBridgeConfirmation env_slow_bridge 241 (world_of bridging_goal)
        = (Ret tt, w')
        /\ n_sendMessage (calls w') = 1%nat
        /\ now w' = 2460250%Z
        /\ getObjectiveStatus (goal w') "wait-for-chain-b-confirmation" = COMPLETED).
Proof.
  split; [|split].
  - destruct (bridge_confirmation_wait env_bridge (world_of bridging_goal) 241 (le_n _))
      as (Hfour & _).
    destruct Hfour as (w' & Hrun & Hn & Htimers & Hcap & Hdone).
    + intros i _. exists [balance_text]. reflexivity.
    + intros i Hi. left. exists (mkRawAmounts "0.000000 USDC" "0").
      destruct i as [|[|[|i]]]; [split; reflexivity .. | lia].
    + exists (mkRawAmounts "25.000000 USDC" "0"). split; reflexivity.
    + vm_compute. reflexivity.
    + exists w'. split; [exact Hrun|]. split; [exact Hn|]. split; [exact Htimers|].
      split; [exact Hcap|].
      apply (Hdone (mkObjective "wait-for-chain-b-confirmation" "Wait for the bridge"
                      false None)).
      reflexivity.
  - destruct (bridge_confirmation_wait env_no_funds (world_of bridging_goal) 241 (le_n _))
      as (_ & Hceiling & _).
    destruct (Hceiling 42%nat) as (w' & Hrun & Hlate & Hn & _ & Haborted).
    + apply env_no_funds_idle; [vm_compute; reflexivity | vm_compute; discriminate].
    + vm_compute. discriminate.
    + exists w'. split; [exact Hrun|]. split; [exact Hlate|]. split; [exact Hn|].
      apply (Haborted (mkObjective "wait-for-chain-b-confirmation" "Wait for the bridge"
                         false None)); reflexivity.
  - destruct (bridge_confirmation_wait env_slow_bridge (world_of bridging_goal) 241 (le_n _))
      as (_ & _ & Hpositive).
    destruct (Hpositive 0%nat) as (w' & Hrun & Hn & Hnow & Hdone).
    + exact I.
    + vm_compute. reflexivity.
    + exists [balance_text]. reflexivity.
    + exists (mkRawAmounts "25.000000 USDC" "0"). split; reflexivity.
    + exists w'. split; [exact Hrun|]. split; [exact Hn|]. split; [exact Hnow|].
      apply (Hdone (mkObjective "wait-for-chain-b-confirmation" "Wait for the bridge"
                      false None)).
      reflexivity.
Defined.

(** C6, the stated claim fails: the first balance query begins at once,
    the counterparty takes 41 minutes to answer it, and the answer shows
    the funds. No positive balance was observed within 40 minutes, and the
    step is no time-out failure: it completes the objective, 41 minutes
    after it started. *)
Example late_balance_completes_after_ceiling :
  let w := world_of bridging_goal in
  let w' := snd (multiChain_handleBridgeConfirmation env_slow_bridge 241 w) in
  Z.of_N (latency (env_sendMessage env_slow_bridge 0)) = (41 * 60 * 1000)%Z
  /\ fst (multiChain_handleBridgeConfirmation env_slow_bridge 241 w) = Ret tt
  /\ (MAX_BRIDGE_WAIT_TIME_MS <? now w' - now w)%Z = true
  /\ getObjectiveStatus (goal w') "wait-for-chain-b-confirmation" = COMPLETED
  /\ n_sendMessage (calls w') = 1%nat
  /\ timers w' = [].
Proof. vm_compute. repeat split. Qed.

(** The two sample runs evaluated. In the second one the poll gives up at
    the first check after 40 minutes, having asked 42 times, and the
    retrier then re-invokes it twice in vain. *)
Example bridge_runs :
  let w1 := snd (multiChain_handleBridgeConfirmation env_bridge 241 (world_of bridging_goal)) in
  let w2 := snd (multiChain_handleBridgeConfirmation env_no_funds 241 (world_of bridging_goal)) in
  now w1 = 72000%Z
  /\ timers w1 = [10000; 20000; 40000]%Z
  /\ n_sendMessage (calls w2) = 42%nat
  /\ firstn 5 (timers w2) = [10000; 20000; 40000; 60000; 60000]%Z
  /\ rev (firstn 3 (rev (timers w2))) = [1000; 2000; 4000]%Z
  /\ db w2 !! "goal-3" = Some (goal w2).
Proof. vm_compute. repeat split. Qed.

(** ** Frames: what a step leaves alone *)

Section Keeps.
Context {X : Type} (f : World -> X).

Lemma keeps_ret {A} (a : A) : keeps f (ret a).
Proof. intros w. reflexivity. Qed.
Lemma keeps_throw {A} e : keeps f (@throw A e).
Proof. intros w. reflexivity. Qed.
Lemma keeps_diverge {A} : keeps f (@diverge A).
Proof. intros w. reflexivity. Qed.
Lemma keeps_lift {A} (o : Outcome A) : keeps f (lift o).
Proof. intros w. reflexivity. Qed.
Lemma keeps_gets {A} (g : World -> A) : keeps f (gets g).
Proof. intros w. reflexivity. Qed.
Lemma keeps_modify (g : World -> World) : (forall w, f (g w) = f w) -> keeps f (modify g).
Proof. intros H w. apply H. Qed.

Lemma keeps_bind {A B} (m : M A) (k : A -> M B) :
  keeps f m -> (forall a, keeps f (k a)) -> keeps f (bind m k).
Proof.
  intros Hm Hk w. unfold bind. specialize (Hm w).
  destruct (m w) as [[a|e|] w1]; simpl in *; try exact Hm.
  rewrite (Hk a w1). exact Hm.
Qed.

Lemma keeps_try_catch {A} (body : M A) (h : exn -> M A) :
  keeps f body -> (forall e, keeps f (h e)) -> keeps f (try_catch body h).
Proof.
  intros Hb Hh w. unfold try_catch. specialize (Hb w).
  destruct (body w) as [[a|e|] w1]; simpl in *; try exact Hb.
  rewrite (Hh e w1). exact Hb.
Qed.

Hypothesis f_after_timer : forall ms w, f (after_timer ms w) = f w.
Hypothesis f_set_now : forall g w, f (set_now g w) = f w.
Hypothesis f_set_calls : forall g w, f (set_calls g w) = f w.

Lemma keeps_retryWithBackoff {T} (op : M T) onAbort :
  keeps f op ->
  (forall ab, onAbort = Some ab -> keeps f ab) ->
  forall n m k, (m - k = n)%nat -> keeps f (retryWithBackoff op (mkRetryOptions m k) onAbort).
Proof.
  intros Hop Hab. induction n as [|n IH]; intros m k Hn w;
    rewrite retryWithBackoff_step; simpl.
  - assert (Hle : (m <=? k)%nat = true) by (apply Nat.leb_le; lia). rewrite Hle.
    destruct onAbort as [ab|]; [|reflexivity].
    apply (keeps_bind ab (fun _ => ret None) (Hab ab eq_refl) (fun _ => keeps_ret None)).
  - assert (Hgt : (m <=? k)%nat = false) by (apply Nat.leb_gt; lia). rewrite Hgt.
    specialize (Hop w). destruct (op w) as [[v|e|] w1]; simpl in *; try exact Hop.
    rewrite (IH m (S k) ltac:(lia)). rewrite f_after_timer. exact Hop.
Qed.

Lemma keeps_handler_retry {T} (op : M T) :
  keeps f op -> keeps f (handler_retryWithBackoff op).
Proof.
  intros Hop. unfold handler_retryWithBackoff.
  exact (keeps_retryWithBackoff op None Hop ltac:(discriminate) _ MAX_RETRIES 0%nat eq_refl).
Qed.

Lemma keeps_await {A} (r : Reply A) : keeps f (await r).
Proof.
  unfold await. apply keeps_bind; [apply keeps_modify; intros; apply f_set_now|].
  intros _. apply keeps_lift.
Qed.

Lemma keeps_ask {A} count bump (oracle : nat -> Reply A) : keeps f (ask count bump oracle).
Proof.
  unfold ask. apply keeps_bind; [apply keeps_gets|]. intros n.
  apply keeps_bind; [apply keeps_modify; intros; apply f_set_calls|].
  intros _. apply keeps_await.
Qed.

Lemma keeps_for_each {A B} (g : A -> M B) l :
  (forall a, keeps f (g a)) -> keeps f (for_each g l).
Proof.
  intros Hg. induction l as [|a l IH]; simpl; [apply keeps_ret|].
  apply keeps_bind; [apply Hg|]. intros b.
  apply keeps_bind; [apply IH|]. intros bs. apply keeps_ret.
Qed.

End Keeps.

Ltac keeps_side := intros; unfold set_my_state; first [reflexivity | solve [auto]].

Ltac keeps_step :=
  match goal with
  | |- keeps _ (bind _ _) => apply keeps_bind; [|intros ?]
  | |- keeps _ (try_catch _ _) => apply keeps_try_catch; [|intros ?]
  | |- keeps _ (ret _) => apply keeps_ret
  | |- keeps _ (throw _) => apply keeps_throw
  | |- keeps _ diverge => apply keeps_diverge
  | |- keeps _ (lift _) => apply keeps_lift
  | |- keeps _ (gets _) => apply keeps_gets
  | |- keeps _ (modify _) => apply keeps_modify; keeps_side
  | |- keeps _ (await _) => apply keeps_await; keeps_side
  | |- keeps _ (ask _ _ _) => apply keeps_ask; keeps_side
  | |- keeps _ (handler_retryWithBackoff _) => apply keeps_handler_retry; [keeps_side|]
  | |- keeps _ (for_each _ _) => apply keeps_for_each; intros ?
  | |- keeps _ (if ?b then _ else _) => destruct b
  | |- keeps _ (match ?x with _ => _ end) => destruct x
  | H : keeps ?f ?m |- keeps ?f ?m => exact H
  end.

Ltac keeps_auto := repeat keeps_step.

Section HandlerFrame.

Context {X : Type} (f : World -> X).
Hypothesis f_now : forall g w, f (set_now g w) = f w.
Hypothesis f_calls : forall g w, f (set_calls g w) = f w.
Hypothesis f_timer : forall ms w, f (after_timer ms w) = f w.
Hypothesis f_db : forall g w, f (set_db g w) = f w.
Hypothesis f_submitted : forall g w, f (set_submitted g w) = f w.
Hypothesis f_hstates : forall g w, f (set_hstates g w) = f w.
Hypothesis f_objectives : forall g w, f (set_goal (with_objectives g) w) = f w.
Variable E : Env.

Lemma keeps_updateGoal : keeps f updateGoal.
Proof. unfold updateGoal. keeps_auto. Qed.

Lemma keeps_updateGoalStatus id st : keeps f (updateGoalStatus id st).
Proof. unfold updateGoalStatus. keeps_auto. Qed.

Lemma keeps_completeObjective id : keeps f (completeObjective id).
Proof. unfold completeObjective. keeps_auto. apply keeps_updateGoal. Qed.

Lemma keeps_markAborted id : keeps f (markAborted id).
Proof. unfold markAborted. keeps_auto. apply keeps_updateGoal. Qed.

Lemma keeps_completeGoal h : keeps f (completeGoal h).
Proof. unfold completeGoal. keeps_auto. apply keeps_updateGoalStatus. Qed.

Lemma keeps_failGoal h : keeps f (failGoal h).
Proof. unfold failGoal. keeps_auto. apply keeps_updateGoalStatus. Qed.

Lemma keeps_storeResponse h r : keeps f (storeResponse h r).
Proof. unfold storeResponse. keeps_auto. Qed.

Lemma keeps_getLatestResponse h : keeps f (getLatestResponse h).
Proof. unfold getLatestResponse. keeps_auto. Qed.

Lemma keeps_generateText : keeps f (generateText E).
Proof. unfold generateText. keeps_auto. Qed.

Lemma keeps_generateVerdict : keeps f (generateVerdict E).
Proof. unfold generateVerdict. keeps_auto. Qed.

Lemma keeps_sendMessage text : keeps f (sendMessage E text).
Proof. unfold sendMessage. keeps_auto. Qed.

Lemma keeps_validateIntroResponse rs : keeps f (validateIntroResponse E rs).
Proof. unfold validateIntroResponse. keeps_auto. apply keeps_generateVerdict. Qed.

Lemma keeps_validateOperationResponse r : keeps f (validateOperationResponse E r).
Proof. unfold validateOperationResponse. keeps_auto. apply keeps_generateVerdict. Qed.

Lemma keeps_evm_processTransaction tx acct : keeps f (evm_processTransaction E tx acct).
Proof. unfold evm_processTransaction. keeps_auto. Qed.

Lemma keeps_evm_signProposal p : keeps f (evm_signProposal E p).
Proof. unfold evm_signProposal. keeps_auto; apply keeps_evm_processTransaction. Qed.

Lemma keeps_solana_signProposal p : keeps f (solana_signProposal E p).
Proof. unfold solana_signProposal. keeps_auto. Qed.

Lemma keeps_signFirstProposal h ps : keeps f (signFirstProposal E h ps).
Proof.
  unfold signFirstProposal, signProposal, handler_signProposal. keeps_auto;
    first [apply keeps_evm_signProposal | apply keeps_solana_signProposal].
Qed.

Lemma keeps_singleChain_step id step :
  singleChain_step E id = Some step -> keeps f step.
Proof.
  unfold singleChain_step. repeat case_decide; intros [= <-].
  - unfold singleChain_handleIntroduction, singleChain_introduction_attempt.
    keeps_auto; first [apply keeps_generateText | apply keeps_sendMessage
                      | apply keeps_validateIntroResponse | apply keeps_completeObjective
                      | apply keeps_markAborted].
  - unfold singleChain_handleOperation, singleChain_operation_attempt,
      generateOperationMessage.
    keeps_auto; first [apply keeps_generateText | apply keeps_sendMessage
                      | apply keeps_validateOperationResponse | apply keeps_completeObjective
                      | apply keeps_storeResponse | apply keeps_markAborted].
  - unfold singleChain_handleIntent, singleChain_intent_attempt.
    keeps_auto; first [apply keeps_generateText | apply keeps_sendMessage
                      | apply keeps_getLatestResponse | apply keeps_completeObjective
                      | apply keeps_storeResponse | apply keeps_markAborted].
  - unfold singleChain_handleProposal, singleChain_proposal_attempt.
    keeps_auto; first [apply keeps_signFirstProposal | apply keeps_completeGoal
                      | apply keeps_getLatestResponse | apply keeps_completeObjective
                      | apply keeps_markAborted].
Qed.

Lemma keeps_singleChain_processObjective fuel :
  keeps f (singleChain_processObjective E fuel).
Proof.
  induction fuel as [|fuel IH]; cbn [singleChain_processObjective]; [apply keeps_diverge|].
  apply keeps_bind; [apply keeps_gets|]. intros g.
  destruct (goal_key g); [|apply keeps_ret].
  apply keeps_try_catch.
  - destruct (List.find pending (goal_objectives g)) as [o|]; [|apply keeps_completeGoal].
    destruct (singleChain_step E (obj_id o)) as [step|] eqn:Hstep; [|apply keeps_ret].
    apply keeps_bind; [exact (keeps_singleChain_step _ _ Hstep)|]. intros _.
    apply keeps_bind; [apply keeps_gets|]. intros g'.
    destruct (getObjectiveStatus g' (obj_id o)); try apply keeps_ret.
    destruct (List.find pending (goal_objectives g')); [exact IH | apply keeps_ret].
  - intros e. apply keeps_bind; [apply keeps_failGoal | intros _; apply keeps_throw].
Qed.

End HandlerFrame.

Lemma singleChain_keeps_service E fuel :
  keeps service (singleChain_processObjective E fuel).
Proof. apply keeps_singleChain_processObjective; reflexivity. Qed.

Lemma singleChain_keeps_goal_id E fuel :
  keeps (fun w => goal_id (goal w)) (singleChain_processObjective E fuel).
Proof. apply keeps_singleChain_processObjective; reflexivity. Qed.

Lemma isCryptoGoal_keeps_goal E g : keeps goal (isCryptoGoal E g).
Proof. unfold isCryptoGoal, generateTrueOrFalse. keeps_auto. Qed.

(** ** The present-operation step, whatever the verdict *)

Lemma generateVerdict_spec E w :
  generateVerdict E w
  = (answer (env_generateVerdict E (n_generateVerdict (calls w))),
     set_now (fun t => (t + Z.of_N (latency (env_generateVerdict E (n_generateVerdict (calls w)))))%Z)
        (set_calls bump_generateVerdict w)).
Proof.
  unfold generateVerdict, ask. unfold_js. simpl.
  destruct (answer (env_generateVerdict E (n_generateVerdict (calls w)))); reflexivity.
Qed.

Lemma validateOperationResponse_settles E r w :
  answer (env_generateVerdict E (n_generateVerdict (calls w))) <> Diverge ->
  exists v, validateOperationResponse E r w
            = (Ret v, snd (validateOperationResponse E r w)).
Proof.
  intros Hsettles. unfold validateOperationResponse.
  destruct (is_bridge_intent r); [eexists; reflexivity|].
  destruct (is_withdraw_intent r); [eexists; reflexivity|].
  unfold try_catch, bind. rewrite generateVerdict_spec.
  destruct (answer (env_generateVerdict E (n_generateVerdict (calls w))));
    [eexists; reflexivity | eexists; reflexivity | contradiction].
Qed.

Lemma storeResponse_returns h r w : storeResponse h r w = (Ret tt, snd (storeResponse h r w)).
Proof. unfold storeResponse. rewrite bind_gets. destruct (goal_key (goal w)); reflexivity. Qed.

(** The present-operation step for every reply that carries an intent:
    the operation text is generated, the counterparty answers with a reply
    carrying an intent, and the validator settles on any verdict, invalid
    included. The step stores that reply and completes the objective at
    the first attempt; no timer is armed. *)
Lemma handleOperation_whatever_the_verdict E w msg responses r :
  answer (env_generateText E (n_generateText (calls w))) = Ret msg ->
  truthy msg = true ->
  answer (env_sendMessage E (n_sendMessage (calls w))) = Ret responses ->
  List.find (fun r => truthy (r_intent r)) responses = Some r ->
  answer (env_generateVerdict E (n_generateVerdict (calls w))) <> Diverge ->
  exists w',
    singleChain_handleOperation E w = (Ret tt, w')
    /\ goal_objectives (goal w')
       = update_first (has_id "present-operation") complete (goal_objectives (goal w))
    /\ (forall id, goal_key (goal w) = Some id ->
                   goalResponses (st_singleChain (hstates w')) !! id = Some r)
    /\ timers w' = timers w.
Proof.
  intros Htext Hmsg Hsend Hfind Hsettles.
  set (w1 := set_now (fun t => (t + Z.of_N (latency (env_generateText E (n_generateText (calls w)))))%Z)
               (set_calls bump_generateText w)).
  set (w2 := set_now (fun t => (t + Z.of_N (latency (env_sendMessage E (n_sendMessage (calls w1)))))%Z)
               (set_calls bump_sendMessage w1)).
  destruct (validateOperationResponse_settles E r w2 Hsettles) as (v & Hvalid).
  set (w3 := snd (validateOperationResponse E r w2)) in *.
  set (w4 := snd (storeResponse SingleChain r w3)).
  set (w5 := snd (completeObjective "present-operation" w4)).
  assert (Hattempt : singleChain_operation_attempt E w = (Ret true, w5)).
  { unfold singleChain_operation_attempt, generateOperationMessage.
    assert (Hgen : generateText E w = (Ret msg, w1)) by (rewrite generateText_spec, Htext; reflexivity).
    rewrite (bind_Ret _ _ _ _ _ Hgen), Hmsg. simpl.
    assert (Hs : sendMessage E msg w1 = (Ret responses, w2)).
    { rewrite sendMessage_spec. change (n_sendMessage (calls w1)) with (n_sendMessage (calls w)).
      rewrite Hsend. reflexivity. }
    rewrite (bind_Ret _ _ _ _ _ Hs), Hfind.
    rewrite (bind_Ret _ _ _ _ _ Hvalid). cbv beta. change (negb (truthy v)) with false. cbv iota.
    rewrite (bind_Ret _ _ _ _ _ (storeResponse_returns SingleChain r w3)). fold w4.
    rewrite (bind_Ret _ _ _ _ _ (completeObjective_returns "present-operation" w4)).
    reflexivity. }
  exists w5. split.
  - unfold singleChain_handleOperation.
    rewrite (bind_Ret _ _ _ _ _ (handler_retry_first_try _ _ _ _ Hattempt)). reflexivity.
  - destruct (completeObjective_effect "present-operation" w4)
      as ((_ & Htimers & _ & _ & _ & Hhst & _) & _ & Hobjs & _).
    fold w5 in Htimers, Hhst, Hobjs.
    assert (Hg3 : goal w3 = goal w).
    { unfold w3. rewrite (keeps_validateOperationResponse goal); reflexivity. }
    assert (Ht3 : timers w3 = timers w).
    { unfold w3. rewrite (keeps_validateOperationResponse timers); reflexivity. }
    assert (Hg4 : goal w4 = goal w3).
    { unfold w4. rewrite (keeps_storeResponse goal); reflexivity. }
    assert (Ht4 : timers w4 = timers w3).
    { unfold w4. rewrite (keeps_storeResponse timers); reflexivity. }
    rewrite Hobjs, Htimers, Hhst, Hg4, Hg3, Ht4, Ht3.
    split; [reflexivity|]. split; [|reflexivity].
    intros id Hkey. unfold w4, storeResponse. rewrite bind_gets, Hg3, Hkey. simpl.
    apply lookup_insert_eq.
Qed.

(** ** The scheduler tick *)

Section Tick.
Variable E : Env.
Variables cdp mc : M unit.
Variable fuel : nat.

Lemma processGoal_skips g id w :
  goal_key g = Some id ->
  id ∈ processingGoals (service w) ->
  processGoal E cdp mc fuel g w = (Ret tt, set_goal (fun _ => g) w).
Proof.
  intros Hkey Hin. unfold processGoal. rewrite Hkey, bind_modify, bind_gets.
  simpl. rewrite bool_decide_eq_true_2 by exact Hin. reflexivity.
Qed.

Lemma processGoal_hands_over g id h w v w1 :
  goal_key g = Some id ->
  id ∉ processingGoals (service w) ->
  isCryptoGoal E g (set_goal (fun _ => g) w) = (Ret v, w1) ->
  truthy v = true ->
  getHandlerForGoal g = Some h ->
  processGoal E cdp mc fuel g w
  = try_catch (processObjective E cdp mc fuel h)
      (fun _ => bind (clearProcessingState id) (fun _ => clearState_all handlers id))
      (handed_over id w1).
Proof.
  intros Hkey Hnotin Hcrypto Hyes Hhandler.
  unfold processGoal. rewrite Hkey, bind_modify, bind_gets. simpl.
  rewrite bool_decide_eq_false_2 by exact Hnotin.
  rewrite (bind_Ret _ _ _ _ _ Hcrypto), Hyes. simpl.
  unfold try_catch. rewrite bind_modify, Hhandler. reflexivity.
Qed.

Lemma cleared_clearGoalState id s : cleared id (clearGoalState id s).
Proof.
  unfold cleared, clearGoalState. simpl. split.
  - intros Hin. apply elem_of_difference in Hin. destruct Hin as [_ Hout].
    apply Hout. apply elem_of_singleton. reflexivity.
  - split; apply lookup_delete_eq.
Qed.

Lemma clearing_after_throw id w :
  exists w',
    bind (clearProcessingState id) (fun _ => clearState_all handlers id) w = (Ret tt, w')
    /\ cleared id (service w')
    /\ (forall h, cleared id (get_hstate h (hstates w')))
    /\ db w' = db w /\ goal w' = goal w /\ calls w' = calls w /\ submitted w' = submitted w.
Proof.
  eexists. split; [reflexivity|]. simpl.
  split; [apply cleared_clearGoalState|].
  split; [intros []; apply cleared_clearGoalState|]. repeat split.
Qed.

Lemma failGoal_spec h w id :
  goal_key (goal w) = Some id ->
  failGoal h w
  = (Ret tt, set_db (alter (with_status FAILED) id)
               (set_my_state h (set_goalResponses (delete id)) w)).
Proof.
  intros Hkey. unfold failGoal, updateGoalStatus.
  rewrite bind_gets, Hkey, bind_modify. reflexivity.
Qed.

Lemma singleChain_throw_fails_goal w e w' id :
  goal_key (goal w) = Some id ->
  singleChain_processObjective E fuel w = (Throw e, w') ->
  forall g0, db w' !! id = Some g0 -> goal_status g0 = FAILED.
Proof.
  intros Hkey Hrun.
  pose proof (singleChain_keeps_goal_id E fuel w) as Hframe. rewrite Hrun in Hframe.
  simpl in Hframe.
  destruct fuel as [|fuel']; [discriminate|].
  cbn [singleChain_processObjective] in Hrun. rewrite bind_gets, Hkey in Hrun.
  unfold try_catch in Hrun.
  match type of Hrun with
  | (let (_, _) := ?body in _) = _ => destruct body as [[[]|e0|] wb] eqn:Hbody
  end; try discriminate.
  assert (Hkeyb : goal_key (goal wb) = Some id).
  { destruct (goal_key (goal wb)) as [idb|] eqn:Hkb.
    - rewrite (bind_Ret _ _ _ _ _ (failGoal_spec SingleChain wb idb Hkb)) in Hrun.
      injection Hrun as _ <-. simpl in Hframe.
      unfold goal_key in *. rewrite Hframe in Hkb. rewrite Hkb in Hkey. exact Hkey.
    - unfold failGoal in Hrun. unfold bind at 1 in Hrun. rewrite bind_gets, Hkb in Hrun.
      injection Hrun as _ <-. unfold goal_key in *. rewrite Hframe in Hkb.
      rewrite Hkb in Hkey. discriminate. }
  rewrite (bind_Ret _ _ _ _ _ (failGoal_spec SingleChain wb id Hkeyb)) in Hrun.
  injection Hrun as _ <-. simpl. intros g0. rewrite lookup_alter_eq.
  destruct (db wb !! id); simpl; intros [= <-]. reflexivity.
Qed.

(** A tick that finds the goal id in the processing set skips the goal;
    no oracle is asked and no handler started. *)
Lemma processGoal_skips_owned g id w :
  goal_key g = Some id ->
  id ∈ processingGoals (service w) ->
  processGoal E cdp mc fuel g w = (Ret tt, set_goal (fun _ => g) w)
  /\ calls (snd (processGoal E cdp mc fuel g w)) = calls w.
Proof.
  intros Hkey Hin. rewrite (processGoal_skips g id w Hkey Hin). split; reflexivity.
Qed.

(** For every goal the single-chain handler returns from, the id stays in
    the processing set when the tick has passed, and later ticks skip the
    goal. *)
Lemma processGoal_keeps_token g id w v w1 w2 :
  goal_key g = Some id ->
  id ∉ processingGoals (service w) ->
  isCryptoGoal E g (set_goal (fun _ => g) w) = (Ret v, w1) ->
  truthy v = true ->
  getHandlerForGoal g = Some SingleChain ->
  singleChain_processObjective E fuel (handed_over id w1) = (Ret tt, w2) ->
  processGoal E cdp mc fuel g w = (Ret tt, w2)
  /\ id ∈ processingGoals (service w2)
  /\ (forall g', goal_key g' = Some id ->
                 processGoal E cdp mc fuel g' w2 = (Ret tt, set_goal (fun _ => g') w2)).
Proof.
  intros Hkey Hnotin Hcrypto Hyes Hhandler Hrun.
  assert (Hin : id ∈ processingGoals (service w2)).
  { pose proof (singleChain_keeps_service E fuel (handed_over id w1)) as Hframe.
    rewrite Hrun in Hframe. simpl in Hframe. rewrite Hframe.
    apply elem_of_union_r. apply elem_of_singleton. reflexivity. }
  split; [|split; [exact Hin|]].
  - rewrite (processGoal_hands_over g id SingleChain w v w1 Hkey Hnotin Hcrypto Hyes Hhandler).
    unfold try_catch. simpl. rewrite Hrun. reflexivity.
  - intros g' Hkey'. exact (processGoal_skips g' id w2 Hkey' Hin).
Qed.

(** The catch branch of the tick, whatever the handlers are. A handler's
    [processObjective] throws: the tick goes on normally with the goal id
    out of the processing set, nothing held for the goal in the caches of
    the service or of any registered handler, and the goal store exactly
    as the handler left it. When the handler is the single-chain one, what
    it left is the goal marked FAILED. *)
Lemma processGoal_clears_after_throw (g : Goal) (id : string) (h : HandlerName)
  (w : World) (v : option bool) (w1 : World) (e : exn) (w2 : World) :
  goal_key g = Some id ->
  id ∉ processingGoals (service w) ->
  isCryptoGoal E g (set_goal (fun _ => g) w) = (Ret v, w1) ->
  truthy v = true ->
  getHandlerForGoal g = Some h ->
  processObjective E cdp mc fuel h (handed_over id w1) = (Throw e, w2) ->
  exists w',
    processGoal E cdp mc fuel g w = (Ret tt, w')
    /\ cleared id (service w')
    /\ (forall h', cleared id (get_hstate h' (hstates w')))
    /\ db w' = db w2
    /\ (h = SingleChain ->
        forall g0, db w' !! id = Some g0 -> goal_status g0 = FAILED).
Proof.
  intros Hkey Hnotin Hcrypto Hyes Hhandler Hthrow.
  destruct (clearing_after_throw id w2) as (w' & Hclear & Hserv & Hhs & Hdb & _).
  exists w'. split.
  - rewrite (processGoal_hands_over g id h w v w1 Hkey Hnotin Hcrypto Hyes Hhandler).
    unfold try_catch. rewrite Hthrow. exact Hclear.
  - split; [exact Hserv|]. split; [exact Hhs|]. split; [exact Hdb|].
    intros -> g0 Hg0. rewrite Hdb in Hg0. simpl in Hthrow.
    apply (singleChain_throw_fails_goal (handed_over id w1) e w2 id); [|exact Hthrow|exact Hg0].
    pose proof (isCryptoGoal_keeps_goal E g (set_goal (fun _ => g) w)) as Hgoal.
    rewrite Hcrypto in Hgoal. simpl in Hgoal.
    change (goal (handed_over id w1)) with (goal w1). rewrite Hgoal. exact Hkey.
Qed.

End Tick.

(** ** Sample ticks *)

(** C7, the code at the failing input. One stored goal, classified as a
    crypto goal, whose introduction fails three times: the single-chain
    handler marks the objective ABORTED and returns normally. The tick has
    passed and no handler is at work, yet the goal id is still in the
    processing set; the goal is still IN_PROGRESS with all four objectives
    open, and the next tick skips it: it asks no oracle and changes
    nothing. *)
Theorem processing_token_outlives_tick :
  let tick := processGoals env_only_classifier not_modelled not_modelled 8 in
  let w1 := snd (tick (stored_world swap_goal)) in
  fst (tick (stored_world swap_goal)) = Ret tt
  /\ bool_decide ("goal-1" ∈ processingGoals (service (stored_world swap_goal))) = false
  /\ bool_decide ("goal-1" ∈ processingGoals (service w1)) = true
  /\ goal_status <$> db w1 !! "goal-1" = Some IN_PROGRESS
  /\ (map obj_completed <$> (goal_objectives <$> db w1 !! "goal-1"))
     = Some [false; false; false; false]
  /\ n_generateText (calls w1) = 3%nat
  /\ tick w1 = (Ret tt, w1).
Proof. vm_compute. repeat split. Qed.

(** C8, the stated claim fails. The confirmation text cannot be generated:
    the single-chain [processObjective] throws during the tick. The stored
    status of the goal was IN_PROGRESS before the tick and is FAILED after
    it; the next tick finds no goal in progress and does nothing. *)
Lemma failed_goal_is_not_retried :
  let tick := processGoals env_only_classifier not_modelled not_modelled 8 in
  let w := world_before_confirmation in
  let w' := snd (tick w) in
  goal_status <$> db w !! "goal-1" = Some IN_PROGRESS
  /\ fst (singleChain_processObjective env_only_classifier 8
            (handed_over "goal-1"
               (snd (isCryptoGoal env_only_classifier presented_goal
                       (set_goal (fun _ => presented_goal) w)))))
     = Throw (Error "connection refused")
  /\ fst (tick w) = Ret tt
  /\ bool_decide ("goal-1" ∈ processingGoals (service w')) = false
  /\ goalResponses (st_singleChain (hstates w')) !! "goal-1" = None
  /\ goal_status <$> db w' !! "goal-1" = Some FAILED
  /\ fst (getGoals w') = Ret []
  /\ tick w' = (Ret tt, w').
Proof. vm_compute. repeat split. Qed.

(** ** Routing of goals *)

Lemma existsb_and_const {A} (p : A -> bool) (c : bool) (l : list A) :
  existsb (fun x => p x && c) l = existsb p l && c.
Proof.
  induction l as [|x l IH]; simpl; [reflexivity|].
  rewrite IH. destruct (p x), c, (existsb p l); reflexivity.
Qed.

(** X1. Which handler a goal is given to: the single-chain one when the
    goal has an introduce-agent objective and no objective id contains
    chain; otherwise the CDP one when it has an ask-for-wallet objective;
    otherwise the multi-chain one when it has an introduce-agent
    objective; otherwise none. *)
Theorem getHandlerForGoal_routes (g : Goal) :
  getHandlerForGoal g
  = if has_objective "introduce-agent" g && negb (names_a_chain g) then Some SingleChain
    else if has_objective "ask-for-wallet" g then Some CDP
    else if has_objective "introduce-agent" g then Some MultiChain
    else None.
Proof.
  unfold getHandlerForGoal, handlers, supportsGoal. simpl.
  unfold singleChain_supportsGoal, cdp_supportsGoal, multiChain_supportsGoal.
  rewrite !existsb_and_const.
  unfold has_objective, names_a_chain.
  destruct (existsb (has_id "introduce-agent") (goal_objectives g)),
    (existsb mentions_chain (goal_objectives g)),
    (existsb (has_id "ask-for-wallet") (goal_objectives g)); reflexivity.
Qed.

(** ** A classification that fails *)

Section Unclassified.
Variable E : Env.
Variables cdp mc : M unit.
Variable fuel : nat.

(** X2. The classification oracle throws while a goal is classified for
    the first time: [isCryptoGoal] throws, and so does the tick, before
    any handler is chosen. The cache keeps the undefined entry written
    before the call, so from then on, whatever the oracles would answer,
    the tick reads that entry, asks nothing and passes the goal by. *)
Theorem failed_classification_is_cached (g : Goal) (id : string) (w : World) (e : exn) :
  goal_key g = Some id ->
  id ∉ processingGoals (service w) ->
  cryptoGoalCache (service w) !! id = None ->
  answer (env_generateTrueOrFalse E (n_generateTrueOrFalse (calls w))) = Throw e ->
  exists w1,
    isCryptoGoal E g w = (Throw e, w1)
    /\ fst (processGoal E cdp mc fuel g w) = Throw e
    /\ cryptoGoalCache (service w1) !! id = Some None
    /\ forall (E' : Env) (cdp' mc' : M unit) (fuel' : nat) (w2 : World),
         cryptoGoalCache (service w2) !! id = Some None ->
         id ∉ processingGoals (service w2) ->
         isCryptoGoal E' g w2 = (Ret None, w2)
         /\ processGoal E' cdp' mc' fuel' g w2 = (Ret tt, set_goal (fun _ => g) w2).
Proof.
  intros Hkey Hfree Hmiss Hthrow.
  pose proof (isCryptoGoal_miss E g id w Hkey Hmiss) as Hrun. cbv zeta in Hrun.
  rewrite Hthrow in Hrun.
  eexists. split; [exact Hrun|]. split; [|split].
  - unfold processGoal. rewrite Hkey, bind_modify, bind_gets.
    change (service (set_goal (fun _ => g) w)) with (service w).
    rewrite bool_decide_eq_false_2 by exact Hfree.
    pose proof (isCryptoGoal_miss E g id (set_goal (fun _ => g) w) Hkey Hmiss) as Hrun'.
    cbv zeta in Hrun'.
    change (calls (set_goal (fun _ => g) w)) with (calls w) in Hrun'.
    rewrite Hthrow in Hrun'.
    unfold bind at 1. rewrite Hrun'. reflexivity.
  - simpl. apply lookup_insert_eq.
  - intros E' cdp' mc' fuel' w2 Hentry Hfree2.
    split; [exact (isCryptoGoal_hit E' g id None w2 Hkey Hentry)|].
    unfold processGoal. rewrite Hkey, bind_modify, bind_gets.
    change (service (set_goal (fun _ => g) w2)) with (service w2).
    rewrite bool_decide_eq_false_2 by exact Hfree2.
    unfold bind at 1.
    rewrite (isCryptoGoal_hit E' g id None (set_goal (fun _ => g) w2) Hkey Hentry).
    reflexivity.
Qed.

End Unclassified.

Lemma failed_classification_is_cached_witness :
  exists w1,
    isCryptoGoal env_classifier_down swap_goal (stored_world swap_goal)
    = (Throw (Error "connection refused"), w1)
    /\ fst (processGoal env_classifier_down not_modelled not_modelled 8 swap_goal
              (stored_world swap_goal))
       = Throw (Error "connection refused")
    /\ cryptoGoalCache (service w1) !! "goal-1" = Some None
    /\ forall (E' : Env) (cdp' mc' : M unit) (fuel' : nat) (w2 : World),
         cryptoGoalCache (service w2) !! "goal-1" = Some None ->
         "goal-1" ∉ processingGoals (service w2) ->
         isCryptoGoal E' swap_goal w2 = (Ret None, w2)
         /\ processGoal E' cdp' mc' fuel' swap_goal w2
            = (Ret tt, set_goal (fun _ => swap_goal) w2).
Proof.
  apply (failed_classification_is_cached env_classifier_down not_modelled not_modelled 8
           swap_goal "goal-1" (stored_world swap_goal) (Error "connection refused")).
  - reflexivity.
  - vm_compute. discriminate.
  - reflexivity.
  - reflexivity.
Defined.

(** The same goal over two ticks, with a classifier that is down at the
    first tick only: the first tick throws, the second one returns having
    asked no oracle, although every oracle would now answer. *)
Example unclassified_goal_is_passed_by :
  let w1 := snd (processGoals env_classifier_down not_modelled not_modelled 8
                   (stored_world swap_goal)) in
  let w2 := snd (processGoals env_up not_modelled not_modelled 8 w1) in
  fst (processGoals env_classifier_down not_modelled not_modelled 8 (stored_world swap_goal))
  = Throw (Error "connection refused")
  /\ fst (processGoals env_up not_modelled not_modelled 8 w1) = Ret tt
  /\ calls w2 = calls w1
  /\ db w2 = db (stored_world swap_goal).
Proof. vm_compute. repeat split. Qed.

(** ** The validators *)

(** X3. The intent validator never throws. Its verdict is invalid in one
    case only: neither fast path applies and the model-based check
    answered with continue = false. On a fast path the model is not
    asked and the world is left as it was; when the model-based check
    throws, the verdict is valid. *)
Theorem validateOperationResponse_verdict (E : Env) (r : ChromaResponse) (w : World) :
  next_verdict E w <> Diverge ->
  exists v w',
    validateOperationResponse E r w = (Ret v, w')
    /\ (isValid v = false <->
        is_bridge_intent r = false /\ is_withdraw_intent r = false
        /\ exists verdict, next_verdict E w = Ret verdict /\ v_continue verdict = false)
    /\ (is_bridge_intent r = true \/ is_withdraw_intent r = true -> w' = w)
    /\ (forall e, next_verdict E w = Throw e -> isValid v = true).
Proof.
  unfold next_verdict. intros Hsettles. unfold validateOperationResponse.
  destruct (is_bridge_intent r) eqn:Hb.
  { eexists. eexists. split; [reflexivity|]. simpl. split; [|split]; [..|reflexivity].
    - split; [discriminate | intros (? & _); discriminate].
    - reflexivity. }
  destruct (is_withdraw_intent r) eqn:Hw.
  { eexists. eexists. split; [reflexivity|]. simpl. split; [|split]; [..|reflexivity].
    - split; [discriminate | intros (_ & ? & _); discriminate].
    - reflexivity. }
  unfold try_catch, bind. rewrite generateVerdict_spec.
  destruct (answer (env_generateVerdict E (n_generateVerdict (calls w)))) as [verdict|e|] eqn:Hans;
    [| |contradiction].
  - eexists. eexists. split; [reflexivity|]. simpl. split; [|split].
    + split.
      * intros Hv. split; [reflexivity|]. split; [reflexivity|]. exists verdict. split; [reflexivity|exact Hv].
      * intros (_ & _ & verdict' & [= <-] & Hv). exact Hv.
    + intros [?|?]; discriminate.
    + discriminate.
  - eexists. eexists. split; [reflexivity|]. simpl. split; [|split].
    + split; [discriminate|]. intros (_ & _ & verdict' & ? & _). discriminate.
    + intros [?|?]; discriminate.
    + reflexivity.
Qed.

Lemma validateOperationResponse_verdict_witness :
  exists v w',
    validateOperationResponse env_rejecting reply_with_intent (world_of introduced_goal)
    = (Ret v, w')
    /\ (isValid v = false <->
        is_bridge_intent reply_with_intent = false
        /\ is_withdraw_intent reply_with_intent = false
        /\ exists verdict, next_verdict env_rejecting (world_of introduced_goal) = Ret verdict
                           /\ v_continue verdict = false)
    /\ (is_bridge_intent reply_with_intent = true \/ is_withdraw_intent reply_with_intent = true
        -> w' = world_of introduced_goal)
    /\ (forall e, next_verdict env_rejecting (world_of introduced_goal) = Throw e ->
                  isValid v = true).
Proof.
  apply (validateOperationResponse_verdict env_rejecting reply_with_intent
           (world_of introduced_goal)).
  discriminate.
Defined.

(** A bridge between sepolia chains is accepted although the model would
    reject it, and the model is not asked. *)
Example bridge_intent_fast_path :
  validateOperationResponse env_rejecting bridge_reply (world_of introduced_goal)
  = (Ret (mkValidationResult true "Valid bridge intent with all required fields"),
     world_of introduced_goal).
Proof. reflexivity. Qed.

(** ** The introduction step, whatever the verdict *)

Lemma validateIntroResponse_settles E rs w :
  next_verdict E w <> Diverge ->
  exists v, validateIntroResponse E rs w = (Ret v, snd (validateIntroResponse E rs w)).
Proof.
  unfold next_verdict. intros Hsettles. unfold validateIntroResponse.
  unfold try_catch, bind. rewrite generateVerdict_spec.
  destruct (answer (env_generateVerdict E (n_generateVerdict (calls w))));
    [eexists; reflexivity | eexists; reflexivity | contradiction].
Qed.

(** X4. The introduction step with a text model and a counterparty that
    answer: whatever the introduction validator says, invalid included,
    the step completes introduce-agent at its first attempt and arms no
    timer. The validator is asked once and its answer decides nothing. *)
Theorem handleIntroduction_whatever_the_verdict (E : Env) (w : World) (msg : string)
  (responses : list ChromaResponse) :
  next_text E w = Ret msg ->
  next_replies E w = Ret responses ->
  next_verdict E w <> Diverge ->
  exists w',
    singleChain_handleIntroduction E w = (Ret tt, w')
    /\ goal_objectives (goal w')
       = update_first (has_id "introduce-agent") complete (goal_objectives (goal w))
    /\ timers w' = timers w
    /\ n_sendMessage (calls w') = S (n_sendMessage (calls w)).
Proof.
  unfold next_text, next_replies, next_verdict. intros Htext Hsend Hsettles.
  set (w1 := set_now (fun t => (t + Z.of_N (latency (env_generateText E (n_generateText (calls w)))))%Z)
               (set_calls bump_generateText w)).
  set (w2 := set_now (fun t => (t + Z.of_N (latency (env_sendMessage E (n_sendMessage (calls w1)))))%Z)
               (set_calls bump_sendMessage w1)).
  destruct (validateIntroResponse_settles E responses w2 Hsettles) as (v & Hvalid).
  set (w3 := snd (validateIntroResponse E responses w2)) in *.
  set (w4 := snd (completeObjective "introduce-agent" w3)).
  assert (Hattempt : singleChain_introduction_attempt E w = (Ret true, w4)).
  { unfold singleChain_introduction_attempt.
    assert (Hgen : generateText E w = (Ret msg, w1)) by (rewrite generateText_spec, Htext; reflexivity).
    rewrite (bind_Ret _ _ _ _ _ Hgen).
    assert (Hs : sendMessage E msg w1 = (Ret responses, w2)).
    { rewrite sendMessage_spec. change (n_sendMessage (calls w1)) with (n_sendMessage (calls w)).
      rewrite Hsend. reflexivity. }
    rewrite (bind_Ret _ _ _ _ _ Hs).
    rewrite (bind_Ret _ _ _ _ _ Hvalid). cbv beta. change (truthy v) with true. cbv iota.
    rewrite (bind_Ret _ _ _ _ _ (completeObjective_returns "introduce-agent" w3)).
    reflexivity. }
  exists w4. split.
  - unfold singleChain_handleIntroduction.
    rewrite (bind_Ret _ _ _ _ _ (handler_retry_first_try _ _ _ _ Hattempt)). reflexivity.
  - destruct (completeObjective_effect "introduce-agent" w3)
      as ((_ & Htimers & Hcalls & _) & _ & Hobjs & _).
    fold w4 in Htimers, Hcalls, Hobjs.
    assert (Hg3 : goal w3 = goal w).
    { unfold w3. rewrite (keeps_validateIntroResponse goal); reflexivity. }
    assert (Ht3 : timers w3 = timers w).
    { unfold w3. rewrite (keeps_validateIntroResponse timers); reflexivity. }
    assert (Hc3 : n_sendMessage (calls w3) = S (n_sendMessage (calls w))).
    { unfold w3, validateIntroResponse, try_catch, bind. rewrite generateVerdict_spec.
      destruct (answer (env_generateVerdict E (n_generateVerdict (calls w2)))); reflexivity. }
    rewrite Hobjs, Htimers, Hcalls, Hg3, Ht3, Hc3. repeat split.
Qed.

Lemma handleIntroduction_whatever_the_verdict_witness :
  next_verdict env_rejecting (world_of swap_goal)
  = Ret (mkVerdict false "wrong operation type")
  /\ exists w',
       singleChain_handleIntroduction env_rejecting (world_of swap_goal) = (Ret tt, w')
       /\ goal_objectives (goal w')
          = update_first (has_id "introduce-agent") complete
              (goal_objectives (goal (world_of swap_goal)))
       /\ timers w' = timers (world_of swap_goal)
       /\ n_sendMessage (calls w') = S (n_sendMessage (calls (world_of swap_goal))).
Proof.
  split; [reflexivity|].
  apply (handleIntroduction_whatever_the_verdict env_rejecting (world_of swap_goal)
           "Swap 10 USDC to ETH on ethereum" [reply_with_intent]).
  - reflexivity.
  - reflexivity.
  - discriminate.
Defined.

(** ** Retrying with a budget of [m] attempts *)

Lemma backoff_delay_succ k : backoff_delay (S k) = (2 * backoff_delay k)%Z.
Proof.
  unfold backoff_delay, RETRY_DELAY_MS. rewrite Nat2Z.inj_succ, Z.pow_succ_r by lia. lia.
Qed.

Lemma backoff_delay_pos k : (0 < backoff_delay k)%Z.
Proof. unfold backoff_delay, RETRY_DELAY_MS. assert (0 < 2 ^ Z.of_nat k)%Z by (apply Z.pow_pos_nonneg; lia). lia. Qed.

Lemma failed_run_timers {T} (op : M T) :
  keeps timers op ->
  forall n k w, timers (failed_run op k n w) = (timers w ++ backoff_waits k n)%list.
Proof.
  intros Hkeeps. unfold backoff_waits.
  induction n as [|n IH]; intros k w; simpl; [rewrite app_nil_r; reflexivity|].
  rewrite IH, timers_after_timer, Hkeeps, <- app_assoc. reflexivity.
Qed.

Lemma failed_run_clock {T} (op : M T) :
  takes_time op ->
  forall n k w,
    (now w + backoff_delay k * (2 ^ Z.of_nat n - 1) <= now (failed_run op k n w))%Z.
Proof.
  intros Htime. induction n as [|n IH]; intros k w; simpl failed_run.
  - simpl. lia.
  - specialize (IH (S k) (after_timer (backoff_delay k) (snd (op w)))).
    rewrite now_after_timer, backoff_delay_succ in IH.
    specialize (Htime w).
    rewrite Nat2Z.inj_succ, Z.pow_succ_r by lia.
    pose proof (backoff_delay_pos k). nia.
Qed.

(** X5. The retrier with a budget [m] of at most 22 attempts (every wait
    is then below 2^31 - 1 ms, the longest delay a timer takes), from
    attempt 0 and without a callback, on an operation that fails at every
    invocation, arms no timer of its own and takes time: it returns null,
    the timers it armed are 1000 * 2^0, ..., 1000 * 2^(m-1) ms in this
    order, each a delay the timer takes as given, and at least
    1000 * (2^m - 1) ms have passed. The retrier of the service does the
    same. *)
Theorem retryWithBackoff_gives_up {T} (op : M T) (m : nat) (w : World) :
  (m <= 22)%nat ->
  always_fails op ->
  keeps timers op ->
  takes_time op ->
  exists w',
    retryWithBackoff op (mkRetryOptions m 0) None w = (Ret None, w')
    /\ service_retryWithBackoff op (mkRetryOptions m 0) w = (Ret None, w')
    /\ timers w' = (timers w ++ backoff_waits 0 m)%list
    /\ Forall (fun ms => (ms <= TIMEOUT_MAX)%Z) (backoff_waits 0 m)
    /\ (1000 * (2 ^ Z.of_nat m - 1) <= now w' - now w)%Z.
Proof.
  intros Hbudget Hfail Hkeeps Htime.
  exists (failed_run op 0 m w).
  assert (Hthrows : throws_for op 0 (m - 0) w) by (apply always_fails_throws_for; exact Hfail).
  pose proof (retryWithBackoff_exhausted op m 0 None w Hthrows) as Hrun.
  replace (m - 0)%nat with m in Hrun by lia.
  split; [exact Hrun|]. split; [|split; [|split]].
  - rewrite (service_retryWithBackoff_agrees op m m 0 w ltac:(lia)). exact Hrun.
  - apply failed_run_timers. exact Hkeeps.
  - unfold backoff_waits. apply List.Forall_forall. intros ms Hin.
    apply List.in_map_iff in Hin. destruct Hin as (attempt & <- & Hin).
    apply List.in_seq in Hin. apply backoff_delay_below_limit. lia.
  - pose proof (failed_run_clock op Htime m 0 w) as Hclock.
    change (backoff_delay 0) with 1000%Z in Hclock. lia.
Qed.

Lemma sendMessage_takes_time E text : takes_time (sendMessage E text).
Proof. intros w. rewrite sendMessage_spec. simpl. lia. Defined.

Lemma sendMessage_keeps_timers E text : keeps timers (sendMessage E text).
Proof. intros w. rewrite sendMessage_spec. reflexivity. Defined.

Lemma retryWithBackoff_gives_up_witness :
  (5 <= 22)%nat /\
  exists w',
    retryWithBackoff (sendMessage env_down "status?") (mkRetryOptions 5 0) None world0
    = (Ret None, w')
    /\ service_retryWithBackoff (sendMessage env_down "status?") (mkRetryOptions 5 0) world0
       = (Ret None, w')
    /\ timers w' = (timers world0 ++ backoff_waits 0 5)%list
    /\ Forall (fun ms => (ms <= TIMEOUT_MAX)%Z) (backoff_waits 0 5)
    /\ (1000 * (2 ^ Z.of_nat 5 - 1) <= now w' - now world0)%Z.
Proof.
  assert (Hbudget : (5 <= 22)%nat) by lia.
  split; [exact Hbudget|].
  exact (retryWithBackoff_gives_up (sendMessage env_down "status?") 5 world0 Hbudget
           (sendMessage_env_down_fails "status?")
           (sendMessage_keeps_timers env_down "status?")
           (sendMessage_takes_time env_down "status?")).
Defined.

(** X6. The retrier of the service and the shared retrier without a
    callback are the same function: for every operation, budget, attempt
    number and world they end in the same outcome and the same world. *)
Theorem service_retryWithBackoff_is_shared {T} (op : M T) (options : RetryOptions)
  (w : World) :
  service_retryWithBackoff op options w = retryWithBackoff op options None w.
Proof.
  destruct options as [m k].
  exact (service_retryWithBackoff_agrees op m (m - k) k w eq_refl).
Qed.

(** ** Token amounts *)

Lemma clean_only_digits_and_dots s : only_digits_and_dots (clean s) = true.
Proof.
  induction s as [|c s IH]; simpl; [reflexivity|].
  destruct (digit_or_dot c) eqn:Hc; simpl; [rewrite Hc|]; exact IH.
Qed.

Lemma clean_fixes s : only_digits_and_dots s = true -> clean s = s.
Proof.
  induction s as [|c s IH]; simpl; [reflexivity|].
  destruct (digit_or_dot c); simpl; [|discriminate]. intros H. rewrite IH by exact H. reflexivity.
Qed.

Lemma cleaned_entry_some value s :
  cleaned_entry value = Some s ->
  s = clean value /\ s <> EmptyString /\ only_digits_and_dots s = true.
Proof.
  unfold cleaned_entry. destruct (clean value) as [|c rest] eqn:Hclean; simpl; [discriminate|].
  intros [= <-]. split; [reflexivity|]. split; [discriminate|].
  rewrite <- Hclean. apply clean_only_digits_and_dots.
Qed.

(** X7. [extractTokenAmounts] never throws. Each amount it returns is the
    model's string with everything but digits and dots removed, is not
    empty, and is left as it is by a second cleaning; an amount without
    any digit or dot is left out. When the extraction model throws, the
    result holds no amount at all. *)
Theorem extractTokenAmounts_cleans (E : Env) (response : list ChromaResponse) (w : World) :
  next_amounts E w <> Diverge ->
  exists amounts w',
    extractTokenAmounts E response w = (Ret amounts, w')
    /\ (forall s, tokenAmount amounts = Some s \/ aTokenAmount amounts = Some s ->
                  s <> EmptyString /\ only_digits_and_dots s = true /\ clean s = s)
    /\ (forall raw, next_amounts E w = Ret raw ->
                    tokenAmount amounts = cleaned_entry (raw_tokenAmount raw)
                    /\ aTokenAmount amounts = cleaned_entry (raw_aTokenAmount raw)
                    /\ (clean (raw_tokenAmount raw) = EmptyString -> tokenAmount amounts = None))
    /\ (forall e, next_amounts E w = Throw e ->
                  tokenAmount amounts = None /\ aTokenAmount amounts = None).
Proof.
  unfold next_amounts. intros Hsettles.
  unfold extractTokenAmounts, try_catch, bind. rewrite generateAmounts_spec.
  destruct (answer (env_generateAmounts E (n_generateAmounts (calls w)))) as [raw|e|] eqn:Hans;
    [| |contradiction].
  - eexists. eexists. split; [reflexivity|]. simpl. split; [|split].
    + intros s [Hs|Hs]; apply cleaned_entry_some in Hs; destruct Hs as (_ & Hne & Hok);
        (split; [exact Hne|]); (split; [exact Hok|]); apply clean_fixes; exact Hok.
    + intros raw' [= <-]. split; [reflexivity|]. split; [reflexivity|].
      intros Hempty. unfold cleaned_entry. rewrite Hempty. reflexivity.
    + discriminate.
  - eexists. eexists. split; [reflexivity|]. simpl. split; [|split].
    + intros s [?|?]; discriminate.
    + discriminate.
    + intros _ _. split; reflexivity.
Qed.

Lemma extractTokenAmounts_cleans_witness :
  next_amounts env_amounts world0 = Ret (mkRawAmounts " 37.850000 USDC" "none")
  /\ exists amounts w',
       extractTokenAmounts env_amounts [] world0 = (Ret amounts, w')
       /\ (forall s, tokenAmount amounts = Some s \/ aTokenAmount amounts = Some s ->
                     s <> EmptyString /\ only_digits_and_dots s = true /\ clean s = s)
       /\ (forall raw, next_amounts env_amounts world0 = Ret raw ->
                       tokenAmount amounts = cleaned_entry (raw_tokenAmount raw)
                       /\ aTokenAmount amounts = cleaned_entry (raw_aTokenAmount raw)
                       /\ (clean (raw_tokenAmount raw) = EmptyString ->
                           tokenAmount amounts = None))
       /\ (forall e, next_amounts env_amounts world0 = Throw e ->
                     tokenAmount amounts = None /\ aTokenAmount amounts = None).
Proof.
  split; [reflexivity|].
  apply (extractTokenAmounts_cleans env_amounts [] world0). discriminate.
Defined.

Example extractTokenAmounts_run :
  fst (extractTokenAmounts env_amounts [] world0)
  = Ret (mkTokenAmounts (Some "37.850000") None).
Proof. reflexivity. Qed.

(** ** The per-goal memory of a handler *)

Lemma get_set_hstate_eq h f hs : get_hstate h (set_hstate h f hs) = f (get_hstate h hs).
Proof. destruct h; reflexivity. Qed.

Lemma get_set_hstate_ne h h' f hs :
  h' <> h -> get_hstate h' (set_hstate h f hs) = get_hstate h' hs.
Proof. destruct h, h'; intros Hne; try reflexivity; contradiction. Qed.

(** X8. The reply a handler stores for the goal under processing is the
    one it reads back, whatever was stored before; the other handlers
    and the service see no change; and after [clearState] for the goal's
    id the handler reads nothing. Replies stored for other goals stay. *)
Theorem storeResponse_round_trip (h : HandlerName) (r : ChromaResponse) (w : World)
  (id : string) :
  goal_key (goal w) = Some id ->
  let w1 := snd (storeResponse h r w) in
  let w2 := snd (clearState h id w1) in
  storeResponse h r w = (Ret tt, w1)
  /\ getLatestResponse h w1 = (Ret (Some r), w1)
  /\ (forall h', h' <> h -> get_hstate h' (hstates w1) = get_hstate h' (hstates w))
  /\ service w1 = service w
  /\ (forall other, other <> id ->
        goalResponses (my_state h w1) !! other = goalResponses (my_state h w) !! other)
  /\ getLatestResponse h w2 = (Ret None, w2)
  /\ (forall other, other <> id ->
        goalResponses (my_state h w2) !! other = goalResponses (my_state h w) !! other).
Proof.
  intros Hkey. cbv zeta.
  assert (Hstore : storeResponse h r w
                   = (Ret tt, set_my_state h (set_goalResponses (insert id r)) w)).
  { unfold storeResponse. rewrite bind_gets, Hkey. reflexivity. }
  rewrite Hstore. simpl snd.
  split; [reflexivity|]. split; [|split; [|split; [|split; [|split]]]].
  - rewrite (getLatestResponse_spec h _ id) by exact Hkey.
    unfold my_state, set_my_state. simpl. rewrite get_set_hstate_eq. simpl.
    rewrite lookup_insert_eq. reflexivity.
  - intros h' Hne. unfold set_my_state. simpl. apply get_set_hstate_ne. exact Hne.
  - reflexivity.
  - intros other Hne. unfold my_state, set_my_state. simpl. rewrite get_set_hstate_eq. simpl.
    apply lookup_insert_ne. congruence.
  - unfold clearState, modify. simpl snd.
    rewrite (getLatestResponse_spec h _ id) by exact Hkey.
    unfold my_state, set_my_state. simpl. rewrite !get_set_hstate_eq. simpl.
    rewrite lookup_delete_eq. reflexivity.
  - intros other Hne. unfold clearState, modify, my_state, set_my_state. simpl.
    rewrite !get_set_hstate_eq. simpl.
    rewrite lookup_delete_ne by congruence. apply lookup_insert_ne. congruence.
Qed.

Lemma storeResponse_round_trip_witness :
  let w := with_stored SingleChain reply_with_intent (world_of presented_goal) in
  let w1 := snd (storeResponse SingleChain reply_with_empty_proposal w) in
  let w2 := snd (clearState SingleChain "goal-1" w1) in
  getLatestResponse SingleChain w = (Ret (Some reply_with_intent), w)
  /\ storeResponse SingleChain reply_with_empty_proposal w = (Ret tt, w1)
  /\ getLatestResponse SingleChain w1 = (Ret (Some reply_with_empty_proposal), w1)
  /\ (forall h', h' <> SingleChain -> get_hstate h' (hstates w1) = get_hstate h' (hstates w))
  /\ service w1 = service w
  /\ (forall other, other <> "goal-1" ->
        goalResponses (my_state SingleChain w1) !! other
        = goalResponses (my_state SingleChain w) !! other)
  /\ getLatestResponse SingleChain w2 = (Ret None, w2)
  /\ (forall other, other <> "goal-1" ->
        goalResponses (my_state SingleChain w2) !! other
        = goalResponses (my_state SingleChain w) !! other).
Proof.
  cbv zeta. split; [reflexivity|].
  exact (storeResponse_round_trip SingleChain reply_with_empty_proposal
           (with_stored SingleChain reply_with_intent (world_of presented_goal))
           "goal-1" eq_refl).
Defined.

(** ** The goal store *)

Lemma getGoals_lists w g :
  In g (List.filter in_progress (map snd (map_to_list (db w)))) <->
  (exists k, db w !! k = Some g) /\ goal_status g = IN_PROGRESS.
Proof.
  rewrite List.filter_In, List.in_map_iff. split.
  - intros ((kv & <- & Hin) & Hst). split.
    + exists (fst kv). apply elem_of_map_to_list. destruct kv. simpl.
      apply list_elem_of_In. exact Hin.
    + unfold in_progress in Hst. destruct (goal_status (snd kv)); try discriminate. reflexivity.
  - intros ((k & Hk) & Hst). split.
    + exists (k, g). split; [reflexivity|]. apply list_elem_of_In.
      apply elem_of_map_to_list. exact Hk.
    + unfold in_progress. rewrite Hst. reflexivity.
Qed.

(** X9. A goal the handler completed or failed is out of the scheduler's
    sight: after [completeGoal] or [failGoal], every goal that
    [getGoals] lists is stored under another id, with the record it had
    before; the goals in progress under other ids are all still listed,
    and the reply the handler held for the goal is gone. *)
Theorem finished_goal_is_not_listed (h : HandlerName) (w : World) (id : string)
  (finish : M unit) :
  goal_key (goal w) = Some id ->
  finish = completeGoal h \/ finish = failGoal h ->
  exists w' listed,
    finish w = (Ret tt, w')
    /\ getGoals w' = (Ret listed, w')
    /\ (forall g, In g listed <->
                  exists k, k <> id /\ db w !! k = Some g /\ goal_status g = IN_PROGRESS)
    /\ goalResponses (my_state h w') !! id = None.
Proof.
  intros Hkey Hfinish.
  assert (Hrun : exists s, s <> IN_PROGRESS /\
            finish w = (Ret tt, set_db (alter (with_status s) id)
                                  (set_my_state h (set_goalResponses (delete id)) w))).
  { destruct Hfinish as [-> | ->].
    - exists DONE. split; [discriminate|]. apply completeGoal_spec. exact Hkey.
    - exists FAILED. split; [discriminate|].
      unfold failGoal, updateGoalStatus. rewrite bind_gets, Hkey, bind_modify. reflexivity. }
  destruct Hrun as (s & Hs & Hrun).
  eexists. eexists. split; [exact Hrun|]. split; [reflexivity|]. split.
  - intros g. rewrite getGoals_lists. simpl. split.
    + intros ((k & Hk) & Hst).
      destruct (decide (k = id)) as [->|Hne].
      * rewrite lookup_alter_eq in Hk.
        destruct (db w !! id) as [g0|]; [|discriminate]. simpl in Hk.
        injection Hk as <-. simpl in Hst. congruence.
      * rewrite lookup_alter_ne in Hk by congruence. exists k. auto.
    + intros (k & Hne & Hk & Hst). split; [|exact Hst].
      exists k. rewrite lookup_alter_ne by congruence. exact Hk.
  - unfold my_state, set_my_state. simpl. rewrite get_set_hstate_eq. simpl.
    apply lookup_delete_eq.
Qed.

Lemma finished_goal_is_not_listed_witness :
  exists w' listed,
    completeGoal SingleChain (world_of confirmed_goal) = (Ret tt, w')
    /\ getGoals w' = (Ret listed, w')
    /\ (forall g, In g listed <->
                  exists k, k <> "goal-1" /\ db (world_of confirmed_goal) !! k = Some g
                            /\ goal_status g = IN_PROGRESS)
    /\ goalResponses (my_state SingleChain w') !! "goal-1" = None.
Proof.
  exact (finished_goal_is_not_listed SingleChain (world_of confirmed_goal) "goal-1"
           (completeGoal SingleChain) eq_refl (or_introl eq_refl)).
Defined.

(** ** EVM transactions *)

(** X10. A transaction for a chain without a client, or without data, is
    refused before any chain call: [processTransaction] throws and the
    world is as it was, so nothing was estimated, sent or counted. A
    proposal whose first transaction is such a one is refused likewise
    by [signProposal]. *)
Theorem evm_processTransaction_refuses (E : Env) (tx : BaseTransaction)
  (account : ChainAccount) (w : World) :
  has_client E (chain_of tx) = false \/ truthy (tx_data tx) = false ->
  (exists e, evm_processTransaction E tx account w = (Throw e, w))
  /\ forall p rest,
       evm_getAccount E evm = Ret account ->
       transactions p = Some (tx :: rest) ->
       exists e, evm_signProposal E p w = (Throw e, w).
Proof.
  intros Hbad.
  assert (Hone : exists e, evm_processTransaction E tx account w = (Throw e, w)).
  { unfold evm_processTransaction, try_catch. fold (chain_of tx). fold (has_client E (chain_of tx)).
    destruct (has_client E (chain_of tx)) eqn:Hc; simpl.
    - destruct Hbad as [?|Hd]; [discriminate|]. rewrite Hd. simpl. eexists. reflexivity.
    - eexists. reflexivity. }
  split; [exact Hone|].
  intros p rest Hacct Htx. destruct Hone as (e & Hone). exists e.
  unfold evm_signProposal, try_catch. rewrite Hacct, bind_lift_Ret, Htx.
  simpl for_each. unfold bind at 1. unfold bind at 1. rewrite Hone. reflexivity.
Qed.

Lemma evm_processTransaction_refuses_witness :
  truthy (tx_data empty_tx) = false
  /\ (exists e, evm_processTransaction env_evm empty_tx
                  (mkChainAccount evm "0xA11CE" "sepolia") world0 = (Throw e, world0))
  /\ forall p rest,
       evm_getAccount env_evm evm = Ret (mkChainAccount evm "0xA11CE" "sepolia") ->
       transactions p = Some (empty_tx :: rest) ->
       exists e, evm_signProposal env_evm p world0 = (Throw e, world0).
Proof.
  split; [reflexivity|].
  exact (evm_processTransaction_refuses env_evm empty_tx
           (mkChainAccount evm "0xA11CE" "sepolia") world0 (or_intror eq_refl)).
Defined.

Lemma await_Ret {A} (r : Reply A) (a : A) w :
  answer r = Ret a ->
  await r w = (Ret a, set_now (fun t => (t + Z.of_N (latency r))%Z) w).
Proof. intros H. unfold await. rewrite bind_modify. unfold lift. rewrite H. reflexivity. Qed.

Lemma evm_processTransaction_sends E tx account w hash :
  sendable E tx ->
  chain_accepts (next_rpc E w) hash ->
  evm_processTransaction E tx account w = (Ret hash, after_evm_transaction E tx w).
Proof.
  intros (Hc & Hd & _) (Hest & Hfee & Hsend & Hwait).
  unfold evm_processTransaction, try_catch at 1.
  fold (chain_of tx). fold (has_client E (chain_of tx)). rewrite Hc, Hd. change (negb true) with false. cbv iota.
  rewrite bind_gets, bind_modify. fold (next_rpc E w).
  set (rpc := next_rpc E w) in *.
  set (w1 := set_calls bump_evmRpc w).
  assert (Hgas : try_catch (await (rpc_estimateGas rpc))
                   (fun _ => ret (if is_string "0x" (tx_data tx) then 21000%Z else 300000%Z)) w1
                 = (Ret (gas_of rpc tx),
                    set_now (fun t => (t + Z.of_N (latency (rpc_estimateGas rpc)))%Z) w1)).
  { unfold try_catch, await. rewrite bind_modify. unfold lift, gas_of.
    destruct (answer (rpc_estimateGas rpc)); [reflexivity | reflexivity | contradiction]. }
  rewrite (bind_Ret _ _ _ _ _ Hgas).
  rewrite (bind_Ret _ _ _ _ _ (await_Ret _ tt _ Hfee)).
  rewrite bind_modify.
  rewrite (bind_Ret _ _ _ _ _ (await_Ret _ hash _ Hsend)).
  rewrite (bind_Ret _ _ _ _ _ (await_Ret _ tt _ Hwait)).
  reflexivity.
Qed.

(** X11. A transaction that passes the checks and that the chain takes
    is handed over once, with the handler's own account, on the chain its
    own [chainId] names, and on Sepolia when it has none or it is 0. Its
    gas limit starts from the chain's estimate; when the estimation
    throws the transaction goes out all the same, and the limit starts
    from 21000 for the data 0x and from 300000 for any other data. *)
Theorem evm_processTransaction_submits (E : Env) (tx : BaseTransaction)
  (account : ChainAccount) (w : World) (hash : string) :
  evm_getAccount E evm = Ret account ->
  sendable E tx ->
  chain_accepts (next_rpc E w) hash ->
  exists w',
    evm_processTransaction E tx account w = (Ret hash, w')
    /\ submitted w'
       = (submitted w ++ [EvmSubmission tx (chain_of tx) (gas_of (next_rpc E w) tx)])%list
    /\ (truthy (tx_chainId tx) = false -> chain_of tx = 11155111%Z)
    /\ (forall c, tx_chainId tx = Some c -> c <> 0%Z -> chain_of tx = c)
    /\ (forall estimate, answer (rpc_estimateGas (next_rpc E w)) = Ret estimate ->
                         gas_of (next_rpc E w) tx = estimate)
    /\ (forall e, answer (rpc_estimateGas (next_rpc E w)) = Throw e ->
                  gas_of (next_rpc E w) tx
                  = if decide (tx_data tx = Some "0x") then 21000%Z else 300000%Z)
    /\ n_evmRpc (calls w') = S (n_evmRpc (calls w)).
Proof.
  intros _ Hsendable Haccepts.
  exists (after_evm_transaction E tx w).
  split; [exact (evm_processTransaction_sends E tx account w hash Hsendable Haccepts)|].
  split; [reflexivity|]. split; [|split; [|split; [|split]]].
  - intros H. unfold chain_of. rewrite H. reflexivity.
  - intros c Hc Hne. unfold chain_of. rewrite Hc. simpl.
    unfold truthy_option, truthy, truthy_Z. destruct (Z.eqb_spec c 0); [contradiction|reflexivity].
  - intros estimate H. unfold gas_of. rewrite H. reflexivity.
  - intros e H. unfold gas_of. rewrite H. unfold is_string.
    destruct (tx_data tx) as [d|]; [|destruct (decide _); [discriminate|reflexivity]].
    destruct (decide (d = "0x")) as [->|Hne].
    + destruct (decide _); [reflexivity|contradiction].
    + destruct (decide _) as [Heq|]; [congruence|reflexivity].
  - reflexivity.
Qed.

Lemma evm_processTransaction_submits_witness :
  evm_getAccount env_evm evm = Ret (mkChainAccount evm "0xA11CE" "sepolia")
  /\ sendable env_evm call_tx
  /\ chain_accepts (next_rpc env_evm world0) "0xhash"
  /\ exists w',
       evm_processTransaction env_evm call_tx (mkChainAccount evm "0xA11CE" "sepolia") world0
       = (Ret "0xhash", w')
       /\ submitted w'
          = (submitted world0
             ++ [EvmSubmission call_tx (chain_of call_tx)
                   (gas_of (next_rpc env_evm world0) call_tx)])%list
       /\ (truthy (tx_chainId call_tx) = false -> chain_of call_tx = 11155111%Z)
       /\ (forall c, tx_chainId call_tx = Some c -> c <> 0%Z -> chain_of call_tx = c)
       /\ (forall estimate,
             answer (rpc_estimateGas (next_rpc env_evm world0)) = Ret estimate ->
             gas_of (next_rpc env_evm world0) call_tx = estimate)
       /\ (forall e, answer (rpc_estimateGas (next_rpc env_evm world0)) = Throw e ->
                     gas_of (next_rpc env_evm world0) call_tx
                     = if decide (tx_data call_tx = Some "0x") then 21000%Z else 300000%Z)
       /\ n_evmRpc (calls w') = S (n_evmRpc (calls world0)).
Proof.
  assert (Hs : sendable env_evm call_tx) by (repeat split).
  assert (Ha : chain_accepts (next_rpc env_evm world0) "0xhash")
    by (split; [discriminate | repeat split]).
  split; [reflexivity|]. split; [exact Hs|]. split; [exact Ha|].
  exact (evm_processTransaction_submits env_evm call_tx
           (mkChainAccount evm "0xA11CE" "sepolia") world0 "0xhash" eq_refl Hs Ha).
Defined.

Example gas_fallback_run :
  submitted (snd (evm_processTransaction env_evm call_tx
                    (mkChainAccount evm "0xA11CE" "sepolia") world0))
  = [EvmSubmission call_tx 11155111 300000].
Proof. reflexivity. Qed.

(** ** Several transactions in one proposal *)

Lemma evm_routes_without_serialized p :
  serialized_of p = None -> getSignatureHandler p = Ret EVMSignatureHandler.
Proof. intros H. unfold getSignatureHandler, getSignatureHandler_in. simpl.
  unfold evm_supportsChain. rewrite H. reflexivity. Qed.

Lemma bind_assoc {A B C} (m : M A) (k : A -> M B) (k' : B -> M C) w :
  bind (bind m k) k' w = bind m (fun a => bind (k a) k') w.
Proof. unfold bind. destruct (m w) as [[a|e|] w1]; reflexivity. Qed.

Section PartialSigning.
Variable E : Env.
Variables (id : string) (p : TransactionProposal) (ps : list TransactionProposal).
Variables (tx1 tx2 : BaseTransaction) (rest : list BaseTransaction).
Variable account : ChainAccount.
Hypothesis Haccount : evm_getAccount E evm = Ret account.
Hypothesis Hroute : serialized_of p = None.
Hypothesis Htxs : transactions p = Some (tx1 :: tx2 :: rest).
Hypothesis Hgood : sendable E tx1.
Hypothesis Hbad : has_client E (chain_of tx2) = false \/ truthy (tx_data tx2) = false.
Hypothesis Hchain : chain_always_accepts E.

(** One attempt of the process-proposal step on such a proposal. *)
Lemma proposal_attempt_half_way w :
  goal_key (goal w) = Some id ->
  exists e,
    singleChain_proposal_attempt E (p :: ps) w
    = (Throw e,
       after_evm_transaction E tx1
         (set_my_state SingleChain
            (set_goalResponses (alter (on_first_proposal ensureChainId) id)) w)).
Proof.
  intros Hkey.
  set (w1 := set_my_state SingleChain
               (set_goalResponses (alter (on_first_proposal ensureChainId) id)) w).
  destruct (Hchain (n_evmRpc (calls w1))) as (hash & Haccepts).
  pose proof (evm_processTransaction_sends E tx1 account w1 hash Hgood Haccepts) as H1.
  destruct (proj1 (evm_processTransaction_refuses E tx2 account
                     (after_evm_transaction E tx1 w1) Hbad)) as (e & H2).
  exists e.
  assert (Hsign : signFirstProposal E SingleChain (p :: ps) w
                  = (Throw e, after_evm_transaction E tx1 w1)).
  { unfold signFirstProposal, signProposal.
    rewrite (evm_routes_without_serialized p Hroute).
    rewrite bind_lift_Ret, bind_gets, Hkey, bind_modify. fold w1.
    unfold handler_signProposal, evm_signProposal.
    rewrite transactions_ensureChainId, Htxs.
    unfold try_catch. rewrite Haccount, bind_lift_Ret.
    simpl for_each. rewrite !bind_assoc.
    rewrite (bind_Ret _ _ _ _ _ H1), !bind_assoc.
    rewrite (bind_Throw _ _ _ _ _ H2). reflexivity. }
  unfold singleChain_proposal_attempt.
  apply bind_Throw. exact Hsign.
Qed.

End PartialSigning.

(** X12. A proposal of several transactions is signed one transaction
    after the other, and nothing is taken back. When the first one goes
    through and the second one is refused, each attempt of the
    process-proposal step hands the first transaction to the chain
    again: after the three attempts it was handed over three times, the
    step has waited 1, 2 and 4 s, and the objective is marked ABORTED. *)
Theorem handleProposal_resubmits (E : Env) (w : World) (id : string)
  (stored : ChromaResponse) (p : TransactionProposal) (ps : list TransactionProposal)
  (tx1 tx2 : BaseTransaction) (rest : list BaseTransaction) (account : ChainAccount)
  (o : Objective) :
  evm_getAccount E evm = Ret account ->
  serialized_of p = None ->
  transactions p = Some (tx1 :: tx2 :: rest) ->
  sendable E tx1 ->
  has_client E (chain_of tx2) = false \/ truthy (tx_data tx2) = false ->
  chain_always_accepts E ->
  goal_key (goal w) = Some id ->
  goalResponses (st_singleChain (hstates w)) !! id = Some stored ->
  r_proposals stored = Some (p :: ps) ->
  List.find (has_id "process-proposal") (goal_objectives (goal w)) = Some o ->
  obj_completed o = false ->
  exists w',
    singleChain_handleProposal E w = (Ret tt, w')
    /\ submitted w'
       = (submitted w
          ++ [submission_of E tx1 (n_evmRpc (calls w));
              submission_of E tx1 (S (n_evmRpc (calls w)));
              submission_of E tx1 (S (S (n_evmRpc (calls w))))])%list
    /\ timers w' = (timers w ++ [1000; 2000; 4000])%list%Z
    /\ getObjectiveStatus (goal w') "process-proposal" = ABORTED.
Proof.
  intros Hacct Hroute Htxs Hgood Hbad Hchain Hkey Hstored Hprops Hfind Hpending.
  set (mark := set_my_state SingleChain
                 (set_goalResponses (alter (on_first_proposal ensureChainId) id))).
  set (wa := after_evm_transaction E tx1 (mark w)).
  set (wb := after_evm_transaction E tx1 (mark (after_timer (backoff_delay 0) wa))).
  set (wc := after_evm_transaction E tx1 (mark (after_timer (backoff_delay 1) wb))).
  destruct (proposal_attempt_half_way E id p ps tx1 tx2 rest account
              Hacct Hroute Htxs Hgood Hbad Hchain w Hkey) as (e1 & H1).
  destruct (proposal_attempt_half_way E id p ps tx1 tx2 rest account
              Hacct Hroute Htxs Hgood Hbad Hchain (after_timer (backoff_delay 0) wa) Hkey)
    as (e2 & H2).
  destruct (proposal_attempt_half_way E id p ps tx1 tx2 rest account
              Hacct Hroute Htxs Hgood Hbad Hchain (after_timer (backoff_delay 1) wb) Hkey)
    as (e3 & H3).
  fold mark in H1, H2, H3. fold wa in H1. fold wb in H2. fold wc in H3.
  pose proof (retry_three_throws _ _ _ _ _ _ _ _ H1 H2 H3) as Hretry.
  set (wd := after_timer (backoff_delay 2) wc) in *.
  exists (snd (markAborted "process-proposal" wd)).
  destruct (markAborted_effect "process-proposal" wd)
    as ((_ & Htimers & _ & Hsub & _) & _ & Hobjs & _).
  split; [|split; [|split]].
  - unfold singleChain_handleProposal.
    rewrite (bind_Ret _ _ _ _ _ (getLatestResponse_spec SingleChain w id Hkey)).
    unfold my_state. simpl. rewrite Hstored. simpl. rewrite Hprops.
    rewrite (bind_Ret _ _ _ _ _ Hretry). simpl.
    apply markAborted_returns.
  - rewrite Hsub. unfold wd, wc, wb, wa, after_evm_transaction, submission_of, next_rpc.
    simpl. rewrite <- !app_assoc. reflexivity.
  - rewrite Htimers. unfold wd, wc, wb, wa, after_evm_transaction. simpl.
    rewrite <- !app_assoc. reflexivity.
  - apply (getObjectiveStatus_aborted "process-proposal" (goal wd) _ o); [exact Hfind|exact Hpending|exact Hobjs].
Qed.

Lemma handleProposal_resubmits_witness :
  let w := with_stored SingleChain reply_with_half_good_proposal (world_of confirmed_goal) in
  sendable env_evm call_tx
  /\ truthy (tx_data empty_tx) = false
  /\ chain_always_accepts env_evm
  /\ exists w',
       singleChain_handleProposal env_evm w = (Ret tt, w')
       /\ submitted w'
          = (submitted w
             ++ [submission_of env_evm call_tx (n_evmRpc (calls w));
                 submission_of env_evm call_tx (S (n_evmRpc (calls w)));
                 submission_of env_evm call_tx (S (S (n_evmRpc (calls w))))])%list
       /\ timers w' = (timers w ++ [1000; 2000; 4000])%list%Z
       /\ getObjectiveStatus (goal w') "process-proposal" = ABORTED.
Proof.
  cbv zeta.
  assert (Hs : sendable env_evm call_tx) by (repeat split).
  assert (Hc : chain_always_accepts env_evm).
  { intros n. exists "0xhash". split; [discriminate | repeat split]. }
  split; [exact Hs|]. split; [reflexivity|]. split; [exact Hc|].
  exact (handleProposal_resubmits env_evm
           (with_stored SingleChain reply_with_half_good_proposal (world_of confirmed_goal))
           "goal-1" reply_with_half_good_proposal half_good_proposal [] call_tx empty_tx []
           (mkChainAccount evm "0xA11CE" "sepolia")
           (mkObjective "process-proposal" "Process proposal" false None)
           eq_refl eq_refl eq_refl Hs (or_intror eq_refl) Hc eq_refl eq_refl eq_refl
           eq_refl eq_refl).
Defined.

(** The sample run evaluated: one transaction, handed to the chain three
    times; the goal stays in progress. *)
Example resubmission_run :
  let w := with_stored SingleChain reply_with_half_good_proposal (world_of confirmed_goal) in
  let w' := snd (singleChain_handleProposal env_evm w) in
  submitted w'
  = [EvmSubmission call_tx 11155111 300000; EvmSubmission call_tx 11155111 300000;
     EvmSubmission call_tx 11155111 300000]
  /\ goal_status <$> db w' !! "goal-1" = Some IN_PROGRESS
  /\ n_evmRpc (calls w') = 3%nat.
Proof. vm_compute. repeat split. Qed.

(** ** ensureChainId *)

Lemma transaction_ensureChainId p : transaction (ensureChainId p) = transaction p.
Proof.
  unfold ensureChainId.
  destruct (truthy (p_chainId p)); [reflexivity|].
  destruct (truthy (p_fromChain p)); [reflexivity|].
  destruct (transactions p); reflexivity.
Qed.

Lemma fromChain_ensureChainId p : p_fromChain (ensureChainId p) = p_fromChain p.
Proof.
  unfold ensureChainId.
  destruct (truthy (p_chainId p)); [reflexivity|].
  destruct (truthy (p_fromChain p)); [reflexivity|].
  destruct (transactions p); reflexivity.
Qed.

Lemma handler_signProposal_ensureChainId E h p w :
  handler_signProposal E h (ensureChainId p) w = handler_signProposal E h p w.
Proof.
  destruct h; simpl.
  - unfold evm_signProposal. rewrite transactions_ensureChainId. reflexivity.
  - unfold solana_signProposal.
    rewrite transactions_ensureChainId, transaction_ensureChainId. reflexivity.
Qed.

(** X13. [ensureChainId] only ever writes the [chainId] of the proposal,
    and not when it holds a non-zero one already; applying it twice is
    applying it once. Neither the router nor a signature handler reads
    that field: a proposal is routed and signed exactly as if
    [ensureChainId] had not been applied, in every world. *)
Theorem ensureChainId_decides_nothing (E : Env) (p : TransactionProposal) :
  transactions (ensureChainId p) = transactions p
  /\ transaction (ensureChainId p) = transaction p
  /\ p_fromChain (ensureChainId p) = p_fromChain p
  /\ (truthy (p_chainId p) = true -> ensureChainId p = p)
  /\ ensureChainId (ensureChainId p) = ensureChainId p
  /\ getSignatureHandler (ensureChainId p) = getSignatureHandler p
  /\ forall h w, handler_signProposal E h (ensureChainId p) w = handler_signProposal E h p w.
Proof.
  split; [apply transactions_ensureChainId|].
  split; [apply transaction_ensureChainId|].
  split; [apply fromChain_ensureChainId|].
  split; [intros H; unfold ensureChainId; rewrite H; reflexivity|].
  split.
  { unfold ensureChainId at 1.
    destruct (truthy (p_chainId (ensureChainId p))) eqn:Hc; [reflexivity|].
    rewrite fromChain_ensureChainId, transactions_ensureChainId.
    unfold ensureChainId in *.
    destruct (truthy (p_chainId p)) eqn:Hc0; [congruence|].
    destruct (truthy (p_fromChain p)) eqn:Hf; [reflexivity|].
    destruct (transactions p) as [[|tx txs]|]; reflexivity. }
  split.
  { unfold getSignatureHandler, getSignatureHandler_in. simpl.
    unfold evm_supportsChain, solana_supportsChain, serialized_of.
    rewrite transaction_ensureChainId. reflexivity. }
  intros h w. apply handler_signProposal_ensureChainId.
Qed.

Lemma ensureChainId_decides_nothing_witness :
  let p := mkProposal (Some 10%Z) (Some "base") (Some [call_tx]) None in
  truthy (p_chainId p) = true
  /\ ensureChainId p = p
  /\ ensureChainId (ensureChainId bare_proposal) = ensureChainId bare_proposal.
Proof.
  cbv zeta. split; [reflexivity|]. split.
  - exact (proj1 (proj2 (proj2 (proj2
             (ensureChainId_decides_nothing env_down
                (mkProposal (Some 10%Z) (Some "base") (Some [call_tx]) None))))) eq_refl).
  - exact (proj1 (proj2 (proj2 (proj2 (proj2
             (ensureChainId_decides_nothing env_down bare_proposal)))))).
Defined.

(** ** The process-proposal step on a signed proposal *)

Section SignedProposal.
Variable E : Env.

Lemma signFirstProposal_start h p ps id w :
  goal_key (goal w) = Some id ->
  signFirstProposal E h (p :: ps) w
  = match getSignatureHandler p with
    | Ret handler => handler_signProposal E handler p (chain_id_ensured h id w)
    | Throw e => (Throw e, w)
    | Diverge => (Diverge, w)
    end.
Proof.
  intros Hkey. unfold signFirstProposal, signProposal.
  destruct (getSignatureHandler p) as [handler|e|] eqn:Hroute.
  - rewrite bind_lift_Ret, bind_gets, Hkey, bind_modify.
    apply handler_signProposal_ensureChainId.
  - reflexivity.
  - reflexivity.
Qed.

Lemma handleProposal_signed w id stored ps s w1 :
  goal_key (goal w) = Some id ->
  goalResponses (st_singleChain (hstates w)) !! id = Some stored ->
  r_proposals stored = Some ps ->
  signFirstProposal E SingleChain ps w = (Ret s, w1) ->
  goal w1 = goal w ->
  singleChain_handleProposal E w
  = (Ret tt,
     set_db (alter (with_status DONE) id)
       (set_my_state SingleChain (set_goalResponses (delete id))
          (snd (completeObjective "process-proposal" w1)))).
Proof.
  intros Hkey Hstored Hprops Hsign Hgoal.
  set (w2 := snd (completeObjective "process-proposal" w1)).
  destruct (completeObjective_effect "process-proposal" w1) as (_ & Hgid & _).
  fold w2 in Hgid.
  assert (Hkey2 : goal_key (goal w2) = Some id).
  { unfold goal_key in *. rewrite Hgid, Hgoal. exact Hkey. }
  assert (Hattempt :
            singleChain_proposal_attempt E ps w
            = (Ret true, set_db (alter (with_status DONE) id)
                           (set_my_state SingleChain (set_goalResponses (delete id)) w2))).
  { unfold singleChain_proposal_attempt.
    rewrite (bind_Ret _ _ _ _ _ Hsign).
    rewrite (bind_Ret _ _ _ _ _ (completeObjective_returns "process-proposal" w1)).
    fold w2.
    rewrite (bind_Ret _ _ _ _ _ (completeGoal_spec SingleChain w2 id Hkey2)).
    reflexivity. }
  unfold singleChain_handleProposal.
  rewrite (bind_Ret _ _ _ _ _ (getLatestResponse_spec SingleChain w id Hkey)).
  unfold my_state. simpl. rewrite Hstored. simpl. rewrite Hprops.
  rewrite (bind_Ret _ _ _ _ _ (handler_retry_first_try _ _ _ _ Hattempt)).
  reflexivity.
Qed.

Lemma solana_routes p tx blob :
  transaction p = Some tx -> serializedTransaction tx = Some blob -> blob <> EmptyString ->
  getSignatureHandler p = Ret SolanaSignatureHandler.
Proof.
  intros Ht Hs Hne. unfold getSignatureHandler, getSignatureHandler_in. simpl.
  unfold evm_supportsChain, solana_supportsChain, serialized_of. rewrite Ht, Hs.
  destruct blob; [contradiction|reflexivity].
Qed.

Lemma solana_signProposal_simulates p tx blob err w :
  solana_ready E ->
  CHROMA_EXAMPLE_MODE E = true ->
  transactions p = None ->
  transaction p = Some tx ->
  serializedTransaction tx = Some blob ->
  sol_deserialize (next_solana E w) = Ret tt ->
  answer (sol_simulate (next_solana E w)) = Ret err ->
  solana_signProposal E p w
  = (Ret (Hash (if err then "simulation_failed" else "simulation_success")),
     set_now (fun t => (t + Z.of_N (latency (sol_simulate (next_solana E w))))%Z)
       (set_calls bump_solanaRpc w)).
Proof.
  intros (Hconn & Hkp) Hmode Htxs Ht Hs Hdes Hsim.
  unfold solana_signProposal. rewrite Hconn, (bool_decide_eq_true_2 _ Hkp). simpl.
  unfold try_catch. rewrite Htxs. simpl. rewrite Ht, Hs.
  rewrite bind_gets, bind_modify. fold (next_solana E w). rewrite Hdes, bind_lift_Ret, Hmode.
  rewrite (bind_Ret _ _ _ _ _ (await_Ret _ err _ Hsim)). reflexivity.
Qed.

(** X14. In example mode the Solana handler signs by simulating: nothing
    is handed to the network, and the result is a string that only says
    how the simulation went. The process-proposal step takes any such
    string for a transaction hash: when the simulation reported an
    error, the objective is completed all the same and the stored status
    of the goal becomes DONE, at the first attempt. *)
Theorem example_mode_failed_simulation_completes (w : World) (id : string)
  (stored : ChromaResponse) (p : TransactionProposal) (ps : list TransactionProposal)
  (tx : SerializedTransaction) (blob : string) (g0 : Goal) :
  solana_ready E ->
  CHROMA_EXAMPLE_MODE E = true ->
  transactions p = None ->
  transaction p = Some tx ->
  serializedTransaction tx = Some blob ->
  blob <> EmptyString ->
  sol_deserialize (next_solana E w) = Ret tt ->
  answer (sol_simulate (next_solana E w)) = Ret true ->
  goal_key (goal w) = Some id ->
  db w !! id = Some g0 ->
  goalResponses (st_singleChain (hstates w)) !! id = Some stored ->
  r_proposals stored = Some (p :: ps) ->
  exists w',
    fst (solana_signProposal E p (chain_id_ensured SingleChain id w))
    = Ret (Hash "simulation_failed")
    /\ singleChain_handleProposal E w = (Ret tt, w')
    /\ goal_objectives (goal w')
       = update_first (has_id "process-proposal") complete (goal_objectives (goal w))
    /\ goal_status <$> db w' !! id = Some DONE
    /\ submitted w' = submitted w
    /\ timers w' = timers w.
Proof.
  intros Hready Hmode Htxs Ht Hs Hne Hdes Hsim Hkey Hg0 Hstored Hprops.
  set (w0 := chain_id_ensured SingleChain id w).
  pose proof (solana_signProposal_simulates p tx blob true w0 Hready Hmode Htxs Ht Hs Hdes Hsim)
    as Hsign.
  set (w1 := set_now (fun t => (t + Z.of_N (latency (sol_simulate (next_solana E w0))))%Z)
               (set_calls bump_solanaRpc w0)) in *.
  assert (Hfirst : signFirstProposal E SingleChain (p :: ps) w = (Ret (Hash "simulation_failed"), w1)).
  { rewrite (signFirstProposal_start SingleChain p ps id w Hkey).
    rewrite (solana_routes p tx blob Ht Hs Hne). exact Hsign. }
  eexists. split; [rewrite Hsign; reflexivity|]. split.
  - exact (handleProposal_signed w id stored (p :: ps) _ w1 Hkey Hstored Hprops Hfirst eq_refl).
  - destruct (completeObjective_effect "process-proposal" w1)
      as ((_ & Htimers & _ & Hsub & _) & _ & Hobjs & Hdb).
    simpl. rewrite Hobjs, Hsub, Htimers. split; [reflexivity|]. split; [|split; reflexivity].
    rewrite lookup_alter_eq.
    destruct (proj2 (Hdb id)) as [g1 Hg1]; [exists g0; exact Hg0|].
    rewrite Hg1. reflexivity.
Qed.

(** X15. A proposal that carries a serialized transaction and also a
    [transactions] array, empty or not, is routed to the Solana handler,
    which refuses it before any chain call. The process-proposal step
    tries three times, hands nothing to a network, and marks the
    objective ABORTED. *)
Theorem mixed_proposal_is_refused (w : World) (id : string)
  (stored : ChromaResponse) (p : TransactionProposal) (ps : list TransactionProposal)
  (txs : list BaseTransaction) (tx : SerializedTransaction) (blob : string) (o : Objective) :
  solana_ready E ->
  transactions p = Some txs ->
  transaction p = Some tx ->
  serializedTransaction tx = Some blob ->
  blob <> EmptyString ->
  goal_key (goal w) = Some id ->
  goalResponses (st_singleChain (hstates w)) !! id = Some stored ->
  r_proposals stored = Some (p :: ps) ->
  List.find (has_id "process-proposal") (goal_objectives (goal w)) = Some o ->
  obj_completed o = false ->
  exists w',
    getSignatureHandler p = Ret SolanaSignatureHandler
    /\ (forall w0, solana_signProposal E p w0
                   = (Throw (Error "Multiple transactions not supported for Solana"), w0))
    /\ singleChain_handleProposal E w = (Ret tt, w')
    /\ getObjectiveStatus (goal w') "process-proposal" = ABORTED
    /\ submitted w' = submitted w
    /\ calls w' = calls w
    /\ timers w' = (timers w ++ [1000; 2000; 4000])%list%Z.
Proof.
  intros (Hconn & Hkp) Htxs Ht Hs Hne Hkey Hstored Hprops Hfind Hpending.
  assert (Hroute : getSignatureHandler p = Ret SolanaSignatureHandler)
    by exact (solana_routes p tx blob Ht Hs Hne).
  assert (Hsign : forall w0, solana_signProposal E p w0
                   = (Throw (Error "Multiple transactions not supported for Solana"), w0)).
  { intros w0. unfold solana_signProposal.
    rewrite Hconn, (bool_decide_eq_true_2 _ Hkp). simpl.
    unfold try_catch. rewrite Htxs. reflexivity. }
  assert (Hattempt : forall w0, goal_key (goal w0) = Some id ->
            singleChain_proposal_attempt E (p :: ps) w0
            = (Throw (Error "Multiple transactions not supported for Solana"),
               chain_id_ensured SingleChain id w0)).
  { intros w0 Hk. unfold singleChain_proposal_attempt. apply bind_Throw.
    rewrite (signFirstProposal_start SingleChain p ps id w0 Hk), Hroute. apply Hsign. }
  set (mark := chain_id_ensured SingleChain id).
  pose proof (retry_three_throws _ _ _ _ _ _ _ _
                (Hattempt w Hkey)
                (Hattempt (after_timer (backoff_delay 0) (mark w)) Hkey)
                (Hattempt (after_timer (backoff_delay 1)
                             (mark (after_timer (backoff_delay 0) (mark w)))) Hkey)) as Hretry.
  fold mark in Hretry.
  set (wd := after_timer (backoff_delay 2)
               (mark (after_timer (backoff_delay 1)
                        (mark (after_timer (backoff_delay 0) (mark w)))))) in *.
  exists (snd (markAborted "process-proposal" wd)).
  destruct (markAborted_effect "process-proposal" wd)
    as ((_ & Htimers & Hcalls & Hsub & _) & _ & Hobjs & _).
  split; [exact Hroute|]. split; [exact Hsign|]. split; [|split; [|split; [|split]]].
  - unfold singleChain_handleProposal.
    rewrite (bind_Ret _ _ _ _ _ (getLatestResponse_spec SingleChain w id Hkey)).
    unfold my_state. simpl. rewrite Hstored. simpl. rewrite Hprops.
    rewrite (bind_Ret _ _ _ _ _ Hretry). simpl.
    apply markAborted_returns.
  - apply (getObjectiveStatus_aborted "process-proposal" (goal wd) _ o);
      [exact Hfind|exact Hpending|exact Hobjs].
  - rewrite Hsub. reflexivity.
  - rewrite Hcalls. reflexivity.
  - rewrite Htimers. unfold wd. simpl. rewrite <- !app_assoc. reflexivity.
Qed.

End SignedProposal.

Lemma example_mode_failed_simulation_completes_witness :
  let w := with_stored SingleChain reply_with_solana_proposal (world_of confirmed_goal) in
  solana_ready env_example_mode
  /\ answer (sol_simulate (next_solana env_example_mode w)) = Ret true
  /\ exists w',
       fst (solana_signProposal env_example_mode solana_proposal
              (chain_id_ensured SingleChain "goal-1" w))
       = Ret (Hash "simulation_failed")
       /\ singleChain_handleProposal env_example_mode w = (Ret tt, w')
       /\ goal_objectives (goal w')
          = update_first (has_id "process-proposal") complete (goal_objectives (goal w))
       /\ goal_status <$> db w' !! "goal-1" = Some DONE
       /\ submitted w' = submitted w
       /\ timers w' = timers w.
Proof.
  cbv zeta.
  assert (Hready : solana_ready env_example_mode) by (split; [reflexivity | eexists; reflexivity]).
  split; [exact Hready|]. split; [reflexivity|].
  exact (example_mode_failed_simulation_completes env_example_mode
           (with_stored SingleChain reply_with_solana_proposal (world_of confirmed_goal))
           "goal-1" reply_with_solana_proposal solana_proposal []
           (mkSerTx (mkTx None None None None) (Some "AQID")) "AQID" confirmed_goal
           Hready eq_refl eq_refl eq_refl eq_refl ltac:(discriminate) eq_refl eq_refl
           eq_refl eq_refl eq_refl eq_refl).
Defined.

Lemma mixed_proposal_is_refused_witness :
  let w := with_stored SingleChain reply_with_mixed_proposal (world_of confirmed_goal) in
  solana_ready env_example_mode
  /\ exists w',
       getSignatureHandler mixed_proposal = Ret SolanaSignatureHandler
       /\ (forall w0, solana_signProposal env_example_mode mixed_proposal w0
                      = (Throw (Error "Multiple transactions not supported for Solana"), w0))
       /\ singleChain_handleProposal env_example_mode w = (Ret tt, w')
       /\ getObjectiveStatus (goal w') "process-proposal" = ABORTED
       /\ submitted w' = submitted w
       /\ calls w' = calls w
       /\ timers w' = (timers w ++ [1000; 2000; 4000])%list%Z.
Proof.
  cbv zeta.
  assert (Hready : solana_ready env_example_mode) by (split; [reflexivity | eexists; reflexivity]).
  split; [exact Hready|].
  exact (mixed_proposal_is_refused env_example_mode
           (with_stored SingleChain reply_with_mixed_proposal (world_of confirmed_goal))
           "goal-1" reply_with_mixed_proposal mixed_proposal [] []
           (mkSerTx (mkTx None None None None) (Some "AQID")) "AQID"
           (mkObjective "process-proposal" "Process proposal" false None)
           Hready eq_refl eq_refl eq_refl ltac:(discriminate) eq_refl eq_refl eq_refl
           eq_refl eq_refl).
Defined.

(** ** The process-proposal step without transactions *)

Lemma evm_getAccount_settles E type : evm_getAccount E type <> Diverge.
Proof.
  unfold evm_getAccount. destruct type; [|discriminate].
  destruct (CHROMA_EVM_CHAINS E) as [chains|]; [|discriminate].
  destruct (truthy chains); [|discriminate].
  destruct (evm_account E); discriminate.
Qed.

Lemma evm_signProposal_no_account E p w e :
  evm_getAccount E evm = Throw e ->
  evm_signProposal E p w = (Throw e, w).
Proof.
  intros Hacct. unfold evm_signProposal. unfold_js. rewrite Hacct. reflexivity.
Qed.

(** What [markAborted] writes to the store: the goal object, its status as
    it was. *)
Lemma markAborted_stored id w gid o :
  goal_id (goal w) = Some gid ->
  List.find (has_id id) (goal_objectives (goal w)) = Some o ->
  is_Some (db w !! gid) ->
  goal_status <$> db (snd (markAborted id w)) !! gid = Some (goal_status (goal w)).
Proof.
  intros Hid Hfind [g0 Hg0]. unfold markAborted, updateGoal. rewrite bind_gets, Hfind.
  rewrite bind_modify, bind_gets. simpl. rewrite Hid. simpl.
  rewrite lookup_alter_eq, Hg0. reflexivity.
Qed.

(** C10, as amended. [signProposal] of the EVM handler asks for the account
    before it looks at the transactions. For a proposal the router gives
    to the EVM handler and whose [transactions] are absent or empty:
    - with an account, the proposal is signed, in any world, by returning
      the empty list of hashes and changing nothing; the process-proposal
      step that finds the proposal first in the stored reply ends normally
      at its first attempt, the objective is completed, the stored status
      of the goal is DONE, the stored reply is dropped, and no transaction
      was handed to a network, no oracle or chain call made and no timer
      armed;
    - without one ([getAccount] throws), [signProposal] throws the same
      exception in any world; the step makes its three attempts, 1000,
      2000 and 4000 ms apart, and returns with the objective ABORTED; the
      stored status of the goal stays what it was, and no transaction is
      handed to a network.
    [getAccount] settles one way or the other. *)
Theorem handleProposal_without_transactions (E : Env) (w : World) (id : string)
  (stored : ChromaResponse) (p : TransactionProposal) (rest : list TransactionProposal) :
  transactions p = None \/ transactions p = Some [] ->
  getSignatureHandler p = Ret EVMSignatureHandler ->
  goal_key (goal w) = Some id ->
  goalResponses (st_singleChain (hstates w)) !! id = Some stored ->
  r_proposals stored = Some (p :: rest) ->
  (forall acct, evm_getAccount E evm = Ret acct ->
     (forall w0, evm_signProposal E p w0 = (Ret (Hashes []), w0))
     /\ exists w',
          singleChain_handleProposal E w = (Ret tt, w')
          /\ goal_objectives (goal w')
             = update_first (has_id "process-proposal") complete (goal_objectives (goal w))
          /\ (forall o, List.find (has_id "process-proposal") (goal_objectives (goal w)) = Some o ->
                        getObjectiveStatus (goal w') "process-proposal" = COMPLETED)
          /\ (forall g0, db w !! id = Some g0 -> goal_status <$> db w' !! id = Some DONE)
          /\ goalResponses (st_singleChain (hstates w')) !! id = None
          /\ submitted w' = submitted w
          /\ calls w' = calls w
          /\ timers w' = timers w)
  /\ (forall e, evm_getAccount E evm = Throw e ->
        (forall w0, evm_signProposal E p w0 = (Throw e, w0))
        /\ exists w',
             singleChain_handleProposal E w = (Ret tt, w')
             /\ goal_objectives (goal w')
                = update_first (has_id "process-proposal") abort (goal_objectives (goal w))
             /\ (forall o, List.find (has_id "process-proposal") (goal_objectives (goal w))
                           = Some o ->
                           obj_completed o = false ->
                           getObjectiveStatus (goal w') "process-proposal" = ABORTED
                           /\ forall g0, db w !! id = Some g0 ->
                                goal_status <$> db w' !! id = Some (goal_status (goal w)))
             /\ (forall g0, db w' !! id = Some g0 -> goal_status g0 = DONE ->
                            exists g1, db w !! id = Some g1
                                       /\ (goal_status g1 = DONE \/ goal_status (goal w) = DONE))
             /\ submitted w' = submitted w
             /\ calls w' = calls w
             /\ timers w' = (timers w ++ [1000; 2000; 4000])%list%Z)
  /\ evm_getAccount E evm <> Diverge.
Proof.
  intros Htx Hroute Hkey Hstored Hprops.
  split; [|split; [|apply evm_getAccount_settles]].
  - intros acct Hacct.
    exact (handleProposal_with_account E w id stored p rest acct
             Hacct Htx Hroute Hkey Hstored Hprops).
  - intros e Hacct.
    assert (Hsign : forall w0, evm_signProposal E p w0 = (Throw e, w0))
      by (intros w0; exact (evm_signProposal_no_account E p w0 e Hacct)).
    split; [exact Hsign|].
    assert (Hattempt : forall w0, goal_key (goal w0) = Some id ->
              singleChain_proposal_attempt E (p :: rest) w0
              = (Throw e, chain_id_ensured SingleChain id w0)).
    { intros w0 Hk. unfold singleChain_proposal_attempt. apply bind_Throw.
      rewrite (signFirstProposal_start E SingleChain p rest id w0 Hk), Hroute.
      simpl. apply evm_signProposal_no_account. exact Hacct. }
    set (mark := chain_id_ensured SingleChain id).
    pose proof (retry_three_throws _ _ _ _ _ _ _ _
                  (Hattempt w Hkey)
                  (Hattempt (after_timer (backoff_delay 0) (mark w)) Hkey)
                  (Hattempt (after_timer (backoff_delay 1)
                               (mark (after_timer (backoff_delay 0) (mark w)))) Hkey))
      as Hretry.
    fold mark in Hretry.
    set (wd := after_timer (backoff_delay 2)
                 (mark (after_timer (backoff_delay 1)
                          (mark (after_timer (backoff_delay 0) (mark w)))))) in *.
    exists (snd (markAborted "process-proposal" wd)).
    destruct (markAborted_effect "process-proposal" wd)
      as ((_ & Htimers & Hcalls & Hsub & _) & _ & Hobjs & Hdb).
    assert (Hgid : goal_id (goal w) = Some id).
    { unfold goal_key in Hkey. destruct (goal_id (goal w)) as [i|]; [|discriminate].
      destruct (truthy i); [congruence | discriminate]. }
    split; [|split; [|split; [|split; [|split; [|split]]]]].
    + unfold singleChain_handleProposal.
      rewrite (bind_Ret _ _ _ _ _ (getLatestResponse_spec SingleChain w id Hkey)).
      unfold my_state. simpl. rewrite Hstored. simpl. rewrite Hprops.
      rewrite (bind_Ret _ _ _ _ _ Hretry). simpl.
      apply markAborted_returns.
    + exact Hobjs.
    + intros o Hfind Hpending. split.
      * apply (getObjectiveStatus_aborted "process-proposal" (goal wd) _ o);
          [exact Hfind|exact Hpending|exact Hobjs].
      * intros g0 Hg0.
        apply (markAborted_stored "process-proposal" wd id o Hgid Hfind).
        exists g0. exact Hg0.
    + intros g0 Hg0 Hdone.
      destruct (proj1 (Hdb id)) as [g1 Hg1]; [exists g0; exact Hg0|].
      change (db w !! id = Some g1) in Hg1.
      exists g1. split; [exact Hg1|].
      destruct (List.find (has_id "process-proposal") (goal_objectives (goal w)))
        as [o|] eqn:Hfind.
      * right.
        pose proof (markAborted_stored "process-proposal" wd id o Hgid Hfind
                      (ex_intro _ g1 Hg1)) as Hst.
        rewrite Hg0 in Hst. simpl in Hst. injection Hst as Hst.
        change (goal_status (goal wd)) with (goal_status (goal w)) in Hst. congruence.
      * left.
        assert (Hsame : db (snd (markAborted "process-proposal" wd)) = db w).
        { unfold markAborted. rewrite bind_gets. change (goal wd) with (goal w).
          rewrite Hfind. reflexivity. }
        rewrite Hsame in Hg0. congruence.
    + rewrite Hsub. reflexivity.
    + rewrite Hcalls. reflexivity.
    + rewrite Htimers. unfold wd. simpl. rewrite <- !app_assoc. reflexivity.
Qed.

Lemma handleProposal_without_transactions_witness :
  let w := with_stored SingleChain reply_with_empty_proposal (world_of confirmed_goal) in
  let w' := snd (singleChain_handleProposal env_rejecting w) in
  let w'' := snd (singleChain_handleProposal env_without_account w) in
  evm_signProposal env_rejecting empty_proposal w = (Ret (Hashes []), w)
  /\ fst (singleChain_handleProposal env_rejecting w) = Ret tt
  /\ getObjectiveStatus (goal w') "process-proposal" = COMPLETED
  /\ goal_status <$> db w' !! "goal-1" = Some DONE
  /\ submitted w' = []
  /\ evm_signProposal env_without_account empty_proposal w
     = (Throw (Error "EVM account not initialized"), w)
  /\ fst (singleChain_handleProposal env_without_account w) = Ret tt
  /\ getObjectiveStatus (goal w'') "process-proposal" = ABORTED
  /\ goal_status <$> db w'' !! "goal-1" = Some IN_PROGRESS.
Proof.
  cbv zeta.
  pose proof (fun E => handleProposal_without_transactions E
              (with_stored SingleChain reply_with_empty_proposal (world_of confirmed_goal))
              "goal-1" reply_with_empty_proposal empty_proposal []
              (or_intror eq_refl) eq_refl eq_refl eq_refl eq_refl) as Hboth.
  destruct (proj1 (Hboth env_rejecting) (mkChainAccount evm "0xA11CE" "ethereum") eq_refl)
    as (Hsign & w' & Hrun & _ & Hdone & Hdb & _ & Hsub & _).
  destruct (proj1 (proj2 (Hboth env_without_account))
              (Error "EVM account not initialized") eq_refl)
    as (Hsign' & w'' & Hrun' & _ & Habort & _).
  rewrite Hrun, Hrun'. simpl fst. simpl snd.
  split; [apply Hsign|]. split; [reflexivity|]. split.
  { apply (Hdone (mkObjective "process-proposal" "Process proposal" false None)).
    reflexivity. }
  split; [apply (Hdb confirmed_goal); reflexivity|].
  split; [rewrite Hsub; reflexivity|].
  split; [apply Hsign'|]. split; [reflexivity|].
  destruct (Habort (mkObjective "process-proposal" "Process proposal" false None)
              eq_refl eq_refl) as [Hst Hstored].
  split; [exact Hst | exact (Hstored confirmed_goal eq_refl)].
Defined.

(** C10, the stated claim fails: the handler is registered and has no
    account. Signing the proposal without transactions raises, the step
    gives up after three attempts and marks the objective ABORTED, and the
    goal is not DONE. *)
Example unconfigured_account_aborts_proposal :
  let w := with_stored SingleChain reply_with_empty_proposal (world_of confirmed_goal) in
  let w' := snd (singleChain_handleProposal env_without_account w) in
  transactions empty_proposal = Some []
  /\ getSignatureHandler empty_proposal = Ret EVMSignatureHandler
  /\ evm_signProposal env_without_account empty_proposal w
     = (Throw (Error "EVM account not initialized"), w)
  /\ fst (singleChain_handleProposal env_without_account w) = Ret tt
  /\ getObjectiveStatus (goal w') "process-proposal" = ABORTED
  /\ goal_status <$> db w' !! "goal-1" = Some IN_PROGRESS
  /\ timers w' = [1000; 2000; 4000]%Z
  /\ submitted w' = [].
Proof. vm_compute. repeat split. Qed.

(** ** What a computation can throw *)

Section ThrowsOnly.
Context (P : exn -> Prop).

Lemma throws_only_ret {A} (a : A) : throws_only P (ret a).
Proof. intros w e w' H. discriminate. Qed.

Lemma throws_only_gets {A} (f : World -> A) : throws_only P (gets f).
Proof. intros w e w' H. discriminate. Qed.

Lemma throws_only_modify f : throws_only P (modify f).
Proof. intros w e w' H. discriminate. Qed.

Lemma throws_only_diverge {A} : throws_only P (@diverge A).
Proof. intros w e w' H. discriminate. Qed.

Lemma throws_only_throw {A} e : P e -> throws_only P (@throw A e).
Proof. intros He w e' w' [= <- _]. exact He. Qed.

Lemma throws_only_bind {A B} (m : M A) (k : A -> M B) :
  throws_only P m -> (forall a, throws_only P (k a)) -> throws_only P (bind m k).
Proof.
  intros Hm Hk w e w'. unfold bind.
  destruct (m w) as [[a|e0|] w1] eqn:Hrun.
  - apply Hk.
  - intros [= <- _]. exact (Hm _ _ _ Hrun).
  - discriminate.
Qed.

Lemma throws_only_try_catch {A} (body : M A) (h : exn -> M A) :
  throws_only P body -> (forall e, P e -> throws_only P (h e)) ->
  throws_only P (try_catch body h).
Proof.
  intros Hb Hh w e w'. unfold try_catch.
  destruct (body w) as [[a|e0|] w1] eqn:Hrun; try discriminate.
  apply Hh. exact (Hb _ _ _ Hrun).
Qed.

End ThrowsOnly.

(** ** A single-chain run with a cooperative environment *)

Lemma goal_key_of_id g g' : goal_id g' = goal_id g -> goal_key g' = goal_key g.
Proof. intros H. unfold goal_key. rewrite H. reflexivity. Qed.

(** What completing an objective writes to the store. *)
Lemma completeObjective_db oid w id o :
  List.find (has_id oid) (goal_objectives (goal w)) = Some o ->
  goal_key (goal w) = Some id ->
  is_Some (db w !! id) ->
  db (snd (completeObjective oid w)) !! id = Some (goal (snd (completeObjective oid w))).
Proof.
  intros Hfind Hkey [g0 Hg0]. apply goal_key_id in Hkey.
  unfold completeObjective, updateGoal. rewrite bind_gets, Hfind, bind_modify, bind_gets.
  simpl. rewrite Hkey. simpl. rewrite lookup_alter_eq, Hg0. reflexivity.
Qed.

Section Steps.
Variable E : Env.

Lemma hands_on_trans w1 w2 w3 : hands_on w1 w2 -> hands_on w2 w3 -> hands_on w1 w3.
Proof.
  intros (Hg & Ht & Hd) (Hg' & Ht' & Hd'). split; [congruence|]. split; [congruence|].
  intros k. rewrite Hd'. apply Hd.
Qed.

Lemma hands_on_completeObjective oid w : hands_on w (snd (completeObjective oid w)).
Proof.
  destruct (completeObjective_effect oid w) as ((_ & Ht & _) & Hg & _ & Hd).
  split; [exact Hg|]. split; [exact Ht|exact Hd].
Qed.

Lemma hands_on_same w w' :
  goal w' = goal w -> timers w' = timers w -> db w' = db w -> hands_on w w'.
Proof. intros Hg Ht Hd. unfold hands_on. rewrite Hg, Ht, Hd. repeat split; auto. Qed.

Lemma introduction_first_try w msg responses :
  next_text E w = Ret msg ->
  next_replies E w = Ret responses ->
  validator_settles E ->
  exists w',
    singleChain_handleIntroduction E w = (Ret tt, w')
    /\ goal_objectives (goal w')
       = update_first (has_id "introduce-agent") complete (goal_objectives (goal w))
    /\ hands_on w w'
    /\ hstates w' = hstates w.
Proof.
  unfold next_text, next_replies. intros Htext Hsend Hsettles.
  set (w1 := set_now (fun t => (t + Z.of_N (latency (env_generateText E (n_generateText (calls w)))))%Z)
               (set_calls bump_generateText w)).
  set (w2 := set_now (fun t => (t + Z.of_N (latency (env_sendMessage E (n_sendMessage (calls w1)))))%Z)
               (set_calls bump_sendMessage w1)).
  destruct (validateIntroResponse_settles E responses w2 (Hsettles _)) as (v & Hvalid).
  set (w3 := snd (validateIntroResponse E responses w2)) in *.
  set (w4 := snd (completeObjective "introduce-agent" w3)).
  assert (Hattempt : singleChain_introduction_attempt E w = (Ret true, w4)).
  { unfold singleChain_introduction_attempt.
    assert (Hgen : generateText E w = (Ret msg, w1)) by (rewrite generateText_spec, Htext; reflexivity).
    rewrite (bind_Ret _ _ _ _ _ Hgen).
    assert (Hs : sendMessage E msg w1 = (Ret responses, w2)).
    { rewrite sendMessage_spec. change (n_sendMessage (calls w1)) with (n_sendMessage (calls w)).
      rewrite Hsend. reflexivity. }
    rewrite (bind_Ret _ _ _ _ _ Hs).
    rewrite (bind_Ret _ _ _ _ _ Hvalid). cbv beta. change (truthy v) with true. cbv iota.
    rewrite (bind_Ret _ _ _ _ _ (completeObjective_returns "introduce-agent" w3)).
    reflexivity. }
  assert (Hg3 : goal w3 = goal w).
  { unfold w3. rewrite (keeps_validateIntroResponse goal); reflexivity. }
  assert (Ht3 : timers w3 = timers w).
  { unfold w3. rewrite (keeps_validateIntroResponse timers); reflexivity. }
  assert (Hd3 : db w3 = db w).
  { unfold w3. rewrite (keeps_validateIntroResponse db); reflexivity. }
  assert (Hh3 : hstates w3 = hstates w).
  { unfold w3. rewrite (keeps_validateIntroResponse hstates); reflexivity. }
  exists w4. split.
  - unfold singleChain_handleIntroduction.
    rewrite (bind_Ret _ _ _ _ _ (handler_retry_first_try _ _ _ _ Hattempt)). reflexivity.
  - destruct (completeObjective_effect "introduce-agent" w3)
      as ((_ & _ & _ & _ & _ & Hhst & _) & _ & Hobjs & _).
    fold w4 in Hhst, Hobjs. rewrite Hobjs, Hg3, Hhst, Hh3.
    split; [reflexivity|]. split; [|reflexivity].
    apply (hands_on_trans w w3 w4); [apply hands_on_same; assumption|].
    apply hands_on_completeObjective.
Qed.

Lemma operation_first_try w msg responses r id :
  next_text E w = Ret msg ->
  truthy msg = true ->
  next_replies E w = Ret responses ->
  List.find (fun r => truthy (r_intent r)) responses = Some r ->
  validator_settles E ->
  goal_key (goal w) = Some id ->
  exists w',
    singleChain_handleOperation E w = (Ret tt, w')
    /\ goal_objectives (goal w')
       = update_first (has_id "present-operation") complete (goal_objectives (goal w))
    /\ hands_on w w'
    /\ goalResponses (st_singleChain (hstates w')) !! id = Some r.
Proof.
  unfold next_text, next_replies. intros Htext Hmsg Hsend Hfind Hsettles Hkey.
  set (w1 := set_now (fun t => (t + Z.of_N (latency (env_generateText E (n_generateText (calls w)))))%Z)
               (set_calls bump_generateText w)).
  set (w2 := set_now (fun t => (t + Z.of_N (latency (env_sendMessage E (n_sendMessage (calls w1)))))%Z)
               (set_calls bump_sendMessage w1)).
  destruct (validateOperationResponse_settles E r w2 (Hsettles _)) as (v & Hvalid).
  set (w3 := snd (validateOperationResponse E r w2)) in *.
  set (w4 := snd (storeResponse SingleChain r w3)).
  set (w5 := snd (completeObjective "present-operation" w4)).
  assert (Hattempt : singleChain_operation_attempt E w = (Ret true, w5)).
  { unfold singleChain_operation_attempt, generateOperationMessage.
    assert (Hgen : generateText E w = (Ret msg, w1)) by (rewrite generateText_spec, Htext; reflexivity).
    rewrite (bind_Ret _ _ _ _ _ Hgen), Hmsg. simpl.
    assert (Hs : sendMessage E msg w1 = (Ret responses, w2)).
    { rewrite sendMessage_spec. change (n_sendMessage (calls w1)) with (n_sendMessage (calls w)).
      rewrite Hsend. reflexivity. }
    rewrite (bind_Ret _ _ _ _ _ Hs), Hfind.
    rewrite (bind_Ret _ _ _ _ _ Hvalid). cbv beta. change (negb (truthy v)) with false. cbv iota.
    rewrite (bind_Ret _ _ _ _ _ (storeResponse_returns SingleChain r w3)). fold w4.
    rewrite (bind_Ret _ _ _ _ _ (completeObjective_returns "present-operation" w4)).
    reflexivity. }
  assert (Hg3 : goal w3 = goal w).
  { unfold w3. rewrite (keeps_validateOperationResponse goal); reflexivity. }
  assert (Ht3 : timers w3 = timers w).
  { unfold w3. rewrite (keeps_validateOperationResponse timers); reflexivity. }
  assert (Hd3 : db w3 = db w).
  { unfold w3. rewrite (keeps_validateOperationResponse db); reflexivity. }
  assert (Hg4 : goal w4 = goal w3).
  { unfold w4. rewrite (keeps_storeResponse goal); reflexivity. }
  assert (Ht4 : timers w4 = timers w3).
  { unfold w4. rewrite (keeps_storeResponse timers); reflexivity. }
  assert (Hd4 : db w4 = db w3).
  { unfold w4. rewrite (keeps_storeResponse db); reflexivity. }
  exists w5. split.
  - unfold singleChain_handleOperation.
    rewrite (bind_Ret _ _ _ _ _ (handler_retry_first_try _ _ _ _ Hattempt)). reflexivity.
  - destruct (completeObjective_effect "present-operation" w4)
      as ((_ & _ & _ & _ & _ & Hhst & _) & _ & Hobjs & _).
    fold w5 in Hhst, Hobjs. rewrite Hobjs, Hhst, Hg4, Hg3.
    split; [reflexivity|]. split.
    + apply (hands_on_trans w w4 w5); [|apply hands_on_completeObjective].
      apply hands_on_same; congruence.
    + unfold w4, storeResponse. rewrite bind_gets, Hg3, Hkey. simpl.
      apply lookup_insert_eq.
Qed.

Lemma intent_first_try w msg responses stored intent r id :
  goal_key (goal w) = Some id ->
  goalResponses (st_singleChain (hstates w)) !! id = Some stored ->
  r_intent stored = Some intent ->
  next_text E w = Ret msg ->
  next_replies E w = Ret responses ->
  List.find has_proposals responses = Some r ->
  exists w',
    singleChain_handleIntent E w = (Ret tt, w')
    /\ goal_objectives (goal w')
       = update_first (has_id "confirm-intent") complete (goal_objectives (goal w))
    /\ hands_on w w'
    /\ goalResponses (st_singleChain (hstates w')) !! id = Some r.
Proof.
  unfold next_text, next_replies. intros Hkey Hstored Hintent Htext Hsend Hfind.
  set (w1 := set_now (fun t => (t + Z.of_N (latency (env_generateText E (n_generateText (calls w)))))%Z)
               (set_calls bump_generateText w)).
  set (w2 := set_now (fun t => (t + Z.of_N (latency (env_sendMessage E (n_sendMessage (calls w1)))))%Z)
               (set_calls bump_sendMessage w1)).
  set (w4 := snd (storeResponse SingleChain r w2)).
  set (w5 := snd (completeObjective "confirm-intent" w4)).
  assert (Hattempt : singleChain_intent_attempt E msg w1 = (Ret true, w5)).
  { unfold singleChain_intent_attempt.
    assert (Hs : sendMessage E msg w1 = (Ret responses, w2)).
    { rewrite sendMessage_spec. change (n_sendMessage (calls w1)) with (n_sendMessage (calls w)).
      rewrite Hsend. reflexivity. }
    rewrite (bind_Ret _ _ _ _ _ Hs), Hfind.
    rewrite (bind_Ret _ _ _ _ _ (storeResponse_returns SingleChain r w2)). fold w4.
    rewrite (bind_Ret _ _ _ _ _ (completeObjective_returns "confirm-intent" w4)).
    reflexivity. }
  assert (Hg4 : goal w4 = goal w).
  { unfold w4. rewrite (keeps_storeResponse goal); reflexivity. }
  assert (Ht4 : timers w4 = timers w).
  { unfold w4. rewrite (keeps_storeResponse timers); reflexivity. }
  assert (Hd4 : db w4 = db w).
  { unfold w4. rewrite (keeps_storeResponse db); reflexivity. }
  exists w5. split.
  - unfold singleChain_handleIntent.
    rewrite (bind_Ret _ _ _ _ _ (getLatestResponse_spec SingleChain w id Hkey)).
    unfold my_state. simpl. rewrite Hstored. simpl. rewrite Hintent. simpl.
    assert (Hgen : generateText E w = (Ret msg, w1)) by (rewrite generateText_spec, Htext; reflexivity).
    rewrite (bind_Ret _ _ _ _ _ Hgen).
    rewrite (bind_Ret _ _ _ _ _ (handler_retry_first_try _ _ _ _ Hattempt)). reflexivity.
  - destruct (completeObjective_effect "confirm-intent" w4)
      as ((_ & _ & _ & _ & _ & Hhst & _) & _ & Hobjs & _).
    fold w5 in Hhst, Hobjs. rewrite Hobjs, Hhst, Hg4.
    split; [reflexivity|]. split.
    + apply (hands_on_trans w w4 w5); [|apply hands_on_completeObjective].
      apply hands_on_same; congruence.
    + unfold w4, storeResponse. rewrite bind_gets.
      change (goal w2) with (goal w). rewrite Hkey. simpl.
      apply lookup_insert_eq.
Qed.

End Steps.

Section Run.
Variable E : Env.

(** One level of [processObjective]: the step completes its objective
    and another one is pending. *)
Lemma processObjective_advances fuel w id o step w1 o' w' :
  goal_key (goal w) = Some id ->
  List.find pending (goal_objectives (goal w)) = Some o ->
  singleChain_step E (obj_id o) = Some step ->
  step w = (Ret tt, w1) ->
  getObjectiveStatus (goal w1) (obj_id o) = COMPLETED ->
  List.find pending (goal_objectives (goal w1)) = Some o' ->
  singleChain_processObjective E fuel w1 = (Ret tt, w') ->
  singleChain_processObjective E (S fuel) w = (Ret tt, w').
Proof.
  intros Hkey Hfind Hstep Hrun Hstatus Hnext Hrest.
  cbn [singleChain_processObjective]. rewrite bind_gets, Hkey.
  unfold try_catch. rewrite Hfind, Hstep.
  rewrite (bind_Ret _ _ _ _ _ Hrun), bind_gets, Hstatus, Hnext, Hrest. reflexivity.
Qed.

(** The last level: the step completes its objective and none is left. *)
Lemma processObjective_finishes fuel w id o step w1 :
  goal_key (goal w) = Some id ->
  List.find pending (goal_objectives (goal w)) = Some o ->
  singleChain_step E (obj_id o) = Some step ->
  step w = (Ret tt, w1) ->
  getObjectiveStatus (goal w1) (obj_id o) = COMPLETED ->
  List.find pending (goal_objectives (goal w1)) = None ->
  singleChain_processObjective E (S fuel) w = (Ret tt, w1).
Proof.
  intros Hkey Hfind Hstep Hrun Hstatus Hnext.
  cbn [singleChain_processObjective]. rewrite bind_gets, Hkey.
  unfold try_catch. rewrite Hfind, Hstep.
  rewrite (bind_Ret _ _ _ _ _ Hrun), bind_gets, Hstatus, Hnext. reflexivity.
Qed.

(** X17. A fresh single-chain goal and a cooperative environment: the
    text model returns texts, the checks settle on any verdict, and each
    answer of the counterparty carries an intent and proposals of which
    the first can be signed. One call of [processObjective], with fuel
    for its four levels, then runs the four steps one after the other
    without a retry: the four objectives are completed, the store holds
    the goal with them and with the status DONE, the reply kept for the
    goal is dropped, and no timer was armed. *)
Theorem cooperative_run_completes_goal (fuel : nat) (w : World) (id operation : string)
  (g0 : Goal) :
  text_model_answers E ->
  validator_settles E ->
  counterparty_cooperates E ->
  (4 <= fuel)%nat ->
  goal_key (goal w) = Some id ->
  db w !! id = Some g0 ->
  goal_objectives (goal w) = fresh_objectives operation ->
  exists w',
    singleChain_processObjective E fuel w = (Ret tt, w')
    /\ map obj_completed (goal_objectives (goal w')) = [true; true; true; true]
    /\ map obj_id (goal_objectives (goal w')) = map obj_id (fresh_objectives operation)
    /\ db w' !! id = Some (with_status DONE (goal w'))
    /\ goalResponses (st_singleChain (hstates w')) !! id = None
    /\ timers w' = timers w.
Proof.
  intros Htext Hvalid Hcoop Hfuel Hkey Hg0 Hobjs.
  destruct fuel as [|[|[|[|fuel]]]]; try lia. clear Hfuel.
  (* introduce-agent *)
  destruct (Htext (n_generateText (calls w))) as (msg0 & Hmsg0 & _).
  destruct (Hcoop (n_sendMessage (calls w))) as (rs0 & _ & _ & _ & Hrs0 & _).
  destruct (introduction_first_try E w msg0 rs0 Hmsg0 Hrs0 Hvalid)
    as (w1 & Hrun1 & Hobjs1 & (Hgid1 & Htimers1 & Hdb1) & Hhst1).
  rewrite Hobjs in Hobjs1. simpl in Hobjs1.
  assert (Hkey1 : goal_key (goal w1) = Some id)
    by (rewrite (goal_key_of_id _ _ Hgid1); exact Hkey).
  (* present-operation *)
  destruct (Htext (n_generateText (calls w1))) as (msg1 & Hmsg1 & Htruthy1).
  destruct (Hcoop (n_sendMessage (calls w1))) as (rs1 & ri & _ & _ & Hrs1 & Hintent & _).
  destruct (operation_first_try E w1 msg1 rs1 ri id Hmsg1 Htruthy1 Hrs1 Hintent Hvalid Hkey1)
    as (w2 & Hrun2 & Hobjs2 & (Hgid2 & Htimers2 & Hdb2) & Hstored2).
  rewrite Hobjs1 in Hobjs2. simpl in Hobjs2.
  assert (Hkey2 : goal_key (goal w2) = Some id)
    by (rewrite (goal_key_of_id _ _ Hgid2); exact Hkey1).
  assert (Hri : exists intent, r_intent ri = Some intent).
  { apply find_some in Hintent. destruct Hintent as (_ & Hi).
    destruct (r_intent ri) as [i|]; [exists i; reflexivity | discriminate]. }
  destruct Hri as (intent & Hri).
  (* confirm-intent *)
  destruct (Htext (n_generateText (calls w2))) as (msg2 & Hmsg2 & _).
  destruct (Hcoop (n_sendMessage (calls w2)))
    as (rs2 & _ & rp & proposals & Hrs2 & _ & Hprop & Hproposals & Hsigns).
  destruct (intent_first_try E w2 msg2 rs2 ri intent rp id Hkey2 Hstored2 Hri Hmsg2 Hrs2 Hprop)
    as (w3 & Hrun3 & Hobjs3 & (Hgid3 & Htimers3 & Hdb3) & Hstored3).
  rewrite Hobjs2 in Hobjs3. simpl in Hobjs3.
  assert (Hkey3 : goal_key (goal w3) = Some id)
    by (rewrite (goal_key_of_id _ _ Hgid3); exact Hkey2).
  (* process-proposal *)
  destruct (Hsigns w3) as (s & w4 & Hsign).
  assert (Hgoal4 : goal w4 = goal w3).
  { assert (Hk : keeps goal (signFirstProposal E SingleChain proposals))
      by (apply keeps_signFirstProposal; reflexivity).
    specialize (Hk w3). rewrite Hsign in Hk. exact Hk. }
  assert (Htimers4 : timers w4 = timers w3).
  { assert (Hk : keeps timers (signFirstProposal E SingleChain proposals))
      by (apply keeps_signFirstProposal; reflexivity).
    specialize (Hk w3). rewrite Hsign in Hk. exact Hk. }
  assert (Hdb4 : db w4 = db w3).
  { assert (Hk : keeps db (signFirstProposal E SingleChain proposals))
      by (apply keeps_signFirstProposal; reflexivity).
    specialize (Hk w3). rewrite Hsign in Hk. exact Hk. }
  pose proof (handleProposal_signed E w3 id rp proposals s w4 Hkey3 Hstored3 Hproposals
                Hsign Hgoal4) as Hrun4.
  set (w5 := snd (completeObjective "process-proposal" w4)) in *.
  destruct (completeObjective_effect "process-proposal" w4)
    as ((_ & Htimers5 & _) & Hgid5 & Hobjs5 & _).
  fold w5 in Htimers5, Hgid5, Hobjs5.
  rewrite Hgoal4, Hobjs3 in Hobjs5. simpl in Hobjs5.
  assert (Hkey4 : goal_key (goal w4) = Some id) by (rewrite Hgoal4; exact Hkey3).
  assert (Hdb5 : db w5 !! id = Some (goal w5)).
  { apply (completeObjective_db "process-proposal" w4 id
             (mkObjective "process-proposal" "Process transaction proposal" false None)).
    - rewrite Hgoal4, Hobjs3. reflexivity.
    - exact Hkey4.
    - rewrite Hdb4. apply Hdb3, Hdb2, Hdb1. exists g0. exact Hg0. }
  set (w6 := set_db (alter (with_status DONE) id)
               (set_my_state SingleChain (set_goalResponses (delete id)) w5)) in *.
  exists w6.
  split.
  - apply (processObjective_advances _ w id
             (mkObjective "introduce-agent"
                "Introduce agent, with wallet data and chain preferences" false None)
             (singleChain_handleIntroduction E) w1
             (mkObjective "present-operation" operation false None));
      [exact Hkey | rewrite Hobjs; reflexivity | reflexivity | exact Hrun1
      | unfold getObjectiveStatus; rewrite Hobjs1; reflexivity
      | rewrite Hobjs1; reflexivity |].
    apply (processObjective_advances _ w1 id
             (mkObjective "present-operation" operation false None)
             (singleChain_handleOperation E) w2
             (mkObjective "confirm-intent" "Confirm user intent to proceed with operation"
                false None));
      [exact Hkey1 | rewrite Hobjs1; reflexivity | reflexivity | exact Hrun2
      | unfold getObjectiveStatus; rewrite Hobjs2; reflexivity
      | rewrite Hobjs2; reflexivity |].
    apply (processObjective_advances _ w2 id
             (mkObjective "confirm-intent" "Confirm user intent to proceed with operation"
                false None)
             (singleChain_handleIntent E) w3
             (mkObjective "process-proposal" "Process transaction proposal" false None));
      [exact Hkey2 | rewrite Hobjs2; reflexivity | reflexivity | exact Hrun3
      | unfold getObjectiveStatus; rewrite Hobjs3; reflexivity
      | rewrite Hobjs3; reflexivity |].
    apply (processObjective_finishes _ w3 id
             (mkObjective "process-proposal" "Process transaction proposal" false None)
             (singleChain_handleProposal E) w6);
      [exact Hkey3 | rewrite Hobjs3; reflexivity | reflexivity | exact Hrun4
      | unfold getObjectiveStatus; change (goal w6) with (goal w5); rewrite Hobjs5; reflexivity
      | change (goal w6) with (goal w5); rewrite Hobjs5; reflexivity].
  - change (goal w6) with (goal w5). change (timers w6) with (timers w5).
    rewrite Hobjs5. split; [reflexivity|]. split; [reflexivity|]. split; [|split].
    + unfold w6. simpl. rewrite lookup_alter_eq.
      change (db (set_my_state SingleChain (set_goalResponses (delete id)) w5)) with (db w5).
      rewrite Hdb5. reflexivity.
    + unfold w6. simpl. apply lookup_delete_eq.
    + congruence.
Qed.

End Run.

Lemma env_cooperative_signs : can_be_signed env_cooperative [empty_proposal].
Proof.
  intros w. unfold signFirstProposal, signProposal.
  change (getSignatureHandler empty_proposal) with (Ret EVMSignatureHandler).
  rewrite bind_lift_Ret, bind_gets.
  destruct (goal_key (goal w)) as [id|].
  - rewrite bind_modify. eexists. eexists.
    apply (evm_signProposal_no_transactions env_cooperative _ _
             (mkChainAccount evm "0xA11CE" "ethereum") eq_refl).
    right. reflexivity.
  - rewrite bind_ret. eexists. eexists.
    apply (evm_signProposal_no_transactions env_cooperative _ _
             (mkChainAccount evm "0xA11CE" "ethereum") eq_refl).
    right. reflexivity.
Defined.

Lemma env_cooperative_cooperates : counterparty_cooperates env_cooperative.
Proof.
  intros n. exists [full_reply], full_reply, full_reply, [empty_proposal].
  split; [reflexivity|]. split; [reflexivity|]. split; [reflexivity|].
  split; [reflexivity|]. exact env_cooperative_signs.
Defined.

Lemma cooperative_run_completes_goal_witness :
  text_model_answers env_cooperative
  /\ validator_settles env_cooperative
  /\ counterparty_cooperates env_cooperative
  /\ exists w',
       singleChain_processObjective env_cooperative 4 (world_of fresh_goal) = (Ret tt, w')
       /\ map obj_completed (goal_objectives (goal w')) = [true; true; true; true]
       /\ map obj_id (goal_objectives (goal w'))
          = map obj_id (fresh_objectives "Swap 10 USDC to ETH")
       /\ db w' !! "goal-1" = Some (with_status DONE (goal w'))
       /\ goalResponses (st_singleChain (hstates w')) !! "goal-1" = None
       /\ timers w' = timers (world_of fresh_goal).
Proof.
  assert (Ht : text_model_answers env_cooperative).
  { intros n. exists "Swap 10 USDC to ETH on ethereum". split; reflexivity. }
  assert (Hv : validator_settles env_cooperative) by (intros n; discriminate).
  split; [exact Ht|]. split; [exact Hv|]. split; [exact env_cooperative_cooperates|].
  exact (cooperative_run_completes_goal env_cooperative 4 (world_of fresh_goal) "goal-1"
           "Swap 10 USDC to ETH" fresh_goal Ht Hv env_cooperative_cooperates
           (le_n 4) eq_refl eq_refl eq_refl).
Defined.

(** The same run evaluated: three texts, three messages, two verdicts
    (both invalid), and the goal DONE after 2 s of waiting for answers. *)
Example cooperative_run :
  let w' := snd (singleChain_processObjective env_cooperative 4 (world_of fresh_goal)) in
  calls w' = mkCalls 3 2 0 0 3 0 0
  /\ goal_status <$> db w' !! "goal-1" = Some DONE
  /\ now w' = 2000%Z
  /\ timers w' = [].
Proof. vm_compute. repeat split. Qed.

(** ** Invariants of the multi-chain handler *)

Section Preserves.
Context (I : World -> Prop).

Lemma preserves_ret {A} (a : A) : preserves I (ret a).
Proof. intros w H. exact H. Qed.
Lemma preserves_throw {A} e : preserves I (@throw A e).
Proof. intros w H. exact H. Qed.
Lemma preserves_diverge {A} : preserves I (@diverge A).
Proof. intros w H. exact H. Qed.
Lemma preserves_lift {A} (o : Outcome A) : preserves I (lift o).
Proof. intros w H. exact H. Qed.
Lemma preserves_gets {A} (g : World -> A) : preserves I (gets g).
Proof. intros w H. exact H. Qed.
Lemma preserves_modify (g : World -> World) :
  (forall w, I w -> I (g w)) -> preserves I (modify g).
Proof. intros Hg w H. apply Hg. exact H. Qed.

Lemma preserves_bind {A B} (m : M A) (k : A -> M B) :
  preserves I m -> (forall a, preserves I (k a)) -> preserves I (bind m k).
Proof.
  intros Hm Hk w H. unfold bind. specialize (Hm w H).
  destruct (m w) as [[a|e|] w1]; simpl in *; try exact Hm.
  apply Hk. exact Hm.
Qed.

Lemma preserves_try_catch {A} (body : M A) (h : exn -> M A) :
  preserves I body -> (forall e, preserves I (h e)) -> preserves I (try_catch body h).
Proof.
  intros Hb Hh w H. unfold try_catch. specialize (Hb w H).
  destruct (body w) as [[a|e|] w1]; simpl in *; try exact Hb.
  apply Hh. exact Hb.
Qed.

Hypothesis I_after_timer : forall ms w, I w -> I (after_timer ms w).
Hypothesis I_set_now : forall g w, I w -> I (set_now g w).
Hypothesis I_set_calls : forall g w, I w -> I (set_calls g w).

Lemma preserves_retryWithBackoff {T} (op : M T) onAbort :
  preserves I op ->
  (forall ab, onAbort = Some ab -> preserves I ab) ->
  forall n m k, (m - k = n)%nat ->
  preserves I (retryWithBackoff op (mkRetryOptions m k) onAbort).
Proof.
  intros Hop Hab. induction n as [|n IH]; intros m k Hn w H;
    rewrite retryWithBackoff_step; simpl.
  - assert (Hle : (m <=? k)%nat = true) by (apply Nat.leb_le; lia). rewrite Hle.
    destruct onAbort as [ab|]; [|exact H].
    apply (preserves_bind ab (fun _ => ret None) (Hab ab eq_refl)
             (fun _ => preserves_ret None)). exact H.
  - assert (Hgt : (m <=? k)%nat = false) by (apply Nat.leb_gt; lia). rewrite Hgt.
    specialize (Hop w H). destruct (op w) as [[v|e|] w1]; simpl in *; try exact Hop.
    apply (IH m (S k) ltac:(lia)). apply I_after_timer. exact Hop.
Qed.

Lemma preserves_handler_retry {T} (op : M T) :
  preserves I op -> preserves I (handler_retryWithBackoff op).
Proof.
  intros Hop. unfold handler_retryWithBackoff.
  exact (preserves_retryWithBackoff op None Hop ltac:(discriminate) _ MAX_RETRIES 0%nat eq_refl).
Qed.

Lemma preserves_await {A} (r : Reply A) : preserves I (await r).
Proof.
  unfold await. apply preserves_bind; [apply preserves_modify; intros; apply I_set_now; assumption|].
  intros _. apply preserves_lift.
Qed.

Lemma preserves_ask {A} count bump (oracle : nat -> Reply A) :
  preserves I (ask count bump oracle).
Proof.
  unfold ask. apply preserves_bind; [apply preserves_gets|]. intros n.
  apply preserves_bind; [apply preserves_modify; intros; apply I_set_calls; assumption|].
  intros _. apply preserves_await.
Qed.

Lemma preserves_for_each {A B} (g : A -> M B) l :
  (forall a, preserves I (g a)) -> preserves I (for_each g l).
Proof.
  intros Hg. induction l as [|a l IH]; simpl; [apply preserves_ret|].
  apply preserves_bind; [apply Hg|]. intros b.
  apply preserves_bind; [apply IH|]. intros bs. apply preserves_ret.
Qed.

End Preserves.

Ltac preserves_side := intros; unfold set_my_state; solve [auto].

Ltac preserves_step :=
  match goal with
  | |- preserves _ (bind _ _) => apply preserves_bind; [|intros ?]
  | |- preserves _ (try_catch _ _) => apply preserves_try_catch; [|intros ?]
  | |- preserves _ (ret _) => apply preserves_ret
  | |- preserves _ (throw _) => apply preserves_throw
  | |- preserves _ diverge => apply preserves_diverge
  | |- preserves _ (lift _) => apply preserves_lift
  | |- preserves _ (gets _) => apply preserves_gets
  | |- preserves _ (modify _) => apply preserves_modify; preserves_side
  | |- preserves _ (await _) => apply preserves_await; preserves_side
  | |- preserves _ (ask _ _ _) => apply preserves_ask; preserves_side
  | |- preserves _ (handler_retryWithBackoff _) => apply preserves_handler_retry; [preserves_side|]
  | |- preserves _ (for_each _ _) => apply preserves_for_each; intros ?
  | |- preserves _ (if ?b then _ else _) => destruct b
  | |- preserves _ (match ?x with _ => _ end) => destruct x
  | H : preserves ?f ?m |- preserves ?f ?m => exact H
  end.

Ltac preserves_auto := repeat preserves_step.

Section HandlerInvariant.

Context (I : World -> Prop).
Hypothesis I_now : forall g w, I w -> I (set_now g w).
Hypothesis I_calls : forall g w, I w -> I (set_calls g w).
Hypothesis I_timer : forall ms w, I w -> I (after_timer ms w).
Hypothesis I_submitted : forall g w, I w -> I (set_submitted g w).
Hypothesis I_hstates : forall g w, I w -> I (set_hstates g w).
Hypothesis I_bridge : forall g w, I w -> I (set_bridge g w).
Hypothesis I_objectives : forall g w, I w -> I (set_goal (with_objectives g) w).
Hypothesis I_updateGoal : preserves I updateGoal.
Hypothesis I_failed : forall id w, I w -> I (set_db (alter (with_status FAILED) id) w).
Variable E : Env.

Local Hint Resolve I_now I_calls I_timer I_submitted I_hstates I_bridge I_objectives : core.

Lemma preserves_completeObjective id : preserves I (completeObjective id).
Proof. unfold completeObjective. preserves_auto. Qed.

Lemma preserves_markAborted id : preserves I (markAborted id).
Proof. unfold markAborted. preserves_auto. Qed.

Lemma preserves_failGoal h : preserves I (failGoal h).
Proof. unfold failGoal, updateGoalStatus. preserves_auto. Qed.

Lemma preserves_storeResponse h r : preserves I (storeResponse h r).
Proof. unfold storeResponse. preserves_auto. Qed.

Lemma preserves_getLatestResponse h : preserves I (getLatestResponse h).
Proof. unfold getLatestResponse. preserves_auto. Qed.

Lemma preserves_generateText : preserves I (generateText E).
Proof. unfold generateText. preserves_auto. Qed.

Lemma preserves_generateVerdict : preserves I (generateVerdict E).
Proof. unfold generateVerdict. preserves_auto. Qed.

Lemma preserves_generateTrueOrFalse : preserves I (generateTrueOrFalse E).
Proof. unfold generateTrueOrFalse. preserves_auto. Qed.

Lemma preserves_generateAmounts : preserves I (generateAmounts E).
Proof. unfold generateAmounts. preserves_auto. Qed.

Lemma preserves_sendMessage text : preserves I (sendMessage E text).
Proof. unfold sendMessage. preserves_auto. Qed.

Lemma preserves_validateIntroResponse rs : preserves I (validateIntroResponse E rs).
Proof. unfold validateIntroResponse. preserves_auto. apply preserves_generateVerdict. Qed.

Lemma preserves_validateOperationResponse r : preserves I (validateOperationResponse E r).
Proof. unfold validateOperationResponse. preserves_auto. apply preserves_generateVerdict. Qed.

Lemma preserves_extractTokenAmounts rs : preserves I (extractTokenAmounts E rs).
Proof. unfold extractTokenAmounts. preserves_auto. apply preserves_generateAmounts. Qed.

Lemma preserves_evm_processTransaction tx acct : preserves I (evm_processTransaction E tx acct).
Proof. unfold evm_processTransaction. preserves_auto. Qed.

Lemma preserves_evm_signProposal p : preserves I (evm_signProposal E p).
Proof. unfold evm_signProposal. preserves_auto; apply preserves_evm_processTransaction. Qed.

Lemma preserves_solana_signProposal p : preserves I (solana_signProposal E p).
Proof. unfold solana_signProposal. preserves_auto. Qed.

Lemma preserves_signFirstProposal h ps : preserves I (signFirstProposal E h ps).
Proof.
  unfold signFirstProposal, signProposal, handler_signProposal. preserves_auto;
    first [apply preserves_evm_signProposal | apply preserves_solana_signProposal].
Qed.

Lemma preserves_bridge_poll fuel start : preserves I (bridge_poll E fuel start).
Proof.
  induction fuel as [|fuel IH]; cbn [bridge_poll]; [apply preserves_diverge|].
  unfold Date_now, sleep.
  preserves_auto;
    first [apply preserves_sendMessage | apply preserves_extractTokenAmounts
          | apply preserves_completeObjective | exact IH].
Qed.

Lemma preserves_multiChain_step pollFuel id step :
  multiChain_step E pollFuel id = Some step -> preserves I step.
Proof.
  unfold multiChain_step. repeat case_decide; intros [= <-].
  all: unfold multiChain_handleIntroduction, multiChain_introduction_attempt,
         multiChain_handleOperation, multiChain_operation_attempt,
         multiChain_handleIntent, multiChain_intent_attempt,
         multiChain_handleProposal, multiChain_proposal_attempt,
         multiChain_handleBridgeOperation, multiChain_bridge_attempt,
         multiChain_handleDepositOperation, multiChain_deposit_attempt,
         multiChain_handleBridgeConfirmation,
         generateOperationMessage, shouldSkipRemainingObjectives, Date_now.
  all: preserves_auto;
         first [apply preserves_generateText | apply preserves_sendMessage
               | apply preserves_validateIntroResponse
               | apply preserves_validateOperationResponse
               | apply preserves_completeObjective | apply preserves_storeResponse
               | apply preserves_markAborted | apply preserves_getLatestResponse
               | apply preserves_generateTrueOrFalse | apply preserves_extractTokenAmounts
               | apply preserves_signFirstProposal | apply preserves_bridge_poll
               | exact I_updateGoal ].
Qed.

End HandlerInvariant.

Lemma nothing_done_updateGoal : preserves nothing_done updateGoal.
Proof.
  intros w (Hg & Hdb). unfold updateGoal. rewrite bind_gets.
  destruct (goal_id (goal w)) as [id|]; simpl; [|split; assumption].
  split; [exact Hg|]. intros k g. simpl.
  destruct (decide (k = id)) as [->|Hne].
  - rewrite lookup_alter_eq. destruct (db w !! id); [|discriminate].
    simpl. intros [= <-]. exact Hg.
  - rewrite lookup_alter_ne by congruence. apply Hdb.
Qed.

Lemma nothing_done_failed id w :
  nothing_done w -> nothing_done (set_db (alter (with_status FAILED) id) w).
Proof.
  intros (Hg & Hdb). split; [exact Hg|]. intros k g. simpl.
  destruct (decide (k = id)) as [->|Hne].
  - rewrite lookup_alter_eq. destruct (db w !! id); [|discriminate].
    simpl. intros [= <-]. discriminate.
  - rewrite lookup_alter_ne by congruence. apply Hdb.
Qed.

Lemma nothing_done_step E pollFuel id step :
  multiChain_step E pollFuel id = Some step -> preserves nothing_done step.
Proof.
  apply preserves_multiChain_step; try (intros; assumption).
  - exact nothing_done_updateGoal.
Qed.

Lemma nothing_done_failGoal h : preserves nothing_done (failGoal h).
Proof.
  apply preserves_failGoal; try (intros; assumption).
  exact nothing_done_failed.
Qed.

(** X18. The multi-chain handler marks a goal DONE only in a call of
    [processObjective] that finds no objective pending. A call that
    finds one pending, whatever the environment answers and however
    many objectives it completes, the last one included, and however it
    ends, leaves no goal DONE, neither the goal object nor any stored
    record. *)
Theorem multiChain_run_leaves_goal_open (E : Env) (pollFuel fuel : nat) (w : World) :
  nothing_done w ->
  is_Some (List.find pending (goal_objectives (goal w))) ->
  nothing_done (snd (multiChain_processObjective E pollFuel fuel w)).
Proof.
  revert w. induction fuel as [|fuel IH]; intros w Hinv [o Ho];
    cbn [multiChain_processObjective]; [exact Hinv|].
  rewrite bind_gets. destruct (goal_key (goal w)); [|exact Hinv].
  rewrite Ho. unfold try_catch.
  match goal with
  | |- nothing_done (snd (match ?body w with _ => _ end)) =>
    assert (Hbody : nothing_done (snd (body w)))
  end.
  { unfold bind at 1.
    match goal with
    | |- nothing_done (snd (match ?status w with _ => _ end)) =>
      assert (Hstatus : nothing_done (snd (status w)))
    end.
    { destruct (multiChain_step E pollFuel (obj_id o)) as [step|] eqn:Hstep; [|exact Hinv].
      apply preserves_bind; [exact (nothing_done_step _ _ _ _ Hstep)| |exact Hinv].
      intros _. apply preserves_bind; [apply preserves_gets|]. intros g'. apply preserves_ret. }
    match goal with
    | |- nothing_done (snd (match ?status w with _ => _ end)) =>
      destruct (status w) as [[st|e|] w1]; simpl in Hstatus |- *; try exact Hstatus
    end.
    destruct st; try exact Hstatus.
    rewrite bind_gets.
    destruct (List.find pending (goal_objectives (goal w1))) as [o'|] eqn:Ho'; [|exact Hstatus].
    apply IH; [exact Hstatus | exists o'; exact Ho']. }
  match goal with
  | |- nothing_done (snd (match ?body w with _ => _ end)) =>
    destruct (body w) as [[[]|e|] w1]; simpl in Hbody |- *; try exact Hbody
  end.
  apply (preserves_bind nothing_done (failGoal MultiChain) (fun _ => throw e));
    [apply nothing_done_failGoal | intros _; apply preserves_throw | exact Hbody].
Qed.

Lemma multiChain_run_leaves_goal_open_witness :
  let w := world_of yield_goal in
  let w' := snd (multiChain_processObjective env_best_already 241 4 w) in
  nothing_done w
  /\ List.find pending (goal_objectives (goal w)) = Some
       (mkObjective "introduce-agent"
          "Introduce agent, with wallet data and chain preferences" false None)
  /\ nothing_done w'.
Proof.
  cbv zeta.
  assert (Hinv : nothing_done (world_of yield_goal)).
  { split; [discriminate|]. intros k g. unfold world_of. simpl.
    intros Hk. apply lookup_singleton_Some in Hk. destruct Hk as (_ & <-). discriminate. }
  split; [exact Hinv|]. split; [reflexivity|].
  apply (multiChain_run_leaves_goal_open env_best_already 241 4 (world_of yield_goal) Hinv).
  eexists. reflexivity.
Defined.

(** The sample run evaluated: the model finds the funds where the yield
    is best, every objective is completed at once, and the goal is still
    in progress when the call has returned. *)
Example all_completed_but_in_progress :
  let w' := snd (multiChain_processObjective env_best_already 241 4 (world_of yield_goal)) in
  fst (multiChain_processObjective env_best_already 241 4 (world_of yield_goal)) = Ret tt
  /\ forallb obj_completed (goal_objectives (goal w')) = true
  /\ (forallb obj_completed <$> (goal_objectives <$> db w' !! "goal-4")) = Some true
  /\ goal_status <$> db w' !! "goal-4" = Some IN_PROGRESS.
Proof. vm_compute. repeat split. Qed.

(** ** A handler that throws during a tick *)

Section GoalKey.
Variable E : Env.
Variable id : string.

Lemma has_key_updateGoal : preserves (has_key id) updateGoal.
Proof.
  intros w H. unfold updateGoal. rewrite bind_gets.
  destruct (goal_id (goal w)); exact H.
Qed.

Ltac key_side := first [exact has_key_updateGoal | intros; assumption].

Lemma has_key_completeGoal h : preserves (has_key id) (completeGoal h).
Proof.
  intros w H. unfold completeGoal, updateGoalStatus. rewrite bind_gets.
  destruct (goal_key (goal w)); [rewrite bind_modify|]; exact H.
Qed.

Lemma has_key_failGoal h : preserves (has_key id) (failGoal h).
Proof.
  intros w H. unfold failGoal, updateGoalStatus. rewrite bind_gets.
  destruct (goal_key (goal w)); [rewrite bind_modify|]; exact H.
Qed.

Lemma has_key_cdp_step objectiveId step :
  cdp_step E objectiveId = Some step -> preserves (has_key id) step.
Proof.
  unfold cdp_step. repeat case_decide; intros [= <-].
  all: unfold cdp_handleAskForWallet, cdp_wallet_attempt,
         cdp_handleOperation, cdp_operation_attempt,
         cdp_handleIntent, cdp_intent_attempt,
         cdp_handleConfirmProposal, cdp_confirm_attempt,
         generateOperationMessage, sleep.
  all: preserves_auto;
         first [ apply preserves_generateText
               | apply preserves_sendMessage
               | apply preserves_validateOperationResponse
               | apply preserves_completeObjective
               | apply preserves_storeResponse
               | apply preserves_markAborted
               | apply preserves_getLatestResponse
               | apply has_key_completeGoal ];
         key_side.
Qed.

Lemma has_key_multiChain_step pollFuel objectiveId step :
  multiChain_step E pollFuel objectiveId = Some step -> preserves (has_key id) step.
Proof.
  apply preserves_multiChain_step; key_side.
Qed.

(** The body of the [try] block of [processObjective], for the CDP and
    for the multi-chain handler. *)
Lemma has_key_cdp_body fuel g :
  preserves (has_key id) (cdp_processObjective E fuel) ->
  preserves (has_key id)
    (match List.find pending (goal_objectives g) with
     | None => completeGoal CDP
     | Some pendingObjective =>
       match cdp_step E (obj_id pendingObjective) with
       | None => ret tt
       | Some step =>
         step ;;
         g' <- gets goal ;;
         match getObjectiveStatus g' (obj_id pendingObjective) with
         | COMPLETED =>
           match List.find pending (goal_objectives g') with
           | Some _ => cdp_processObjective E fuel
           | None => ret tt
           end
         | ABORTED => ret tt
         | PENDING => ret tt
         end
       end
     end).
Proof.
  intros IH.
  destruct (List.find pending (goal_objectives g)) as [o|]; [|apply has_key_completeGoal].
  destruct (cdp_step E (obj_id o)) as [step|] eqn:Hstep; [|apply preserves_ret].
  apply preserves_bind; [exact (has_key_cdp_step _ _ Hstep)|]. intros _.
  apply preserves_bind; [apply preserves_gets|]. intros g'.
  destruct (getObjectiveStatus g' (obj_id o)); try apply preserves_ret.
  destruct (List.find pending (goal_objectives g')); [exact IH | apply preserves_ret].
Qed.

Lemma has_key_multiChain_body pollFuel fuel g :
  preserves (has_key id) (multiChain_processObjective E pollFuel fuel) ->
  preserves (has_key id)
    (match List.find pending (goal_objectives g) with
     | None => completeGoal MultiChain
     | Some pendingObjective =>
       objectiveStatus <-
         match multiChain_step E pollFuel (obj_id pendingObjective) with
         | Some step =>
           step ;;
           g' <- gets goal ;;
           ret (getObjectiveStatus g' (obj_id pendingObjective))
         | None => ret ABORTED
         end ;;
       match objectiveStatus with
       | COMPLETED =>
         g' <- gets goal ;;
         match List.find pending (goal_objectives g') with
         | Some _ => multiChain_processObjective E pollFuel fuel
         | None => ret tt
         end
       | ABORTED => ret tt
       | PENDING => ret tt
       end
     end).
Proof.
  intros IH.
  destruct (List.find pending (goal_objectives g)) as [o|]; [|apply has_key_completeGoal].
  apply preserves_bind.
  - destruct (multiChain_step E pollFuel (obj_id o)) as [step|] eqn:Hstep;
      [|apply preserves_ret].
    apply preserves_bind; [exact (has_key_multiChain_step _ _ _ Hstep)|]. intros _.
    apply preserves_bind; [apply preserves_gets|]. intros g'. apply preserves_ret.
  - intros status. destruct status; try apply preserves_ret.
    apply preserves_bind; [apply preserves_gets|]. intros g'.
    destruct (List.find pending (goal_objectives g')); [exact IH | apply preserves_ret].
Qed.

Lemma has_key_cdp_processObjective fuel :
  preserves (has_key id) (cdp_processObjective E fuel).
Proof.
  induction fuel as [|fuel IH]; cbn [cdp_processObjective]; [apply preserves_diverge|].
  apply preserves_bind; [apply preserves_gets|]. intros g.
  destruct (goal_key g); [|apply preserves_ret].
  apply preserves_try_catch; [exact (has_key_cdp_body fuel g IH)|].
  intros e. apply preserves_bind; [apply has_key_failGoal | intros _; apply preserves_throw].
Qed.

Lemma has_key_multiChain_processObjective pollFuel fuel :
  preserves (has_key id) (multiChain_processObjective E pollFuel fuel).
Proof.
  induction fuel as [|fuel IH]; cbn [multiChain_processObjective];
    [apply preserves_diverge|].
  apply preserves_bind; [apply preserves_gets|]. intros g.
  destruct (goal_key g); [|apply preserves_ret].
  apply preserves_try_catch; [exact (has_key_multiChain_body pollFuel fuel g IH)|].
  intros e. apply preserves_bind; [apply has_key_failGoal | intros _; apply preserves_throw].
Qed.

(** The catch branch of [processObjective]: [failGoal], then the rethrow. *)
Lemma throw_after_failGoal h (body : M unit) w e w' :
  preserves (has_key id) body ->
  has_key id w ->
  try_catch body (fun error => failGoal h ;; throw error) w = (Throw e, w') ->
  forall g0, db w' !! id = Some g0 -> goal_status g0 = FAILED.
Proof.
  intros Hbody Hkey Hrun. unfold try_catch in Hrun. specialize (Hbody w Hkey).
  destruct (body w) as [[[]|e0|] wb]; try discriminate. simpl in Hbody.
  rewrite (bind_Ret _ _ _ _ _ (failGoal_spec h wb id Hbody)) in Hrun.
  injection Hrun as _ <-. simpl. intros g0. rewrite lookup_alter_eq.
  destruct (db wb !! id); simpl; intros [= <-]. reflexivity.
Qed.

Lemma cdp_throw_fails_goal fuel w e w' :
  has_key id w ->
  cdp_processObjective E fuel w = (Throw e, w') ->
  forall g0, db w' !! id = Some g0 -> goal_status g0 = FAILED.
Proof.
  intros Hkey Hrun. destruct fuel as [|fuel]; [discriminate|].
  cbn [cdp_processObjective] in Hrun. rewrite bind_gets in Hrun.
  unfold has_key in Hkey. rewrite Hkey in Hrun.
  exact (throw_after_failGoal CDP _ w e w'
           (has_key_cdp_body fuel (goal w) (has_key_cdp_processObjective fuel)) Hkey Hrun).
Qed.

Lemma multiChain_throw_fails_goal pollFuel fuel w e w' :
  has_key id w ->
  multiChain_processObjective E pollFuel fuel w = (Throw e, w') ->
  forall g0, db w' !! id = Some g0 -> goal_status g0 = FAILED.
Proof.
  intros Hkey Hrun. destruct fuel as [|fuel]; [discriminate|].
  cbn [multiChain_processObjective] in Hrun. rewrite bind_gets in Hrun.
  unfold has_key in Hkey. rewrite Hkey in Hrun.
  exact (throw_after_failGoal MultiChain _ w e w'
           (has_key_multiChain_body pollFuel fuel (goal w)
              (has_key_multiChain_processObjective pollFuel fuel)) Hkey Hrun).
Qed.

End GoalKey.

(** What the next tick reads when the record under [id] is FAILED. *)
Lemma failed_goal_not_listed w id :
  (forall g0, db w !! id = Some g0 -> goal_status g0 = FAILED) ->
  exists listed,
    getGoals w = (Ret listed, w)
    /\ (forall g', In g' listed -> exists k, k <> id /\ db w !! k = Some g')
    /\ (forall k g', k <> id -> db w !! k = Some g' -> goal_status g' = IN_PROGRESS ->
                     In g' listed).
Proof.
  intros Hfailed. eexists. split; [reflexivity|]. split.
  - intros g' Hin. apply getGoals_lists in Hin. destruct Hin as ((k & Hk) & Hst).
    exists k. split; [|exact Hk]. intros ->.
    rewrite (Hfailed g' Hk) in Hst. discriminate.
  - intros k g' _ Hk Hst. apply getGoals_lists. split; [exists k; exact Hk | exact Hst].
Qed.

(** C8, as amended. The three registered handlers are those of the
    service. Whichever of them is given the goal, when its
    [processObjective] throws during the tick: the tick goes on normally
    with the goal id out of the processing set and nothing held for the
    goal in the caches of the service or of any registered handler; the
    tick itself writes nothing to the goal store, which is as the
    handler left it; and what the handler left, having run [failGoal]
    before it rethrew, is the goal's record marked FAILED. The next tick
    reads the goals in progress: every goal it lists is stored under
    another id, so it runs over the other goals and does not attempt this
    one again. (The store is one that accepts the handler's write.) *)
Theorem processGoal_handler_throws (E : Env) (pollFuel fuel : nat) (g : Goal)
  (id : string) (h : HandlerName) (w : World) (v : option bool) (w1 : World)
  (e : exn) (w2 : World) :
  goal_key g = Some id ->
  id ∉ processingGoals (service w) ->
  isCryptoGoal E g (set_goal (fun _ => g) w) = (Ret v, w1) ->
  truthy v = true ->
  getHandlerForGoal g = Some h ->
  processObjective E (cdp_processObjective E fuel)
    (multiChain_processObjective E pollFuel fuel) fuel h (handed_over id w1)
  = (Throw e, w2) ->
  exists w',
    processGoal E (cdp_processObjective E fuel)
      (multiChain_processObjective E pollFuel fuel) fuel g w = (Ret tt, w')
    /\ cleared id (service w')
    /\ (forall h', cleared id (get_hstate h' (hstates w')))
    /\ db w' = db w2
    /\ (forall g0, db w' !! id = Some g0 -> goal_status g0 = FAILED)
    /\ exists listed,
         getGoals w' = (Ret listed, w')
         /\ (forall g', In g' listed -> exists k, k <> id /\ db w' !! k = Some g')
         /\ (forall k g', k <> id -> db w' !! k = Some g' ->
                          goal_status g' = IN_PROGRESS -> In g' listed)
         /\ processGoals E (cdp_processObjective E fuel)
              (multiChain_processObjective E pollFuel fuel) fuel w'
            = for_goals E (cdp_processObjective E fuel)
                (multiChain_processObjective E pollFuel fuel) fuel listed w'.
Proof.
  intros Hkey Hnotin Hcrypto Hyes Hhandler Hthrow.
  destruct (processGoal_clears_after_throw E (cdp_processObjective E fuel)
              (multiChain_processObjective E pollFuel fuel) fuel g id h w v w1 e w2
              Hkey Hnotin Hcrypto Hyes Hhandler Hthrow)
    as (w' & Hrun & Hserv & Hhs & Hdb & _).
  assert (Hkey1 : has_key id (handed_over id w1)).
  { pose proof (isCryptoGoal_keeps_goal E g (set_goal (fun _ => g) w)) as Hgoal.
    rewrite Hcrypto in Hgoal. simpl in Hgoal. unfold has_key.
    change (goal (handed_over id w1)) with (goal w1). rewrite Hgoal. exact Hkey. }
  assert (Hfailed : forall g0, db w' !! id = Some g0 -> goal_status g0 = FAILED).
  { intros g0 Hg0. rewrite Hdb in Hg0. destruct h; simpl in Hthrow.
    - exact (singleChain_throw_fails_goal E fuel _ e w2 id Hkey1 Hthrow g0 Hg0).
    - exact (cdp_throw_fails_goal E id fuel _ e w2 Hkey1 Hthrow g0 Hg0).
    - exact (multiChain_throw_fails_goal E id pollFuel fuel _ e w2 Hkey1 Hthrow g0 Hg0). }
  destruct (failed_goal_not_listed w' id Hfailed) as (listed & Hget & Hothers & Hall).
  exists w'. split; [exact Hrun|]. split; [exact Hserv|]. split; [exact Hhs|].
  split; [exact Hdb|]. split; [exact Hfailed|].
  exists listed. split; [exact Hget|]. split; [exact Hothers|]. split; [exact Hall|].
  unfold processGoals. rewrite (bind_Ret _ _ _ _ _ Hget). reflexivity.
Qed.

Lemma processGoal_handler_throws_witness :
  let E := env_no_wallet in
  let w := stored_world asked_wallet_goal in
  let w1 := snd (isCryptoGoal E asked_wallet_goal (set_goal (fun _ => asked_wallet_goal) w)) in
  let w2 := snd (cdp_processObjective E 8 (handed_over "goal-5" w1)) in
  getHandlerForGoal asked_wallet_goal = Some CDP
  /\ cdp_processObjective E 8 (handed_over "goal-5" w1)
     = (Throw (Error "connection refused"), w2)
  /\ exists w',
       processGoal E (cdp_processObjective E 8) (multiChain_processObjective E 241 8) 8
         asked_wallet_goal w = (Ret tt, w')
       /\ cleared "goal-5" (service w')
       /\ (forall h', cleared "goal-5" (get_hstate h' (hstates w')))
       /\ db w' = db w2
       /\ (forall g0, db w' !! "goal-5" = Some g0 -> goal_status g0 = FAILED)
       /\ exists listed,
            getGoals w' = (Ret listed, w')
            /\ (forall g', In g' listed ->
                           exists k, k <> "goal-5" /\ db w' !! k = Some g').
Proof.
  cbv zeta.
  assert (Hcrypto :
            isCryptoGoal env_no_wallet asked_wallet_goal
              (set_goal (fun _ => asked_wallet_goal) (stored_world asked_wallet_goal))
            = (Ret (Some true),
               snd (isCryptoGoal env_no_wallet asked_wallet_goal
                      (set_goal (fun _ => asked_wallet_goal)
                         (stored_world asked_wallet_goal)))))
    by (vm_compute; reflexivity).
  assert (Hthrow :
            processObjective env_no_wallet (cdp_processObjective env_no_wallet 8)
              (multiChain_processObjective env_no_wallet 241 8) 8 CDP
              (handed_over "goal-5"
                 (snd (isCryptoGoal env_no_wallet asked_wallet_goal
                         (set_goal (fun _ => asked_wallet_goal)
                            (stored_world asked_wallet_goal)))))
            = (Throw (Error "connection refused"),
               snd (cdp_processObjective env_no_wallet 8
                      (handed_over "goal-5"
                         (snd (isCryptoGoal env_no_wallet asked_wallet_goal
                                 (set_goal (fun _ => asked_wallet_goal)
                                    (stored_world asked_wallet_goal))))))))
    by (vm_compute; reflexivity).
  split; [reflexivity|]. split; [exact Hthrow|].
  destruct (processGoal_handler_throws env_no_wallet 241 8 asked_wallet_goal "goal-5" CDP
              (stored_world asked_wallet_goal) (Some true) _ _ _
              eq_refl ltac:(vm_compute; discriminate) Hcrypto eq_refl eq_refl Hthrow)
    as (w' & Hrun & Hserv & Hhs & Hdb & Hfailed & listed & Hget & Hothers & _).
  exists w'. split; [exact Hrun|]. split; [exact Hserv|]. split; [exact Hhs|].
  split; [exact Hdb|]. split; [exact Hfailed|].
  exists listed. split; [exact Hget | exact Hothers].
Defined.

(** ** The multi-chain handler: a reply without an intent *)

Lemma generateTrueOrFalse_spec E w :
  generateTrueOrFalse E w
  = (answer (env_generateTrueOrFalse E (n_generateTrueOrFalse (calls w))),
     set_now (fun t => (t + Z.of_N (latency (env_generateTrueOrFalse E (n_generateTrueOrFalse (calls w)))))%Z)
        (set_calls bump_generateTrueOrFalse w)).
Proof.
  unfold generateTrueOrFalse, ask. unfold_js. simpl.
  destruct (answer (env_generateTrueOrFalse E (n_generateTrueOrFalse (calls w)))); reflexivity.
Qed.

Lemma find_intent_none rs :
  List.find (fun r => truthy (r_intent r)) rs = None ->
  forall r, In r rs -> r_intent r = None.
Proof.
  intros Hfind r Hin. pose proof (find_none _ _ Hfind r Hin) as H.
  cbv beta in H. destruct (r_intent r) as [i|]; [|reflexivity]. discriminate H.
Qed.

Lemma truthy_intent_of (stored : option ChromaResponse) :
  (forall r, stored = Some r -> r_intent r = None) ->
  truthy (stored ≫= r_intent) = false.
Proof.
  intros H. destruct stored as [r|]; [|reflexivity]. simpl. rewrite (H r eq_refl). reflexivity.
Qed.

(** The confirm-intent step of either handler without an intent to
    confirm: it returns at once and changes nothing. *)
Lemma multiChain_handleIntent_idle E oid id w :
  goal_key (goal w) = Some id ->
  holds_no_intent MultiChain id w ->
  multiChain_handleIntent E oid w = (Ret tt, w).
Proof.
  intros Hkey Hnone. unfold multiChain_handleIntent.
  rewrite (bind_Ret _ _ _ _ _ (getLatestResponse_spec MultiChain w id Hkey)).
  unfold my_state. rewrite (truthy_intent_of _ Hnone). reflexivity.
Qed.

Section MultiChainLevels.
Variable E : Env.
Variable pollFuel : nat.

(** One level of the multi-chain [processObjective] whose step returns
    with its objective completed and another one pending. *)
Lemma multiChain_level_advances fuel w id o step w1 o' w' :
  goal_key (goal w) = Some id ->
  List.find pending (goal_objectives (goal w)) = Some o ->
  multiChain_step E pollFuel (obj_id o) = Some step ->
  step w = (Ret tt, w1) ->
  getObjectiveStatus (goal w1) (obj_id o) = COMPLETED ->
  List.find pending (goal_objectives (goal w1)) = Some o' ->
  multiChain_processObjective E pollFuel fuel w1 = (Ret tt, w') ->
  multiChain_processObjective E pollFuel (S fuel) w = (Ret tt, w').
Proof.
  intros Hkey Hfind Hstep Hrun Hstatus Hnext Hrest.
  cbn [multiChain_processObjective]. rewrite bind_gets, Hkey.
  unfold try_catch. rewrite Hfind, Hstep, !bind_assoc.
  rewrite (bind_Ret _ _ _ _ _ Hrun), !bind_assoc, bind_gets, bind_ret, Hstatus.
  rewrite bind_gets, Hnext, Hrest. reflexivity.
Qed.

(** One level whose step returns with its objective not completed, or
    with nothing left pending. *)
Lemma multiChain_level_stops fuel w id o step w1 :
  goal_key (goal w) = Some id ->
  List.find pending (goal_objectives (goal w)) = Some o ->
  multiChain_step E pollFuel (obj_id o) = Some step ->
  step w = (Ret tt, w1) ->
  getObjectiveStatus (goal w1) (obj_id o) <> COMPLETED
  \/ List.find pending (goal_objectives (goal w1)) = None ->
  multiChain_processObjective E pollFuel (S fuel) w = (Ret tt, w1).
Proof.
  intros Hkey Hfind Hstep Hrun Hstop.
  cbn [multiChain_processObjective]. rewrite bind_gets, Hkey.
  unfold try_catch. rewrite Hfind, Hstep, !bind_assoc.
  rewrite (bind_Ret _ _ _ _ _ Hrun), !bind_assoc, bind_gets, bind_ret.
  destruct (getObjectiveStatus (goal w1) (obj_id o)) eqn:Hst; try reflexivity.
  destruct Hstop as [Hne|Hnone]; [contradiction|].
  rewrite bind_gets, Hnone. reflexivity.
Qed.

End MultiChainLevels.

Section DeadEnd.
Variable E : Env.

(** X19. The present-operation step of the multi-chain handler, when no
    reply carries an intent and the model finds that funds should be
    moved, completes the objective all the same, keeping at most a text
    reply. The confirm-intent step that follows finds no intent to
    confirm and returns without a word: the call ends with confirm-intent
    pending and not aborted, and every later call of [processObjective],
    in any environment, returns at once and changes nothing. *)
Theorem multiChain_text_reply_is_a_dead_end (pollFuel fuel : nat) (w : World)
  (id operation msg : string) (responses : list ChromaResponse) :
  goal_key (goal w) = Some id ->
  goal_objectives (goal w) = introduced_objectives operation ->
  holds_no_intent MultiChain id w ->
  next_text E w = Ret msg ->
  truthy msg = true ->
  next_replies E w = Ret responses ->
  List.find (fun r => truthy (r_intent r)) responses = None ->
  next_yes_no E w = Ret false ->
  exists w',
    multiChain_processObjective E pollFuel (S (S fuel)) w = (Ret tt, w')
    /\ getObjectiveStatus (goal w') "present-operation" = COMPLETED
    /\ getObjectiveStatus (goal w') "confirm-intent" = PENDING
    /\ timers w' = timers w
    /\ forall E' pollFuel' fuel',
         multiChain_processObjective E' pollFuel' (S fuel') w' = (Ret tt, w').
Proof.
  unfold next_text, next_replies, next_yes_no.
  intros Hkey Hobjs Hnone Htext Hmsg Hsend Hfind Hskip.
  set (w1 := set_now (fun t => (t + Z.of_N (latency (env_generateText E (n_generateText (calls w)))))%Z)
               (set_calls bump_generateText w)).
  set (w2 := set_now (fun t => (t + Z.of_N (latency (env_sendMessage E (n_sendMessage (calls w1)))))%Z)
               (set_calls bump_sendMessage w1)).
  set (keep := match List.find (fun r => truthy (r_text r)) responses with
               | Some responseWithText => storeResponse MultiChain responseWithText
               | None => ret tt
               end).
  set (w3 := snd (keep w2)).
  assert (Hkeep : keep w2 = (Ret tt, w3)).
  { unfold w3, keep. destruct (List.find (fun r => truthy (r_text r)) responses); [apply storeResponse_returns|reflexivity]. }
  set (w4 := set_now (fun t => (t + Z.of_N (latency (env_generateTrueOrFalse E
                                   (n_generateTrueOrFalse (calls w3)))))%Z)
               (set_calls bump_generateTrueOrFalse w3)).
  set (w5 := snd (completeObjective "present-operation" w4)).
  assert (Hg3 : goal w3 = goal w).
  { unfold w3, keep. destruct (List.find (fun r => truthy (r_text r)) responses); [|reflexivity].
    rewrite (keeps_storeResponse goal); reflexivity. }
  assert (Ht3 : timers w3 = timers w).
  { unfold w3, keep. destruct (List.find (fun r => truthy (r_text r)) responses); [|reflexivity].
    rewrite (keeps_storeResponse timers); reflexivity. }
  assert (Hc3 : calls w3 = calls w2).
  { unfold w3, keep. destruct (List.find (fun r => truthy (r_text r)) responses); [|reflexivity].
    rewrite (keeps_storeResponse calls); reflexivity. }
  assert (Hnone3 : holds_no_intent MultiChain id w3).
  { unfold w3, keep. destruct (List.find (fun r => truthy (r_text r)) responses) as [rt|] eqn:Hrt.
    - unfold storeResponse. rewrite bind_gets. change (goal w2) with (goal w). rewrite Hkey.
      intros r. simpl. rewrite lookup_insert_eq. intros [= <-].
      apply (find_intent_none responses Hfind). apply (find_some _ _ Hrt).
    - exact Hnone. }
  assert (Hattempt : multiChain_operation_attempt E w = (Ret true, w5)).
  { unfold multiChain_operation_attempt, generateOperationMessage.
    assert (Hgen : generateText E w = (Ret msg, w1)) by (rewrite generateText_spec, Htext; reflexivity).
    rewrite (bind_Ret _ _ _ _ _ Hgen), Hmsg. simpl.
    assert (Hs : sendMessage E msg w1 = (Ret responses, w2)).
    { rewrite sendMessage_spec. change (n_sendMessage (calls w1)) with (n_sendMessage (calls w)).
      rewrite Hsend. reflexivity. }
    rewrite (bind_Ret _ _ _ _ _ Hs), Hfind. fold keep.
    rewrite (bind_Ret _ _ _ _ _ Hkeep).
    assert (Hq : shouldSkipRemainingObjectives E responses w3 = (Ret false, w4)).
    { unfold shouldSkipRemainingObjectives. rewrite generateTrueOrFalse_spec, Hc3.
      change (n_generateTrueOrFalse (calls w2)) with (n_generateTrueOrFalse (calls w)).
      rewrite Hskip. unfold w4. rewrite Hc3. reflexivity. }
    rewrite (bind_Ret _ _ _ _ _ Hq). cbv iota.
    rewrite (bind_Ret _ _ _ _ _ (completeObjective_returns "present-operation" w4)).
    reflexivity. }
  assert (Hrun : multiChain_handleOperation E w = (Ret tt, w5)).
  { unfold multiChain_handleOperation.
    rewrite (bind_Ret _ _ _ _ _ (handler_retry_first_try _ _ _ _ Hattempt)). reflexivity. }
  destruct (completeObjective_effect "present-operation" w4)
    as ((_ & Htimers5 & _ & _ & _ & Hhst5 & _) & Hgid5 & Hobjs5 & _).
  fold w5 in Htimers5, Hhst5, Hgid5, Hobjs5.
  change (goal w4) with (goal w3) in Hobjs5, Hgid5. rewrite Hg3 in Hobjs5, Hgid5.
  rewrite Hobjs in Hobjs5. simpl in Hobjs5.
  assert (Hkey5 : goal_key (goal w5) = Some id).
  { unfold goal_key in *. rewrite Hgid5. exact Hkey. }
  assert (Hnone5 : holds_no_intent MultiChain id w5).
  { unfold holds_no_intent. rewrite Hhst5. exact Hnone3. }
  assert (Hpend5 : List.find pending (goal_objectives (goal w5))
                   = Some (mkObjective "confirm-intent"
                             "Confirm user intent to proceed with operation" false None))
    by (rewrite Hobjs5; reflexivity).
  assert (Hidle : forall E' pollFuel' fuel',
             multiChain_processObjective E' pollFuel' (S fuel') w5 = (Ret tt, w5)).
  { intros E' pollFuel' fuel'.
    apply (multiChain_level_stops E' pollFuel' fuel' w5 id _ _ w5 Hkey5 Hpend5 eq_refl).
    - exact (multiChain_handleIntent_idle E' "confirm-intent" id w5 Hkey5 Hnone5).
    - left. unfold getObjectiveStatus. rewrite Hobjs5. discriminate. }
  exists w5. split; [|split; [|split; [|split]]].
  - apply (multiChain_level_advances E pollFuel (S fuel) w id
             (mkObjective "present-operation" operation false None)
             (multiChain_handleOperation E) w5
             (mkObjective "confirm-intent"
                "Confirm user intent to proceed with operation" false None) w5 Hkey);
      [rewrite Hobjs; reflexivity | reflexivity | exact Hrun
      | unfold getObjectiveStatus; rewrite Hobjs5; reflexivity
      | exact Hpend5 | apply Hidle].
  - unfold getObjectiveStatus. rewrite Hobjs5. reflexivity.
  - unfold getObjectiveStatus. rewrite Hobjs5. reflexivity.
  - rewrite Htimers5. change (timers w4) with (timers w3). exact Ht3.
  - exact Hidle.
Qed.

End DeadEnd.

Lemma multiChain_text_reply_is_a_dead_end_witness :
  let w := world_of introduced_yield_goal in
  holds_no_intent MultiChain "goal-4" w
  /\ next_yes_no env_text_only w = Ret false
  /\ exists w',
       multiChain_processObjective env_text_only 241 2 w = (Ret tt, w')
       /\ getObjectiveStatus (goal w') "present-operation" = COMPLETED
       /\ getObjectiveStatus (goal w') "confirm-intent" = PENDING
       /\ timers w' = timers w
       /\ forall E' pollFuel' fuel',
            multiChain_processObjective E' pollFuel' (S fuel') w' = (Ret tt, w').
Proof.
  cbv zeta.
  assert (Hnone : holds_no_intent MultiChain "goal-4" (world_of introduced_yield_goal))
    by (intros r Hr; discriminate Hr).
  split; [exact Hnone|]. split; [reflexivity|].
  exact (multiChain_text_reply_is_a_dead_end env_text_only 241 0
           (world_of introduced_yield_goal) "goal-4"
           "Find the best yield for USDC on Optimism and Arbitrum"
           "Find the best yield for my USDC"
           [mkResponse "Consider moving your funds to Arbitrum." None None]
           eq_refl eq_refl Hnone eq_refl eq_refl eq_refl eq_refl eq_refl).
Defined.

(** ** Idle calls of the single-chain handler *)

Lemma find_has_id_unique l o :
  NoDup (map obj_id l) -> In o l -> List.find (has_id (obj_id o)) l = Some o.
Proof.
  induction l as [|x l IH]; simpl; [contradiction|].
  intros Hnd [->|Hin].
  - unfold has_id. destruct (decide _); [reflexivity|contradiction].
  - apply NoDup_cons in Hnd. destruct Hnd as (Hx & Hnd).
    unfold has_id at 1. destruct (decide (obj_id x = obj_id o)) as [Heq|_].
    + exfalso. apply Hx. rewrite Heq. apply list_elem_of_In, in_map. exact Hin.
    + apply IH; assumption.
Qed.

Lemma pending_not_completed g o :
  NoDup (map obj_id (goal_objectives g)) ->
  List.find pending (goal_objectives g) = Some o ->
  getObjectiveStatus g (obj_id o) <> COMPLETED.
Proof.
  intros Hnd Hfind. apply find_some in Hfind. destruct Hfind as (Hin & Hp).
  unfold getObjectiveStatus. rewrite (find_has_id_unique _ _ Hnd Hin).
  unfold pending in Hp. destruct (obj_completed o); [discriminate|].
  destruct (obj_status o) as [[]|]; discriminate.
Qed.

Lemma singleChain_handleIntent_idle E id w :
  goal_key (goal w) = Some id ->
  holds_no_intent SingleChain id w ->
  singleChain_handleIntent E w = (Ret tt, w).
Proof.
  intros Hkey Hnone. unfold singleChain_handleIntent.
  rewrite (bind_Ret _ _ _ _ _ (getLatestResponse_spec SingleChain w id Hkey)).
  unfold my_state. rewrite (truthy_intent_of _ Hnone). reflexivity.
Qed.

Lemma singleChain_handleProposal_idle E id w :
  goal_key (goal w) = Some id ->
  holds_no_proposals SingleChain id w ->
  singleChain_handleProposal E w = (Ret tt, w).
Proof.
  intros Hkey Hnone. unfold singleChain_handleProposal.
  rewrite (bind_Ret _ _ _ _ _ (getLatestResponse_spec SingleChain w id Hkey)).
  unfold my_state.
  destruct (goalResponses (get_hstate SingleChain (hstates w)) !! id) as [r|] eqn:Hr;
    [|reflexivity].
  simpl. rewrite (Hnone r Hr). reflexivity.
Qed.

(** X20. A handler keeps the replies of the counterparty in memory only.
    When the pending objective of a goal is confirm-intent and the
    single-chain handler holds no intent for the goal, or process-proposal
    and it holds no proposals, or an objective it does not know, a call
    of [processObjective] returns at once: the world is exactly as
    before. Nothing was asked or sent, the objective is not marked
    ABORTED and the goal not FAILED, so every later call does the
    same. *)
Theorem singleChain_idle_without_reply (E : Env) (fuel : nat) (w : World) (id : string)
  (o : Objective) :
  goal_key (goal w) = Some id ->
  NoDup (map obj_id (goal_objectives (goal w))) ->
  List.find pending (goal_objectives (goal w)) = Some o ->
  nothing_to_do E id o w ->
  singleChain_processObjective E (S fuel) w = (Ret tt, w).
Proof.
  intros Hkey Hnd Hfind Hidle.
  cbn [singleChain_processObjective]. rewrite bind_gets, Hkey.
  unfold try_catch. rewrite Hfind.
  assert (Hstatus : getObjectiveStatus (goal w) (obj_id o) <> COMPLETED)
    by exact (pending_not_completed _ _ Hnd Hfind).
  destruct Hidle as [(Hid & Hnone) | [(Hid & Hnone) | Hunknown]].
  - rewrite Hid in *.
    change (singleChain_step E "confirm-intent") with (Some (singleChain_handleIntent E)).
    cbv iota.
    rewrite (bind_Ret _ _ _ _ _ (singleChain_handleIntent_idle E id w Hkey Hnone)), bind_gets.
    destruct (getObjectiveStatus (goal w) "confirm-intent"); [reflexivity|contradiction|reflexivity].
  - rewrite Hid in *.
    change (singleChain_step E "process-proposal") with (Some (singleChain_handleProposal E)).
    cbv iota.
    rewrite (bind_Ret _ _ _ _ _ (singleChain_handleProposal_idle E id w Hkey Hnone)), bind_gets.
    destruct (getObjectiveStatus (goal w) "process-proposal"); [reflexivity|contradiction|reflexivity].
  - rewrite Hunknown. reflexivity.
Qed.

Lemma singleChain_idle_without_reply_witness :
  nothing_to_do env_down "goal-1"
    (mkObjective "confirm-intent" "Confirm intent" false None) (world_of presented_goal)
  /\ singleChain_processObjective env_down 1 (world_of presented_goal)
     = (Ret tt, world_of presented_goal).
Proof.
  assert (Hidle : nothing_to_do env_down "goal-1"
                    (mkObjective "confirm-intent" "Confirm intent" false None)
                    (world_of presented_goal)).
  { left. split; [reflexivity|]. intros r Hr. discriminate Hr. }
  split; [exact Hidle|].
  apply (singleChain_idle_without_reply env_down 0 (world_of presented_goal) "goal-1"
           (mkObjective "confirm-intent" "Confirm intent" false None) eq_refl).
  - apply (bool_decide_eq_true_1
             (NoDup (map obj_id (goal_objectives (goal (world_of presented_goal)))))).
    vm_compute. reflexivity.
  - reflexivity.
  - exact Hidle.
Defined.

(** ** The CDP handler: wallet addresses *)

Lemma hex_digits_spec n text :
  hex_digits n text = true <->
  exists address after,
    text = address ++ after /\ String.length address = n /\ all_hex address = true.
Proof.
  revert text. induction n as [|n IH]; intros text; simpl.
  - split; [intros _; exists EmptyString, text; repeat split|reflexivity].
  - destruct text as [|c rest].
    + split; [discriminate|].
      intros (address & after & Heq & Hlen & _).
      destruct address; simpl in *; discriminate.
    + rewrite andb_true_iff, IH. split.
      * intros (Hc & address & after & -> & Hlen & Hhex).
        exists (String c address), after. simpl. rewrite Hc, Hhex, Hlen. repeat split.
      * intros (address & after & Heq & Hlen & Hhex).
        destruct address as [|c' address]; simpl in *; [discriminate|].
        injection Heq as <- ->. injection Hlen as Hlen.
        apply andb_true_iff in Hhex. destruct Hhex as (Hc & Hhex).
        split; [exact Hc|]. exists address, after. repeat split; assumption.
Qed.

(** X21. The test the CDP handler makes for a wallet address accepts a
    text exactly when it holds, anywhere, the characters 0x followed by
    forty hexadecimal digits of either case. What comes before and after
    is not looked at, so a longer hexadecimal string such as a
    transaction hash is accepted as well. *)
Theorem evmAddressRegex_test_spec (text : string) :
  evmAddressRegex_test text = true <-> holds_address text.
Proof.
  unfold holds_address. induction text as [|c rest IH]; cbn [evmAddressRegex_test].
  - split; [discriminate|].
    intros (before & address & after & Heq & _).
    destruct before; simpl in Heq; discriminate.
  - rewrite orb_true_iff, IH. split.
    + intros [Hhere | (before & address & after & -> & Hlen & Hhex)].
      * destruct (ascii_dec c "0") as [->|Hne].
        -- destruct rest as [|x digits]; [discriminate|].
           destruct (ascii_dec x "x") as [->|Hne].
           ++ apply hex_digits_spec in Hhere.
              destruct Hhere as (address & after & -> & Hlen & Hhex).
              exists EmptyString, address, after. repeat split; assumption.
           ++ exfalso. destruct x as [[] [] [] [] [] [] [] []]; try discriminate.
              contradiction.
        -- exfalso. destruct c as [[] [] [] [] [] [] [] []]; try discriminate.
           contradiction.
      * exists (String c before), address, after. repeat split; assumption.
    + intros (before & address & after & Heq & Hlen & Hhex).
      destruct before as [|c' before]; simpl in Heq.
      * left. injection Heq as -> ->.
        apply hex_digits_spec. exists address, after. repeat split; assumption.
      * right. injection Heq as -> ->.
        exists before, address, after. repeat split; assumption.
Qed.

(** ** The CDP handler: the wallet request *)

Lemma sleep_spec ms w : sleep ms w = (Ret tt, after_timer ms w).
Proof. reflexivity. Qed.

Lemma sendMessage_answered E text w responses :
  next_replies E w = Ret responses ->
  sendMessage E text w = (Ret responses, after_message E w).
Proof. unfold next_replies. intros H. rewrite sendMessage_spec, H. reflexivity. Qed.

Lemma cdp_wallet_attempt_fails E w responses :
  next_replies E w = Ret responses ->
  offers_wallet responses = false ->
  cdp_wallet_attempt E w
  = (Throw (Error "No wallet address received in response"),
     after_timer 10000 (after_message E w)).
Proof.
  intros Hsend Hnone. unfold cdp_wallet_attempt.
  rewrite (bind_Ret _ _ _ _ _ (sendMessage_answered E _ w responses Hsend)).
  rewrite (bind_Ret _ _ _ _ _ (sleep_spec _ _)).
  fold (offers_wallet responses). rewrite Hnone. reflexivity.
Qed.

(** X22. The wallet request of the CDP handler waits 10 s after every
    answer before it looks at it. When the answer holds an address the
    objective is completed and the step waits another 10 s: it takes at
    least 20 s. When no answer ever holds one, the step sends three
    requests, waits 10 s after each and 1, 2 and 4 s between the
    attempts, and after at least 37 s marks the objective ABORTED. *)
Theorem cdp_wallet_request_waits (E : Env) (w : World) :
  (forall responses,
     next_replies E w = Ret responses ->
     offers_wallet responses = true ->
     exists w',
       cdp_handleAskForWallet E w = (Ret tt, w')
       /\ goal_objectives (goal w')
          = update_first (has_id "ask-for-wallet") complete (goal_objectives (goal w))
       /\ timers w' = (timers w ++ [10000; 10000])%list%Z
       /\ (20000 <= now w' - now w)%Z)
  /\ (never_offers_wallet E ->
      exists w',
        cdp_handleAskForWallet E w = (Ret tt, w')
        /\ goal_objectives (goal w')
           = update_first (has_id "ask-for-wallet") abort (goal_objectives (goal w))
        /\ timers w' = (timers w ++ [10000; 1000; 10000; 2000; 10000; 4000])%list%Z
        /\ n_sendMessage (calls w') = (3 + n_sendMessage (calls w))%nat
        /\ (37000 <= now w' - now w)%Z).
Proof.
  split.
  - intros responses Hsend Hoffer.
    set (w1 := after_timer 10000 (after_message E w)).
    set (w2 := snd (completeObjective "ask-for-wallet" w1)).
    assert (Hattempt : cdp_wallet_attempt E w = (Ret true, after_timer 10000 w2)).
    { unfold cdp_wallet_attempt.
      rewrite (bind_Ret _ _ _ _ _ (sendMessage_answered E _ w responses Hsend)).
      rewrite (bind_Ret _ _ _ _ _ (sleep_spec _ _)).
      fold (offers_wallet responses). rewrite Hoffer. fold w1.
      rewrite (bind_Ret _ _ _ _ _ (completeObjective_returns "ask-for-wallet" w1)).
      fold w2. reflexivity. }
    exists (after_timer 10000 w2). split.
    + unfold cdp_handleAskForWallet.
      rewrite (bind_Ret _ _ _ _ _ (handler_retry_first_try _ _ _ _ Hattempt)). reflexivity.
    + destruct (completeObjective_effect "ask-for-wallet" w1)
        as ((Hnow & Htimers & _) & _ & Hobjs & _).
      fold w2 in Hnow, Htimers, Hobjs.
      split; [exact Hobjs|]. split.
      * rewrite timers_after_timer, Htimers. unfold w1. simpl. rewrite <- app_assoc. reflexivity.
      * rewrite now_after_timer, Hnow. unfold w1, after_message. simpl. lia.
  - intros Hnever.
    set (fail := fun w0 => after_timer 10000 (after_message E w0)).
    assert (Hattempt : forall w0,
              cdp_wallet_attempt E w0
              = (Throw (Error "No wallet address received in response"), fail w0)).
    { intros w0. destruct (Hnever (n_sendMessage (calls w0))) as (responses & Hsend & Hnone).
      exact (cdp_wallet_attempt_fails E w0 responses Hsend Hnone). }
    pose proof (retry_three_throws _ _ _ _ _ _ _ _
                  (Hattempt w)
                  (Hattempt (after_timer (backoff_delay 0) (fail w)))
                  (Hattempt (after_timer (backoff_delay 1)
                               (fail (after_timer (backoff_delay 0) (fail w)))))) as Hretry.
    set (wd := after_timer (backoff_delay 2)
                 (fail (after_timer (backoff_delay 1)
                          (fail (after_timer (backoff_delay 0) (fail w)))))) in *.
    exists (snd (markAborted "ask-for-wallet" wd)).
    destruct (markAborted_effect "ask-for-wallet" wd)
      as ((Hnow & Htimers & Hcalls & _) & _ & Hobjs & _).
    split; [|split; [|split; [|split]]].
    + unfold cdp_handleAskForWallet. rewrite (bind_Ret _ _ _ _ _ Hretry). simpl.
      apply markAborted_returns.
    + exact Hobjs.
    + rewrite Htimers. unfold wd, fail. simpl. rewrite <- !app_assoc. reflexivity.
    + rewrite Hcalls. reflexivity.
    + rewrite Hnow. unfold wd, fail, after_message. simpl. change (backoff_delay 0) with 1000%Z. change (backoff_delay 1) with 2000%Z. change (backoff_delay 2) with 4000%Z. lia.
Qed.

Lemma cdp_wallet_request_waits_witness :
  (exists w',
     offers_wallet
       [mkResponse
          "Sent: 0x5c504ed432cb51138bcf09aa5e8a410dd4a1e204ef84bfed1be16dfba1b22060"
          None None] = true
     /\ cdp_handleAskForWallet env_hash_reply (world_of wallet_goal) = (Ret tt, w')
     /\ goal_objectives (goal w')
        = update_first (has_id "ask-for-wallet") complete
            (goal_objectives (goal (world_of wallet_goal)))
     /\ timers w' = (timers (world_of wallet_goal) ++ [10000; 10000])%list%Z
     /\ (20000 <= now w' - now (world_of wallet_goal))%Z)
  /\ never_offers_wallet env_no_wallet
  /\ exists w',
       cdp_handleAskForWallet env_no_wallet (world_of wallet_goal) = (Ret tt, w')
       /\ goal_objectives (goal w')
          = update_first (has_id "ask-for-wallet") abort
              (goal_objectives (goal (world_of wallet_goal)))
       /\ timers w'
          = (timers (world_of wallet_goal) ++ [10000; 1000; 10000; 2000; 10000; 4000])%list%Z
       /\ n_sendMessage (calls w') = (3 + n_sendMessage (calls (world_of wallet_goal)))%nat
       /\ (37000 <= now w' - now (world_of wallet_goal))%Z.
Proof.
  assert (Hnever : never_offers_wallet env_no_wallet).
  { intros n. exists [hello]. split; reflexivity. }
  split; [|split; [exact Hnever|]].
  - destruct (proj1 (cdp_wallet_request_waits env_hash_reply (world_of wallet_goal))
                [mkResponse
                   "Sent: 0x5c504ed432cb51138bcf09aa5e8a410dd4a1e204ef84bfed1be16dfba1b22060"
                   None None] eq_refl eq_refl) as (w' & H).
    exists w'. split; [reflexivity | exact H].
  - exact (proj2 (cdp_wallet_request_waits env_no_wallet (world_of wallet_goal)) Hnever).
Defined.

(** ** The CDP handler: confirming a proposal *)

Lemma existsb_rev {A} (f : A -> bool) l : existsb f (rev l) = existsb f l.
Proof.
  destruct (existsb f l) eqn:H.
  - apply existsb_exists in H as (x & Hin & Hx). apply existsb_exists.
    exists x. split; [apply in_rev; rewrite rev_involutive; exact Hin | exact Hx].
  - destruct (existsb f (rev l)) eqn:H'; [|reflexivity].
    apply existsb_exists in H' as (x & Hin & Hx). apply in_rev in Hin.
    assert (existsb f l = true) by (apply existsb_exists; eauto). congruence.
Qed.

Lemma storeResponse_spec h r w id :
  goal_key (goal w) = Some id ->
  storeResponse h r w = (Ret tt, set_my_state h (set_goalResponses (insert id r)) w).
Proof. intros Hkey. unfold storeResponse. rewrite bind_gets, Hkey. reflexivity. Qed.

(** A confirmation whose answers do not say so fails, and leaves a reply
    with proposals in the state of the handler. *)
Lemma cdp_confirm_attempt_fails E w id :
  never_says_success E ->
  goal_key (goal w) = Some id ->
  holds_proposals id w ->
  exists w',
    cdp_confirm_attempt E w = (Throw (Error "Proposal confirmation failed"), w')
    /\ goal w' = goal w /\ holds_proposals id w'
    /\ timers w' = timers w /\ db w' = db w
    /\ n_sendMessage (calls w') = S (n_sendMessage (calls w))
    /\ (now w <= now w')%Z.
Proof.
  intros Hnever Hkey (stored & Hstored & Hprops).
  destruct (Hnever (n_sendMessage (calls w))) as (responses & Hsend & Hnone).
  unfold cdp_confirm_attempt.
  rewrite (bind_Ret _ _ _ _ _ (getLatestResponse_spec CDP w id Hkey)).
  unfold my_state. rewrite Hstored. simpl mbind. rewrite Hprops. simpl negb. cbv iota.
  rewrite bind_ret.
  rewrite (bind_Ret _ _ _ _ _ (sendMessage_answered E _ w responses Hsend)).
  rewrite existsb_rev, Hnone.
  assert (Hkey' : goal_key (goal (after_message E w)) = Some id) by exact Hkey.
  destruct (List.find _ (rev responses)) as [r|] eqn:Hfind.
  - rewrite (bind_Ret _ _ _ _ _ (storeResponse_spec CDP r _ id Hkey')).
    eexists. split; [reflexivity|].
    apply List.find_some in Hfind as (Hin & Hr).
    assert (Hquiet : says_success r = false).
    { destruct (says_success r) eqn:Hs; [|reflexivity].
      apply in_rev in Hin.
      assert (existsb says_success responses = true) by (apply existsb_exists; eauto).
      congruence. }
    rewrite Hquiet, orb_false_r in Hr.
    repeat split; try reflexivity.
    + exists r. split; [|exact Hr]. simpl. apply lookup_insert_eq.
    + simpl. lia.
  - rewrite bind_ret. eexists. split; [reflexivity|].
    repeat split; try reflexivity.
    + exists stored. split; [exact Hstored | exact Hprops].
    + simpl. lia.
Qed.

(** X23. The CDP handler reads the outcome of a confirmation off the
    words of the answers. With a reply with proposals in store, one
    answer whose text holds, in any case of the letters, confirmed,
    success or completed completes the objective, marks the goal DONE in
    the store and drops the stored reply, after one message and without
    a timer. When no answer ever holds one of these words, three messages
    are sent 1 and 2 s apart, and the objective is marked ABORTED after
    another 4 s; the handler still holds a reply with proposals. *)
Theorem cdp_confirmation_by_keyword (E : Env) (w : World) (id : string) :
  goal_key (goal w) = Some id ->
  holds_proposals id w ->
  (forall responses,
     next_replies E w = Ret responses ->
     existsb says_success responses = true ->
     exists w',
       cdp_handleConfirmProposal E w = (Ret tt, w')
       /\ goal_objectives (goal w')
          = update_first (has_id "confirm-proposal") complete (goal_objectives (goal w))
       /\ goal_status <$> db w' !! id = (fun _ => DONE) <$> db w !! id
       /\ goalResponses (get_hstate CDP (hstates w')) !! id = None
       /\ n_sendMessage (calls w') = S (n_sendMessage (calls w))
       /\ timers w' = timers w)
  /\ (never_says_success E ->
      exists w',
        cdp_handleConfirmProposal E w = (Ret tt, w')
        /\ goal_objectives (goal w')
           = update_first (has_id "confirm-proposal") abort (goal_objectives (goal w))
        /\ holds_proposals id w'
        /\ n_sendMessage (calls w') = (3 + n_sendMessage (calls w))%nat
        /\ timers w' = (timers w ++ [1000; 2000; 4000])%list%Z).
Proof.
  intros Hkey Hheld. split.
  - intros responses Hsend Hsays. destruct Hheld as (stored & Hstored & Hprops).
    assert (Hfind : exists r,
               List.find (fun r => truthy (r_proposals r) || says_success r) (rev responses)
               = Some r).
    { apply existsb_exists in Hsays as (x & Hin & Hx).
      destruct (List.find _ (rev responses)) as [r|] eqn:Hf; [eauto|].
      exfalso. pose proof (List.find_none _ _ Hf x) as Hno. simpl in Hno.
      rewrite Hx, orb_true_r in Hno. rewrite <- in_rev in Hno.
      specialize (Hno Hin). discriminate. }
    destruct Hfind as (r & Hfind).
    set (w1 := set_my_state CDP (set_goalResponses (insert id r)) (after_message E w)).
    set (w2 := snd (completeObjective "confirm-proposal" w1)).
    destruct (completeObjective_effect "confirm-proposal" w1)
      as ((Hnow & Htimers & Hcalls & _ & _ & Hhs & _) & Hgid & Hobjs & Hdb).
    fold w2 in Hnow, Htimers, Hcalls, Hhs, Hgid, Hobjs, Hdb.
    assert (Hkey2 : goal_key (goal w2) = Some id).
    { unfold goal_key in *. rewrite Hgid. exact Hkey. }
    assert (Hattempt : cdp_confirm_attempt E w
                       = (Ret true,
                          set_db (alter (with_status DONE) id)
                            (set_my_state CDP (set_goalResponses (delete id)) w2))).
    { unfold cdp_confirm_attempt.
      rewrite (bind_Ret _ _ _ _ _ (getLatestResponse_spec CDP w id Hkey)).
      unfold my_state. rewrite Hstored. simpl mbind. rewrite Hprops. simpl negb. cbv iota.
      rewrite bind_ret.
      rewrite (bind_Ret _ _ _ _ _ (sendMessage_answered E _ w responses Hsend)).
      rewrite existsb_rev, Hsays, Hfind.
      rewrite (bind_Ret _ _ _ _ _ (storeResponse_spec CDP r (after_message E w) id Hkey)).
      fold w1.
      rewrite (bind_Ret _ _ _ _ _ (completeObjective_returns "confirm-proposal" w1)).
      fold w2.
      rewrite (bind_Ret _ _ _ _ _ (completeGoal_spec CDP w2 id Hkey2)). reflexivity. }
    eexists. split.
    { unfold cdp_handleConfirmProposal.
      rewrite (bind_Ret _ _ _ _ _ (handler_retry_first_try _ _ _ _ Hattempt)). reflexivity. }
    split; [exact Hobjs|]. split; [|split; [|split]].
    + simpl. rewrite lookup_alter_eq.
      specialize (Hdb id). change (db w1) with (db w) in Hdb.
      destruct (db w2 !! id) as [g2|], (db w !! id) as [g0|]; try reflexivity.
      * destruct Hdb as [Hdb _]. destruct (Hdb (ltac:(eauto))) as [? ?]. discriminate.
      * destruct Hdb as [_ Hdb]. destruct (Hdb (ltac:(eauto))) as [? ?]. discriminate.
    + simpl. rewrite Hhs. unfold w1. simpl. apply lookup_delete_eq.
    + simpl. rewrite Hcalls. reflexivity.
    + simpl. rewrite Htimers. reflexivity.
  - intros Hnever.
    destruct (cdp_confirm_attempt_fails E w id Hnever Hkey Hheld)
      as (w1 & H1 & Hg1 & Hp1 & Ht1 & Hd1 & Hc1 & _).
    assert (Hk1 : goal_key (goal (after_timer (backoff_delay 0) w1)) = Some id).
    { simpl. rewrite Hg1. exact Hkey. }
    destruct (cdp_confirm_attempt_fails E _ id Hnever Hk1 Hp1)
      as (w2 & H2 & Hg2 & Hp2 & Ht2 & Hd2 & Hc2 & _).
    assert (Hk2 : goal_key (goal (after_timer (backoff_delay 1) w2)) = Some id).
    { simpl. rewrite Hg2. exact Hk1. }
    destruct (cdp_confirm_attempt_fails E _ id Hnever Hk2 Hp2)
      as (w3 & H3 & Hg3 & Hp3 & Ht3 & Hd3 & Hc3 & _).
    pose proof (retry_three_throws _ _ _ _ _ _ _ _ H1 H2 H3) as Hretry.
    set (wd := after_timer (backoff_delay 2) w3) in *.
    exists (snd (markAborted "confirm-proposal" wd)).
    destruct (markAborted_effect "confirm-proposal" wd)
      as ((_ & Htimers & Hcalls & _ & _ & Hhs & _) & _ & Hobjs & _).
    assert (Hgoal : goal wd = goal w).
    { unfold wd. simpl. rewrite Hg3. simpl. rewrite Hg2. simpl. exact Hg1. }
    split; [|split; [|split; [|split]]].
    + unfold cdp_handleConfirmProposal. rewrite (bind_Ret _ _ _ _ _ Hretry). simpl.
      apply markAborted_returns.
    + rewrite Hobjs, Hgoal. reflexivity.
    + unfold holds_proposals. rewrite Hhs. exact Hp3.
    + rewrite Hcalls. unfold wd. simpl. rewrite Hc3. simpl. rewrite Hc2. simpl.
      rewrite Hc1. reflexivity.
    + rewrite Htimers. unfold wd. simpl. rewrite Ht3. simpl. rewrite Ht2. simpl.
      rewrite Ht1. rewrite <- !app_assoc. reflexivity.
Qed.

Lemma cdp_confirmation_by_keyword_witness :
  goal_key (goal world_with_proposal) = Some "goal-5"
  /\ holds_proposals "goal-5" world_with_proposal
  /\ existsb says_success [hello; refusal] = true
  /\ (exists w',
        cdp_handleConfirmProposal env_refusing world_with_proposal = (Ret tt, w')
        /\ goal_objectives (goal w')
           = update_first (has_id "confirm-proposal") complete
               (goal_objectives (goal world_with_proposal))
        /\ goal_status <$> db w' !! "goal-5"
           = (fun _ => DONE) <$> db world_with_proposal !! "goal-5"
        /\ goalResponses (get_hstate CDP (hstates w')) !! "goal-5" = None
        /\ n_sendMessage (calls w') = S (n_sendMessage (calls world_with_proposal))
        /\ timers w' = timers world_with_proposal)
  /\ never_says_success env_no_wallet
  /\ exists w',
       cdp_handleConfirmProposal env_no_wallet world_with_proposal = (Ret tt, w')
       /\ goal_objectives (goal w')
          = update_first (has_id "confirm-proposal") abort
              (goal_objectives (goal world_with_proposal))
       /\ holds_proposals "goal-5" w'
       /\ n_sendMessage (calls w') = (3 + n_sendMessage (calls world_with_proposal))%nat
       /\ timers w' = (timers world_with_proposal ++ [1000; 2000; 4000])%list%Z.
Proof.
  assert (Hheld : holds_proposals "goal-5" world_with_proposal).
  { exists reply_with_empty_proposal. split; reflexivity. }
  assert (Hnever : never_says_success env_no_wallet).
  { intros n. exists [hello]. split; reflexivity. }
  split; [reflexivity|]. split; [exact Hheld|]. split; [reflexivity|].
  split; [|split; [exact Hnever|]].
  - exact (proj1 (cdp_confirmation_by_keyword env_refusing world_with_proposal "goal-5"
                    eq_refl Hheld) [hello; refusal] eq_refl eq_refl).
  - exact (proj2 (cdp_confirmation_by_keyword env_no_wallet world_with_proposal "goal-5"
                    eq_refl Hheld) Hnever).
Defined.

(** The refusal above ends the goal: its status in the store is DONE. *)
Example refusal_completes_goal :
  goal_status <$> db (snd (cdp_processObjective env_refusing 2 world_with_proposal)) !! "goal-5"
  = Some DONE
  /\ fst (cdp_processObjective env_refusing 2 world_with_proposal) = Ret tt.
Proof. vm_compute. split; reflexivity. Qed.

(** ** The multi-chain handler: funds already where the yield is best *)

Lemma completed_complete_if_pending o : obj_completed (complete_if_pending o) = true.
Proof. unfold complete_if_pending. destruct (obj_completed o) eqn:H; [exact H | reflexivity]. Qed.

Lemma has_id_complete_if_pending id o : has_id id (complete_if_pending o) = has_id id o.
Proof. unfold complete_if_pending. destruct (obj_completed o); reflexivity. Qed.

Lemma find_map_same {A} (p : A -> bool) (f : A -> A) l :
  (forall x, p (f x) = p x) ->
  List.find p (map f l) = option_map f (List.find p l).
Proof.
  intros Hp. induction l as [|x l IH]; [reflexivity|].
  simpl. rewrite Hp. destruct (p x); [reflexivity | exact IH].
Qed.

Lemma none_pending_after_skip l :
  List.find pending (map complete_if_pending l) = None.
Proof.
  induction l as [|x l IH]; [reflexivity|].
  simpl. unfold pending at 1. rewrite completed_complete_if_pending. exact IH.
Qed.

Lemma all_completed_after_skip l :
  forallb obj_completed (map complete_if_pending l) = true.
Proof.
  induction l as [|x l IH]; [reflexivity|].
  simpl. rewrite completed_complete_if_pending. exact IH.
Qed.

Lemma ids_after_skip l : map obj_id (map complete_if_pending l) = map obj_id l.
Proof.
  induction l as [|x l IH]; [reflexivity|].
  simpl. rewrite IH. unfold complete_if_pending. destruct (obj_completed x); reflexivity.
Qed.

Lemma find_pending_has_id l o :
  List.find pending l = Some o -> is_Some (List.find (has_id (obj_id o)) l).
Proof.
  intros H. apply List.find_some in H as [Hin _].
  destruct (List.find (has_id (obj_id o)) l) eqn:Hf; [eauto|].
  pose proof (List.find_none _ _ Hf o Hin) as Hno. unfold has_id in Hno.
  destruct (decide (obj_id o = obj_id o)); [discriminate | contradiction].
Qed.

Section BestYieldAlready.
Variable E : Env.

(** X24. The present-operation step of the multi-chain handler, when no
    reply carries an intent and the model finds the funds where the
    yield is best already, marks every objective of the goal completed at
    its first attempt and writes the goal to the store. The call of
    [processObjective] ends there: one message was sent, nothing was
    signed or submitted, no timer armed, and the goal has the status it
    had. Only a later call, which asks and sends nothing, gives the
    stored goal the status DONE. *)
Theorem multiChain_best_yield_already (pollFuel fuel : nat) (w : World) (id msg : string)
  (o : Objective) (responses : list ChromaResponse) :
  goal_key (goal w) = Some id ->
  is_Some (db w !! id) ->
  List.find pending (goal_objectives (goal w)) = Some o ->
  obj_id o = "present-operation" ->
  next_text E w = Ret msg ->
  truthy msg = true ->
  next_replies E w = Ret responses ->
  List.find (fun r => truthy (r_intent r)) responses = None ->
  next_yes_no E w = Ret true ->
  exists w',
    multiChain_processObjective E pollFuel (S fuel) w = (Ret tt, w')
    /\ forallb obj_completed (goal_objectives (goal w')) = true
    /\ map obj_id (goal_objectives (goal w')) = map obj_id (goal_objectives (goal w))
    /\ db w' !! id = Some (goal w')
    /\ goal_status (goal w') = goal_status (goal w)
    /\ n_sendMessage (calls w') = S (n_sendMessage (calls w))
    /\ submitted w' = submitted w
    /\ timers w' = timers w
    /\ forall E' pollFuel' fuel',
         exists w'',
           multiChain_processObjective E' pollFuel' (S fuel') w' = (Ret tt, w'')
           /\ db w'' !! id = Some (with_status DONE (goal w'))
           /\ calls w'' = calls w'.
Proof.
  unfold next_text, next_replies, next_yes_no.
  intros Hkey [g0 Hdb] Hpend Hid Htext Hmsg Hsend Hfind Hskip.
  set (w1 := set_now (fun t => (t + Z.of_N (latency (env_generateText E (n_generateText (calls w)))))%Z)
               (set_calls bump_generateText w)).
  set (w2 := set_now (fun t => (t + Z.of_N (latency (env_sendMessage E (n_sendMessage (calls w1)))))%Z)
               (set_calls bump_sendMessage w1)).
  set (keep := match List.find (fun r => truthy (r_text r)) responses with
               | Some responseWithText => storeResponse MultiChain responseWithText
               | None => ret tt
               end).
  set (w3 := snd (keep w2)).
  assert (Hkeep : keep w2 = (Ret tt, w3)).
  { unfold w3, keep. destruct (List.find (fun r => truthy (r_text r)) responses);
      [apply storeResponse_returns|reflexivity]. }
  assert (Hg3 : goal w3 = goal w) by (unfold w3, keep;
    destruct (List.find (fun r => truthy (r_text r)) responses);
    [rewrite (keeps_storeResponse goal); reflexivity | reflexivity]).
  assert (Ht3 : timers w3 = timers w) by (unfold w3, keep;
    destruct (List.find (fun r => truthy (r_text r)) responses);
    [rewrite (keeps_storeResponse timers); reflexivity | reflexivity]).
  assert (Hc3 : calls w3 = calls w2) by (unfold w3, keep;
    destruct (List.find (fun r => truthy (r_text r)) responses);
    [rewrite (keeps_storeResponse calls); reflexivity | reflexivity]).
  assert (Hs3 : submitted w3 = submitted w) by (unfold w3, keep;
    destruct (List.find (fun r => truthy (r_text r)) responses);
    [rewrite (keeps_storeResponse submitted); reflexivity | reflexivity]).
  assert (Hd3 : db w3 = db w) by (unfold w3, keep;
    destruct (List.find (fun r => truthy (r_text r)) responses);
    [rewrite (keeps_storeResponse db); reflexivity | reflexivity]).
  set (w4 := set_now (fun t => (t + Z.of_N (latency (env_generateTrueOrFalse E
                                   (n_generateTrueOrFalse (calls w3)))))%Z)
               (set_calls bump_generateTrueOrFalse w3)).
  set (w5 := set_goal (with_objectives (map complete_if_pending)) w4).
  set (w6 := set_db (alter (fun _ => goal w5) id) w5).
  assert (Hgid : goal_id (goal w5) = Some id).
  { simpl. rewrite Hg3. apply goal_key_id. exact Hkey. }
  assert (Hattempt : multiChain_operation_attempt E w = (Ret true, w6)).
  { unfold multiChain_operation_attempt, generateOperationMessage.
    assert (Hgen : generateText E w = (Ret msg, w1)) by (rewrite generateText_spec, Htext; reflexivity).
    rewrite (bind_Ret _ _ _ _ _ Hgen), Hmsg. simpl.
    assert (Hs : sendMessage E msg w1 = (Ret responses, w2)).
    { rewrite sendMessage_spec. change (n_sendMessage (calls w1)) with (n_sendMessage (calls w)).
      rewrite Hsend. reflexivity. }
    rewrite (bind_Ret _ _ _ _ _ Hs), Hfind. fold keep.
    rewrite (bind_Ret _ _ _ _ _ Hkeep).
    assert (Hq : shouldSkipRemainingObjectives E responses w3 = (Ret true, w4)).
    { unfold shouldSkipRemainingObjectives. rewrite generateTrueOrFalse_spec, Hc3.
      change (n_generateTrueOrFalse (calls w2)) with (n_generateTrueOrFalse (calls w)).
      rewrite Hskip. unfold w4. rewrite Hc3. reflexivity. }
    rewrite (bind_Ret _ _ _ _ _ Hq). cbv iota.
    rewrite bind_modify. fold w5.
    rewrite (bind_Ret _ _ _ _ _ (updateGoal_spec w5 id Hgid)). reflexivity. }
  assert (Hrun : multiChain_handleOperation E w = (Ret tt, w6)).
  { unfold multiChain_handleOperation.
    rewrite (bind_Ret _ _ _ _ _ (handler_retry_first_try _ _ _ _ Hattempt)). reflexivity. }
  assert (Hobjs6 : goal_objectives (goal w6)
                   = map complete_if_pending (goal_objectives (goal w))).
  { simpl. rewrite Hg3. reflexivity. }
  assert (Hkey6 : goal_key (goal w6) = Some id).
  { unfold goal_key in *. simpl. rewrite Hg3. exact Hkey. }
  assert (Hnone6 : List.find pending (goal_objectives (goal w6)) = None).
  { rewrite Hobjs6. apply none_pending_after_skip. }
  exists w6. split; [|split; [|split; [|split; [|split; [|split; [|split; [|split]]]]]]].
  - apply (multiChain_level_stops E pollFuel fuel w id o (multiChain_handleOperation E) w6
             Hkey Hpend); [rewrite Hid; reflexivity | exact Hrun | right; exact Hnone6].
  - rewrite Hobjs6. apply all_completed_after_skip.
  - rewrite Hobjs6. apply ids_after_skip.
  - unfold w6. simpl. rewrite lookup_alter_eq. rewrite Hd3, Hdb. reflexivity.
  - simpl. rewrite Hg3. reflexivity.
  - simpl. rewrite Hc3. reflexivity.
  - simpl. exact Hs3.
  - simpl. exact Ht3.
  - intros E' pollFuel' fuel'.
    eexists. split; [|split].
    + cbn [multiChain_processObjective]. rewrite bind_gets, Hkey6.
      unfold try_catch. rewrite Hnone6.
      rewrite (completeGoal_spec MultiChain w6 id Hkey6). reflexivity.
    + simpl. rewrite lookup_alter_eq, lookup_alter_eq. rewrite Hd3, Hdb. reflexivity.
    + reflexivity.
Qed.

End BestYieldAlready.

Lemma multiChain_best_yield_already_witness :
  let w := world_of introduced_yield_goal in
  goal_key (goal w) = Some "goal-4"
  /\ is_Some (db w !! "goal-4")
  /\ exists w',
       multiChain_processObjective env_best_already 0 1 w = (Ret tt, w')
       /\ forallb obj_completed (goal_objectives (goal w')) = true
       /\ map obj_id (goal_objectives (goal w')) = map obj_id (goal_objectives (goal w))
       /\ db w' !! "goal-4" = Some (goal w')
       /\ goal_status (goal w') = goal_status (goal w)
       /\ n_sendMessage (calls w') = S (n_sendMessage (calls w))
       /\ submitted w' = submitted w
       /\ timers w' = timers w
       /\ forall E' pollFuel' fuel',
            exists w'',
              multiChain_processObjective E' pollFuel' (S fuel') w' = (Ret tt, w'')
              /\ db w'' !! "goal-4" = Some (with_status DONE (goal w'))
              /\ calls w'' = calls w'.
Proof.
  intros w. split; [reflexivity|]. split; [eexists; reflexivity|].
  exact (multiChain_best_yield_already env_best_already 0 0 w "goal-4"
           "Find the best yield for my USDC"
           (mkObjective "present-operation"
              "Find the best yield for USDC on Optimism and Arbitrum" false None)
           [mkResponse "All your funds are on the best chain already." None None]
           eq_refl (ex_intro _ _ eq_refl) eq_refl eq_refl eq_refl eq_refl eq_refl eq_refl eq_refl).
Defined.

(** ** The CDP handler: presenting the operation *)

Lemma generateText_answered E w msg :
  next_text E w = Ret msg -> generateText E w = (Ret msg, after_text E w).
Proof. unfold next_text. intros H. rewrite generateText_spec, H. reflexivity. Qed.

Lemma validateOperationResponse_sends_nothing E r w :
  n_sendMessage (calls (snd (validateOperationResponse E r w))) = n_sendMessage (calls w).
Proof.
  unfold validateOperationResponse.
  destruct (is_bridge_intent r); [reflexivity|].
  destruct (is_withdraw_intent r); [reflexivity|].
  unfold try_catch, bind. rewrite generateVerdict_spec.
  destruct (answer (env_generateVerdict E (n_generateVerdict (calls w)))); reflexivity.
Qed.

Section CDPOperation.
Variable E : Env.

(** X25. The present-operation step of the CDP handler asks the text
    model once, before its first attempt. When the model returns the
    empty text the step returns at once: nothing is sent and the
    objective is left pending, not aborted. When a reply carries an
    intent, the step stores it and completes the objective at the first
    attempt, whatever the validator says, an invalid verdict included.
    When no reply ever carries an intent, the same text is sent three
    times 1 and 2 s apart, and the objective is marked ABORTED after
    another 4 s. *)
Theorem cdp_handleOperation_cases (w : World) (msg : string) :
  next_text E w = Ret msg ->
  (truthy msg = false -> cdp_handleOperation E w = (Ret tt, after_text E w))
  /\ (truthy msg = true ->
      forall responses r,
        next_replies E w = Ret responses ->
        List.find (fun r => truthy (r_intent r)) responses = Some r ->
        next_verdict E w <> Diverge ->
        exists w',
          cdp_handleOperation E w = (Ret tt, w')
          /\ goal_objectives (goal w')
             = update_first (has_id "present-operation") complete (goal_objectives (goal w))
          /\ (forall id, goal_key (goal w) = Some id ->
                         goalResponses (st_cdp (hstates w')) !! id = Some r)
          /\ n_sendMessage (calls w') = S (n_sendMessage (calls w))
          /\ timers w' = timers w)
  /\ (truthy msg = true ->
      never_offers_intent E ->
      exists w',
        cdp_handleOperation E w = (Ret tt, w')
        /\ goal_objectives (goal w')
           = update_first (has_id "present-operation") abort (goal_objectives (goal w))
        /\ n_generateText (calls w') = S (n_generateText (calls w))
        /\ n_sendMessage (calls w') = (3 + n_sendMessage (calls w))%nat
        /\ timers w' = (timers w ++ [1000; 2000; 4000])%list%Z).
Proof.
  intros Htext. pose proof (generateText_answered E w msg Htext) as Hgen.
  split; [|split].
  - intros Hmsg. unfold cdp_handleOperation, generateOperationMessage.
    rewrite (bind_Ret _ _ _ _ _ Hgen), Hmsg. reflexivity.
  - intros Hmsg responses r Hsend Hfind Hsettles.
    set (w1 := after_text E w) in *.
    assert (Hsend1 : next_replies E w1 = Ret responses) by exact Hsend.
    set (w2 := after_message E w1).
    assert (Hsettles2 : answer (env_generateVerdict E (n_generateVerdict (calls w2))) <> Diverge)
      by exact Hsettles.
    destruct (validateOperationResponse_settles E r w2 Hsettles2) as (v & Hvalid).
    set (w3 := snd (validateOperationResponse E r w2)) in *.
    set (w4 := snd (storeResponse CDP r w3)).
    set (w5 := snd (completeObjective "present-operation" w4)).
    assert (Hattempt : cdp_operation_attempt E msg w1 = (Ret true, w5)).
    { unfold cdp_operation_attempt.
      rewrite (bind_Ret _ _ _ _ _ (sendMessage_answered E msg w1 responses Hsend1)), Hfind.
      fold w2. rewrite (bind_Ret _ _ _ _ _ Hvalid). cbv beta.
      change (negb (truthy v)) with false. cbv iota.
      rewrite (bind_Ret _ _ _ _ _ (storeResponse_returns CDP r w3)). fold w4.
      rewrite (bind_Ret _ _ _ _ _ (completeObjective_returns "present-operation" w4)).
      reflexivity. }
    exists w5. split.
    { unfold cdp_handleOperation, generateOperationMessage.
      rewrite (bind_Ret _ _ _ _ _ Hgen), Hmsg. change (negb true) with false. cbv iota. fold w1.
      rewrite (bind_Ret _ _ _ _ _ (handler_retry_first_try _ _ _ _ Hattempt)). reflexivity. }
    destruct (completeObjective_effect "present-operation" w4)
      as ((_ & Htimers & Hcalls & _ & _ & Hhst & _) & _ & Hobjs & _).
    fold w5 in Htimers, Hcalls, Hhst, Hobjs.
    assert (Hg3 : goal w3 = goal w).
    { unfold w3. rewrite (keeps_validateOperationResponse goal); reflexivity. }
    assert (Hg4 : goal w4 = goal w).
    { unfold w4. rewrite (keeps_storeResponse goal); [exact Hg3 | reflexivity]. }
    split; [rewrite Hobjs, Hg4; reflexivity|]. split; [|split].
    + intros id Hkey. rewrite Hhst. unfold w4.
      assert (Hkey3 : goal_key (goal w3) = Some id) by (rewrite Hg3; exact Hkey).
      rewrite (storeResponse_spec CDP r w3 id Hkey3). simpl. apply lookup_insert_eq.
    + rewrite Hcalls. unfold w4. rewrite (keeps_storeResponse calls); [|reflexivity].
      unfold w3. rewrite validateOperationResponse_sends_nothing. reflexivity.
    + rewrite Htimers. unfold w4. rewrite (keeps_storeResponse timers); [|reflexivity].
      unfold w3. rewrite (keeps_validateOperationResponse timers); reflexivity.
  - intros Hmsg Hnever.
    assert (Hattempt : forall w0,
              cdp_operation_attempt E msg w0
              = (Throw (Error "No intent found in response"), after_message E w0)).
    { intros w0. destruct (Hnever (n_sendMessage (calls w0))) as (responses & Hsend & Hnone).
      unfold cdp_operation_attempt.
      rewrite (bind_Ret _ _ _ _ _ (sendMessage_answered E msg w0 responses Hsend)), Hnone.
      reflexivity. }
    set (w1 := after_text E w) in *.
    pose proof (retry_three_throws _ _ _ _ _ _ _ _
                  (Hattempt w1)
                  (Hattempt (after_timer (backoff_delay 0) (after_message E w1)))
                  (Hattempt (after_timer (backoff_delay 1)
                               (after_message E
                                  (after_timer (backoff_delay 0) (after_message E w1))))))
      as Hretry.
    set (wd := after_timer (backoff_delay 2) _) in Hretry.
    exists (snd (markAborted "present-operation" wd)).
    destruct (markAborted_effect "present-operation" wd)
      as ((_ & Htimers & Hcalls & _) & _ & Hobjs & _).
    split; [|split; [|split; [|split]]].
    + unfold cdp_handleOperation, generateOperationMessage.
      rewrite (bind_Ret _ _ _ _ _ Hgen), Hmsg. change (negb true) with false. cbv iota. fold w1.
      rewrite (bind_Ret _ _ _ _ _ Hretry). simpl.
      apply markAborted_returns.
    + exact Hobjs.
    + rewrite Hcalls. reflexivity.
    + rewrite Hcalls. reflexivity.
    + rewrite Htimers. unfold wd, after_message. simpl. rewrite <- !app_assoc. reflexivity.
Qed.

End CDPOperation.

Lemma cdp_handleOperation_cases_witness :
  let w := world_of wallet_goal in
  next_text env_silent_model w = Ret EmptyString
  /\ cdp_handleOperation env_silent_model w = (Ret tt, after_text env_silent_model w)
  /\ (exists w',
        cdp_handleOperation env_rejecting w = (Ret tt, w')
        /\ goal_objectives (goal w')
           = update_first (has_id "present-operation") complete (goal_objectives (goal w))
        /\ (forall id, goal_key (goal w) = Some id ->
                       goalResponses (st_cdp (hstates w')) !! id = Some reply_with_intent)
        /\ n_sendMessage (calls w') = S (n_sendMessage (calls w))
        /\ timers w' = timers w)
  /\ never_offers_intent env_no_intent
  /\ exists w',
       cdp_handleOperation env_no_intent w = (Ret tt, w')
       /\ goal_objectives (goal w')
          = update_first (has_id "present-operation") abort (goal_objectives (goal w))
       /\ n_generateText (calls w') = S (n_generateText (calls w))
       /\ n_sendMessage (calls w') = (3 + n_sendMessage (calls w))%nat
       /\ timers w' = (timers w ++ [1000; 2000; 4000])%list%Z.
Proof.
  intros w.
  assert (Hnever : never_offers_intent env_no_intent).
  { intros n. exists [hello]. split; reflexivity. }
  split; [reflexivity|]. split; [|split; [|split; [exact Hnever|]]].
  - exact (proj1 (cdp_handleOperation_cases env_silent_model w EmptyString eq_refl) eq_refl).
  - exact (proj1 (proj2 (cdp_handleOperation_cases env_rejecting w
                           "Swap 10 USDC to ETH on ethereum" eq_refl))
             eq_refl [reply_with_intent] reply_with_intent eq_refl eq_refl
             ltac:(discriminate)).
  - exact (proj2 (proj2 (cdp_handleOperation_cases env_no_intent w
                           "Transfer 0.0001 ETH" eq_refl)) eq_refl Hnever).
Defined.

(** ** The confirm-intent step of the handlers *)







(** ** Example goals *)

Lemma prefix_refl s : String.prefix s s = true.
Proof. induction s as [|c s IH]; [reflexivity|]. simpl. rewrite IH.
  destruct (Ascii.ascii_dec c c); [reflexivity|contradiction]. Qed.

Lemma includes_refl s : includes s s = true.
Proof.
  unfold includes. destruct s as [|c s]; [reflexivity|].
  cbn [String.index]. rewrite prefix_refl. reflexivity.
Qed.

Lemma no_cdp_example :
  forallb (fun kv => match ex_type (snd kv) with ex_cdp => false | _ => true end
                     && truthy (ex_name (snd kv)) && truthy (fst kv))
    EXAMPLE_CONFIGS = true.
Proof. vm_compute. reflexivity. Qed.

Lemma lookup_config_in table mode config :
  lookup_config table mode = Some config -> In (mode, config) table.
Proof.
  induction table as [|[key c] rest IH]; [discriminate|].
  simpl. destruct (decide (key = mode)) as [->|_].
  - intros [= ->]. left. reflexivity.
  - intros H. right. exact (IH H).
Qed.

Lemma config_of_facts mode config :
  config_of mode = Some config ->
  ex_type config <> ex_cdp /\ truthy (ex_name config) = true /\ truthy mode = true.
Proof.
  intros H. apply lookup_config_in in H.
  pose proof (proj1 (forallb_forall _ _) no_cdp_example _ H) as Hrow. simpl in Hrow.
  apply andb_true_iff in Hrow as [Hrow Hm]. apply andb_true_iff in Hrow as [Ht Hn].
  split; [|split; [exact Hn | exact Hm]].
  intros Heq. rewrite Heq in Ht. discriminate.
Qed.

Lemma example_goals_routing_facts mode id config :
  config_of mode = Some config ->
  goal_name (example_goal config mode id) = ex_name config
  /\ goal_status (example_goal config mode id) = IN_PROGRESS.
Proof.
  intros Hconfig.
  unfold example_goal, createExampleSingleChainGoal, createExampleMultiChainGoal,
    createExampleCDPGoal.
  rewrite Hconfig. destruct (ex_type config); split; reflexivity.
Qed.

(** X26. Which handler the example goals get. The goal
    [registerExampleGoal] builds for a mode of its table goes to the
    multi-chain handler when the type of the mode is multi and to the
    single-chain handler otherwise, whatever its operation and id. No
    mode of the table has the type cdp: the goal of
    [createExampleCDPGoal], the only one the CDP handler would take, is
    never built. *)
Theorem example_goals_routing (mode id : string) (config : ExampleConfig) :
  config_of mode = Some config ->
  getHandlerForGoal (example_goal config mode id)
  = Some (match ex_type config with ex_multi => MultiChain | _ => SingleChain end)
  /\ example_goal config mode id <> createExampleCDPGoal mode id
  /\ (forall mode' id', getHandlerForGoal (createExampleCDPGoal mode' id') = Some CDP)
  /\ goal_name (example_goal config mode id) = ex_name config
  /\ goal_status (example_goal config mode id) = IN_PROGRESS
  /\ forallb pending (goal_objectives (example_goal config mode id)) = true.
Proof.
  intros Hconfig. destruct (config_of_facts mode config Hconfig) as [Hno_cdp _].
  unfold example_goal, createExampleSingleChainGoal, createExampleMultiChainGoal,
    createExampleCDPGoal.
  rewrite Hconfig. simpl default.
  destruct (ex_type config) eqn:Htype; [|contradiction|].
  - repeat split; try reflexivity. discriminate.
  - repeat split; try reflexivity. discriminate.
Qed.

Lemma example_goals_routing_witness :
  config_of "find_best_yield" = Some find_best_yield_config
  /\ getHandlerForGoal (example_goal find_best_yield_config "find_best_yield" "id-1")
     = Some MultiChain
  /\ example_goal find_best_yield_config "find_best_yield" "id-1"
     <> createExampleCDPGoal "find_best_yield" "id-1"
  /\ (forall mode' id', getHandlerForGoal (createExampleCDPGoal mode' id') = Some CDP)
  /\ goal_name (example_goal find_best_yield_config "find_best_yield" "id-1")
     = "Find Best Yield Example"
  /\ goal_status (example_goal find_best_yield_config "find_best_yield" "id-1") = IN_PROGRESS
  /\ forallb pending
       (goal_objectives (example_goal find_best_yield_config "find_best_yield" "id-1")) = true.
Proof.
  split; [reflexivity|].
  exact (example_goals_routing "find_best_yield" "id-1" find_best_yield_config eq_refl).
Defined.

Section ExampleMode.
Variable example_goal_id : Z -> string.

Lemma names_in_progress_spec name w :
  existsb (fun g => includes name (goal_name g))
    (List.filter in_progress (List.filter in_progress (map snd (map_to_list (db w))))) = true
  <-> names_in_progress name w.
Proof.
  rewrite existsb_exists. unfold names_in_progress. split.
  - intros (g & Hin & Hname). apply List.filter_In in Hin as [Hin _].
    apply getGoals_lists in Hin as ((k & Hk) & Hst). eauto.
  - intros (k & g & Hk & Hst & Hname). exists g. split; [|exact Hname].
    assert (Hin : In g (List.filter in_progress (map snd (map_to_list (db w)))))
      by (apply getGoals_lists; eauto).
    apply List.filter_In. split; [exact Hin|]. unfold in_progress. rewrite Hst. reflexivity.
Qed.

Lemma getExampleGoalName_known mode config :
  config_of mode = Some config -> getExampleGoalName mode = ex_name config.
Proof.
  intros H. unfold getExampleGoalName. rewrite H.
  destruct (config_of_facts mode config H) as (_ & -> & _). reflexivity.
Qed.

Lemma existsb_nonempty {A} (p : A -> bool) l :
  existsb p l = true -> truthy (Z.of_nat (length l)) = true.
Proof. destruct l; [discriminate|reflexivity]. Qed.

Lemma start_example_mode_cases mode w :
  truthy mode = true ->
  start_example_mode example_goal_id (Some mode) w
  = if existsb (fun g => includes (getExampleGoalName mode) (goal_name g))
         (List.filter in_progress (List.filter in_progress (map snd (map_to_list (db w)))))
    then (Ret tt, w) else registerExampleGoal example_goal_id mode w.
Proof.
  intros Hmode. unfold start_example_mode.
  change (truthy (Some mode)) with (truthy mode). rewrite Hmode.
  unfold getGoals. rewrite bind_gets. simpl default.
  destruct (existsb _ _) eqn:Hmatch.
  - rewrite (existsb_nonempty _ _ Hmatch). reflexivity.
  - rewrite orb_true_r. reflexivity.
Qed.

(** X27. The example mode of [ChromaClient.start], for a mode of the
    table. When the store has a goal in progress whose name contains the
    name of the example, nothing is registered and the store is left as
    it is. Otherwise the example goal of the mode is stored under the id
    made from the time of the call; as long as the store holds it, a
    later start registers nothing. Without the setting nothing is
    registered either. *)
Theorem start_example_mode_registers_once (mode : string) (config : ExampleConfig)
  (w : World) :
  config_of mode = Some config ->
  (names_in_progress (ex_name config) w ->
   start_example_mode example_goal_id (Some mode) w = (Ret tt, w))
  /\ (~ names_in_progress (ex_name config) w ->
      let g := example_goal config mode (example_goal_id (now w)) in
      start_example_mode example_goal_id (Some mode) w
      = (Ret tt, set_db (insert (example_goal_id (now w)) g) w)
      /\ forall w2 k, db w2 !! k = Some g ->
                      start_example_mode example_goal_id (Some mode) w2 = (Ret tt, w2))
  /\ start_example_mode example_goal_id None w = (Ret tt, w).
Proof.
  intros Hconfig. destruct (config_of_facts mode config Hconfig) as (_ & _ & Hmode).
  pose proof (getExampleGoalName_known mode config Hconfig) as Hname.
  assert (Hidle : forall w0, names_in_progress (ex_name config) w0 ->
                             start_example_mode example_goal_id (Some mode) w0 = (Ret tt, w0)).
  { intros w0 Hin. rewrite (start_example_mode_cases mode w0 Hmode), Hname.
    apply names_in_progress_spec in Hin. rewrite Hin. reflexivity. }
  split; [exact (Hidle w)|]. split; [|reflexivity].
  intros Hnone g. split.
  - rewrite (start_example_mode_cases mode w Hmode), Hname.
    destruct (existsb _ _) eqn:Hmatch.
    + exfalso. apply Hnone. apply names_in_progress_spec. exact Hmatch.
    + unfold registerExampleGoal. rewrite Hconfig, bind_gets. fold g.
      unfold createGoal.
      assert (Hid : goal_id g = Some (example_goal_id (now w))).
      { unfold g, example_goal. destruct (ex_type config); reflexivity. }
      rewrite Hid. reflexivity.
  - intros w2 k Hk. apply Hidle. exists k, g. split; [exact Hk|].
    destruct (example_goals_routing_facts mode (example_goal_id (now w)) config Hconfig)
      as (Hn & Hs).
    fold g in Hn, Hs. split; [exact Hs|]. rewrite Hn. apply includes_refl.
Qed.

End ExampleMode.

Lemma start_example_mode_registers_once_witness :
  let w := world_of yield_goal in
  let g := example_goal transfer_config "transfer" (uuid_of_time (now w)) in
  config_of "find_best_yield_single_chain"
  = Some (mkExampleConfig "Find Best Yield Example" "Find the best yield for USDC on Optimism"
            ex_single)
  /\ names_in_progress "Find Best Yield Example" w
  /\ start_example_mode uuid_of_time (Some "find_best_yield_single_chain") w = (Ret tt, w)
  /\ ~ names_in_progress "Transfer ETH Example" w
  /\ start_example_mode uuid_of_time (Some "transfer") w
     = (Ret tt, set_db (insert (uuid_of_time (now w)) g) w)
  /\ (forall w2 k, db w2 !! k = Some g ->
                   start_example_mode uuid_of_time (Some "transfer") w2 = (Ret tt, w2)).
Proof.
  intros w g.
  assert (Hin : names_in_progress "Find Best Yield Example" w).
  { exists "goal-4", yield_goal. repeat split. }
  assert (Hout : ~ names_in_progress "Transfer ETH Example" w).
  { intros (k & g0 & Hk & _ & Hname). unfold w, world_of in Hk. simpl in Hk.
    apply lookup_singleton_Some in Hk as [_ <-]. vm_compute in Hname. discriminate. }
  split; [reflexivity|]. split; [exact Hin|]. split; [|split; [exact Hout|]].
  - exact (proj1 (start_example_mode_registers_once uuid_of_time
                    "find_best_yield_single_chain" _ w eq_refl) Hin).
  - exact (proj1 (proj2 (start_example_mode_registers_once uuid_of_time
                           "transfer" transfer_config w eq_refl)) Hout).
Defined.

(** ** What a tick can throw *)

Lemma throws_only_catch_all {A} (P : exn -> Prop) (body : M A) (h : exn -> M A) :
  (forall e, throws_only P (h e)) ->
  throws_only P (try_catch body h).
Proof.
  intros Hh w e w'. unfold try_catch.
  destruct (body w) as [[a|e0|] w1] eqn:Hrun; try discriminate.
  apply Hh.
Qed.

Lemma throws_only_generateTrueOrFalse E :
  throws_only (classifier_failure E) (generateTrueOrFalse E).
Proof.
  intros w e w'. rewrite generateTrueOrFalse_spec. intros [= H _].
  exists (n_generateTrueOrFalse (calls w)). exact H.
Qed.

Lemma throws_only_isCryptoGoal E g : throws_only (classifier_failure E) (isCryptoGoal E g).
Proof.
  unfold isCryptoGoal. destruct (goal_key g); [|apply throws_only_ret].
  apply throws_only_bind; [apply throws_only_gets|]. intros cache.
  destruct (cache !! s); [apply throws_only_ret|].
  apply throws_only_bind; [apply throws_only_modify|]. intros _.
  apply throws_only_bind; [apply throws_only_generateTrueOrFalse|]. intros result.
  apply throws_only_bind; [apply throws_only_modify|]. intros _.
  apply throws_only_ret.
Qed.

Lemma throws_only_clearState_all P hs id : throws_only P (clearState_all hs id).
Proof.
  induction hs as [|h hs IH]; [apply throws_only_ret|].
  simpl. apply throws_only_bind; [apply throws_only_modify | intros _; exact IH].
Qed.

Section TickFailures.
Variable E : Env.
Variables cdp mc : M unit.
Variable fuel : nat.

Lemma throws_only_processGoal g :
  throws_only (classifier_failure E) (processGoal E cdp mc fuel g).
Proof.
  unfold processGoal. destruct (goal_key g) as [id|]; [|apply throws_only_ret].
  apply throws_only_bind; [apply throws_only_modify|]. intros _.
  apply throws_only_bind; [apply throws_only_gets|]. intros isProcessing.
  destruct isProcessing; [apply throws_only_ret|].
  apply throws_only_bind; [apply throws_only_isCryptoGoal|]. intros isCrypto.
  destruct (negb (truthy isCrypto)); [apply throws_only_ret|].
  apply throws_only_catch_all. intros e.
  apply throws_only_bind; [apply throws_only_modify|]. intros _.
  apply throws_only_clearState_all.
Qed.

Lemma throws_only_for_goals goals :
  throws_only (classifier_failure E) (for_goals E cdp mc fuel goals).
Proof.
  induction goals as [|g rest IH]; [apply throws_only_ret|].
  simpl. apply throws_only_bind; [apply throws_only_processGoal | intros _; exact IH].
Qed.

(** X28. Once the goals in progress are read, a scheduler tick contains
    every failure of the handlers. Whatever the three handlers do with a
    goal, throwing included, and whatever the environment answers, the
    loop over the goals throws only an exception that the classification
    of a goal threw, [isCryptoGoal] being awaited before the [try] block;
    and the [try] block of a goal, whatever its body is, throws nothing:
    its catch branch removes the token, clears the goal's state and
    returns. The read of the goals from the store comes before the loop
    and is not part of the statement. *)
Theorem tick_throws_only_classifier_failures (goals : list Goal) (w : World) (e : exn)
  (w' : World) :
  (for_goals E cdp mc fuel goals w = (Throw e, w') ->
   exists n, answer (env_generateTrueOrFalse E n) = Throw e)
  /\ (forall (body : M unit) (id : string) (w0 : World) (e0 : exn),
        fst (try_catch body
               (fun _ => clearProcessingState id ;; clearState_all handlers id) w0)
        <> Throw e0).
Proof.
  split.
  - exact (throws_only_for_goals goals w e w').
  - intros body id w0 e0 Hthrown.
    destruct (try_catch body
                (fun _ => clearProcessingState id ;; clearState_all handlers id) w0)
      as [out w1] eqn:Hrun.
    simpl in Hthrown. subst out.
    exact (throws_only_catch_all (fun _ => False) body _
             (fun _ => throws_only_bind _ _ _ (throws_only_modify _ _)
                         (fun _ => throws_only_clearState_all _ handlers id))
             w0 e0 w1 Hrun).
Qed.

End TickFailures.

Lemma tick_throws_only_classifier_failures_witness :
  let w := stored_world swap_goal in
  for_goals env_classifier_down broken_handler broken_handler 8 [swap_goal] w
  = (Throw (Error "connection refused"),
     snd (for_goals env_classifier_down broken_handler broken_handler 8 [swap_goal] w))
  /\ exists n, answer (env_generateTrueOrFalse env_classifier_down n)
               = Throw (Error "connection refused").
Proof.
  intros w.
  assert (Hrun : for_goals env_classifier_down broken_handler broken_handler 8 [swap_goal] w
                 = (Throw (Error "connection refused"),
                    snd (for_goals env_classifier_down broken_handler broken_handler 8
                           [swap_goal] w)))
    by (vm_compute; reflexivity).
  split; [exact Hrun|].
  exact (proj1 (tick_throws_only_classifier_failures env_classifier_down broken_handler
                  broken_handler 8 [swap_goal] w _ _) Hrun).
Defined.

(** A goal the CDP handler would take, with a handler that throws: the
    tick returns, and the goal has lost its processing token. *)
Example broken_handler_is_contained :
  let w := stored_world wallet_goal in
  let w' := snd (processGoals env_up broken_handler broken_handler 8 w) in
  fst (processGoals env_up broken_handler broken_handler 8 w) = Ret tt
  /\ processingGoals (service w') = ∅.
Proof. vm_compute. split; reflexivity. Qed.

(** ** A CDP run with a cooperative environment *)

Section CDPSteps.
Variable E : Env.

Lemma cdp_wallet_first_try w responses :
  next_replies E w = Ret responses ->
  offers_wallet responses = true ->
  exists w',
    cdp_handleAskForWallet E w = (Ret tt, w')
    /\ goal_objectives (goal w')
       = update_first (has_id "ask-for-wallet") complete (goal_objectives (goal w))
    /\ goal_id (goal w') = goal_id (goal w)
    /\ (forall k, is_Some (db w' !! k) <-> is_Some (db w !! k))
    /\ timers w' = (timers w ++ [10000; 10000])%list%Z
    /\ hstates w' = hstates w.
Proof.
  intros Hsend Hoffer.
  set (w1 := after_timer 10000 (after_message E w)).
  set (w2 := snd (completeObjective "ask-for-wallet" w1)).
  assert (Hattempt : cdp_wallet_attempt E w = (Ret true, after_timer 10000 w2)).
  { unfold cdp_wallet_attempt.
    rewrite (bind_Ret _ _ _ _ _ (sendMessage_answered E _ w responses Hsend)).
    rewrite (bind_Ret _ _ _ _ _ (sleep_spec _ _)).
    fold (offers_wallet responses). rewrite Hoffer. fold w1.
    rewrite (bind_Ret _ _ _ _ _ (completeObjective_returns "ask-for-wallet" w1)).
    fold w2. reflexivity. }
  exists (after_timer 10000 w2). split.
  { unfold cdp_handleAskForWallet.
    rewrite (bind_Ret _ _ _ _ _ (handler_retry_first_try _ _ _ _ Hattempt)). reflexivity. }
  destruct (completeObjective_effect "ask-for-wallet" w1)
    as ((_ & Htimers & _ & _ & _ & Hhst & _) & Hgid & Hobjs & Hdb).
  fold w2 in Htimers, Hhst, Hgid, Hobjs, Hdb.
  split; [exact Hobjs|]. split; [exact Hgid|]. split; [exact Hdb|]. split.
  - rewrite timers_after_timer, Htimers. unfold w1. simpl. rewrite <- app_assoc. reflexivity.
  - simpl. rewrite Hhst. reflexivity.
Qed.

Lemma cdp_operation_first_try w msg responses r id :
  next_text E w = Ret msg ->
  truthy msg = true ->
  next_replies E w = Ret responses ->
  List.find (fun r => truthy (r_intent r)) responses = Some r ->
  validator_settles E ->
  goal_key (goal w) = Some id ->
  exists w',
    cdp_handleOperation E w = (Ret tt, w')
    /\ goal_objectives (goal w')
       = update_first (has_id "present-operation") complete (goal_objectives (goal w))
    /\ hands_on w w'
    /\ goalResponses (st_cdp (hstates w')) !! id = Some r.
Proof.
  intros Htext Hmsg Hsend Hfind Hsettles Hkey.
  pose proof (generateText_answered E w msg Htext) as Hgen.
  set (w1 := after_text E w) in *.
  assert (Hsend1 : next_replies E w1 = Ret responses) by exact Hsend.
  set (w2 := after_message E w1).
  destruct (validateOperationResponse_settles E r w2 (Hsettles _)) as (v & Hvalid).
  set (w3 := snd (validateOperationResponse E r w2)) in *.
  set (w4 := snd (storeResponse CDP r w3)).
  set (w5 := snd (completeObjective "present-operation" w4)).
  assert (Hattempt : cdp_operation_attempt E msg w1 = (Ret true, w5)).
  { unfold cdp_operation_attempt.
    rewrite (bind_Ret _ _ _ _ _ (sendMessage_answered E msg w1 responses Hsend1)), Hfind.
    fold w2. rewrite (bind_Ret _ _ _ _ _ Hvalid). cbv beta.
    change (negb (truthy v)) with false. cbv iota.
    rewrite (bind_Ret _ _ _ _ _ (storeResponse_returns CDP r w3)). fold w4.
    rewrite (bind_Ret _ _ _ _ _ (completeObjective_returns "present-operation" w4)).
    reflexivity. }
  exists w5. split.
  { unfold cdp_handleOperation, generateOperationMessage.
    rewrite (bind_Ret _ _ _ _ _ Hgen), Hmsg. change (negb true) with false. cbv iota.
    rewrite (bind_Ret _ _ _ _ _ (handler_retry_first_try _ _ _ _ Hattempt)). reflexivity. }
  assert (Hg3 : goal w3 = goal w).
  { unfold w3. rewrite (keeps_validateOperationResponse goal); reflexivity. }
  assert (Hg4 : goal w4 = goal w).
  { unfold w4. rewrite (keeps_storeResponse goal); [exact Hg3 | reflexivity]. }
  assert (Ht4 : timers w4 = timers w).
  { unfold w4. rewrite (keeps_storeResponse timers); [|reflexivity].
    unfold w3. rewrite (keeps_validateOperationResponse timers); reflexivity. }
  assert (Hd4 : db w4 = db w).
  { unfold w4. rewrite (keeps_storeResponse db); [|reflexivity].
    unfold w3. rewrite (keeps_validateOperationResponse db); reflexivity. }
  assert (Hh4 : hands_on w w4) by (apply hands_on_same; assumption).
  split; [|split].
  - destruct (completeObjective_effect "present-operation" w4) as (_ & _ & Hobjs & _).
    fold w5 in Hobjs. rewrite Hobjs, Hg4. reflexivity.
  - exact (hands_on_trans _ _ _ Hh4 (hands_on_completeObjective "present-operation" w4)).
  - destruct (completeObjective_effect "present-operation" w4)
      as ((_ & _ & _ & _ & _ & Hhst & _) & _).
    fold w5 in Hhst. rewrite Hhst. unfold w4.
    assert (Hkey3 : goal_key (goal w3) = Some id) by (rewrite Hg3; exact Hkey).
    rewrite (storeResponse_spec CDP r w3 id Hkey3). simpl. apply lookup_insert_eq.
Qed.

Lemma cdp_intent_first_try w msg responses stored intent r id :
  goal_key (goal w) = Some id ->
  goalResponses (st_cdp (hstates w)) !! id = Some stored ->
  r_intent stored = Some intent ->
  next_text E w = Ret msg ->
  next_replies E w = Ret responses ->
  List.find (fun r => truthy (r_proposals r)) responses = Some r ->
  exists w',
    cdp_handleIntent E w = (Ret tt, w')
    /\ goal_objectives (goal w')
       = update_first (has_id "confirm-intent") complete (goal_objectives (goal w))
    /\ hands_on w w'
    /\ goalResponses (st_cdp (hstates w')) !! id = Some r.
Proof.
  intros Hkey Hstored Hintent Htext Hsend Hfind.
  pose proof (generateText_answered E w msg Htext) as Hgen.
  set (w1 := after_text E w) in *.
  assert (Hsend1 : next_replies E w1 = Ret responses) by exact Hsend.
  set (w2 := after_message E w1).
  assert (Hkey2 : goal_key (goal w2) = Some id) by exact Hkey.
  set (w4 := set_my_state CDP (set_goalResponses (insert id r)) w2).
  set (w5 := snd (completeObjective "confirm-intent" w4)).
  assert (Hattempt : cdp_intent_attempt E msg w1 = (Ret true, w5)).
  { unfold cdp_intent_attempt.
    rewrite (bind_Ret _ _ _ _ _ (sendMessage_answered E msg w1 responses Hsend1)), Hfind.
    fold w2. rewrite (bind_Ret _ _ _ _ _ (storeResponse_spec CDP r w2 id Hkey2)). fold w4.
    rewrite (bind_Ret _ _ _ _ _ (completeObjective_returns "confirm-intent" w4)).
    reflexivity. }
  exists w5. split.
  { unfold cdp_handleIntent.
    rewrite (bind_Ret _ _ _ _ _ (getLatestResponse_spec CDP w id Hkey)).
    unfold my_state. change (get_hstate CDP (hstates w)) with (st_cdp (hstates w)).
    rewrite Hstored. change (Some stored ≫= r_intent) with (r_intent stored).
    rewrite Hintent.
    change (negb (truthy (Some intent))) with false. cbv iota.
    rewrite (bind_Ret _ _ _ _ _ Hgen).
    rewrite (bind_Ret _ _ _ _ _ (handler_retry_first_try _ _ _ _ Hattempt)). reflexivity. }
  assert (Hh4 : hands_on w w4) by (apply hands_on_same; reflexivity).
  split; [|split].
  - destruct (completeObjective_effect "confirm-intent" w4) as (_ & _ & Hobjs & _).
    exact Hobjs.
  - exact (hands_on_trans _ _ _ Hh4 (hands_on_completeObjective "confirm-intent" w4)).
  - destruct (completeObjective_effect "confirm-intent" w4)
      as ((_ & _ & _ & _ & _ & Hhst & _) & _).
    fold w5 in Hhst. rewrite Hhst. unfold w4. simpl. apply lookup_insert_eq.
Qed.

Lemma cdp_confirm_first_try w responses id o :
  goal_key (goal w) = Some id ->
  holds_proposals id w ->
  is_Some (db w !! id) ->
  List.find (has_id "confirm-proposal") (goal_objectives (goal w)) = Some o ->
  next_replies E w = Ret responses ->
  existsb says_success responses = true ->
  exists w',
    cdp_handleConfirmProposal E w = (Ret tt, w')
    /\ goal_objectives (goal w')
       = update_first (has_id "confirm-proposal") complete (goal_objectives (goal w))
    /\ goal_id (goal w') = goal_id (goal w)
    /\ db w' !! id = Some (with_status DONE (goal w'))
    /\ goalResponses (st_cdp (hstates w')) !! id = None
    /\ timers w' = timers w.
Proof.
  intros Hkey (stored & Hstored & Hprops) Hdb Hobj Hsend Hsays.
  assert (Hfind : exists r,
             List.find (fun r => truthy (r_proposals r) || says_success r) (rev responses)
             = Some r).
  { apply existsb_exists in Hsays as (x & Hin & Hx).
    destruct (List.find _ (rev responses)) as [r|] eqn:Hf; [eauto|].
    exfalso. pose proof (List.find_none _ _ Hf x) as Hno. simpl in Hno.
    rewrite Hx, orb_true_r in Hno. rewrite <- in_rev in Hno.
    specialize (Hno Hin). discriminate. }
  destruct Hfind as (r & Hfind).
  set (w1 := set_my_state CDP (set_goalResponses (insert id r)) (after_message E w)).
  set (w2 := snd (completeObjective "confirm-proposal" w1)).
  destruct (completeObjective_effect "confirm-proposal" w1)
    as ((_ & Htimers & _ & _ & _ & Hhs & _) & Hgid & Hobjs & _).
  fold w2 in Htimers, Hhs, Hgid, Hobjs.
  assert (Hkey1 : goal_key (goal w1) = Some id) by exact Hkey.
  assert (Hkey2 : goal_key (goal w2) = Some id).
  { unfold goal_key in *. rewrite Hgid. exact Hkey. }
  pose proof (completeObjective_db "confirm-proposal" w1 id o Hobj Hkey1 Hdb) as Hdb2.
  fold w2 in Hdb2.
  assert (Hattempt : cdp_confirm_attempt E w
                     = (Ret true,
                        set_db (alter (with_status DONE) id)
                          (set_my_state CDP (set_goalResponses (delete id)) w2))).
  { unfold cdp_confirm_attempt.
    rewrite (bind_Ret _ _ _ _ _ (getLatestResponse_spec CDP w id Hkey)).
    unfold my_state. rewrite Hstored. simpl mbind. rewrite Hprops. simpl negb. cbv iota.
    rewrite bind_ret.
    rewrite (bind_Ret _ _ _ _ _ (sendMessage_answered E _ w responses Hsend)).
    rewrite existsb_rev, Hsays, Hfind.
    rewrite (bind_Ret _ _ _ _ _ (storeResponse_spec CDP r (after_message E w) id Hkey)).
    fold w1.
    rewrite (bind_Ret _ _ _ _ _ (completeObjective_returns "confirm-proposal" w1)).
    fold w2.
    rewrite (bind_Ret _ _ _ _ _ (completeGoal_spec CDP w2 id Hkey2)). reflexivity. }
  eexists. split.
  { unfold cdp_handleConfirmProposal.
    rewrite (bind_Ret _ _ _ _ _ (handler_retry_first_try _ _ _ _ Hattempt)). reflexivity. }
  split; [exact Hobjs|]. split; [exact Hgid|]. split; [|split].
  - simpl. rewrite lookup_alter_eq, Hdb2. reflexivity.
  - simpl. rewrite Hhs. unfold w1. simpl. apply lookup_delete_eq.
  - simpl. rewrite Htimers. reflexivity.
Qed.

(** One level of the CDP [processObjective] whose step returns with its
    objective completed and another one pending, and the last level. *)
Lemma cdp_level_advances fuel w id o step w1 o' w' :
  goal_key (goal w) = Some id ->
  List.find pending (goal_objectives (goal w)) = Some o ->
  cdp_step E (obj_id o) = Some step ->
  step w = (Ret tt, w1) ->
  getObjectiveStatus (goal w1) (obj_id o) = COMPLETED ->
  List.find pending (goal_objectives (goal w1)) = Some o' ->
  cdp_processObjective E fuel w1 = (Ret tt, w') ->
  cdp_processObjective E (S fuel) w = (Ret tt, w').
Proof.
  intros Hkey Hfind Hstep Hrun Hstatus Hnext Hrest.
  cbn [cdp_processObjective]. rewrite bind_gets, Hkey.
  unfold try_catch. rewrite Hfind, Hstep.
  rewrite (bind_Ret _ _ _ _ _ Hrun), bind_gets, Hstatus, Hnext, Hrest. reflexivity.
Qed.

Lemma cdp_level_finishes fuel w id o step w1 :
  goal_key (goal w) = Some id ->
  List.find pending (goal_objectives (goal w)) = Some o ->
  cdp_step E (obj_id o) = Some step ->
  step w = (Ret tt, w1) ->
  getObjectiveStatus (goal w1) (obj_id o) = COMPLETED ->
  List.find pending (goal_objectives (goal w1)) = None ->
  cdp_processObjective E (S fuel) w = (Ret tt, w1).
Proof.
  intros Hkey Hfind Hstep Hrun Hstatus Hnext.
  cbn [cdp_processObjective]. rewrite bind_gets, Hkey.
  unfold try_catch. rewrite Hfind, Hstep.
  rewrite (bind_Ret _ _ _ _ _ Hrun), bind_gets, Hstatus, Hnext. reflexivity.
Qed.

(** X30. A fresh CDP goal and a cooperative environment: the text model
    returns texts, the checks settle on any verdict, and each answer of
    the counterparty holds an address, an intent, proposals and a word of
    success. One call of [processObjective], with fuel for its four
    levels, runs the four steps one after the other without a retry: the
    four objectives are completed, the store holds the goal with them
    and with the status DONE, the reply kept for the goal is dropped, and
    the only timers armed are the two waits of 10 s of the wallet
    request. *)
Theorem cdp_cooperative_run_completes_goal (fuel : nat) (w : World) (id operation : string)
  (g0 : Goal) :
  text_model_answers E ->
  validator_settles E ->
  cdp_counterparty_cooperates E ->
  (4 <= fuel)%nat ->
  goal_key (goal w) = Some id ->
  db w !! id = Some g0 ->
  goal_objectives (goal w) = cdp_objectives operation ->
  exists w',
    cdp_processObjective E fuel w = (Ret tt, w')
    /\ map obj_completed (goal_objectives (goal w')) = [true; true; true; true]
    /\ map obj_id (goal_objectives (goal w')) = map obj_id (cdp_objectives operation)
    /\ db w' !! id = Some (with_status DONE (goal w'))
    /\ goalResponses (st_cdp (hstates w')) !! id = None
    /\ timers w' = (timers w ++ [10000; 10000])%list%Z.
Proof.
  intros Htexts Hsettles Hcoop Hfuel Hkey Hdb Hobjs.
  destruct fuel as [|[|[|[|fuel]]]]; try lia. clear Hfuel.
  (* the wallet request *)
  destruct (Hcoop (n_sendMessage (calls w))) as (rs1 & _ & _ & Hsend1 & Hoffer1 & _).
  destruct (cdp_wallet_first_try w rs1 Hsend1 Hoffer1)
    as (w1 & Hrun1 & Hobjs1 & Hgid1 & Hdb1 & Htimers1 & Hhst1).
  rewrite Hobjs in Hobjs1. simpl in Hobjs1.
  assert (Hkey1 : goal_key (goal w1) = Some id).
  { unfold goal_key in *. rewrite Hgid1. exact Hkey. }
  (* the operation *)
  destruct (Htexts (n_generateText (calls w1))) as (msg2 & Htext2 & Hmsg2).
  destruct (Hcoop (n_sendMessage (calls w1))) as (rs2 & ri2 & _ & Hsend2 & _ & Hint2 & _).
  destruct (cdp_operation_first_try w1 msg2 rs2 ri2 id Htext2 Hmsg2 Hsend2 Hint2 Hsettles Hkey1)
    as (w2 & Hrun2 & Hobjs2 & (Hgid2 & Htimers2 & Hdb2) & Hstored2).
  rewrite Hobjs1 in Hobjs2. simpl in Hobjs2.
  assert (Hkey2 : goal_key (goal w2) = Some id).
  { unfold goal_key in *. rewrite Hgid2. exact Hkey1. }
  assert (Hri2 : exists intent, r_intent ri2 = Some intent).
  { apply List.find_some in Hint2 as [_ H]. destruct (r_intent ri2); [eauto|discriminate]. }
  destruct Hri2 as (intent2 & Hri2).
  (* the confirmation of the intent *)
  destruct (Htexts (n_generateText (calls w2))) as (msg3 & Htext3 & _).
  destruct (Hcoop (n_sendMessage (calls w2))) as (rs3 & _ & rp3 & Hsend3 & _ & _ & Hprop3 & _).
  destruct (cdp_intent_first_try w2 msg3 rs3 ri2 intent2 rp3 id Hkey2 Hstored2 Hri2 Htext3 Hsend3 Hprop3)
    as (w3 & Hrun3 & Hobjs3 & (Hgid3 & Htimers3 & Hdb3) & Hstored3).
  rewrite Hobjs2 in Hobjs3. simpl in Hobjs3.
  assert (Hkey3 : goal_key (goal w3) = Some id).
  { unfold goal_key in *. rewrite Hgid3. exact Hkey2. }
  assert (Hheld3 : holds_proposals id w3).
  { exists rp3. split; [exact Hstored3|]. apply List.find_some in Hprop3 as [_ H]. exact H. }
  assert (Hsome3 : is_Some (db w3 !! id)).
  { apply Hdb3, Hdb2, Hdb1. rewrite Hdb. eauto. }
  (* the confirmation of the proposal *)
  destruct (Hcoop (n_sendMessage (calls w3))) as (rs4 & _ & _ & Hsend4 & _ & _ & _ & Hsays4).
  destruct (cdp_confirm_first_try w3 rs4 id
              (mkObjective "confirm-proposal" "Confirm the transaction proposal" false None)
              Hkey3 Hheld3 Hsome3 ltac:(rewrite Hobjs3; reflexivity) Hsend4 Hsays4)
    as (w4 & Hrun4 & Hobjs4 & Hgid4 & Hdone4 & Hstored4 & Htimers4).
  rewrite Hobjs3 in Hobjs4. simpl in Hobjs4.
  exists w4. split; [|split; [|split; [|split; [|split]]]].
  - apply (cdp_level_advances (S (S (S fuel))) w id
             (mkObjective "ask-for-wallet" "Ask the agent for a new wallet" false None)
             (cdp_handleAskForWallet E) w1
             (mkObjective "present-operation" operation false None) w4 Hkey);
      [rewrite Hobjs; reflexivity | reflexivity | exact Hrun1
      | unfold getObjectiveStatus; rewrite Hobjs1; reflexivity
      | rewrite Hobjs1; reflexivity |].
    apply (cdp_level_advances (S (S fuel)) w1 id
             (mkObjective "present-operation" operation false None)
             (cdp_handleOperation E) w2
             (mkObjective "confirm-intent" "Confirm user intent to proceed with transfer"
                false None) w4 Hkey1);
      [rewrite Hobjs1; reflexivity | reflexivity | exact Hrun2
      | unfold getObjectiveStatus; rewrite Hobjs2; reflexivity
      | rewrite Hobjs2; reflexivity |].
    apply (cdp_level_advances (S fuel) w2 id
             (mkObjective "confirm-intent" "Confirm user intent to proceed with transfer"
                false None)
             (cdp_handleIntent E) w3
             (mkObjective "confirm-proposal" "Confirm the transaction proposal" false None)
             w4 Hkey2);
      [rewrite Hobjs2; reflexivity | reflexivity | exact Hrun3
      | unfold getObjectiveStatus; rewrite Hobjs3; reflexivity
      | rewrite Hobjs3; reflexivity |].
    apply (cdp_level_finishes fuel w3 id
             (mkObjective "confirm-proposal" "Confirm the transaction proposal" false None)
             (cdp_handleConfirmProposal E) w4 Hkey3);
      [rewrite Hobjs3; reflexivity | reflexivity | exact Hrun4
      | unfold getObjectiveStatus; rewrite Hobjs4; reflexivity
      | rewrite Hobjs4; reflexivity].
  - rewrite Hobjs4. reflexivity.
  - rewrite Hobjs4. reflexivity.
  - exact Hdone4.
  - exact Hstored4.
  - rewrite Htimers4, Htimers3, Htimers2. exact Htimers1.
Qed.

End CDPSteps.

Lemma cdp_cooperative_run_completes_goal_witness :
  text_model_answers env_cdp_cooperative
  /\ validator_settles env_cdp_cooperative
  /\ cdp_counterparty_cooperates env_cdp_cooperative
  /\ exists w',
       cdp_processObjective env_cdp_cooperative 4 (world_of wallet_goal) = (Ret tt, w')
       /\ map obj_completed (goal_objectives (goal w')) = [true; true; true; true]
       /\ map obj_id (goal_objectives (goal w'))
          = map obj_id (cdp_objectives "Transfer 0.0001 ETH")
       /\ db w' !! "goal-5" = Some (with_status DONE (goal w'))
       /\ goalResponses (st_cdp (hstates w')) !! "goal-5" = None
       /\ timers w' = (timers (world_of wallet_goal) ++ [10000; 10000])%list%Z.
Proof.
  assert (Ht : text_model_answers env_cdp_cooperative).
  { intros n. exists "Transfer 0.0001 ETH". split; reflexivity. }
  assert (Hv : validator_settles env_cdp_cooperative) by (intros n; discriminate).
  assert (Hc : cdp_counterparty_cooperates env_cdp_cooperative).
  { intros n. exists [cdp_reply], cdp_reply, cdp_reply. repeat split. }
  split; [exact Ht|]. split; [exact Hv|]. split; [exact Hc|].
  exact (cdp_cooperative_run_completes_goal env_cdp_cooperative 4 (world_of wallet_goal)
           "goal-5" "Transfer 0.0001 ETH" wallet_goal Ht Hv Hc (le_n 4)
           eq_refl eq_refl eq_refl).
Defined.

(** The same run evaluated: four messages, two texts, one verdict
    (invalid), and the goal DONE after the 20 s of the wallet request and
    the waits for the answers. *)
Example cdp_cooperative_run :
  let w' := snd (cdp_processObjective env_cdp_cooperative 4 (world_of wallet_goal)) in
  n_sendMessage (calls w') = 4%nat
  /\ n_generateText (calls w') = 2%nat
  /\ goal_status <$> db w' !! "goal-5" = Some DONE
  /\ timers w' = [10000; 10000]%Z.
Proof. vm_compute. repeat split. Qed.
